(** * Deep-research engine: retrieval tools and the research workflow

    A shallow embedding of [deep_research/tools/retrieval_tools.py],
    [deep_research/nodes/research_nodes.py] and
    [deep_research/workflows/research_workflow.py].

    Conventions of the embedding.
    - Python [float] values are idealised as real numbers ([R]); [math.log] is
      [ln], [np.linalg.norm] is the square root of the sum of squares. What
      depends on the rounding of the binary64 operations is evaluated in
      [Dense64], the dense search over the floats of the machine.
    - Python [str] values are [string]s of 8-bit characters; [str.lower],
      [str.split] and the regular expression of [_tokenize] are given for the
      ASCII range.
    - Python [dict]s keep insertion order: they are association lists whose
      keys are pairwise distinct, updated in place.
    - A Python exception is a value of [PyExc]; a function that can raise
      returns in the [Py] monad.
    - What a workflow keeps between the calls of its nodes, outside the
      research state, is a value of [World]: the retrieval tools of the search
      node and the cache file of the dense tools. A run passes it along. The
      files of the workspace do not change during a run. *)

From Stdlib Require Import Reals Lra Lia ZArith List String Ascii Bool Arith.
From Stdlib Require Import DecimalString.
From Stdlib Require Import Permutation Sorted.
From Stdlib Require Floats.
Import ListNotations.

Local Open Scope string_scope.
Local Open Scope list_scope.
Local Open Scope R_scope.

(** ** Python strings *)

Module PyStr.

(** [str.isspace] on the ASCII range: space, \t \n \v \f \r and \x1c..\x1f. *)
Definition is_space (c : ascii) : bool :=
  let n := nat_of_ascii c in
  ((n =? 32) || ((9 <=? n) && (n <=? 13)) || ((28 <=? n) && (n <=? 31)))%nat.

Definition is_upper (c : ascii) : bool :=
  let n := nat_of_ascii c in ((65 <=? n) && (n <=? 90))%nat.

Definition is_lower (c : ascii) : bool :=
  let n := nat_of_ascii c in ((97 <=? n) && (n <=? 122))%nat.

Definition is_digit (c : ascii) : bool :=
  let n := nat_of_ascii c in ((48 <=? n) && (n <=? 57))%nat.

Definition lower_char (c : ascii) : ascii :=
  if is_upper c then ascii_of_nat (nat_of_ascii c + 32) else c.

(** [s.lower()] *)
Fixpoint lower (s : string) : string :=
  match s with
  | EmptyString => EmptyString
  | String c s' => String (lower_char c) (lower s')
  end.

(** [len(s)] *)
Definition len (s : string) : nat := String.length s.

(** [s.split()]: maximal runs of non-space characters, in order. [cur] is the
    word being read. *)
Fixpoint split_from (cur : string) (s : string) : list string :=
  match s with
  | EmptyString => if (len cur =? 0)%nat then [] else [cur]
  | String c s' =>
      if is_space c
      then (if (len cur =? 0)%nat then split_from EmptyString s'
            else cur :: split_from EmptyString s')
      else split_from (cur ++ String c EmptyString) s'
  end.

Definition split (s : string) : list string := split_from EmptyString s.

(** [sep.join(words)] *)
Fixpoint join (sep : string) (words : list string) : string :=
  match words with
  | [] => EmptyString
  | [w] => w
  | w :: ws => w ++ sep ++ join sep ws
  end.

(** [needle in hay] *)
Fixpoint contains (needle hay : string) : bool :=
  String.prefix needle hay ||
  match hay with
  | EmptyString => false
  | String _ hay' => contains needle hay'
  end.

(** [s[:n]] for a non-negative [n] *)
Definition take (n : nat) (s : string) : string := String.substring 0 n s.

(** [re.sub(r'[^a-zA-Z0-9\s]', ' ', s)] *)
Fixpoint sub_non_alnum (s : string) : string :=
  match s with
  | EmptyString => EmptyString
  | String c s' =>
      String (if is_lower c || is_upper c || is_digit c || is_space c
              then c else " "%char)
             (sub_non_alnum s')
  end.

End PyStr.

(** ** Python lists, sorting and dictionaries *)

Module PyList.

(** [any(p(x) for x in l)] *)
Definition any {A} (p : A -> bool) (l : list A) : bool := existsb p l.

(** [sum(l)] over floats *)
Definition sum (l : list R) : R := fold_left Rplus l 0.

Definition Rltb (x y : R) : bool := if Rlt_dec x y then true else false.
Definition Rleb (x y : R) : bool := if Rle_dec x y then true else false.

(** Insertion step of a stable descending sort: [x] stood before every element
    of [l] in the input, so it goes in front of the first element whose key
    is not greater than its own. *)
Fixpoint insert_desc {A} (key : A -> R) (x : A) (l : list A) : list A :=
  match l with
  | [] => [x]
  | y :: l' => if Rltb (key x) (key y) then y :: insert_desc key x l'
               else x :: y :: l'
  end.

(** [sorted(l, key=key, reverse=True)]: descending by key; elements with equal
    keys keep the order they had in [l]. *)
Definition sorted_desc {A} (key : A -> R) (l : list A) : list A :=
  fold_right (insert_desc key) [] l.

(** [len(set(l))] for strings *)
Definition count_distinct (l : list string) : nat :=
  List.length (nodup string_dec l).

End PyList.

Arguments PyList.sum : simpl never.
Arguments PyList.count_distinct : simpl never.
Arguments PyList.sorted_desc : simpl never.
Arguments PyList.Rltb : simpl never.
Arguments PyList.Rleb : simpl never.

(** ** State of a research run ([models/state.py]) *)

Inductive ResearchStatus : Type :=
  | PLANNING | SEARCHING | ANALYZING | ITERATING | SYNTHESIZING | COMPLETED.

Definition ResearchStatus_eqb (a b : ResearchStatus) : bool :=
  match a, b with
  | PLANNING, PLANNING | SEARCHING, SEARCHING | ANALYZING, ANALYZING
  | ITERATING, ITERATING | SYNTHESIZING, SYNTHESIZING | COMPLETED, COMPLETED => true
  | _, _ => false
  end.

(** Values stored in [SearchResult.metadata] ([Dict[str, Any]]). *)
Inductive MetaValue : Type :=
  | MFloat (x : R)
  | MInt (n : Z)
  | MStr (s : string)
  | MStrs (l : list string).

Record SearchResult : Type := mkSearchResult {
  source : string;
  content : string;
  relevance_score : R;
  metadata : list (string * MetaValue);
  search_query : string;
  tool_used : string
}.

Record ResearchIteration : Type := mkResearchIteration {
  iteration_number : Z;
  query : string;
  results : list SearchResult;
  insights : list string;
  follow_up_questions : list string;
  iteration_status : ResearchStatus
}.

Record ResearchState : Type := mkResearchState {
  original_query : string;
  current_query : string;
  research_goal : string;
  iterations : list ResearchIteration;
  current_iteration : Z;
  status : ResearchStatus;
  all_results : list SearchResult;
  key_insights : list string;
  discovered_files : list string;
  search_strategies : list string;
  completed_searches : list string;
  pending_searches : list string;
  research_report : option string;
  confidence_score : R;
  max_iterations : Z;
  similarity_threshold : R;
  workspace_path : string
}.

(** Assignments [state['field'] = v]. *)
Definition set_status (v : ResearchStatus) (s : ResearchState) : ResearchState :=
  mkResearchState s.(original_query) s.(current_query) s.(research_goal)
    s.(iterations) s.(current_iteration) v s.(all_results) s.(key_insights)
    s.(discovered_files) s.(search_strategies) s.(completed_searches)
    s.(pending_searches) s.(research_report) s.(confidence_score)
    s.(max_iterations) s.(similarity_threshold) s.(workspace_path).

Definition set_current_query (v : string) (s : ResearchState) : ResearchState :=
  mkResearchState s.(original_query) v s.(research_goal)
    s.(iterations) s.(current_iteration) s.(status) s.(all_results) s.(key_insights)
    s.(discovered_files) s.(search_strategies) s.(completed_searches)
    s.(pending_searches) s.(research_report) s.(confidence_score)
    s.(max_iterations) s.(similarity_threshold) s.(workspace_path).

Definition set_iterations (v : list ResearchIteration) (s : ResearchState) : ResearchState :=
  mkResearchState s.(original_query) s.(current_query) s.(research_goal)
    v s.(current_iteration) s.(status) s.(all_results) s.(key_insights)
    s.(discovered_files) s.(search_strategies) s.(completed_searches)
    s.(pending_searches) s.(research_report) s.(confidence_score)
    s.(max_iterations) s.(similarity_threshold) s.(workspace_path).

Definition set_current_iteration (v : Z) (s : ResearchState) : ResearchState :=
  mkResearchState s.(original_query) s.(current_query) s.(research_goal)
    s.(iterations) v s.(status) s.(all_results) s.(key_insights)
    s.(discovered_files) s.(search_strategies) s.(completed_searches)
    s.(pending_searches) s.(research_report) s.(confidence_score)
    s.(max_iterations) s.(similarity_threshold) s.(workspace_path).

Definition set_all_results (v : list SearchResult) (s : ResearchState) : ResearchState :=
  mkResearchState s.(original_query) s.(current_query) s.(research_goal)
    s.(iterations) s.(current_iteration) s.(status) v s.(key_insights)
    s.(discovered_files) s.(search_strategies) s.(completed_searches)
    s.(pending_searches) s.(research_report) s.(confidence_score)
    s.(max_iterations) s.(similarity_threshold) s.(workspace_path).

Definition set_key_insights (v : list string) (s : ResearchState) : ResearchState :=
  mkResearchState s.(original_query) s.(current_query) s.(research_goal)
    s.(iterations) s.(current_iteration) s.(status) s.(all_results) v
    s.(discovered_files) s.(search_strategies) s.(completed_searches)
    s.(pending_searches) s.(research_report) s.(confidence_score)
    s.(max_iterations) s.(similarity_threshold) s.(workspace_path).

Definition set_discovered_files (v : list string) (s : ResearchState) : ResearchState :=
  mkResearchState s.(original_query) s.(current_query) s.(research_goal)
    s.(iterations) s.(current_iteration) s.(status) s.(all_results)
    s.(key_insights) v s.(search_strategies) s.(completed_searches)
    s.(pending_searches) s.(research_report) s.(confidence_score)
    s.(max_iterations) s.(similarity_threshold) s.(workspace_path).

Definition set_search_strategies (v : list string) (s : ResearchState) : ResearchState :=
  mkResearchState s.(original_query) s.(current_query) s.(research_goal)
    s.(iterations) s.(current_iteration) s.(status) s.(all_results)
    s.(key_insights) s.(discovered_files) v s.(completed_searches)
    s.(pending_searches) s.(research_report) s.(confidence_score)
    s.(max_iterations) s.(similarity_threshold) s.(workspace_path).

Definition set_completed_searches (v : list string) (s : ResearchState) : ResearchState :=
  mkResearchState s.(original_query) s.(current_query) s.(research_goal)
    s.(iterations) s.(current_iteration) s.(status) s.(all_results)
    s.(key_insights) s.(discovered_files) s.(search_strategies) v
    s.(pending_searches) s.(research_report) s.(confidence_score)
    s.(max_iterations) s.(similarity_threshold) s.(workspace_path).

Definition set_pending_searches (v : list string) (s : ResearchState) : ResearchState :=
  mkResearchState s.(original_query) s.(current_query) s.(research_goal)
    s.(iterations) s.(current_iteration) s.(status) s.(all_results)
    s.(key_insights) s.(discovered_files) s.(search_strategies)
    s.(completed_searches) v s.(research_report) s.(confidence_score)
    s.(max_iterations) s.(similarity_threshold) s.(workspace_path).

Definition set_research_report (v : option string) (s : ResearchState) : ResearchState :=
  mkResearchState s.(original_query) s.(current_query) s.(research_goal)
    s.(iterations) s.(current_iteration) s.(status) s.(all_results)
    s.(key_insights) s.(discovered_files) s.(search_strategies)
    s.(completed_searches) s.(pending_searches) v s.(confidence_score)
    s.(max_iterations) s.(similarity_threshold) s.(workspace_path).

Definition set_confidence_score (v : R) (s : ResearchState) : ResearchState :=
  mkResearchState s.(original_query) s.(current_query) s.(research_goal)
    s.(iterations) s.(current_iteration) s.(status) s.(all_results)
    s.(key_insights) s.(discovered_files) s.(search_strategies)
    s.(completed_searches) s.(pending_searches) s.(research_report) v
    s.(max_iterations) s.(similarity_threshold) s.(workspace_path).


(** ** Python exceptions *)

Inductive PyExc : Type := ZeroDivisionError | ValueError | KeyError.

Inductive Py (A : Type) : Type :=
  | Ok (a : A)
  | Raise (e : PyExc).

Arguments Ok {A} a.
Arguments Raise {A} e.

Definition bind {A B : Type} (m : Py A) (f : A -> Py B) : Py B :=
  match m with
  | Ok a => f a
  | Raise e => Raise e
  end.

Notation "x <- m ;; f" := (bind m (fun x => f))
  (at level 61, m at next level, right associativity).

(** [x / y] on floats, and on integers with a float result *)
Definition py_div (x y : R) : Py R :=
  if Req_dec_T y 0 then Raise ZeroDivisionError else Ok (x / y).

(** [math.log(x)] *)
Definition py_log (x : R) : Py R :=
  if Rlt_dec 0 x then Ok (ln x) else Raise ValueError.

(** [np.linalg.norm(v)] *)
Definition norm (v : list R) : R := sqrt (PyList.sum (map (fun x => x * x) v)).

(** [np.dot(v1, v2)] on one-dimensional arrays: the shapes must agree. *)
Fixpoint dot (v1 v2 : list R) : Py R :=
  match v1, v2 with
  | [], [] => Ok 0
  | x :: v1', y :: v2' => rest <- dot v1' v2' ;; Ok (x * y + rest)
  | _, _ => Raise ValueError
  end.

(** ** Dictionaries, sets and counters with string keys *)

Module Dict.

Definition t (V : Type) : Type := list (string * V).

(** [d.get(k)] *)
Fixpoint get {V} (d : t V) (k : string) : option V :=
  match d with
  | [] => None
  | (k', v) :: d' => if k =? k' then Some v else get d' k
  end.

(** [d[k] = v]: a present key keeps its place, a new key goes last. *)
Fixpoint set {V} (d : t V) (k : string) (v : V) : t V :=
  match d with
  | [] => [(k, v)]
  | (k', v') :: d' => if k =? k' then (k', v) :: d' else (k', v') :: set d' k v
  end.

(** [k in d] *)
Definition mem {V} (d : t V) (k : string) : bool :=
  match get d k with Some _ => true | None => false end.

(** [d[k]] *)
Definition getitem {V} (d : t V) (k : string) : Py V :=
  match get d k with Some v => Ok v | None => Raise KeyError end.

Definition keys {V} (d : t V) : list string := map fst d.
Definition values {V} (d : t V) : list V := map snd d.

End Dict.

Module PySet.

(** A [set] of strings: a list without repetition; the order plays no role
    in the code, which sorts a set before it walks it or only tests
    membership. *)
Definition mem (x : string) (s : list string) : bool := existsb (String.eqb x) s.

Definition add (s : list string) (x : string) : list string :=
  if mem x s then s else s ++ [x].

(** [s.update(l)] *)
Definition update (s : list string) (l : list string) : list string :=
  fold_left add l s.

(** [set(l)] *)
Definition of_list (l : list string) : list string := update [] l.

Fixpoint insert_sorted (x : string) (l : list string) : list string :=
  match l with
  | [] => [x]
  | y :: l' => if String.leb x y then x :: l else y :: insert_sorted x l'
  end.

(** [sorted(list(s))] *)
Definition sorted (s : list string) : list string := fold_right insert_sorted [] s.

End PySet.

(** [Counter(words)]: each distinct word with its number of occurrences, in
    order of first occurrence. *)
Definition Counter (words : list string) : Dict.t nat :=
  fold_left (fun c w => Dict.set c w (match Dict.get c w with Some n => S n | None => 1%nat end))
            words [].

(** ** Files of the workspace and tokens *)

(** The files below [workspace_path]: a path is mapped to its text, or to
    [None] when opening or reading it fails. The workspace does not change
    between indexing and searching. *)
Definition Workspace : Type := string -> option string.

Definition is_empty_str (s : string) : bool := (PyStr.len s =? 0)%nat.

(** [_read_file(file_path)] followed by the test [if content:]. *)
Definition read_nonempty (ws : Workspace) (file_path : string) : option string :=
  match ws file_path with
  | Some text => if is_empty_str text then None else Some text
  | None => None
  end.

(** [_tokenize], the same in [DenseRetrievalTool] and [BM25RetrievalTool]. *)
Definition _tokenize (text : string) : list string :=
  filter (fun word => (2 <? PyStr.len word)%nat)
         (PyStr.split (PyStr.sub_non_alnum (PyStr.lower text))).

(** [content[:500] + "..." if len(content) > 500 else content] *)
Definition excerpt (text : string) : string :=
  if (500 <? PyStr.len text)%nat then PyStr.take 500 text ++ "..." else text.

(** ** BM25 retrieval *)

Module BM25.

Record tool : Type := mk {
  workspace : Workspace;
  k1 : R;
  b : R;
  documents : Dict.t (list string);
  doc_lengths : Dict.t nat;
  avg_doc_length : R;
  term_frequencies : Dict.t (Dict.t nat);
  document_frequencies : Dict.t nat;
  vocabulary : list string
}.

(** [BM25RetrievalTool(workspace_path, k1, b)] *)
Definition init (ws : Workspace) (k1 b : R) : tool := mk ws k1 b [] [] 0 [] [] [].

Definition default_k1 : R := 1.5.
Definition default_b : R := 0.75.

(** [index_documents], first loop: one file read and tokenised. The triple is
    [documents], [doc_lengths], [vocabulary]; the number is [total_length]. *)
Definition read_document (ws : Workspace)
    (acc : Dict.t (list string) * Dict.t nat * list string * nat) (file_path : string)
  : Dict.t (list string) * Dict.t nat * list string * nat :=
  let '(docs, lengths, vocab, total_length) := acc in
  match read_nonempty ws file_path with
  | Some text =>
      let tokens := _tokenize text in
      (Dict.set docs file_path tokens,
       Dict.set lengths file_path (List.length tokens),
       PySet.update vocab tokens,
       (total_length + List.length tokens)%nat)
  | None => acc
  end.

(** [index_documents], second loop, body of the inner loop: one
    [(term, freq)] of [Counter(tokens)] for the document [doc_id]. *)
Definition add_posting (doc_id : string)
    (acc : Dict.t (Dict.t nat) * Dict.t nat) (entry : string * nat)
  : Dict.t (Dict.t nat) * Dict.t nat :=
  let '(tfs, dfs) := acc in
  let '(term, freq) := entry in
  let postings := match Dict.get tfs term with Some p => p | None => [] end in
  let df := match Dict.get dfs term with Some n => n | None => 0%nat end in
  (Dict.set tfs term (Dict.set postings doc_id freq), Dict.set dfs term (df + 1)%nat).

Definition add_document (acc : Dict.t (Dict.t nat) * Dict.t nat)
                        (doc : string * list string)
  : Dict.t (Dict.t nat) * Dict.t nat :=
  fold_left (add_posting (fst doc)) (Counter (snd doc)) acc.

Definition index_documents (t : tool) (file_paths : list string) : tool :=
  let read := fold_left (read_document t.(workspace)) file_paths
                (t.(documents), t.(doc_lengths), t.(vocabulary), 0%nat) in
  let docs := fst (fst (fst read)) in
  let lengths := snd (fst (fst read)) in
  let vocab := snd (fst read) in
  let total_length := snd read in
  let avg := match docs with
             | [] => 0
             | _ :: _ => INR total_length / INR (List.length docs)
             end in
  let postings :=
    fold_left add_document docs (t.(term_frequencies), t.(document_frequencies)) in
  mk t.(workspace) t.(k1) t.(b) docs lengths avg (fst postings) (snd postings) vocab.

(** [term in self.term_frequencies and doc_id in self.term_frequencies[term]],
    with the frequency found. *)
Definition term_hit (t : tool) (doc_id term : string) : option nat :=
  match Dict.get t.(term_frequencies) term with
  | Some postings => Dict.get postings doc_id
  | None => None
  end.

(** [search], the loop over [query_terms] for one document (lines 250-267):
    [score] is the sum so far. *)
Fixpoint score_terms (t : tool) (doc_id : string) (query_terms : list string)
                     (score : R) : Py R :=
  match query_terms with
  | [] => Ok score
  | term :: rest =>
      match term_hit t doc_id term with
      | Some tf =>
          df <- Dict.getitem t.(document_frequencies) term ;;
          ratio <- py_div (INR (List.length t.(documents)) - INR df + 0.5)
                          (INR df + 0.5) ;;
          idf <- py_log ratio ;;
          let numerator := INR tf * (t.(k1) + 1) in
          dl <- Dict.getitem t.(doc_lengths) doc_id ;;
          relative_length <- py_div (INR dl) t.(avg_doc_length) ;;
          let denominator :=
            INR tf + t.(k1) * (1 - t.(b) + t.(b) * relative_length) in
          weight <- py_div numerator denominator ;;
          score_terms t doc_id rest (score + idf * weight)
      | None => score_terms t doc_id rest score
      end
  end.

(** [search], the loop over the documents (lines 249-270): the entries of
    [doc_scores], in the order of [self.documents]. *)
Fixpoint score_documents (t : tool) (query_terms : list string)
                         (doc_ids : list string) : Py (list (string * R)) :=
  match doc_ids with
  | [] => Ok []
  | doc_id :: rest =>
      score <- score_terms t doc_id query_terms 0.0 ;;
      doc_scores <- score_documents t query_terms rest ;;
      Ok (if PyList.Rltb 0 score then (doc_id, score) :: doc_scores else doc_scores)
  end.

Definition terms_found (t : tool) (doc_id : string) (query_terms : list string) : nat :=
  List.length (filter (fun term => match term_hit t doc_id term with
                                   | Some _ => true | None => false end)
                      query_terms).

(** [search], one turn of the loop that builds the results (lines 277-290). *)
Definition make_result (t : tool) (q : string) (query_terms : list string)
                       (entry : string * R) : list SearchResult :=
  let '(doc_id, score) := entry in
  match read_nonempty t.(workspace) doc_id with
  | Some text =>
      [mkSearchResult doc_id (excerpt text) (Rmin (score / 10.0) 1.0)
         [("bm25_score", MFloat score);
          ("query_terms_found", MInt (Z.of_nat (terms_found t doc_id query_terms)))]
         q "bm25_retrieval"]
  | None => []
  end.

Definition search (t : tool) (q : string) (top_k : nat) : Py (list SearchResult) :=
  match t.(documents) with
  | [] => Ok []
  | _ :: _ =>
      let query_terms := _tokenize q in
      doc_scores <- score_documents t query_terms (Dict.keys t.(documents)) ;;
      let sorted_docs := PyList.sorted_desc snd doc_scores in
      Ok (flat_map (make_result t q query_terms) (firstn top_k sorted_docs))
  end.

End BM25.

(** ** Loops that can raise *)

Fixpoint foldM {A S : Type} (f : S -> A -> Py S) (l : list A) (s : S) : Py S :=
  match l with
  | [] => Ok s
  | x :: l' => s' <- f s x ;; foldM f l' s'
  end.

Fixpoint mapM {A B : Type} (f : A -> Py B) (l : list A) : Py (list B) :=
  match l with
  | [] => Ok []
  | x :: l' => y <- f x ;; ys <- mapM f l' ;; Ok (y :: ys)
  end.

Definition Reqb (x y : R) : bool := if Req_dec_T x y then true else false.
Arguments Reqb : simpl never.

(** [x >= y] *)
Definition Rgeb (x y : R) : bool := if Rge_dec x y then true else false.
Arguments Rgeb : simpl never.

(** [str(n)] for a non-negative integer *)
Definition str_of_nat (n : nat) : string := NilZero.string_of_uint (Nat.to_uint n).

(** [enumerate(l)] *)
Definition enumerate {A} (l : list A) : list (nat * A) :=
  combine (seq 0 (List.length l)) l.

(** [s.split('#')[0]] *)
Fixpoint before_hash (s : string) : string :=
  match s with
  | EmptyString => EmptyString
  | String c s' => if Ascii.eqb c "#"%char then EmptyString else String c (before_hash s')
  end.

(** ** Dense retrieval (TF-IDF vectors and cosine similarity) *)

Module Dense.

Record tool : Type := mk {
  workspace : Workspace;
  documents : Dict.t string;
  embeddings : Dict.t (list R);
  vocabulary : list string;
  idf_scores : Dict.t R
}.

(** [DenseRetrievalTool(workspace_path)] *)
Definition init (ws : Workspace) : tool := mk ws [] [] [] [].

(** What [index_documents] reads back from [document_cache.pkl]: the
    entries ['documents'] and ['vocabulary'] of the dictionary that an
    earlier call dumped there. *)
Definition Cache : Type := (Dict.t string * list string)%type.

(** [index_documents], lines 34-40: [cache_file] is [None] when the file
    does not exist. *)
Definition load_cache (t : tool) (cache_file : option Cache) : tool :=
  match cache_file with
  | Some cached_data =>
      mk t.(workspace) (fst cached_data) t.(embeddings) (snd cached_data) t.(idf_scores)
  | None => t
  end.

(** [index_documents], lines 66-72: what the dictionary dumped at the end
    holds for a later call. *)
Definition dumped (t : tool) : Cache := (t.(documents), t.(vocabulary)).

Definition default_chunk_size : Z := 1000.
Definition default_threshold : R := 0.1.

(** [range(0, stop, step)] for a positive [step] *)
Definition range_step (stop step : nat) : list nat :=
  map (fun j => (j * step)%nat) (seq 0 ((stop + step - 1) / step)).

(** The slices [words[i:i + width]] for [i] in [range(0, len(words), width)]. *)
Definition chunk_slices (words : list string) (width : nat) : list (list string) :=
  map (fun i => firstn width (skipn i words)) (range_step (List.length words) width).

(** [_split_into_chunks]: [range] raises on a zero step and is empty on a
    negative one. *)
Definition _split_into_chunks (text : string) (chunk_size : Z) : Py (list string) :=
  let words := PyStr.split text in
  let width := (chunk_size / 10)%Z in
  if (width =? 0)%Z then Raise ValueError
  else if (width <? 0)%Z then Ok []
  else Ok (map (PyStr.join " ") (chunk_slices words (Z.to_nat width))).

(** [index_documents], lines 51-54: the chunks of one file. *)
Definition add_chunks (file_path : string) (acc : Dict.t string * list string)
                      (chunks : list string) : Dict.t string * list string :=
  fold_left (fun acc entry =>
               let '(docs, vocab) := acc in
               let '(i, chunk) := entry in
               (Dict.set docs (file_path ++ "#chunk_" ++ str_of_nat i) chunk,
                PySet.update vocab (_tokenize chunk)))
            (enumerate chunks) acc.

(** [index_documents], lines 44-57: one file. The pair is [documents],
    [vocabulary]. *)
Definition read_document (ws : Workspace) (chunk_size : Z)
                         (acc : Dict.t string * list string) (file_path : string)
  : Py (Dict.t string * list string) :=
  let '(docs, vocab) := acc in
  if Dict.mem docs file_path then Ok acc
  else match read_nonempty ws file_path with
       | Some text =>
           if (chunk_size <? Z.of_nat (PyStr.len text))%Z
           then chunks <- _split_into_chunks text chunk_size ;;
                Ok (add_chunks file_path acc chunks)
           else Ok (Dict.set docs file_path text, PySet.update vocab (_tokenize text))
       | None => Ok acc
       end.

(** [_calculate_idf_scores], first loop: [word_doc_count]. *)
Definition count_word_documents (docs : Dict.t string) : Dict.t nat :=
  fold_left (fun counts text =>
               fold_left (fun counts word =>
                            Dict.set counts word
                              (match Dict.get counts word with
                               | Some n => n | None => 0%nat end + 1)%nat)
                         (PySet.of_list (_tokenize text)) counts)
            (Dict.values docs) [].

(** [_calculate_idf_scores], second loop: the new [idf_scores]. *)
Definition _calculate_idf_scores (t : tool) : Py (Dict.t R) :=
  let doc_count := List.length t.(documents) in
  let word_doc_count := count_word_documents t.(documents) in
  foldM (fun idfs word =>
           let containing := match Dict.get word_doc_count word with
                             | Some n => n | None => 0%nat end in
           ratio <- py_div (INR doc_count) (INR (containing + 1)) ;;
           idf <- py_log ratio ;;
           Ok (Dict.set idfs word idf))
        t.(vocabulary) t.(idf_scores).

(** [_text_to_vector], one turn of the loop over [vocab_list]. *)
Definition weight (t : tool) (words : list string) (word_count : Dict.t nat)
                  (word : string) : Py R :=
  match Dict.get word_count word with
  | Some occurrences =>
      tf <- py_div (INR occurrences) (INR (List.length words)) ;;
      let idf := match Dict.get t.(idf_scores) word with
                 | Some x => x | None => 0 end in
      Ok (tf * idf)
  | None => Ok 0
  end.

Definition _text_to_vector (t : tool) (text : string) : Py (list R) :=
  let words := _tokenize text in
  let word_count := Counter words in
  let vocab_list := PySet.sorted t.(vocabulary) in
  vector <- mapM (weight t words word_count) vocab_list ;;
  let n := norm vector in
  Ok (if PyList.Rltb 0 n then map (fun x => x / n) vector else vector).

(** [_generate_embeddings]: the new [embeddings]. *)
Definition _generate_embeddings (t : tool) : Py (Dict.t (list R)) :=
  foldM (fun embs doc =>
           vector <- _text_to_vector t (snd doc) ;;
           Ok (Dict.set embs (fst doc) vector))
        t.(documents) t.(embeddings).

Definition index_documents (t : tool) (cache_file : option Cache)
                           (file_paths : list string) (chunk_size : Z) : Py tool :=
  let t := load_cache t cache_file in
  read <- foldM (read_document t.(workspace) chunk_size) file_paths
                (t.(documents), t.(vocabulary)) ;;
  let t1 := mk t.(workspace) (fst read) t.(embeddings) (snd read) t.(idf_scores) in
  idfs <- _calculate_idf_scores t1 ;;
  let t2 := mk t1.(workspace) t1.(documents) t1.(embeddings) t1.(vocabulary) idfs in
  embs <- _generate_embeddings t2 ;;
  Ok (mk t2.(workspace) t2.(documents) embs t2.(vocabulary) t2.(idf_scores)).

Definition _cosine_similarity (vec1 vec2 : list R) : Py R :=
  dot_product <- dot vec1 vec2 ;;
  let norm1 := norm vec1 in
  let norm2 := norm vec2 in
  if Reqb norm1 0 || Reqb norm2 0 then Ok 0.0
  else Ok (dot_product / (norm1 * norm2)).

(** [search], lines 85-89: the list [similarities], in the order of
    [self.embeddings]. *)
Fixpoint similarities (query_embedding : list R) (threshold : R)
                      (embs : Dict.t (list R)) : Py (list (string * R)) :=
  match embs with
  | [] => Ok []
  | (doc_path, doc_embedding) :: rest =>
      similarity <- _cosine_similarity query_embedding doc_embedding ;;
      others <- similarities query_embedding threshold rest ;;
      Ok (if Rgeb similarity threshold then (doc_path, similarity) :: others
          else others)
  end.

(** [search], one turn of the loop that builds the results (lines 96-112). *)
Definition make_result (t : tool) (q : string) (entry : string * R) : Py SearchResult :=
  let '(doc_path, similarity) := entry in
  let original_path := before_hash doc_path in
  text <- Dict.getitem t.(documents) doc_path ;;
  Ok (mkSearchResult original_path (excerpt text) similarity
        [("similarity", MFloat similarity);
         ("document_chunk", MStr doc_path);
         ("content_length", MInt (Z.of_nat (PyStr.len text)))]
        q "dense_retrieval").

Definition search (t : tool) (q : string) (top_k : nat) (threshold : R)
  : Py (list SearchResult) :=
  match t.(embeddings) with
  | [] => Ok []
  | _ :: _ =>
      query_embedding <- _text_to_vector t q ;;
      found <- similarities query_embedding threshold t.(embeddings) ;;
      mapM (make_result t q) (firstn top_k (PyList.sorted_desc snd found))
  end.

End Dense.

(** ** Dense retrieval in binary64

    [norm], [dot] and the module [Dense] compute over the reals. The program
    computes in IEEE 754 binary64 (Python's [float], numpy's [float64]),
    where every operation rounds. This module is the search of the dense
    tool once more, over these numbers, for what depends on the rounding.
    [np.dot] is the sum of the products of the components and
    [np.linalg.norm(x)] is [sqrt(dot(x, x))] on a one-dimensional array;
    for the vectors of two components evaluated below the order of the sum
    plays no role. The logarithm of [_calculate_idf_scores] is not
    computed here: the idf scores are part of the state. *)

Module Dense64.

Import Floats.

Record tool : Type := mk {
  documents : Dict.t string;
  embeddings : Dict.t (list float);
  vocabulary : list string;
  idf_scores : Dict.t float
}.

(** The fields of a [SearchResult] of [search] that the tool fills from the
    index; [relevance_score] is also the ["similarity"] of the metadata. *)
Record result : Type := mkResult {
  source : string;
  content : string;
  relevance_score : float;
  document_chunk : string
}.

(** [float(n)] for a count *)
Definition of_nat (n : nat) : float := PrimFloat.of_uint63 (Uint63.of_Z (Z.of_nat n)).

(** [x / y] of two counts, with a float result *)
Definition int_div (x y : nat) : Py float :=
  match y with
  | O => Raise ZeroDivisionError
  | S _ => Ok (of_nat x / of_nat y)%float
  end.

(** [np.dot(v1, v2)] *)
Fixpoint dot (v1 v2 : list float) : Py float :=
  match v1, v2 with
  | [], [] => Ok 0%float
  | x :: v1', y :: v2' => rest <- dot v1' v2' ;; Ok (x * y + rest)%float
  | _, _ => Raise ValueError
  end.

(** [np.linalg.norm(v)] *)
Definition norm (v : list float) : float :=
  PrimFloat.sqrt (fold_right (fun x rest => (x * x + rest)%float) 0%float v).

Definition weight (t : tool) (words : list string) (word_count : Dict.t nat)
                  (word : string) : Py float :=
  match Dict.get word_count word with
  | Some occurrences =>
      tf <- int_div occurrences (List.length words) ;;
      let idf := match Dict.get t.(idf_scores) word with
                 | Some x => x | None => 0%float end in
      Ok (tf * idf)%float
  | None => Ok 0%float
  end.

Definition _text_to_vector (t : tool) (text : string) : Py (list float) :=
  let words := _tokenize text in
  let word_count := Counter words in
  let vocab_list := PySet.sorted t.(vocabulary) in
  vector <- mapM (weight t words word_count) vocab_list ;;
  let n := norm vector in
  Ok (if (0 <? n)%float then map (fun x => (x / n)%float) vector else vector).

Definition _generate_embeddings (t : tool) : Py (Dict.t (list float)) :=
  foldM (fun embs doc =>
           vector <- _text_to_vector t (snd doc) ;;
           Ok (Dict.set embs (fst doc) vector))
        t.(documents) t.(embeddings).

Definition _cosine_similarity (vec1 vec2 : list float) : Py float :=
  dot_product <- dot vec1 vec2 ;;
  let norm1 := norm vec1 in
  let norm2 := norm vec2 in
  if (norm1 =? 0)%float || (norm2 =? 0)%float then Ok 0%float
  else Ok (dot_product / (norm1 * norm2))%float.

(** [search], lines 85-89 *)
Fixpoint similarities (query_embedding : list float) (threshold : float)
                      (embs : Dict.t (list float)) : Py (list (string * float)) :=
  match embs with
  | [] => Ok []
  | (doc_path, doc_embedding) :: rest =>
      similarity <- _cosine_similarity query_embedding doc_embedding ;;
      others <- similarities query_embedding threshold rest ;;
      Ok (if (threshold <=? similarity)%float then (doc_path, similarity) :: others
          else others)
  end.

(** [similarities.sort(key=lambda x: x[1], reverse=True)], as
    [PyList.sorted_desc]. *)
Fixpoint insert_desc (x : string * float) (l : list (string * float))
  : list (string * float) :=
  match l with
  | [] => [x]
  | y :: l' => if (snd x <? snd y)%float then y :: insert_desc x l' else x :: y :: l'
  end.

Definition sorted_desc (l : list (string * float)) : list (string * float) :=
  fold_right insert_desc [] l.

Definition make_result (t : tool) (entry : string * float) : Py result :=
  let '(doc_path, similarity) := entry in
  text <- Dict.getitem t.(documents) doc_path ;;
  Ok (mkResult (before_hash doc_path) (excerpt text) similarity doc_path).

Definition search (t : tool) (q : string) (top_k : nat) (threshold : float)
  : Py (list result) :=
  match t.(embeddings) with
  | [] => Ok []
  | _ :: _ =>
      query_embedding <- _text_to_vector t q ;;
      found <- similarities query_embedding threshold t.(embeddings) ;;
      mapM (make_result t) (firstn top_k (sorted_desc found))
  end.

(** The default of [threshold], the float written [0.1]. *)
Definition default_threshold : float := 0x1.999999999999ap-4%float.

(** [math.log(1 / 2)], the float -0.6931471805599453: the idf of a word
    that the single document of an index holds. *)
Definition log_half : float := (- 0x1.62e42fefa39efp-1)%float.

Definition zero : float := 0%float.
Definition one : float := 1%float.

(** The float 1.0000000000000002, the next one after 1. *)
Definition above_one : float := 0x1.0000000000001p+0%float.

(** The index of the single file [a.txt] that holds "fox dog", before and
    after [_generate_embeddings]. *)
Definition fox_dog_counted : tool :=
  mk [("a.txt", "fox dog")] [] ["fox"; "dog"] [("fox", log_half); ("dog", log_half)].

Definition fox_dog_index : Py tool :=
  embs <- _generate_embeddings fox_dog_counted ;;
  Ok (mk fox_dog_counted.(documents) embs fox_dog_counted.(vocabulary)
         fox_dog_counted.(idf_scores)).

End Dense64.

(** ** Hybrid retrieval *)

Module Hybrid.

Record tool : Type := mk {
  dense_weight : R;
  sparse_weight : R;
  dense_tool : Dense.tool;
  bm25_tool : BM25.tool
}.

Definition default_dense_weight : R := 0.6.
Definition default_sparse_weight : R := 0.4.

(** [HybridRetrievalTool(workspace_path, dense_weight, sparse_weight)] *)
Definition init (ws : Workspace) (dense_weight sparse_weight : R) : tool :=
  mk dense_weight sparse_weight (Dense.init ws)
     (BM25.init ws BM25.default_k1 BM25.default_b).

Definition index_documents (t : tool) (cache_file : option Dense.Cache)
                           (file_paths : list string) : Py tool :=
  dense <- Dense.index_documents t.(dense_tool) cache_file file_paths
             Dense.default_chunk_size ;;
  Ok (mk t.(dense_weight) t.(sparse_weight) dense
         (BM25.index_documents t.(bm25_tool) file_paths)).

(** A value of [combined_scores]. *)
Record scores : Type := mkScores {
  result : SearchResult;
  dense_score : R;
  sparse_score : R
}.

Definition entry_for (combined : Dict.t scores) (r : SearchResult) : scores :=
  match Dict.get combined r.(source) with
  | Some data => data
  | None => mkScores r 0 0
  end.

(** [search], lines 338-342 *)
Definition add_dense (combined : Dict.t scores) (r : SearchResult) : Dict.t scores :=
  let data := entry_for combined r in
  Dict.set combined r.(source)
    (mkScores data.(result) r.(relevance_score) data.(sparse_score)).

(** [search], lines 345-349 *)
Definition add_sparse (combined : Dict.t scores) (r : SearchResult) : Dict.t scores :=
  let data := entry_for combined r in
  Dict.set combined r.(source)
    (mkScores data.(result) data.(dense_score) r.(relevance_score)).

Definition combine_scores (dense_results sparse_results : list SearchResult)
  : Dict.t scores :=
  fold_left add_sparse sparse_results (fold_left add_dense dense_results []).

(** [search], lines 353-364: the result of one key, rewritten in place. *)
Definition fuse (t : tool) (item : string * scores) : SearchResult :=
  let data := snd item in
  let hybrid_score := t.(dense_weight) * data.(dense_score)
                      + t.(sparse_weight) * data.(sparse_score) in
  let r := data.(result) in
  mkSearchResult r.(source) r.(content) hybrid_score
    (Dict.set (Dict.set (Dict.set r.(metadata) "hybrid_score" (MFloat hybrid_score))
                        "dense_score" (MFloat data.(dense_score)))
              "sparse_score" (MFloat data.(sparse_score)))
    r.(search_query) "hybrid_retrieval".

(** [search], lines 335-368, once both result lists are there. *)
Definition rerank (t : tool) (dense_results sparse_results : list SearchResult)
                  (top_k : nat) : list SearchResult :=
  let hybrid_results := map (fuse t) (combine_scores dense_results sparse_results) in
  firstn top_k (PyList.sorted_desc relevance_score hybrid_results).

Definition search (t : tool) (q : string) (top_k : nat) : Py (list SearchResult) :=
  dense_results <- Dense.search t.(dense_tool) q (top_k * 2) Dense.default_threshold ;;
  sparse_results <- BM25.search t.(bm25_tool) q (top_k * 2) ;;
  Ok (rerank t dense_results sparse_results top_k).

End Hybrid.

(** ** Collaborators of the nodes

    The file tools, the pattern matcher, the content analyser and the report
    renderer are outside the retrieval-and-iteration core; a node sees them
    through what they return. An exception raised inside a search strategy is
    caught by [SearchNode] and replaced by an empty result list, so a
    strategy over these tools is a total function to result lists. *)
Record Env : Type := mkEnv {
  (** the files below [workspace_path] *)
  workspace_files : Workspace;
  (** the flattened file lists of [FileListTool.list_by_extension] *)
  list_code_files : list string;
  (** [SearchNode._grep_search(query, files)] and its siblings over the file
      tools and the pattern matcher *)
  grep_search : string -> list string -> list SearchResult;
  fuzzy_search : string -> list string -> list SearchResult;
  code_structure_search : string -> list string -> list SearchResult;
  config_file_search : string -> list string -> list SearchResult;
  data_flow_search : string -> list string -> list SearchResult;
  (** [ContentAnalyzer.extract_key_insights(results)] *)
  extract_key_insights : list SearchResult -> list string;
  (** [ContentAnalyzer.suggest_follow_up_queries(results, original_query)] *)
  suggest_follow_up_queries : list SearchResult -> string -> list string;
  (** the text assembled by [ReportNode] *)
  render_report : ResearchState -> string
}.

(** ** Nodes ([nodes/research_nodes.py]) *)

Definition mentions_any (terms : list string) (text : string) : bool :=
  PyList.any (fun term => PyStr.contains term text) terms.

(** [PlanningNode.__call__], the strategy list (lines 38-57). *)
Definition plan_strategies (original : string) : list string :=
  let query_lower := PyStr.lower original in
  let s0 := ["grep_search"; "fuzzy_search"] in
  let s1 := if mentions_any ["function"; "method"; "class"; "api"] query_lower
            then s0 ++ ["code_structure_analysis"] else s0 in
  let s2 := if mentions_any ["config"; "setting"; "parameter"] query_lower
            then s1 ++ ["config_file_search"] else s1 in
  let s3 := if mentions_any ["data"; "process"; "transform"] query_lower
            then s2 ++ ["data_flow_analysis"] else s2 in
  if (3 <? List.length (PyStr.split original))%nat
  then s3 ++ ["dense_retrieval"; "bm25_retrieval"; "hybrid_retrieval"]
  else s3.

Definition PlanningNode (env : Env) (state : ResearchState) : ResearchState :=
  let search_strategies := plan_strategies state.(original_query) in
  set_current_iteration 0%Z
    (set_status SEARCHING
      (set_pending_searches search_strategies
        (set_search_strategies search_strategies
          (set_discovered_files (firstn 100 env.(list_code_files)) state)))).

(** What changes outside the research state while a workflow runs: the
    retrieval tools that the [SearchNode] of the workflow keeps ([None]
    before first use) and the cache file of the dense tools,
    [.research_cache/document_cache.pkl] ([None] when there is none).

    A tool is assigned before it is indexed, so that a tool whose
    [index_documents] raised stays in place: it is kept as [Raise e]. A dense
    index raises before any embedding is stored ([_generate_embeddings]
    raises nothing, see [generate_embeddings_total]) and the hybrid index
    raises with it, before the BM25 half is indexed: a search on such a tool
    finds [self.embeddings] and [self.documents] empty and returns the empty
    list. *)
Record World : Type := mkWorld {
  dense_tool : option (Py Dense.tool);
  bm25_tool : option BM25.tool;
  hybrid_tool : option (Py Hybrid.tool);
  cache_file : option Dense.Cache
}.

(** A workflow that has just been created. *)
Definition new_workflow (cache : option Dense.Cache) : World :=
  mkWorld None None None cache.

(** [SearchNode._dense_retrieval_search] *)
Definition _dense_retrieval_search (env : Env) (w : World) (q : string)
                                   (files : list string)
  : World * Py (list SearchResult) :=
  match w.(dense_tool) with
  | None =>
      let built := Dense.index_documents (Dense.init env.(workspace_files))
                     w.(cache_file) (firstn 50 files) Dense.default_chunk_size in
      (mkWorld (Some built) w.(bm25_tool) w.(hybrid_tool)
               (match built with
                | Ok tool => Some (Dense.dumped tool)
                | Raise _ => w.(cache_file)
                end),
       tool <- built ;; Dense.search tool q 10 Dense.default_threshold)
  | Some (Ok tool) => (w, Dense.search tool q 10 Dense.default_threshold)
  | Some (Raise _) => (w, Ok [])
  end.

(** [SearchNode._bm25_retrieval_search] *)
Definition _bm25_retrieval_search (env : Env) (w : World) (q : string)
                                  (files : list string)
  : World * Py (list SearchResult) :=
  match w.(bm25_tool) with
  | None =>
      let tool := BM25.index_documents
                    (BM25.init env.(workspace_files) BM25.default_k1 BM25.default_b)
                    (firstn 50 files) in
      (mkWorld w.(dense_tool) (Some tool) w.(hybrid_tool) w.(cache_file),
       BM25.search tool q 10)
  | Some tool => (w, BM25.search tool q 10)
  end.

(** [SearchNode._hybrid_retrieval_search] *)
Definition _hybrid_retrieval_search (env : Env) (w : World) (q : string)
                                    (files : list string)
  : World * Py (list SearchResult) :=
  match w.(hybrid_tool) with
  | None =>
      let built := Hybrid.index_documents
                     (Hybrid.init env.(workspace_files) Hybrid.default_dense_weight
                                  Hybrid.default_sparse_weight)
                     w.(cache_file) (firstn 50 files) in
      (mkWorld w.(dense_tool) w.(bm25_tool) (Some built)
               (match built with
                | Ok tool => Some (Dense.dumped tool.(Hybrid.dense_tool))
                | Raise _ => w.(cache_file)
                end),
       tool <- built ;; Hybrid.search tool q 10)
  | Some (Ok tool) => (w, Hybrid.search tool q 10)
  | Some (Raise _) => (w, Ok [])
  end.

(** [except Exception: results = []] around a strategy. *)
Definition or_nothing (found : World * Py (list SearchResult))
  : World * list SearchResult :=
  (fst found, match snd found with Ok rs => rs | Raise _ => [] end).

(** The [if]/[elif] chain of [SearchNode.__call__]; a name outside the chain
    leaves [results = []]. The strategies over the file tools and the pattern
    matcher keep nothing between calls. *)
Definition run_strategy (env : Env) (w : World) (strategy : string) (q : string)
                        (files : list string) : World * list SearchResult :=
  if strategy =? "grep_search" then (w, env.(grep_search) q files)
  else if strategy =? "fuzzy_search" then (w, env.(fuzzy_search) q files)
  else if strategy =? "code_structure_analysis"
       then (w, env.(code_structure_search) q files)
  else if strategy =? "config_file_search" then (w, env.(config_file_search) q files)
  else if strategy =? "data_flow_analysis" then (w, env.(data_flow_search) q files)
  else if strategy =? "dense_retrieval"
       then or_nothing (_dense_retrieval_search env w q files)
  else if strategy =? "bm25_retrieval"
       then or_nothing (_bm25_retrieval_search env w q files)
  else if strategy =? "hybrid_retrieval"
       then or_nothing (_hybrid_retrieval_search env w q files)
  else (w, []).

Definition SearchNode (env : Env) (w : World) (state : ResearchState)
  : World * ResearchState :=
  match state.(pending_searches) with
  | [] => (w, set_status ANALYZING state)
  | strategy :: rest =>
      let q := if is_empty_str state.(current_query)
               then state.(original_query) else state.(current_query) in
      let state1 := set_completed_searches (state.(completed_searches) ++ [strategy])
                      (set_pending_searches rest state) in
      let found := run_strategy env w strategy q state1.(discovered_files) in
      let state2 := set_all_results (state1.(all_results) ++ snd found) state1 in
      (fst found,
       match state2.(pending_searches) with
       | [] => set_status ANALYZING state2
       | _ :: _ => state2
       end)
  end.

(** [AnalysisNode.__call__], lines 321-327: the results handed to the
    content analyser. *)
Definition relevant_results (state : ResearchState) : list SearchResult :=
  match filter (fun r => Rgeb r.(relevance_score) state.(similarity_threshold))
               state.(all_results) with
  | [] => firstn 10 (PyList.sorted_desc relevance_score state.(all_results))
  | kept => kept
  end.

Definition AnalysisNode (env : Env) (state : ResearchState) : ResearchState :=
  match state.(all_results) with
  | [] => set_research_report (Some "No relevant results found for the query.")
            (set_status COMPLETED state)
  | _ :: _ =>
      let relevant := relevant_results state in
      let found_insights := env.(extract_key_insights) relevant in
      let follow_ups := env.(suggest_follow_up_queries) relevant state.(original_query) in
      let iteration :=
        mkResearchIteration state.(current_iteration)
          (if is_empty_str state.(current_query)
           then state.(original_query) else state.(current_query))
          relevant found_insights follow_ups ANALYZING in
      let state1 := set_key_insights (state.(key_insights) ++ found_insights)
                      (set_iterations (state.(iterations) ++ [iteration]) state) in
      if (state1.(current_iteration) <? state1.(max_iterations))%Z
         && negb (Nat.eqb (List.length follow_ups) 0)
         && (List.length relevant <? 20)%nat
      then set_status ITERATING state1
      else set_status SYNTHESIZING state1
  end.

Definition IterationNode (state : ResearchState) : ResearchState :=
  match rev state.(iterations) with
  | [] => set_status SYNTHESIZING state
  | last_iteration :: _ =>
      match last_iteration.(follow_up_questions) with
      | next_query :: _ =>
          let state1 := set_current_iteration (state.(current_iteration) + 1)%Z
                          (set_current_query next_query state) in
          let pending := ["grep_search"; "fuzzy_search"] in
          let pending := if (1 <? state1.(current_iteration))%Z
                         then pending ++ ["dense_retrieval"; "bm25_retrieval"]
                         else pending in
          set_status SEARCHING
            (set_completed_searches [] (set_pending_searches pending state1))
      | [] => set_status SYNTHESIZING state
      end
  end.

(** [SynthesisNode.__call__], the list [confidence_factors]. *)
Definition confidence_factors (state : ResearchState) : list R :=
  match state.(all_results) with
  | [] => [0.1]
  | _ :: _ =>
      let avg_relevance :=
        PyList.sum (map relevance_score state.(all_results))
        / INR (List.length state.(all_results)) in
      let iteration_factor := Rmin (INR (List.length state.(iterations)) / 3) 1.0 in
      let unique_sources := PyList.count_distinct (map source state.(all_results)) in
      let source_factor := Rmin (INR unique_sources / 10) 1.0 in
      [Rmin (avg_relevance * 2) 1.0; iteration_factor; source_factor]
  end.

Definition SynthesisNode (state : ResearchState) : ResearchState :=
  let factors := confidence_factors state in
  set_status COMPLETED
    (set_confidence_score (PyList.sum factors / INR (List.length factors)) state).

Definition ReportNode (env : Env) (state : ResearchState) : ResearchState :=
  set_research_report (Some (env.(render_report) state)) state.

(** ** Workflow ([workflows/research_workflow.py]) *)

Inductive NodeName : Type :=
  | planning | search | analysis | iteration | synthesis | report.

Definition run_node (env : Env) (node : NodeName) (w : World) (state : ResearchState)
  : World * ResearchState :=
  match node with
  | planning => (w, PlanningNode env state)
  | search => SearchNode env w state
  | analysis => (w, AnalysisNode env state)
  | iteration => (w, IterationNode state)
  | synthesis => (w, SynthesisNode state)
  | report => (w, ReportNode env state)
  end.

(** [_search_condition]: [true] stands for "continue_search". *)
Definition _search_condition (state : ResearchState) : bool :=
  match state.(pending_searches) with [] => false | _ :: _ => true end.

(** [_analysis_condition]: [true] stands for "iterate". *)
Definition _analysis_condition (state : ResearchState) : bool :=
  ResearchStatus_eqb state.(status) ITERATING.

(** The edges of [_build_workflow]; [None] is [END]. *)
Definition next_node (node : NodeName) (state : ResearchState) : option NodeName :=
  match node with
  | planning => Some search
  | search => if _search_condition state then Some search else Some analysis
  | analysis => if _analysis_condition state then Some iteration else Some synthesis
  | iteration => Some search
  | synthesis => Some report
  | report => None
  end.

Definition create_initial_state (workspace : string) (max_it : Z) (threshold : R)
                                (q : string) (research_goal : option string)
  : ResearchState :=
  mkResearchState q q
    (match research_goal with
     | Some g => if is_empty_str g then "Deep research on: " ++ q else g
     | None => "Deep research on: " ++ q
     end)
    [] 0%Z PLANNING [] [] [] [] [] [] None 0.0 max_it threshold workspace.

(** The safety check of [run_research]: the loop over [app.stream] is left
    once [step_count > 20]. *)
Definition STEP_CEILING : nat := 20.

(** The events consumed by the loop of [run_research], oldest first: one
    [(node_name, node_state)] per executed node. The loop reads at most
    [budget] of them; with [budget = STEP_CEILING + 1] the last one read is
    the one on which [step_count > 20] holds. *)
Fixpoint stream_events (env : Env) (budget : nat) (node : NodeName) (w : World)
                       (state : ResearchState) : list (NodeName * ResearchState) :=
  match budget with
  | O => []
  | S budget' =>
      let '(w', state') := run_node env node w state in
      (node, state') ::
      match next_node node state' with
      | None => []
      | Some node' => stream_events env budget' node' w' state'
      end
  end.

Definition run_events (env : Env) (w : World) (workspace : string) (max_it : Z)
                      (threshold : R) (q : string) (goal : option string)
  : list (NodeName * ResearchState) :=
  stream_events env (S STEP_CEILING) planning w
    (create_initial_state workspace max_it threshold q goal).

(** [run_research]: [final_state] after the loop, [None] when no event was
    read (the error dictionary). *)
Definition run_research (env : Env) (w : World) (workspace : string) (max_it : Z)
                        (threshold : R) (q : string) (goal : option string)
  : option ResearchState :=
  match rev (run_events env w workspace max_it threshold q goal) with
  | [] => None
  | (_, final_state) :: _ => Some final_state
  end.

(** [step_count] when the loop is left. *)
Definition step_count (events : list (NodeName * ResearchState)) : nat :=
  List.length events.

(** How many times [IterationNode] ran. *)
Definition iteration_cycles (events : list (NodeName * ResearchState)) : nat :=
  List.length (filter (fun e => match fst e with iteration => true | _ => false end)
                      events).

(** The last event read by the loop of [run_research] when it starts at
    [node] with a budget of at least one event. *)
Fixpoint last_event (env : Env) (budget : nat) (node : NodeName) (w : World)
                    (state : ResearchState) : NodeName * ResearchState :=
  let '(w', state') := run_node env node w state in
  match budget, next_node node state' with
  | S (S _ as budget'), Some node' => last_event env budget' node' w' state'
  | _, _ => (node, state')
  end.

(** ** Sample collaborators *)

(** An empty workspace: no strategy finds anything. *)
Definition env_silent : Env :=
  mkEnv (fun _ => None) [] (fun _ _ => []) (fun _ _ => []) (fun _ _ => [])
        (fun _ _ => []) (fun _ _ => []) (fun _ => []) (fun _ _ => []) (fun _ => "").

(** A workspace with the single file [a.py], in which every grep finds the
    line of this file, and the analyser always proposes the file-specific
    follow-up (as [suggest_follow_up_queries] does whenever it is given a
    result). *)
Definition ws_grep : Workspace :=
  fun path => if path =? "a.py" then Some "def foo(): pass" else None.

Definition grep_hit (q : string) : SearchResult :=
  mkSearchResult "a.py" "def foo(): pass" 0.9 [] q "grep_search".

Definition deep_dive : string := "Deep dive into specific files: a.py".

Definition env_grep : Env :=
  mkEnv ws_grep ["a.py"] (fun q _ => [grep_hit q]) (fun _ _ => []) (fun _ _ => [])
        (fun _ _ => []) (fun _ _ => []) (fun _ => []) (fun _ _ => [deep_dive])
        (fun _ => "").

(** The state in which the first analysis of a run over [env_grep] starts. *)
Definition state_one_hit : ResearchState :=
  mkResearchState "foo" "foo" "Deep research on: foo" [] 0%Z ANALYZING
    [grep_hit "foo"] [] [] ["grep_search"; "fuzzy_search"]
    ["grep_search"; "fuzzy_search"] [] None 0.0 3%Z 0.3 "ws".

(** ** Sample workspaces *)

(** One file, [a.txt], holding the single word "fox". *)
Definition ws_fox : Workspace :=
  fun path => if path =? "a.txt" then Some "fox" else None.

(** Five files listed as b, a, c, d, e: the first two hold "fox", the others
    "dog". *)
Definition ws_five : Workspace :=
  fun path =>
    if (path =? "a.txt") || (path =? "b.txt") then Some "fox"
    else if (path =? "c.txt") || (path =? "d.txt") || (path =? "e.txt") then Some "dog"
    else None.

Definition five_paths : list string := ["b.txt"; "a.txt"; "c.txt"; "d.txt"; "e.txt"].

(** ** Sample results *)

(** A result of the dense search for "alpha" on an index that holds the file
    [a.py] in chunks: the result of the chunk [doc_path], of text [text]. *)
Definition chunk_result (doc_path text : string) (similarity : R) : SearchResult :=
  mkSearchResult "a.py" text similarity
    [("similarity", MFloat similarity);
     ("document_chunk", MStr doc_path);
     ("content_length", MInt (Z.of_nat (PyStr.len text)))]
    "alpha" "dense_retrieval".

(** Two chunks of [a.py] in the order in which the dense search returns
    them, the more similar one first. *)
Definition chunk_0 : SearchResult := chunk_result "a.py#chunk_0" "alpha alpha beta" 0.9.
Definition chunk_1 : SearchResult := chunk_result "a.py#chunk_1" "alpha beta gamma" 0.2.

(** ** Predicates of the statements *)

(** [a] may stand before [b] in a list sorted by descending key. *)
Definition desc {A : Type} (key : A -> R) (a b : A) : Prop := key b <= key a.

(** The key of [a] is [c]. *)
Definition has_key {A : Type} (key : A -> R) (c : R) (a : A) : bool :=
  if Req_dec_T (key a) c then true else false.

(** [x] stands somewhere before [y] in [l]. *)
Definition precedes {A : Type} (x y : A) (l : list A) : Prop :=
  exists l1 l2 l3, l = l1 ++ x :: l2 ++ y :: l3.

(** What the first loop of [index_documents] keeps true of [documents]. *)
Definition documents_read (ws : Workspace) (docs : Dict.t (list string)) : Prop :=
  NoDup (Dict.keys docs)
  /\ forall doc_id tokens,
       Dict.get docs doc_id = Some tokens ->
       exists text, read_nonempty ws doc_id = Some text /\ tokens = _tokenize text.

(** What the second loop keeps true of [term_frequencies], for the
    documents [docs] it walks. *)
Definition postings_sound (docs : Dict.t (list string)) (tfs : Dict.t (Dict.t nat)) : Prop :=
  forall term doc_id freq,
    match Dict.get tfs term with
    | Some postings => Dict.get postings doc_id
    | None => None
    end = Some freq ->
    exists tokens, In (doc_id, tokens) docs /\ In term tokens.

(** What the first loop of [index_documents] keeps true of [doc_lengths] and
    [total_length]. *)
Definition lengths_recorded
    (acc : Dict.t (list string) * Dict.t nat * list string * nat) : Prop :=
  let '(docs, lengths, _, total_length) := acc in
  forall doc_id tokens,
    Dict.get docs doc_id = Some tokens ->
    Dict.get lengths doc_id = Some (List.length tokens)
    /\ (List.length tokens <= total_length)%nat.

(** What the second loop keeps true of [document_frequencies] once the
    documents [seen] have been walked. *)
Definition frequencies_bounded (seen : nat)
    (acc : Dict.t (Dict.t nat) * Dict.t nat) : Prop :=
  (forall term postings, Dict.get (fst acc) term = Some postings ->
                         exists df, Dict.get (snd acc) term = Some df)
  /\ (forall term df, Dict.get (snd acc) term = Some df -> (df <= seen)%nat).

(** A document enters [doc_scores] when its score is positive. *)
Definition scores_positive (t : BM25.tool) (query_terms : list string)
                           (doc_id : string) : bool :=
  match BM25.score_terms t doc_id query_terms 0.0 with
  | Ok score => PyList.Rltb 0 score
  | Raise _ => false
  end.

(** [file_path] can be read and is not empty. *)
Definition readable (ws : Workspace) (file_path : string) : bool :=
  match read_nonempty ws file_path with Some _ => true | None => false end.

(** The result built for an entry of [sorted_docs] whose file can be read. *)
Definition result_of (t : BM25.tool) (q : string) (entry : string * R) : SearchResult :=
  mkSearchResult (fst entry)
    (excerpt (match read_nonempty t.(BM25.workspace) (fst entry) with
              | Some text => text
              | None => ""
              end))
    (Rmin (snd entry / 10.0) 1.0)
    [("bm25_score", MFloat (snd entry));
     ("query_terms_found",
      MInt (Z.of_nat (BM25.terms_found t (fst entry) (_tokenize q))))]
    q "bm25_retrieval".

(** The score that a result list records for [key]: the relevance score of
    the last result whose source is [key], and 0 when there is none. *)
Definition score_in (l : list SearchResult) (key : string) : R :=
  fold_left (fun score r => if r.(source) =? key then r.(relevance_score) else score) l 0.

(** What [combined_scores] holds once the results [ds] of the dense search
    and [ss] of the sparse search have been added. *)
Definition combines (combined : Dict.t Hybrid.scores) (ds ss : list SearchResult) : Prop :=
  NoDup (Dict.keys combined)
  /\ (forall key, In key (Dict.keys combined)
                  <-> In key (map source ds) \/ In key (map source ss))
  /\ forall key data,
       Dict.get combined key = Some data ->
       data.(Hybrid.result).(source) = key
       /\ data.(Hybrid.dense_score) = score_in ds key
       /\ data.(Hybrid.sparse_score) = score_in ss key.

(** The sum of the squares of the components, under the root of [norm]. *)
Definition sum_sq (v : list R) : R := PyList.sum (map (fun x => x * x) v).

(** Each component of [v] is a non-negative multiple of the component of
    [idfs] in the same place: it has the sign of that idf, or is zero. *)
Definition aligned (idfs v : list R) : Prop :=
  Forall2 (fun idf x => exists c, 0 <= c /\ x = c * idf) idfs v.

(** [v] is a vector divided by its norm, when this norm is positive, as at
    the end of [_text_to_vector]. *)
Definition normalised (v : list R) : Prop :=
  exists vector,
    v = if PyList.Rltb 0 (norm vector) then map (fun x => x / norm vector) vector
        else vector.

(** The idf of a word, as [_text_to_vector] reads it. *)
Definition idf_of (t : Dense.tool) (word : string) : R :=
  match Dict.get t.(Dense.idf_scores) word with Some x => x | None => 0 end.

(** The idfs of the vocabulary, in the order of the vector components. *)
Definition idf_list (t : Dense.tool) : list R :=
  map (idf_of t) (PySet.sorted t.(Dense.vocabulary)).

(** Every stored embedding is the vector of some text, computed with the
    vocabulary and the idfs that the tool holds. *)
Definition embeddings_generated (t : Dense.tool) : Prop :=
  forall doc_path emb,
    In (doc_path, emb) t.(Dense.embeddings) ->
    exists text, Dense._text_to_vector t text = Ok emb.

(** When a word is known, a document is. *)
Definition vocabulary_has_documents (read : Dict.t string * list string) : Prop :=
  snd read = [] \/ fst read <> [].

(** The cache file, when there is one, holds a document if it holds a word
    (as every cache dumped by [index_documents] does). *)
Definition cache_has_documents (cache_file : option Dense.Cache) : Prop :=
  match cache_file with
  | Some cached_data => vocabulary_has_documents cached_data
  | None => True
  end.

(** Every stored embedding belongs to a stored document. *)
Definition embeddings_documented (t : Dense.tool) : Prop :=
  forall doc_path emb,
    In (doc_path, emb) t.(Dense.embeddings) ->
    exists text, Dict.get t.(Dense.documents) doc_path = Some text.

(** No result gathered so far has a negative relevance score. *)
Definition nonneg_results (state : ResearchState) : Prop :=
  Forall (fun r => 0 <= r.(relevance_score)) state.(all_results).

(** The strategies over the file tools and the pattern matcher return no
    negative relevance score: grep records 0.9 or 0.5, the fuzzy search a
    ratio of counts, the code-structure search [min(relevance, 1.0)] for a
    positive [relevance], the other two 0.8 and 0.7. *)
Definition scores_nonneg (env : Env) : Prop :=
  forall q files r,
    In r (env.(grep_search) q files ++ env.(fuzzy_search) q files
          ++ env.(code_structure_search) q files ++ env.(config_file_search) q files
          ++ env.(data_flow_search) q files) ->
    0 <= r.(relevance_score).

(** The retrieval tools that a workflow holds were built by its search
    node: their embeddings are vectors of texts, and the hybrid tool has the
    default weights. *)
Definition world_built (w : World) : Prop :=
  (forall tool, w.(dense_tool) = Some (Ok tool) -> embeddings_generated tool)
  /\ (forall tool, w.(hybrid_tool) = Some (Ok tool) ->
        exists ws cache file_paths,
          Hybrid.index_documents
            (Hybrid.init ws Hybrid.default_dense_weight Hybrid.default_sparse_weight)
            cache file_paths = Ok tool).

(** What synthesis establishes. *)
Definition confident (state : ResearchState) : Prop :=
  state.(status) = COMPLETED
  /\ 0.1 <= state.(confidence_score) <= 1.0
  /\ (state.(all_results) = [] -> state.(confidence_score) = 0.1).

(** A round after the first analysis that found something. *)
Definition later_round (state : ResearchState) : Prop :=
  state.(iterations) <> [] /\ state.(all_results) <> [].

(** [before k node state]: [k] nodes have run and [node] is about to run on
    [state]. *)
Definition before (k : nat) (node : NodeName) (state : ResearchState) : Prop :=
  nonneg_results state /\
  match node with
  | planning => k = 0%nat /\ state.(all_results) = [] /\ state.(iterations) = []
  | search =>
      state.(status) <> COMPLETED
      /\ ((state.(iterations) = []
           /\ (k + Nat.max (List.length state.(pending_searches)) 1 <= 9)%nat)
          \/ later_round state)
  | analysis => (state.(iterations) = [] /\ (k <= 9)%nat) \/ later_round state
  | iteration => later_round state
  | synthesis => (state.(all_results) = [] /\ (k <= 10)%nat) \/ later_round state
  | report => confident state
  end.

(** [after k node state]: [node] ran as the [k]-th node and left [state]. *)
Definition after (k : nat) (node : NodeName) (state : ResearchState) : Prop :=
  match node with
  | report => confident state
  | _ => confident state \/ (k <= 10)%nat
         \/ (state.(status) <> COMPLETED /\ state.(all_results) <> [])
  end.

(** [IterationNode] is entered with a follow-up question to pick. *)
Definition can_iterate (state : ResearchState) : Prop :=
  (state.(current_iteration) < state.(max_iterations))%Z
  /\ exists last_iteration earlier,
       rev state.(iterations) = last_iteration :: earlier
       /\ last_iteration.(follow_up_questions) <> [].

(** What holds when [node] is about to run, for the count of iterations. *)
Definition counted (node : NodeName) (state : ResearchState) : Prop :=
  match node with
  | planning => state.(current_iteration) = 0%Z
  | iteration => can_iterate state
  | _ => True
  end.

(** * Further code of the repository *)

From Stdlib Require DecimalNat.

(** ** Predicates of the further statements *)

(** Every character of [s] passes [p]. *)
Fixpoint all_chars (p : ascii -> bool) (s : string) : bool :=
  match s with
  | EmptyString => true
  | String c s' => p c && all_chars p s'
  end.

(** A character that [_tokenize] lets into a token: a lowercase letter or a
    digit. *)
Definition is_token_char (c : ascii) : bool := PyStr.is_lower c || PyStr.is_digit c.

(** [self.term_frequencies[term][doc_id]] when both keys are there. *)
Definition posting (tfs : Dict.t (Dict.t nat)) (term doc_id : string) : option nat :=
  match Dict.get tfs term with
  | Some postings => Dict.get postings doc_id
  | None => None
  end.

(** The number of times [term] stands in [tokens], as a dictionary would
    hold it: no entry for zero. *)
Definition occurrences (tokens : list string) (term : string) : option nat :=
  match count_occ string_dec tokens term with
  | O => None
  | S n => Some (S n)
  end.

(** The documents whose tokens hold [term]. *)
Definition documents_with (docs : Dict.t (list string)) (term : string)
  : list (string * list string) :=
  filter (fun doc => PySet.mem term (snd doc)) docs.

(** The number of tokens that [index_documents] counts for [file_path]. *)
Definition token_count (ws : Workspace) (file_path : string) : nat :=
  match read_nonempty ws file_path with
  | Some text => List.length (_tokenize text)
  | None => 0%nat
  end.


(** A dictionary read back from the cache file holds each key once, as a
    Python [dict] does. *)
Definition cache_keys_distinct (cache_file : option Dense.Cache) : Prop :=
  match cache_file with
  | Some cached_data => NoDup (Dict.keys (fst cached_data))
  | None => True
  end.

(** The chunks whose tokens hold [word]. *)
Definition chunks_with (docs : Dict.t string) (word : string) : list (string * string) :=
  filter (fun doc => PySet.mem word (_tokenize (snd doc))) docs.

(** [s'] continues [s]: the question, the goal and the limits are those of
    [s], and the results, the recorded iterations and the insights of [s]
    are still there, in front of what came since. *)
Definition continues (s s' : ResearchState) : Prop :=
  s'.(original_query) = s.(original_query)
  /\ s'.(research_goal) = s.(research_goal)
  /\ s'.(max_iterations) = s.(max_iterations)
  /\ s'.(similarity_threshold) = s.(similarity_threshold)
  /\ s'.(workspace_path) = s.(workspace_path)
  /\ (s.(current_iteration) <= s'.(current_iteration))%Z
  /\ (exists more, s'.(all_results) = s.(all_results) ++ more)
  /\ (exists more, s'.(iterations) = s.(iterations) ++ more)
  /\ (exists more, s'.(key_insights) = s.(key_insights) ++ more).

(** What [PlanningNode] fixes for the rest of a run. *)
Definition planned (env : Env) (s : ResearchState) : Prop :=
  s.(discovered_files) = firstn 100 env.(list_code_files)
  /\ s.(search_strategies) = plan_strategies s.(original_query).

(** [state['current_query'] or state['original_query']] *)
Definition effective_query (s : ResearchState) : string :=
  if is_empty_str s.(current_query) then s.(original_query) else s.(current_query).

(** The query of the round that follows the iterations [earlier]: the
    question of the run at first, then the first follow-up question of the
    last iteration, or the question of the run when that one is empty. *)
Definition asked (original : string) (earlier : list ResearchIteration) : string :=
  match rev earlier with
  | [] => original
  | last_iteration :: _ =>
      match last_iteration.(follow_up_questions) with
      | next_query :: _ => if is_empty_str next_query then original else next_query
      | [] => original
      end
  end.

(** The recorded iterations are numbered from 0, each ran on the query that
    the iterations before it asked for and holds results, and each but the
    last proposed a follow-up question. *)
Definition chained (original : string) (its : list ResearchIteration) : Prop :=
  forall pre it post,
    its = pre ++ it :: post ->
    it.(iteration_number) = Z.of_nat (List.length pre)
    /\ it.(query) = asked original pre
    /\ it.(results) <> []
    /\ it.(iteration_status) = ANALYZING
    /\ (post <> [] -> it.(follow_up_questions) <> []).

(** What holds when [node] is about to run, for the recorded iterations. *)
Definition recorded (q : string) (max_it : Z) (node : NodeName) (s : ResearchState)
  : Prop :=
  s.(original_query) = q
  /\ s.(max_iterations) = max_it
  /\ chained q s.(iterations)
  /\ (0 <= s.(current_iteration) <= Z.max 0 max_it)%Z
  /\ match node with
     | planning => s.(iterations) = [] /\ s.(current_query) = q
     | search | analysis =>
         Z.of_nat (List.length s.(iterations)) = s.(current_iteration)
         /\ effective_query s = asked q s.(iterations)
         /\ (forall last_iteration earlier,
               rev s.(iterations) = last_iteration :: earlier ->
               last_iteration.(follow_up_questions) <> [])
     | iteration =>
         Z.of_nat (List.length s.(iterations)) = (s.(current_iteration) + 1)%Z
         /\ can_iterate s
     | synthesis | report =>
         (s.(current_iteration) <= Z.of_nat (List.length s.(iterations))
          <= s.(current_iteration) + 1)%Z
     end.

(** The names that the [if]/[elif] chain of [SearchNode.__call__] knows. *)
Definition known_strategies : list string :=
  ["grep_search"; "fuzzy_search"; "code_structure_analysis"; "config_file_search";
   "data_flow_analysis"; "dense_retrieval"; "bm25_retrieval"; "hybrid_retrieval"].

(** The strategies of the round in which [current_iteration] is [round]:
    those that [PlanningNode] chose at first, those that [IterationNode]
    sets afterwards. *)
Definition round_strategies (original : string) (round : Z) : list string :=
  if (round =? 0)%Z then plan_strategies original
  else if (1 <? round)%Z
       then ["grep_search"; "fuzzy_search"; "dense_retrieval"; "bm25_retrieval"]
       else ["grep_search"; "fuzzy_search"].

(** What holds when [node] is about to run, for the strategies. *)
Definition scheduled (q : string) (node : NodeName) (s : ResearchState) : Prop :=
  s.(original_query) = q
  /\ (0 <= s.(current_iteration))%Z
  /\ match node with
     | planning => s.(completed_searches) = []
     | search =>
         s.(completed_searches) ++ s.(pending_searches)
         = round_strategies q s.(current_iteration)
     | _ =>
         s.(pending_searches) = []
         /\ s.(completed_searches) = round_strategies q s.(current_iteration)
     end.

(** The three strategies that keep a tool in the search node. *)
Definition retrieval_strategies : list string :=
  ["dense_retrieval"; "bm25_retrieval"; "hybrid_retrieval"].

(** Every tool that [w] holds is held by [w'], as it is. *)
Definition tools_kept (w w' : World) : Prop :=
  (forall built, w.(dense_tool) = Some built -> w'.(dense_tool) = Some built)
  /\ (forall tool, w.(bm25_tool) = Some tool -> w'.(bm25_tool) = Some tool)
  /\ (forall built, w.(hybrid_tool) = Some built -> w'.(hybrid_tool) = Some built).

(** ** The dictionary returned by [run_research]
    ([workflows/research_workflow.py], [_format_results]) *)

Module Output.

(** An entry of ["top_results"]. *)
Record top : Type := mkTop {
  source : string;
  content : string;
  relevance_score : R;
  tool_used : string
}.

Record t : Type := mk {
  query : string;
  status : string;
  confidence_score : R;
  total_results : nat;
  iterations : nat;
  files_analyzed : nat;
  key_insights : list string;
  research_report : option string;
  top_results : list top;
  search_strategies_used : list string;
  discovered_files_count : nat
}.

End Output.

(** [status.value] *)
Definition status_value (s : ResearchStatus) : string :=
  match s with
  | PLANNING => "planning"
  | SEARCHING => "searching"
  | ANALYZING => "analyzing"
  | ITERATING => "iterating"
  | SYNTHESIZING => "synthesizing"
  | COMPLETED => "completed"
  end.

(** [r.content[:200] + "..." if len(r.content) > 200 else r.content] *)
Definition preview (text : string) : string :=
  if (200 <? PyStr.len text)%nat then PyStr.take 200 text ++ "..." else text.

Definition top_result (r : SearchResult) : Output.top :=
  Output.mkTop r.(source) (preview r.(content)) r.(relevance_score) r.(tool_used).

Definition _format_results (final_state : ResearchState) : Output.t :=
  Output.mk
    final_state.(original_query)
    (status_value final_state.(status))
    final_state.(confidence_score)
    (List.length final_state.(all_results))
    (List.length final_state.(iterations))
    (match final_state.(all_results) with
     | [] => 0%nat
     | _ :: _ => PyList.count_distinct (map source final_state.(all_results))
     end)
    final_state.(key_insights)
    final_state.(research_report)
    (match final_state.(all_results) with
     | [] => []
     | _ :: _ =>
         map top_result
             (firstn 10 (PyList.sorted_desc relevance_score final_state.(all_results)))
     end)
    final_state.(completed_searches)
    (List.length final_state.(discovered_files)).

(** ** The file tools ([tools/file_tools.py]) *)

Module PyText.

(** [s.lstrip()] *)
Fixpoint lstrip (s : string) : string :=
  match s with
  | EmptyString => EmptyString
  | String c s' => if PyStr.is_space c then lstrip s' else s
  end.

(** [s.rstrip()] *)
Fixpoint rstrip (s : string) : string :=
  match s with
  | EmptyString => EmptyString
  | String c s' =>
      match rstrip s' with
      | EmptyString => if PyStr.is_space c then EmptyString else String c EmptyString
      | String _ _ as kept => String c kept
      end
  end.

(** [s.strip()] *)
Definition strip (s : string) : string := rstrip (lstrip s).

(** The newline character. *)
Definition newline : ascii := "010"%char.

(** [f.readlines()] on a file whose text is [s]: the lines, each with the
    newline that ends it. [cur] is the line being read. The text of a file
    opened in text mode holds no carriage return. *)
Fixpoint readlines_from (cur : string) (s : string) : list string :=
  match s with
  | EmptyString => if (PyStr.len cur =? 0)%nat then [] else [cur]
  | String c s' =>
      if Ascii.eqb c newline
      then (cur ++ String c EmptyString)%string :: readlines_from EmptyString s'
      else readlines_from (cur ++ String c EmptyString)%string s'
  end.

Definition readlines (s : string) : list string := readlines_from EmptyString s.

(** [enumerate(l, 1)] *)
Definition enumerate1 {A} (l : list A) : list (nat * A) :=
  combine (seq 1 (List.length l)) l.

(** [s.split(sep, maxsplit)] for a separator of one character: [s] is cut at
    the first [maxsplit] separators. [cur] is the part being read. *)
Fixpoint split_sep_from (sep : ascii) (maxsplit : nat) (cur : string) (s : string)
  : list string :=
  match s with
  | EmptyString => [cur]
  | String c s' =>
      match maxsplit with
      | O => [(cur ++ s)%string]
      | S fewer =>
          if Ascii.eqb c sep
          then cur :: split_sep_from sep fewer EmptyString s'
          else split_sep_from sep maxsplit (cur ++ String c EmptyString)%string s'
      end
  end.

Definition split_sep (sep : ascii) (maxsplit : nat) (s : string) : list string :=
  split_sep_from sep maxsplit EmptyString s.

(** [s.split(sep)]: a string holds fewer separators than characters. *)
Definition split_all (sep : ascii) (s : string) : list string :=
  split_sep sep (PyStr.len s) s.

(** [s.isdigit()] on the ASCII range *)
Definition isdigit (s : string) : bool :=
  negb (PyStr.len s =? 0)%nat && all_chars PyStr.is_digit s.

(** [int(s)] for a string of digits; [acc] is the number read so far. *)
Fixpoint int_from (acc : nat) (s : string) : nat :=
  match s with
  | EmptyString => acc
  | String c s' => int_from (10 * acc + (nat_of_ascii c - 48)) s'
  end.

Definition int (s : string) : Z := Z.of_nat (int_from 0 s).

(** [s.count(c)] *)
Fixpoint count_char (c : ascii) (s : string) : nat :=
  match s with
  | EmptyString => 0%nat
  | String c' s' => ((if Ascii.eqb c' c then 1 else 0) + count_char c s')%nat
  end.

(** The index that a slice bound [i] stands for in a list of [n] elements:
    a negative bound counts from the end, and every bound is brought back
    into the list. *)
Definition slice_index (n : nat) (i : Z) : nat :=
  if (i <? 0)%Z then Z.to_nat (Z.max 0 (Z.of_nat n + i)) else Nat.min n (Z.to_nat i).

(** [l[start:stop]] *)
Definition slice {A} (l : list A) (start stop : Z) : list A :=
  let first := slice_index (List.length l) start in
  let last := slice_index (List.length l) stop in
  firstn (last - first) (skipn first l).

End PyText.

Module FileSearchTool.

Definition default_threshold : R := 0.6.

(** [sum(1 for word in query_words if word in line_lower)] *)
Definition count_matches (query_words : list string) (line_lower : string) : nat :=
  List.length (filter (fun word => PyStr.contains word line_lower) query_words).

(** [fuzzy_search], lines 117-128: the result of one line. *)
Definition fuzzy_result (query file_path : string) (line_num : nat) (line : string)
                        (matches total : nat) (relevance : R) : SearchResult :=
  mkSearchResult file_path (PyText.strip line) relevance
    [("line_number", MInt (Z.of_nat line_num));
     ("matched_words", MInt (Z.of_nat matches));
     ("total_words", MInt (Z.of_nat total))]
    query "fuzzy_search".

(** [fuzzy_search], lines 111-128: the loop over the lines of one file. It
    runs inside [try]: the division by zero of a query without a word leaves
    the loop, and what was appended before stays. *)
Fixpoint fuzzy_lines (query : string) (query_words : list string) (threshold : R)
                     (file_path : string) (lines : list (nat * string))
  : list SearchResult :=
  match lines with
  | [] => []
  | (line_num, line) :: rest =>
      let matches := count_matches query_words (PyStr.lower line) in
      match py_div (INR matches) (INR (List.length query_words)) with
      | Ok relevance =>
          (if Rgeb relevance threshold
           then [fuzzy_result query file_path line_num line matches
                              (List.length query_words) relevance]
           else [])
          ++ fuzzy_lines query query_words threshold file_path rest
      | Raise _ => []
      end
  end.

(** [fuzzy_search]: a path that is no file, or cannot be read, adds
    nothing. *)
Definition fuzzy_search (ws : Workspace) (query : string) (file_paths : list string)
                        (threshold : R) : list SearchResult :=
  let query_words := PyStr.split (PyStr.lower query) in
  PyList.sorted_desc relevance_score
    (flat_map (fun file_path =>
                 match ws file_path with
                 | Some text =>
                     fuzzy_lines query query_words threshold file_path
                                 (PyText.enumerate1 (PyText.readlines text))
                 | None => []
                 end)
              file_paths).

(** [_parse_grep_line] *)
Definition _parse_grep_line (line pattern : string) : SearchResult :=
  match PyText.split_sep ":"%char 2 line with
  | file_path :: line_number :: content :: _ =>
      mkSearchResult file_path (PyText.strip content) 0.9
        [("line_number", MInt (if PyText.isdigit line_number
                               then PyText.int line_number else 0%Z));
         ("grep_pattern", MStr pattern)]
        pattern "grep_search"
  | _ => mkSearchResult "unknown" line 0.5 [] pattern "grep_search"
  end.

(** What [subprocess.run(cmd, capture_output=True, text=True, ...)] gives for
    a command: the return code and the standard output, or [None] when it
    raises. *)
Definition Process : Type := list string -> option (Z * string).

(** [grep_search], lines 29-43: the command. *)
Definition grep_command (workspace_path pattern : string) (file_types : list string)
                        (case_sensitive whole_word : bool) (context_lines : Z)
  : list string :=
  ["grep"; "-r"; "-n"]
  ++ (if case_sensitive then [] else ["-i"])
  ++ (if whole_word then ["-w"] else [])
  ++ (if (0 <? context_lines)%Z
      then ["-C"; str_of_nat (Z.to_nat context_lines)] else [])
  ++ flat_map (fun file_type => ["--include"; ("*." ++ file_type)%string]) file_types
  ++ [pattern; workspace_path].

(** [grep_search]; [file_types] is the empty list for [None]. *)
Definition grep_search (run : Process) (workspace_path pattern : string)
                       (file_types : list string) (case_sensitive whole_word : bool)
                       (context_lines : Z) : list SearchResult :=
  match run (grep_command workspace_path pattern file_types case_sensitive whole_word
                          context_lines) with
  | Some (returncode, stdout) =>
      if (returncode =? 0)%Z
      then map (fun line => _parse_grep_line line pattern)
               (filter (fun line => negb (is_empty_str line))
                       (PyText.split_all PyText.newline (PyText.strip stdout)))
      else []
  | None => []
  end.

End FileSearchTool.

(** [SearchNode._fuzzy_search] *)
Definition _fuzzy_search (ws : Workspace) (query : string) (files : list string)
  : list SearchResult :=
  FileSearchTool.fuzzy_search ws query files 0.4.

Module FileReadTool.

(** [read_file]: [None] for a path that does not exist or cannot be read;
    [start_line] and [end_line] are [None] when they are not given. *)
Definition read_file (ws : Workspace) (file_path : string)
                     (start_line end_line : option Z) : option string :=
  match ws file_path with
  | None => None
  | Some text =>
      match start_line, end_line with
      | None, None => Some text
      | _, _ =>
          let lines := PyText.readlines text in
          let start_idx := match start_line with
                           | Some line => if (line =? 0)%Z then 0%Z else (line - 1)%Z
                           | None => 0%Z
                           end in
          let end_idx := match end_line with
                         | Some line => if (line =? 0)%Z
                                        then Z.of_nat (List.length lines) else line
                         | None => Z.of_nat (List.length lines)
                         end in
          Some (String.concat "" (PyText.slice lines start_idx end_idx))
      end
  end.

Definition default_context : Z := 5.

(** [read_around_line] *)
Definition read_around_line (ws : Workspace) (file_path : string) (line_number : Z)
                            (context : Z) : option string :=
  let start_line := Z.max 1 (line_number - context) in
  let end_line := (line_number + context)%Z in
  read_file ws file_path (Some start_line) (Some end_line).

End FileReadTool.

(** [SearchNode._grep_search]: the terms of the query that are searched for. *)
Definition grep_terms (query : string) : list string :=
  firstn 3 (filter (fun term => (2 <? PyStr.len term)%nat) (PyStr.split query)).

(** [SearchNode._grep_search] *)
Definition _grep_search (run : FileSearchTool.Process) (workspace_path query : string)
                        (files : list string) : list SearchResult :=
  flat_map (fun term =>
              FileSearchTool.grep_search run workspace_path term [] false false 2)
           (grep_terms query).

(** The share of the words of the query that stand in a line, as
    [fuzzy_search] computes it for a query with a word. *)
Definition match_ratio (query line : string) : R :=
  let query_words := PyStr.split (PyStr.lower query) in
  INR (FileSearchTool.count_matches query_words (PyStr.lower line))
  / INR (List.length query_words).

(** ** The content analyser ([tools/analysis_tools.py]) *)

Module ContentAnalyzer.

Definition default_min_relevance : R := 0.7.

(** [theme_keywords], in the order of the dictionary. *)
Definition theme_keywords : list (string * list string) :=
  [("data_processing", ["data"; "process"; "transform"; "parse"; "convert"]);
   ("api_integration", ["api"; "request"; "response"; "endpoint"; "http"]);
   ("database", ["database"; "query"; "table"; "sql"; "model"]);
   ("authentication", ["auth"; "login"; "token"; "user"; "password"]);
   ("configuration", ["config"; "setting"; "parameter"; "option"; "environment"]);
   ("error_handling", ["error"; "exception"; "try"; "catch"; "handle"]);
   ("testing", ["test"; "mock"; "assert"; "spec"; "unit"]);
   ("logging", ["log"; "debug"; "info"; "warn"; "error"]);
   ("performance", ["performance"; "optimize"; "cache"; "speed"; "memory"]);
   ("security", ["security"; "encrypt"; "decrypt"; "hash"; "secure"])].

(** [sum(1 for keyword in keywords if keyword in content_lower)] *)
Definition keyword_matches (keywords : list string) (content_lower : string) : nat :=
  List.length (filter (fun keyword => PyStr.contains keyword content_lower) keywords).

(** [theme_counts[theme] += 1] on a [defaultdict(int)] *)
Definition increment (counts : Dict.t nat) (key : string) : Dict.t nat :=
  Dict.set counts key (match Dict.get counts key with Some n => n | None => 0%nat end + 1)%nat.

(** [_identify_themes], the loop over the themes for one result. *)
Definition count_themes (theme_counts : Dict.t nat) (r : SearchResult) : Dict.t nat :=
  let content_lower := PyStr.lower r.(content) in
  fold_left (fun counts theme =>
               if (2 <=? keyword_matches (snd theme) content_lower)%nat
               then increment counts (fst theme) else counts)
            theme_keywords theme_counts.

Definition _identify_themes (results : list SearchResult) : Dict.t nat :=
  fold_left count_themes results [].

(** [counter.most_common(n)]: the entries by descending count, entries of
    equal count in the order of the counter. *)
Definition most_common (n : nat) (counter : Dict.t nat) : list (string * nat) :=
  firstn n (PyList.sorted_desc (fun item => INR (snd item)) counter).

Definition theme_insight (item : string * nat) : string :=
  "Recurring theme: '" ++ fst item ++ "' appears in " ++ str_of_nat (snd item)
  ++ " results".

Definition file_insight (item : string * nat) : string :=
  "High activity in file: " ++ fst item ++ " (" ++ str_of_nat (snd item)
  ++ " relevant matches)".

Definition tool_insight (item : string * nat) : string :=
  "Tool '" ++ fst item ++ "' found " ++ str_of_nat (snd item) ++ " relevant results".

Definition extract_key_insights (results : list SearchResult) (min_relevance : R)
  : list string :=
  let high_relevance_results :=
    filter (fun r => Rgeb r.(relevance_score) min_relevance) results in
  match high_relevance_results with
  | [] => ["No high-relevance results found"]
  | _ :: _ =>
      let themes := _identify_themes high_relevance_results in
      let file_counter := Counter (map source high_relevance_results) in
      let tool_counter := Counter (map tool_used high_relevance_results) in
      map theme_insight (filter (fun item => (3 <=? snd item)%nat) themes)
      ++ map file_insight (most_common 3 file_counter)
      ++ map tool_insight tool_counter
  end.

(** What the regular expressions of [_extract_common_terms] and of
    [_analyze_code_patterns] draw from the results: the common terms with
    their counts, and the names of functions and of classes. *)
Record Extracted : Type := mkExtracted {
  common_terms : Dict.t nat;
  functions : list string;
  classes : list string
}.

(** [suggest_follow_up_queries], once the regular expressions have run. *)
Definition suggest (found : Extracted) (results : list SearchResult)
                   (original_query : string) : list string :=
  let original_terms := PySet.of_list (PyStr.split (PyStr.lower original_query)) in
  let new_terms :=
    map fst (filter (fun item => negb (PySet.mem (fst item) original_terms)
                                 && (3 <=? snd item)%nat)
                    found.(common_terms)) in
  let file_counter := Counter (map source results) in
  let top_files := map fst (most_common 3 file_counter) in
  let s1 := match new_terms with
            | [] => []
            | _ :: _ => [("Explore related concepts: "
                          ++ PyStr.join ", " (firstn 5 new_terms))%string]
            end in
  let s2 := match top_files with
            | [] => s1
            | _ :: _ => s1 ++ [("Deep dive into specific files: "
                                ++ PyStr.join ", " top_files)%string]
            end in
  let s3 := match found.(functions) with
            | [] => s2
            | _ :: _ => s2 ++ ["Analyze function implementations and relationships"]
            end in
  let s4 := match found.(classes) with
            | [] => s3
            | _ :: _ => s3 ++ ["Explore class hierarchies and inheritance patterns"]
            end in
  firstn 5 s4.

Definition suggest_follow_up_queries (extract : list SearchResult -> Extracted)
                                     (results : list SearchResult)
                                     (original_query : string) : list string :=
  suggest (extract results) results original_query.

End ContentAnalyzer.

(** The results that contain two keywords of a theme at least. *)
Definition on_theme (keywords : list string) (results : list SearchResult)
  : list SearchResult :=
  filter (fun r => (2 <=? ContentAnalyzer.keyword_matches keywords
                            (PyStr.lower r.(content)))%nat)
         results.

(** The first result of [l] that comes from [key]. *)
Definition first_from (key : string) (l : list SearchResult) : option SearchResult :=
  find (fun r => r.(source) =? key) l.

(** * Properties *)

(** ** Comparisons on floats *)

Lemma Rltb_true (x y : R) : PyList.Rltb x y = true <-> x < y.
Proof. unfold PyList.Rltb; destruct (Rlt_dec x y); split; intros; (assumption || discriminate || lra || reflexivity). Qed.

Lemma Rltb_false (x y : R) : PyList.Rltb x y = false <-> y <= x.
Proof. unfold PyList.Rltb; destruct (Rlt_dec x y); split; intros; (discriminate || lra || reflexivity). Qed.

Lemma Rgeb_true (x y : R) : Rgeb x y = true <-> y <= x.
Proof. unfold Rgeb; destruct (Rge_dec x y); split; intros; (discriminate || lra || reflexivity). Qed.

Lemma Rgeb_false (x y : R) : Rgeb x y = false <-> x < y.
Proof. unfold Rgeb; destruct (Rge_dec x y); split; intros; (discriminate || lra || reflexivity). Qed.

Lemma py_div_Ok (x y : R) : y <> 0 -> py_div x y = Ok (x / y).
Proof.
  intros H. unfold py_div. destruct (Req_dec_T y 0); [contradiction | reflexivity].
Qed.

Lemma py_log_Ok (x : R) : 0 < x -> py_log x = Ok (ln x).
Proof.
  intros H. unfold py_log. destruct (Rlt_dec 0 x); [reflexivity | contradiction].
Qed.

Lemma ln_neg (x : R) : 0 < x < 1 -> ln x < 0.
Proof. intros [H0 H1]. rewrite <- ln_1. apply ln_increasing; assumption. Qed.

Lemma ln_pos (x : R) : 1 < x -> 0 < ln x.
Proof. intros H. rewrite <- ln_1. apply ln_increasing; lra. Qed.

Lemma sum_from (l : list R) (a : R) : fold_left Rplus l a = a + PyList.sum l.
Proof.
  unfold PyList.sum. revert a. induction l as [|x l IH]; intros a; simpl.
  - lra.
  - rewrite IH, (IH (0 + x)). lra.
Qed.

Lemma sum_cons (x : R) (l : list R) : PyList.sum (x :: l) = x + PyList.sum l.
Proof. unfold PyList.sum at 1. simpl. rewrite sum_from. lra. Qed.

Lemma sum_nonneg (l : list R) : Forall (fun x => 0 <= x) l -> 0 <= PyList.sum l.
Proof.
  induction 1 as [|x l Hx _ IH]; [unfold PyList.sum; simpl; lra|].
  rewrite sum_cons. lra.
Qed.

(** ** The stable descending sort *)

Section SortedDesc.

Context {A : Type}.

Variable key : A -> R.

Lemma insert_desc_perm (x : A) (l : list A) :
  Permutation (PyList.insert_desc key x l) (x :: l).
Proof.
  induction l as [|y l IH]; simpl.
  - apply Permutation_refl.
  - destruct (PyList.Rltb (key x) (key y)).
    + eapply perm_trans; [apply perm_skip, IH | apply perm_swap].
    + apply Permutation_refl.
Qed.

Lemma sorted_desc_perm (l : list A) : Permutation (PyList.sorted_desc key l) l.
Proof.
  induction l as [|x l IH]; simpl.
  - apply perm_nil.
  - eapply perm_trans; [apply insert_desc_perm | apply perm_skip, IH].
Qed.

Lemma sorted_desc_length (l : list A) :
  List.length (PyList.sorted_desc key l) = List.length l.
Proof. apply Permutation_length, sorted_desc_perm. Qed.

Lemma insert_desc_sorted (x : A) (l : list A) :
  StronglySorted (desc key) l -> StronglySorted (desc key) (PyList.insert_desc key x l).
Proof.
  induction 1 as [|y l Hs IH Hy]; simpl.
  - constructor; constructor.
  - destruct (PyList.Rltb (key x) (key y)) eqn:E.
    + apply Rltb_true in E. constructor; [exact IH|].
      rewrite Forall_forall in *. intros z Hz.
      apply (Permutation_in _ (insert_desc_perm x l)) in Hz.
      destruct Hz as [<-|Hz]; [unfold desc; lra | auto].
    + apply Rltb_false in E. constructor; [constructor; assumption|].
      constructor; [exact E|].
      rewrite Forall_forall in *. intros z Hz. specialize (Hy z Hz).
      unfold desc in *. lra.
Qed.

Lemma sorted_desc_sorted (l : list A) : StronglySorted (desc key) (PyList.sorted_desc key l).
Proof.
  induction l as [|x l IH]; simpl; [constructor | apply insert_desc_sorted, IH].
Qed.

Lemma insert_desc_stable (c : R) (x : A) (l : list A) :
  filter (has_key key c) (PyList.insert_desc key x l) = filter (has_key key c) (x :: l).
Proof.
  induction l as [|y l IH]; [reflexivity|].
  cbn [PyList.insert_desc]. destruct (PyList.Rltb (key x) (key y)) eqn:E; [|reflexivity].
  apply Rltb_true in E. cbn [filter] in *. rewrite IH. unfold has_key.
  destruct (Req_dec_T (key x) c), (Req_dec_T (key y) c); try reflexivity. lra.
Qed.

Lemma sorted_desc_stable (c : R) (l : list A) :
  filter (has_key key c) (PyList.sorted_desc key l) = filter (has_key key c) l.
Proof.
  induction l as [|x l IH]; [reflexivity|].
  change (PyList.sorted_desc key (x :: l))
    with (PyList.insert_desc key x (PyList.sorted_desc key l)).
  rewrite insert_desc_stable. cbn [filter]. rewrite IH. reflexivity.
Qed.

End SortedDesc.

(** ** Order of appearance in a list *)

Lemma precedes_firstn {A : Type} (n : nat) (x y : A) (l : list A) :
  precedes x y (firstn n l) -> precedes x y l.
Proof.
  intros (l1 & l2 & l3 & H). exists l1, l2, (l3 ++ skipn n l).
  rewrite <- (firstn_skipn n l) at 1. rewrite H.
  repeat (rewrite <- app_assoc; cbn [app]). reflexivity.
Qed.

Lemma precedes_filter {A : Type} (p : A -> bool) (x y : A) (l : list A) :
  precedes x y l -> p x = true -> p y = true -> precedes x y (filter p l).
Proof.
  intros (l1 & l2 & l3 & ->) Hx Hy.
  exists (filter p l1), (filter p l2), (filter p l3).
  rewrite filter_app. cbn [filter]. rewrite Hx, filter_app. cbn [filter].
  rewrite Hy. reflexivity.
Qed.

Lemma filter_eq_app {A : Type} (p : A -> bool) (l a b : list A) :
  filter p l = a ++ b ->
  exists la lb, l = la ++ lb /\ filter p la = a /\ filter p lb = b.
Proof.
  revert a. induction l as [|z l IH]; intros a H.
  - cbn in H. symmetry in H. apply app_eq_nil in H. destruct H as [-> ->].
    exists [], []. repeat split.
  - cbn [filter] in H. destruct (p z) eqn:Ez.
    + destruct a as [|a0 a].
      * exists [], (z :: l). cbn [filter app]. rewrite Ez. repeat split. exact H.
      * cbn in H. injection H as <- H.
        destruct (IH a H) as (la & lb & -> & Ha & Hb).
        exists (z :: la), lb. cbn [filter app]. rewrite Ez, Ha. repeat split. exact Hb.
    + destruct (IH a H) as (la & lb & -> & Ha & Hb).
      exists (z :: la), lb. cbn [filter app]. rewrite Ez. repeat split; assumption.
Qed.

Lemma filter_eq_cons {A : Type} (p : A -> bool) (l b : list A) (x : A) :
  filter p l = x :: b ->
  exists la lb, l = la ++ x :: lb /\ filter p lb = b.
Proof.
  induction l as [|z l IH]; [discriminate|]. cbn [filter]. destruct (p z) eqn:Ez.
  - intros H. injection H as -> H. exists [], l. split; [reflexivity | exact H].
  - intros H. destruct (IH H) as (la & lb & -> & Hb).
    exists (z :: la), lb. split; [reflexivity | exact Hb].
Qed.

Lemma precedes_of_filter {A : Type} (p : A -> bool) (x y : A) (l : list A) :
  precedes x y (filter p l) -> precedes x y l.
Proof.
  intros (l1 & l2 & l3 & H).
  destruct (filter_eq_app p l _ _ H) as (la & lb & -> & _ & Hb).
  destruct (filter_eq_cons p lb _ x Hb) as (lb1 & lb2 & -> & Hb2).
  destruct (filter_eq_app p lb2 _ _ Hb2) as (lc & ld & -> & _ & Hd).
  destruct (filter_eq_cons p ld _ y Hd) as (ld1 & ld2 & -> & _).
  exists (la ++ lb1), (lc ++ ld1), ld2.
  repeat (rewrite <- app_assoc; cbn [app]). reflexivity.
Qed.

Lemma precedes_map {A B : Type} (f : A -> B) (x y : A) (l : list A) :
  precedes x y l -> precedes (f x) (f y) (map f l).
Proof.
  intros (l1 & l2 & l3 & ->). exists (map f l1), (map f l2), (map f l3).
  rewrite map_app. cbn [map]. rewrite map_app. reflexivity.
Qed.

Lemma precedes_of_map {A B : Type} (f : A -> B) (a b : B) (l : list A) :
  precedes a b (map f l) ->
  exists x y, f x = a /\ f y = b /\ precedes x y l.
Proof.
  intros (l1 & l2 & l3 & H).
  apply map_eq_app in H. destruct H as (m1 & m2 & -> & <- & H).
  destruct m2 as [|x m2]; [discriminate|]. cbn in H. injection H as <- H.
  apply map_eq_app in H. destruct H as (m3 & m4 & -> & <- & H).
  destruct m4 as [|y m4]; [discriminate|]. cbn in H. injection H as <- <-.
  exists x, y. repeat split. exists m1, m3, m4. reflexivity.
Qed.

(** ** Dictionaries and sets *)

Section DictFacts.

Context {V : Type}.

Implicit Types (d : Dict.t V) (k : string) (v : V).

Lemma get_set_same d k v : Dict.get (Dict.set d k v) k = Some v.
Proof.
  induction d as [|[k' v'] d IH]; simpl.
  - rewrite String.eqb_refl. reflexivity.
  - destruct (k =? k') eqn:E; simpl; rewrite E; [reflexivity | exact IH].
Qed.

Lemma get_set_other d k v k' : k' <> k -> Dict.get (Dict.set d k v) k' = Dict.get d k'.
Proof.
  intros Hne. induction d as [|[k0 v0] d IH]; simpl.
  - apply String.eqb_neq in Hne. rewrite Hne. reflexivity.
  - destruct (k =? k0) eqn:E; simpl.
    + apply String.eqb_eq in E. subst k0.
      apply String.eqb_neq in Hne. rewrite Hne. reflexivity.
    + rewrite IH. reflexivity.
Qed.

Lemma get_set d k v k' :
  Dict.get (Dict.set d k v) k' = if k' =? k then Some v else Dict.get d k'.
Proof.
  destruct (k' =? k) eqn:E.
  - apply String.eqb_eq in E. subst. apply get_set_same.
  - apply String.eqb_neq in E. apply get_set_other, E.
Qed.

Lemma get_In d k v : Dict.get d k = Some v -> In (k, v) d.
Proof.
  induction d as [|[k' v'] d IH]; simpl; [discriminate|].
  destruct (k =? k') eqn:E.
  - apply String.eqb_eq in E. intros H. injection H as <-. subst. left. reflexivity.
  - intros H. right. apply IH, H.
Qed.

Lemma get_None d k : Dict.get d k = None <-> ~ In k (Dict.keys d).
Proof.
  induction d as [|[k' v'] d IH]; simpl; [tauto|].
  destruct (k =? k') eqn:E.
  - apply String.eqb_eq in E. subst. split; [discriminate | intros H; exfalso; auto].
  - apply String.eqb_neq in E. rewrite IH. split; [intros H [H'|H']; auto | tauto].
Qed.

Lemma get_Some_key d k v : Dict.get d k = Some v -> In k (Dict.keys d).
Proof.
  intros H. apply get_In in H. unfold Dict.keys. apply in_map_iff.
  exists (k, v). split; [reflexivity | exact H].
Qed.

Lemma In_get d k v : NoDup (Dict.keys d) -> In (k, v) d -> Dict.get d k = Some v.
Proof.
  induction d as [|[k' v'] d IH]; simpl; [tauto|].
  intros Hnd [Heq | Hin].
  - injection Heq as -> ->. rewrite String.eqb_refl. reflexivity.
  - inversion Hnd as [|? ? Hnotin Hnd']; subst.
    destruct (k =? k') eqn:E; [|apply IH; assumption].
    apply String.eqb_eq in E. subst. exfalso. apply Hnotin.
    unfold Dict.keys. apply in_map_iff. exists (k', v). auto.
Qed.

Lemma keys_set d k v : Dict.keys (Dict.set d k v) = PySet.add (Dict.keys d) k.
Proof.
  unfold PySet.add, PySet.mem. induction d as [|[k' v'] d IH]; simpl; [reflexivity|].
  destruct (k =? k') eqn:E; simpl; [reflexivity|].
  rewrite IH. destruct (existsb (String.eqb k) (Dict.keys d)); reflexivity.
Qed.

End DictFacts.

Lemma set_mem_In (x : string) (s : list string) : PySet.mem x s = true <-> In x s.
Proof.
  unfold PySet.mem. rewrite existsb_exists. split.
  - intros [y [Hy E]]. apply String.eqb_eq in E. subst. exact Hy.
  - intros H. exists x. split; [exact H | apply String.eqb_refl].
Qed.

Lemma set_add_In (s : list string) (x y : string) :
  In y (PySet.add s x) <-> In y s \/ y = x.
Proof.
  unfold PySet.add. destruct (PySet.mem x s) eqn:E.
  - apply set_mem_In in E. split; [auto | intros [H | ->]; assumption].
  - rewrite in_app_iff. simpl. intuition.
Qed.

Lemma set_add_NoDup (s : list string) (x : string) : NoDup s -> NoDup (PySet.add s x).
Proof.
  intros Hnd. unfold PySet.add. destruct (PySet.mem x s) eqn:E; [exact Hnd|].
  assert (Hx : ~ In x s) by (intros H; apply set_mem_In in H; congruence).
  clear E. induction s as [|y s IH]; simpl.
  - constructor; [intros [] | constructor].
  - inversion Hnd as [|? ? Hy Hnd']; subst. constructor.
    + rewrite in_app_iff. simpl. intros [H | [H | []]]; [auto | subst; apply Hx; left; reflexivity].
    + apply IH; [exact Hnd' | intros H; apply Hx; right; exact H].
Qed.

Lemma set_update_In (l s : list string) (y : string) :
  In y (PySet.update s l) <-> In y s \/ In y l.
Proof.
  unfold PySet.update. revert s. induction l as [|x l IH]; intros s; simpl; [tauto|].
  rewrite IH, set_add_In. intuition.
Qed.

Lemma set_update_NoDup (l s : list string) : NoDup s -> NoDup (PySet.update s l).
Proof.
  unfold PySet.update. revert s. induction l as [|x l IH]; intros s Hnd; simpl;
    [exact Hnd | apply IH, set_add_NoDup, Hnd].
Qed.

Lemma keys_set_NoDup {V} (d : Dict.t V) (k : string) (v : V) :
  NoDup (Dict.keys d) -> NoDup (Dict.keys (Dict.set d k v)).
Proof. intros H. rewrite keys_set. apply set_add_NoDup, H. Qed.

Lemma Counter_keys (words : list string) (w : string) (n : nat) :
  Dict.get (Counter words) w = Some n -> In w words.
Proof.
  unfold Counter.
  assert (Hgen : forall c, Dict.get (fold_left
                   (fun c w => Dict.set c w (match Dict.get c w with
                                             | Some n => S n | None => 1%nat end))
                   words c) w = Some n ->
                 In w words \/ Dict.get c w <> None).
  { induction words as [|x words IH]; intros c H; simpl in *.
    - right. congruence.
    - destruct (IH _ H) as [Hin | Hc]; [auto|].
      rewrite get_set in Hc. destruct (w =? x) eqn:E.
      + apply String.eqb_eq in E. auto.
      + right. exact Hc. }
  intros H. destruct (Hgen [] H) as [Hin | Hc]; [exact Hin | simpl in Hc; congruence].
Qed.

Lemma Counter_NoDup (words : list string) : NoDup (Dict.keys (Counter words)).
Proof.
  unfold Counter.
  assert (Hgen : forall c : Dict.t nat, NoDup (Dict.keys c) ->
            NoDup (Dict.keys (fold_left
                   (fun c w => Dict.set c w (match Dict.get c w with
                                             | Some n => S n | None => 1%nat end))
                   words c))).
  { induction words as [|x words IH]; intros c Hc; simpl; [exact Hc|].
    apply IH, keys_set_NoDup, Hc. }
  apply Hgen. constructor.
Qed.

(** ** Loops *)

Lemma fold_left_invariant {A S : Type} (P : S -> Prop) (f : S -> A -> S)
                          (l : list A) (s : S) :
  P s -> (forall s x, In x l -> P s -> P (f s x)) -> P (fold_left f l s).
Proof.
  revert s. induction l as [|x l IH]; intros s Hs Hstep; simpl; [exact Hs|].
  apply IH.
  - apply Hstep; [left; reflexivity | exact Hs].
  - intros s' y Hy. apply Hstep. right. exact Hy.
Qed.

Lemma foldM_invariant {A S : Type} (P : S -> Prop) (f : S -> A -> Py S)
                      (l : list A) (s s' : S) :
  P s -> (forall s x s', In x l -> P s -> f s x = Ok s' -> P s') ->
  foldM f l s = Ok s' -> P s'.
Proof.
  revert s. induction l as [|x l IH]; intros s Hs Hstep H; simpl in H.
  - injection H as <-. exact Hs.
  - destruct (f s x) as [s1|e] eqn:E; simpl in H; [|discriminate].
    apply (IH s1); [|intros; eapply Hstep; eauto; right; assumption | exact H].
    eapply Hstep; [left; reflexivity | exact Hs | exact E].
Qed.

Lemma mapM_Ok {A B : Type} (f : A -> Py B) (l : list A) (ys : list B) :
  mapM f l = Ok ys -> Forall2 (fun x y => f x = Ok y) l ys.
Proof.
  revert ys. induction l as [|x l IH]; intros ys H; simpl in H.
  - injection H as <-. constructor.
  - destruct (f x) as [y|e] eqn:E; simpl in H; [|discriminate].
    destruct (mapM f l) as [ys'|e]; simpl in H; [|discriminate].
    injection H as <-. constructor; [exact E | apply IH; reflexivity].
Qed.

Lemma fold_left_split_invariant {A S : Type} (P : list A -> S -> Prop)
                                (f : S -> A -> S) (l : list A) (s : S) :
  P [] s ->
  (forall pre x post s, l = pre ++ x :: post -> P pre s -> P (pre ++ [x]) (f s x)) ->
  P l (fold_left f l s).
Proof.
  intros Hinit Hstep.
  assert (Hgen : forall post pre s, l = pre ++ post -> P pre s ->
                                    P l (fold_left f post s)).
  { induction post as [|x post IH]; intros pre s' Hl Hp.
    - rewrite app_nil_r in Hl. subst. exact Hp.
    - cbn [fold_left]. apply (IH (pre ++ [x])).
      + rewrite <- app_assoc. exact Hl.
      + eapply Hstep; eassumption. }
  apply (Hgen l []); [reflexivity | exact Hinit].
Qed.

Lemma foldM_total {A S : Type} (P : S -> Prop) (f : S -> A -> Py S)
                  (l : list A) (s : S) :
  P s ->
  (forall s x, In x l -> P s -> exists s', f s x = Ok s' /\ P s') ->
  exists s', foldM f l s = Ok s' /\ P s'.
Proof.
  revert s. induction l as [|x l IH]; intros s Hs Hstep; cbn [foldM].
  - exists s. split; [reflexivity | exact Hs].
  - destruct (Hstep s x (or_introl eq_refl) Hs) as (s1 & Hf & Hs1).
    rewrite Hf. cbn [bind]. apply IH; [exact Hs1|].
    intros s' y Hy. apply Hstep. right. exact Hy.
Qed.

Lemma mapM_total {A B : Type} (f : A -> Py B) (l : list A) :
  (forall x, In x l -> exists y, f x = Ok y) -> exists ys, mapM f l = Ok ys.
Proof.
  induction l as [|x l IH]; intros H; cbn [mapM]; [exists []; reflexivity|].
  destruct (H x (or_introl eq_refl)) as [y Hy]. rewrite Hy. cbn [bind].
  destruct IH as [ys Hys]; [intros z Hz; apply H; right; exact Hz|].
  rewrite Hys. cbn [bind]. eexists. reflexivity.
Qed.

Lemma mapM_const {A B : Type} (f : A -> Py B) (c : B) (l : list A) :
  (forall x, In x l -> f x = Ok c) -> mapM f l = Ok (map (fun _ => c) l).
Proof.
  induction l as [|x l IH]; intros H; [reflexivity|].
  cbn [mapM map]. rewrite (H x) by (left; reflexivity). cbn [bind].
  rewrite IH by (intros y Hy; apply H; right; exact Hy). reflexivity.
Qed.

Lemma In_firstn {A : Type} (n : nat) (l : list A) (x : A) :
  In x (firstn n l) -> In x l.
Proof.
  intros H. rewrite <- (firstn_skipn n l). apply in_or_app. left. exact H.
Qed.

Lemma Forall2_In_right {A B : Type} (P : A -> B -> Prop) (l : list A) (l' : list B)
                       (y : B) :
  Forall2 P l l' -> In y l' -> exists x, In x l /\ P x y.
Proof.
  induction 1 as [|x y' l l' Hxy _ IH]; intros Hin; [destruct Hin|].
  destruct Hin as [<- | Hin].
  - exists x. split; [left; reflexivity | exact Hxy].
  - destruct (IH Hin) as (x' & Hx' & Hp). exists x'. split; [right|]; assumption.
Qed.

Lemma StronglySorted_firstn {A : Type} (R : A -> A -> Prop) (n : nat) (l : list A) :
  StronglySorted R l -> StronglySorted R (firstn n l).
Proof.
  revert n. induction l as [|x l IH]; intros [|n] H; cbn; try constructor.
  - apply IH. inversion H; assumption.
  - inversion H as [|? ? _ Hall]; subst. rewrite Forall_forall in *.
    intros y Hy. apply Hall. eapply In_firstn, Hy.
Qed.

Lemma StronglySorted_map {A B : Type} (R : A -> A -> Prop) (S : B -> B -> Prop)
                         (f : A -> B) (l : list A) :
  (forall x y, R x y -> S (f x) (f y)) ->
  StronglySorted R l -> StronglySorted S (map f l).
Proof.
  intros Hmono. induction 1 as [|x l _ IH Hall]; cbn; constructor; [exact IH|].
  rewrite Forall_forall in *. intros y Hy. apply in_map_iff in Hy.
  destruct Hy as (z & <- & Hz). apply Hmono, Hall, Hz.
Qed.

(** ** The BM25 index *)

Section BM25Index.

Variable ws : Workspace.

Variables k1 b : R.

Variable file_paths : list string.

Let t : BM25.tool := BM25.index_documents (BM25.init ws k1 b) file_paths.

Lemma read_documents_invariant :
  forall acc,
    documents_read ws (fst (fst (fst acc))) ->
    documents_read ws (fst (fst (fst (fold_left (BM25.read_document ws) file_paths acc)))).
Proof.
  intros acc Hacc.
  apply (fold_left_invariant (fun acc => documents_read ws (fst (fst (fst acc)))));
    [exact Hacc|].
  intros [[[docs lengths] vocab] total] file_path _ [Hnd Hread].
  unfold BM25.read_document. destruct (read_nonempty ws file_path) as [text|] eqn:E;
    cbn [fst]; [|split; assumption].
  split; [apply keys_set_NoDup, Hnd|].
  intros doc_id tokens. rewrite get_set. destruct (doc_id =? file_path) eqn:Ek.
  - apply String.eqb_eq in Ek. subst. intros H. injection H as <-. eauto.
  - apply Hread.
Qed.

Lemma add_document_sound (docs : Dict.t (list string)) (doc : string * list string)
                         (acc : Dict.t (Dict.t nat) * Dict.t nat) :
  In doc docs -> postings_sound docs (fst acc) ->
  postings_sound docs (fst (BM25.add_document acc doc)).
Proof.
  intros Hdoc Hacc. unfold BM25.add_document.
  apply (fold_left_invariant (fun acc => postings_sound docs (fst acc))); [exact Hacc|].
  intros [tfs dfs] [term freq] Hentry Hs. cbn [BM25.add_posting fst] in Hs |- *.
  intros term' doc_id freq'. rewrite get_set. destruct (term' =? term) eqn:Et.
  - apply String.eqb_eq in Et. subst term'. rewrite get_set.
    destruct (doc_id =? fst doc) eqn:Ed.
    + apply String.eqb_eq in Ed. subst doc_id. intros _.
      exists (snd doc). split; [destruct doc; exact Hdoc|].
      apply (Counter_keys _ _ freq), In_get; [apply Counter_NoDup | exact Hentry].
    + intros H. apply (Hs term doc_id freq').
      destruct (Dict.get tfs term); [exact H | discriminate].
  - apply Hs.
Qed.

Lemma index_documents_read : documents_read ws t.(BM25.documents).
Proof.
  apply (read_documents_invariant ([], [], [], 0%nat)).
  split; [constructor | discriminate].
Qed.

(** A posting of the index names a document that holds the term. *)
Lemma term_hit_sound (doc_id term : string) (freq : nat) :
  BM25.term_hit t doc_id term = Some freq ->
  exists tokens, Dict.get t.(BM25.documents) doc_id = Some tokens /\ In term tokens.
Proof.
  assert (Hs : postings_sound t.(BM25.documents) t.(BM25.term_frequencies)).
  { apply (fold_left_invariant (fun acc => postings_sound t.(BM25.documents) (fst acc))).
    - intros term' doc' freq'. discriminate.
    - intros acc doc Hdoc Hacc. apply add_document_sound; assumption. }
  unfold BM25.term_hit. intros H.
  destruct (Hs term doc_id freq H) as (tokens & Hin & Hterm).
  exists tokens. split; [|exact Hterm].
  apply In_get; [apply index_documents_read | exact Hin].
Qed.

Lemma index_documents_workspace : t.(BM25.workspace) = ws.
Proof. reflexivity. Qed.

End BM25Index.

(** ** BM25 search *)

Lemma score_terms_no_hit (t : BM25.tool) (doc_id : string) (query_terms : list string)
                         (score : R) :
  (forall term, In term query_terms -> BM25.term_hit t doc_id term = None) ->
  BM25.score_terms t doc_id query_terms score = Ok score.
Proof.
  induction query_terms as [|term rest IH]; intros Hnone; simpl; [reflexivity|].
  rewrite (Hnone term) by (left; reflexivity).
  apply IH. intros term' H. apply Hnone. right. exact H.
Qed.

Lemma score_documents_In (t : BM25.tool) (query_terms doc_ids : list string)
                         (doc_scores : list (string * R)) :
  BM25.score_documents t query_terms doc_ids = Ok doc_scores ->
  forall doc_id score,
    In (doc_id, score) doc_scores ->
    In doc_id doc_ids
    /\ BM25.score_terms t doc_id query_terms 0.0 = Ok score
    /\ 0 < score.
Proof.
  revert doc_scores. induction doc_ids as [|d rest IH]; intros doc_scores H; simpl in H.
  - injection H as <-. intros ? ? [].
  - destruct (BM25.score_terms t d query_terms 0.0) as [s|e] eqn:Es; simpl in H;
      [|discriminate].
    destruct (BM25.score_documents t query_terms rest) as [ds|e]; simpl in H;
      [|discriminate].
    injection H as <-. intros doc_id score Hin.
    assert (Hrest : In (doc_id, score) ds ->
                    In doc_id (d :: rest)
                    /\ BM25.score_terms t doc_id query_terms 0.0 = Ok score /\ 0 < score).
    { intros Hds. destruct (IH ds eq_refl doc_id score Hds) as (? & ? & ?).
      repeat split; [right|..]; assumption. }
    destruct (PyList.Rltb 0 s) eqn:Ep; [|auto].
    destruct Hin as [Heq | Hin]; [|auto].
    injection Heq as <- <-. apply Rltb_true in Ep.
    repeat split; [left; reflexivity | exact Es | exact Ep].
Qed.

Lemma score_documents_order (t : BM25.tool) (query_terms doc_ids : list string)
                            (doc_scores : list (string * R)) :
  BM25.score_documents t query_terms doc_ids = Ok doc_scores ->
  map fst doc_scores = filter (scores_positive t query_terms) doc_ids.
Proof.
  revert doc_scores. induction doc_ids as [|d rest IH]; intros doc_scores H; simpl in H.
  - injection H as <-. reflexivity.
  - cbn [filter]. unfold scores_positive at 1.
    destruct (BM25.score_terms t d query_terms 0.0) as [s|e] eqn:Es; simpl in H;
      [|discriminate].
    destruct (BM25.score_documents t query_terms rest) as [ds|e]; simpl in H;
      [|discriminate].
    injection H as <-. destruct (PyList.Rltb 0 s); cbn [map fst];
      rewrite (IH ds eq_refl); reflexivity.
Qed.

Lemma bm25_search_cases (t : BM25.tool) (q : string) (top_k : nat)
                        (rs : list SearchResult) :
  BM25.search t q top_k = Ok rs ->
  exists doc_scores,
    BM25.score_documents t (_tokenize q) (Dict.keys t.(BM25.documents)) = Ok doc_scores
    /\ rs = flat_map (BM25.make_result t q (_tokenize q))
                     (firstn top_k (PyList.sorted_desc snd doc_scores)).
Proof.
  unfold BM25.search. destruct t.(BM25.documents) as [|doc docs] eqn:E.
  - intros H. injection H as <-. exists []. split; [reflexivity|].
    destruct top_k; reflexivity.
  - destruct (BM25.score_documents _ _ _) as [ds|e]; simpl; [|discriminate].
    intros H. injection H as <-. exists ds. split; reflexivity.
Qed.

(** Every result of a BM25 search stands for a document of the index whose
    sum over the query terms is positive. *)
Lemma bm25_search_result (t : BM25.tool) (q : string) (top_k : nat)
                         (rs : list SearchResult) (r : SearchResult) :
  BM25.search t q top_k = Ok rs -> In r rs ->
  exists score,
    In r.(source) (Dict.keys t.(BM25.documents))
    /\ BM25.score_terms t r.(source) (_tokenize q) 0.0 = Ok score
    /\ 0 < score
    /\ r.(relevance_score) = Rmin (score / 10.0) 1.0.
Proof.
  intros Hs Hr. destruct (bm25_search_cases t q top_k rs Hs) as (ds & Hds & ->).
  apply in_flat_map in Hr. destruct Hr as ([doc_id score] & Hin & Hr).
  apply In_firstn in Hin.
  apply (Permutation_in _ (sorted_desc_perm snd ds)) in Hin.
  destruct (score_documents_In _ _ _ _ Hds doc_id score Hin) as (Hid & Hscore & Hpos).
  unfold BM25.make_result in Hr.
  destruct (read_nonempty _ doc_id); [|destruct Hr].
  destruct Hr as [<- | []]. exists score. cbn. auto.
Qed.

Lemma Rmin_scaled_range (score : R) : 0 < score -> 0 < Rmin (score / 10.0) 1.0 <= 1.
Proof.
  intros H. split; [apply Rmin_glb_lt; lra | eapply Rle_trans; [apply Rmin_r | lra]].
Qed.

(** ** Ranking of a BM25 search *)

Lemma Rmin_scaled_mono (s1 s2 : R) :
  s2 <= s1 -> Rmin (s2 / 10.0) 1.0 <= Rmin (s1 / 10.0) 1.0.
Proof.
  intros H. apply Rmin_glb; [|apply Rmin_r].
  eapply Rle_trans; [apply Rmin_l | lra].
Qed.

Section BM25Ranking.

Variable ws : Workspace.

Variables k1 b : R.

Variable file_paths : list string.

Let t : BM25.tool := BM25.index_documents (BM25.init ws k1 b) file_paths.

Lemma read_documents_keys (acc : Dict.t (list string) * Dict.t nat * list string * nat) :
  Dict.keys (fst (fst (fst (fold_left (BM25.read_document ws) file_paths acc))))
  = PySet.update (Dict.keys (fst (fst (fst acc)))) (filter (readable ws) file_paths).
Proof.
  revert acc. induction file_paths as [|p paths IH]; intros acc; [reflexivity|].
  cbn [fold_left filter]. rewrite IH. unfold readable at 2.
  destruct acc as [[[docs lengths] vocab] total]. unfold BM25.read_document.
  destruct (read_nonempty ws p); cbn [fst]; [|reflexivity].
  rewrite keys_set. reflexivity.
Qed.

(** The documents of the index, in indexing order: the readable, non-empty
    files in the order in which [file_paths] first names them. *)
Lemma index_documents_keys :
  Dict.keys t.(BM25.documents) = PySet.of_list (filter (readable ws) file_paths).
Proof. apply (read_documents_keys ([], [], [], 0%nat)). Qed.

Lemma indexed_readable (doc_id : string) :
  In doc_id (Dict.keys t.(BM25.documents)) ->
  exists text, read_nonempty ws doc_id = Some text.
Proof.
  intros Hin. destruct (Dict.get t.(BM25.documents) doc_id) as [tokens|] eqn:E.
  - destruct (index_documents_read ws k1 b file_paths) as [_ Hread].
    destruct (Hread doc_id tokens E) as (text & Ht & _). eauto.
  - apply get_None in E. contradiction.
Qed.

Lemma make_results_all (q : string) (entries : list (string * R)) :
  (forall entry, In entry entries -> In (fst entry) (Dict.keys t.(BM25.documents))) ->
  flat_map (BM25.make_result t q (_tokenize q)) entries = map (result_of t q) entries.
Proof.
  induction entries as [|[doc_id score] entries IH]; intros Hall; [reflexivity|].
  cbn [flat_map map]. rewrite IH by (intros e He; apply Hall; right; exact He).
  unfold BM25.make_result, result_of. cbn [fst snd BM25.workspace t BM25.index_documents].
  destruct (indexed_readable doc_id (Hall (doc_id, score) (or_introl eq_refl)))
    as [text Ht].
  change (BM25.workspace (BM25.init ws k1 b)) with ws. rewrite Ht. reflexivity.
Qed.

Lemma bm25_search_ranked (q : string) (top_k : nat) (rs : list SearchResult) :
  BM25.search t q top_k = Ok rs ->
  exists doc_scores,
    BM25.score_documents t (_tokenize q) (Dict.keys t.(BM25.documents)) = Ok doc_scores
    /\ rs = map (result_of t q) (firstn top_k (PyList.sorted_desc snd doc_scores)).
Proof.
  intros Hs. destruct (bm25_search_cases t q top_k rs Hs) as (ds & Hds & ->).
  exists ds. split; [exact Hds|]. apply make_results_all.
  intros [doc_id score] Hin. apply In_firstn in Hin.
  apply (Permutation_in _ (sorted_desc_perm snd ds)) in Hin.
  apply (score_documents_In _ _ _ _ Hds doc_id score Hin).
Qed.

End BM25Ranking.

(** ** A BM25 search over a built index raises nothing *)

Lemma read_documents_lengths (ws : Workspace) (file_paths : list string) :
  lengths_recorded (fold_left (BM25.read_document ws) file_paths ([], [], [], 0%nat)).
Proof.
  apply (fold_left_invariant lengths_recorded).
  - intros doc_id tokens. discriminate.
  - intros [[[docs lengths] vocab] total] file_path _ Hacc.
    unfold BM25.read_document. destruct (read_nonempty ws file_path) as [text|];
      [|exact Hacc].
    intros doc_id tokens. rewrite !get_set. destruct (doc_id =? file_path).
    + intros H. injection H as <-. split; [reflexivity | lia].
    + intros H. destruct (Hacc doc_id tokens H). split; [assumption | lia].
Qed.

Lemma add_document_bounded (seen : nat) (acc : Dict.t (Dict.t nat) * Dict.t nat)
                           (doc : string * list string) :
  frequencies_bounded seen acc -> frequencies_bounded (S seen) (BM25.add_document acc doc).
Proof.
  intros [Hpresent Hbound]. unfold BM25.add_document.
  pose proof (Counter_NoDup (snd doc)) as Hnd.
  assert (Hinner :
    (fun (pre : list (string * nat)) (acc' : Dict.t (Dict.t nat) * Dict.t nat) =>
       (forall term postings, Dict.get (fst acc') term = Some postings ->
                              exists df, Dict.get (snd acc') term = Some df)
       /\ (forall term df, Dict.get (snd acc') term = Some df ->
             (df <= seen + (if PySet.mem term (Dict.keys pre) then 1 else 0))%nat))
      (Counter (snd doc)) (fold_left (BM25.add_posting (fst doc)) (Counter (snd doc)) acc)).
  { apply fold_left_split_invariant.
    - split; [exact Hpresent|]. intros term df H. specialize (Hbound term df H).
      cbn. lia.
    - intros pre [term freq] post [tfs dfs] Hsplit [Hp Hb]. cbn [fst snd] in *.
      assert (Hfresh : ~ In term (Dict.keys pre)).
      { rewrite Hsplit in Hnd. unfold Dict.keys in Hnd. rewrite map_app in Hnd.
        cbn [map fst] in Hnd. apply NoDup_remove_2 in Hnd.
        intros H. apply Hnd. apply in_or_app. left. exact H. }
      cbn [BM25.add_posting fst snd]. split.
      + intros term' postings. rewrite !get_set. destruct (term' =? term).
        * intros _. eexists. reflexivity.
        * apply Hp.
      + intros term' df. rewrite get_set. unfold Dict.keys. rewrite map_app.
        cbn [map fst]. destruct (term' =? term) eqn:Et.
        * apply String.eqb_eq in Et. subst term'. intros H. injection H as <-.
          assert (Hm : PySet.mem term (map fst pre ++ [term]) = true)
            by (apply set_mem_In, in_or_app; right; left; reflexivity).
          rewrite Hm.
          destruct (Dict.get dfs term) as [n|] eqn:Eg; [|lia].
          specialize (Hb term n Eg).
          assert (Hm' : PySet.mem term (Dict.keys pre) = false).
          { destruct (PySet.mem term (Dict.keys pre)) eqn:E; [|reflexivity].
            apply set_mem_In in E. contradiction. }
          rewrite Hm' in Hb. lia.
        * intros H. specialize (Hb term' df H).
          destruct (PySet.mem term' (Dict.keys pre)) eqn:E.
          -- assert (Hm : PySet.mem term' (map fst pre ++ [term]) = true).
             { apply set_mem_In, in_or_app. left. apply set_mem_In, E. }
             rewrite Hm. exact Hb.
          -- destruct (PySet.mem term' (map fst pre ++ [term])); lia. }
  destruct Hinner as [Hp Hb]. split; [exact Hp|].
  intros term df H. specialize (Hb term df H).
  destruct (PySet.mem term (Dict.keys (Counter (snd doc)))); lia.
Qed.

Section BM25Total.

Variable ws : Workspace.

Variable file_paths : list string.

Variables k1 b : R.

Hypothesis Hk1 : 0 < k1.

Hypothesis Hb : 0 <= b <= 1.

Let t : BM25.tool := BM25.index_documents (BM25.init ws k1 b) file_paths.

Lemma index_frequencies_bounded :
  frequencies_bounded (List.length t.(BM25.documents))
                      (t.(BM25.term_frequencies), t.(BM25.document_frequencies)).
Proof.
  assert (H : (fun (pre : list (string * list string)) acc =>
                 frequencies_bounded (List.length pre) acc)
              t.(BM25.documents)
              (fold_left BM25.add_document t.(BM25.documents) ([], []))).
  { apply fold_left_split_invariant.
    - split; intros term x; discriminate.
    - intros pre doc post acc _ Hacc. rewrite length_app. cbn [List.length].
      replace (List.length pre + 1)%nat with (S (List.length pre)) by lia.
      apply add_document_bounded, Hacc. }
  cbn beta in H. destruct H as [H1 H2]. split; [exact H1 | exact H2].
Qed.

Lemma index_lengths (doc_id : string) (tokens : list string) :
  Dict.get t.(BM25.documents) doc_id = Some tokens ->
  Dict.get t.(BM25.doc_lengths) doc_id = Some (List.length tokens)
  /\ ((1 <= List.length tokens)%nat -> 0 < t.(BM25.avg_doc_length)).
Proof.
  pose proof (read_documents_lengths ws file_paths) as Hlen.
  set (read := fold_left (BM25.read_document ws) file_paths ([], [], [], 0%nat)) in Hlen.
  change t.(BM25.documents) with (fst (fst (fst read))).
  change t.(BM25.doc_lengths) with (snd (fst (fst read))).
  change t.(BM25.avg_doc_length)
    with (match fst (fst (fst read)) with
          | [] => 0
          | _ :: _ => INR (snd read) / INR (List.length (fst (fst (fst read))))
          end).
  destruct read as [[[docs lengths] vocab] total]. cbn [fst snd].
  unfold lengths_recorded in Hlen. intros Hdoc.
  destruct (Hlen doc_id tokens Hdoc) as [Hget Htotal]. split; [exact Hget|].
  intros Htok. destruct docs as [|d0 docs']; [discriminate|].
  apply Rdiv_lt_0_compat; apply lt_0_INR; simpl; lia.
Qed.

Lemma score_terms_total (doc_id : string) (query_terms : list string) (score : R) :
  exists score', BM25.score_terms t doc_id query_terms score = Ok score'.
Proof.
  revert score. induction query_terms as [|term rest IH]; intros score; cbn [BM25.score_terms].
  - exists score. reflexivity.
  - destruct (BM25.term_hit t doc_id term) as [tf|] eqn:Eh; [|apply IH].
    destruct (term_hit_sound ws _ _ file_paths doc_id term tf Eh) as (tokens & Hdoc & Hterm).
    fold t in Hdoc.
    destruct index_frequencies_bounded as [Hpresent Hbound]. cbn [fst snd] in *.
    assert (Hdf : exists df, Dict.get t.(BM25.document_frequencies) term = Some df).
    { unfold BM25.term_hit in Eh.
      destruct (Dict.get t.(BM25.term_frequencies) term) as [postings|] eqn:Ep;
        [|discriminate]. eapply Hpresent, Ep. }
    destruct Hdf as [df Hdf]. specialize (Hbound term df Hdf).
    unfold Dict.getitem. rewrite Hdf. cbn [bind].
    pose proof (pos_INR df) as Hdf0.
    assert (Hle : INR df <= INR (List.length t.(BM25.documents))) by (apply le_INR, Hbound).
    rewrite py_div_Ok by lra. cbn [bind].
    rewrite py_log_Ok by (apply Rdiv_lt_0_compat; lra). cbn [bind].
    destruct (index_lengths doc_id tokens Hdoc) as [Hget Havg].
    rewrite Hget. cbn [bind].
    assert (Htok : (1 <= List.length tokens)%nat)
      by (destruct tokens; [destruct Hterm | simpl; lia]).
    specialize (Havg Htok).
    rewrite py_div_Ok by lra. cbn [bind].
    pose proof (pos_INR tf) as Htf. pose proof (pos_INR (List.length tokens)) as Hdl.
    assert (Hrel : 0 < INR (List.length tokens) / t.(BM25.avg_doc_length)).
    { apply Rdiv_lt_0_compat; [apply lt_0_INR; lia | exact Havg]. }
    rewrite py_div_Ok; [cbn [bind]; apply IH|].
    change t.(BM25.k1) with k1. change t.(BM25.b) with b.
    assert (Hfactor : 0 < 1 - b + b * (INR (List.length tokens) / t.(BM25.avg_doc_length)))
      by (destruct (Rle_lt_dec 1 b); nra).
    pose proof (Rmult_lt_0_compat _ _ Hk1 Hfactor). lra.
Qed.

Lemma score_documents_total (query_terms doc_ids : list string) :
  exists doc_scores, BM25.score_documents t query_terms doc_ids = Ok doc_scores.
Proof.
  induction doc_ids as [|doc_id rest [ds IH]]; [exists []; reflexivity|].
  cbn [BM25.score_documents].
  destruct (score_terms_total doc_id query_terms 0.0) as [score Hs].
  rewrite Hs, IH. cbn [bind]. eexists. reflexivity.
Qed.

(** For [0 < k1] and [0 <= b <= 1], a search over a built index returns. *)
Lemma bm25_search_total (q : string) (top_k : nat) :
  exists rs, BM25.search t q top_k = Ok rs.
Proof.
  unfold BM25.search. destruct t.(BM25.documents) as [|d docs] eqn:E;
    [exists []; reflexivity|]. rewrite <- E.
  destruct (score_documents_total (_tokenize q) (Dict.keys t.(BM25.documents)))
    as [ds Hds].
  rewrite Hds. cbn [bind]. eexists. reflexivity.
Qed.

End BM25Total.

Lemma bm25_search_range (t : BM25.tool) (q : string) (top_k : nat)
                        (rs : list SearchResult) :
  BM25.search t q top_k = Ok rs ->
  Forall (fun r => 0 < r.(relevance_score) <= 1
                   /\ exists raw, 0 < raw /\ r.(relevance_score) = Rmin (raw / 10.0) 1.0)
         rs.
Proof.
  intros Hs. apply Forall_forall. intros r Hr.
  destruct (bm25_search_result t q top_k rs r Hs Hr) as (score & _ & _ & Hpos & Hrel).
  split; [rewrite Hrel; apply Rmin_scaled_range, Hpos | exists score; auto].
Qed.

(** C1 (amended). For [0 < k1] and [0 <= b <= 1] (the defaults are 1.5 and
    0.75), a BM25 search over a freshly built index raises nothing and
    returns a result list. Every document it returns has a strictly positive
    score sum, a relevance score in (0, 1], and holds at least one query
    term; a document of the index that shares no term with the query is
    absent from the results. (A document that holds a query term may have a
    sum that is zero or negative: it is absent too.) *)
Theorem C1_bm25_returned_scores (ws : Workspace) (k1 b : R) (file_paths : list string)
                                (q : string) (top_k : nat) :
  let t := BM25.index_documents (BM25.init ws k1 b) file_paths in
  (0 < k1 -> 0 <= b <= 1 -> exists rs, BM25.search t q top_k = Ok rs)
  /\ forall rs,
       BM25.search t q top_k = Ok rs ->
       (forall r, In r rs ->
          exists score tokens term,
            BM25.score_terms t r.(source) (_tokenize q) 0.0 = Ok score
            /\ 0 < score
            /\ 0 < r.(relevance_score) <= 1
            /\ Dict.get t.(BM25.documents) r.(source) = Some tokens
            /\ In term (_tokenize q) /\ In term tokens)
       /\ (forall doc_id tokens,
             Dict.get t.(BM25.documents) doc_id = Some tokens ->
             (forall term, In term (_tokenize q) -> ~ In term tokens) ->
             ~ In doc_id (map source rs)).
Proof.
  intros t. split; [intros Hk1 Hb; apply bm25_search_total; assumption|].
  intros rs Hs. split.
  - intros r Hr.
    destruct (bm25_search_result t q top_k rs r Hs Hr) as (score & Hid & Hscore & Hpos & Hrel).
    assert (Hhit : exists term freq, In term (_tokenize q)
                                     /\ BM25.term_hit t r.(source) term = Some freq).
    { assert (Hdec : forall terms,
                (exists term freq, In term terms /\ BM25.term_hit t r.(source) term = Some freq)
                \/ (forall term, In term terms -> BM25.term_hit t r.(source) term = None)).
      { induction terms as [|x terms [(term & freq & Hin & Hh) | Hnone]].
        - right. intros ? [].
        - left. exists term, freq. split; [right|]; assumption.
        - destruct (BM25.term_hit t r.(source) x) as [freq|] eqn:Ex.
          + left. exists x, freq. split; [left; reflexivity | exact Ex].
          + right. intros term [<- | Hin]; auto. }
      destruct (Hdec (_tokenize q)) as [Hh | Hnone]; [exact Hh|].
      rewrite (score_terms_no_hit t _ _ _ Hnone) in Hscore.
      injection Hscore as <-. lra. }
    destruct Hhit as (term & freq & Hin & Hh).
    destruct (term_hit_sound ws k1 b file_paths _ _ _ Hh) as (tokens & Hget & Hterm).
    exists score, tokens, term. rewrite Hrel.
    repeat split; try assumption; apply Rmin_scaled_range, Hpos.
  - intros doc_id tokens Hget Hshare Hin. apply in_map_iff in Hin.
    destruct Hin as (r & <- & Hr).
    destruct (bm25_search_result t q top_k rs r Hs Hr) as (score & _ & Hscore & Hpos & _).
    rewrite score_terms_no_hit in Hscore; [injection Hscore as <-; lra|].
    intros term Hterm. destruct (BM25.term_hit t r.(source) term) as [freq|] eqn:Eh;
      [|reflexivity].
    destruct (term_hit_sound ws k1 b file_paths _ _ _ Eh) as (tokens' & Hget' & Hterm').
    fold t in Hget'. rewrite Hget in Hget'. injection Hget' as <-.
    destruct (Hshare term Hterm Hterm').
Qed.

(** C8 (amended). For [0 < k1] and [0 <= b <= 1], a BM25 search over a
    freshly built index returns a result list. The list holds at most
    [top_k] results, the first [top_k] of the positively scored documents
    arranged by descending score, so that relevance scores never increase
    along the list; two returned documents with equal scores appear in the
    order in which they were indexed, that is the order in which
    [file_paths] first names them (not the order of their ids). *)
Theorem C8_bm25_ranking (ws : Workspace) (k1 b : R) (file_paths : list string)
                        (q : string) (top_k : nat) :
  let t := BM25.index_documents (BM25.init ws k1 b) file_paths in
  (0 < k1 -> 0 <= b <= 1 -> exists rs, BM25.search t q top_k = Ok rs)
  /\ Dict.keys t.(BM25.documents) = PySet.of_list (filter (readable ws) file_paths)
  /\ forall rs,
       BM25.search t q top_k = Ok rs ->
       (List.length rs <= top_k)%nat
       /\ StronglySorted (desc relevance_score) rs
       /\ (exists doc_scores ranked,
             BM25.score_documents t (_tokenize q) (Dict.keys t.(BM25.documents))
             = Ok doc_scores
             /\ Permutation ranked doc_scores
             /\ StronglySorted (desc snd) ranked
             /\ map source rs = map fst (firstn top_k ranked)
             /\ map relevance_score rs
                = map (fun entry => Rmin (snd entry / 10.0) 1.0) (firstn top_k ranked))
       /\ (forall r1 r2,
             precedes r1 r2 rs ->
             BM25.score_terms t r1.(source) (_tokenize q) 0.0
             = BM25.score_terms t r2.(source) (_tokenize q) 0.0 ->
             precedes r1.(source) r2.(source) (Dict.keys t.(BM25.documents))).
Proof.
  intros t. split; [intros Hk1 Hb; apply bm25_search_total; assumption|].
  split; [apply index_documents_keys|]. intros rs Hs.
  destruct (bm25_search_ranked ws k1 b file_paths q top_k rs Hs) as (ds & Hds & ->).
  fold t in Hds |- *.
  split; [|split; [|split]].
  - rewrite length_map, length_firstn. lia.
  - eapply StronglySorted_map;
      [|apply StronglySorted_firstn, (sorted_desc_sorted snd ds)].
    intros x y Hxy. unfold desc in *. cbn. apply Rmin_scaled_mono, Hxy.
  - exists ds, (PyList.sorted_desc snd ds).
    split; [exact Hds|]. split; [apply sorted_desc_perm|].
    split; [apply sorted_desc_sorted|]. rewrite !map_map. split; reflexivity.
  - intros r1 r2 Hprec Hscore.
    apply precedes_of_map in Hprec. destruct Hprec as ([d1 s1] & [d2 s2] & <- & <- & Hprec).
    cbn [result_of source fst] in Hscore |- *.
    apply precedes_firstn in Hprec.
    assert (Hin : forall d s, (exists d' s', precedes (d, s) (d', s') (PyList.sorted_desc snd ds)
                                             \/ precedes (d', s') (d, s) (PyList.sorted_desc snd ds)) ->
                              BM25.score_terms t d (_tokenize q) 0.0 = Ok s).
    { intros d s (d' & s' & H).
      assert (Hmem : In (d, s) (PyList.sorted_desc snd ds)).
      { destruct H as [(l1 & l2 & l3 & ->) | (l1 & l2 & l3 & ->)].
        - apply in_or_app. right. left. reflexivity.
        - apply in_or_app. right. right. apply in_or_app. right. left. reflexivity. }
      apply (Permutation_in _ (sorted_desc_perm snd ds)) in Hmem.
      apply (score_documents_In _ _ _ _ Hds d s Hmem). }
    rewrite (Hin d1 s1) in Hscore by (exists d2, s2; left; exact Hprec).
    rewrite (Hin d2 s2) in Hscore by (exists d1, s1; right; exact Hprec).
    injection Hscore as <-.
    assert (Hkey : forall d : string, has_key (@snd string R) s1 (d, s1) = true).
    { intros d. unfold has_key. cbn. destruct (Req_dec_T s1 s1); congruence. }
    apply (precedes_filter (has_key (@snd string R) s1)) in Hprec; [|apply Hkey..].
    rewrite sorted_desc_stable in Hprec. apply precedes_of_filter in Hprec.
    apply (precedes_map fst) in Hprec. cbn [fst] in Hprec.
    rewrite (score_documents_order _ _ _ _ Hds) in Hprec.
    apply precedes_of_filter in Hprec. exact Hprec.
Qed.

(** ** Hybrid fusion *)

Lemma score_in_snoc (l : list SearchResult) (r : SearchResult) (key : string) :
  score_in (l ++ [r]) key
  = if r.(source) =? key then r.(relevance_score) else score_in l key.
Proof. unfold score_in. rewrite fold_left_app. reflexivity. Qed.

Lemma score_in_absent (l : list SearchResult) (key : string) :
  ~ In key (map source l) -> score_in l key = 0.
Proof.
  induction l as [|r l IH] using rev_ind; intros Hnot; [reflexivity|].
  rewrite score_in_snoc. rewrite map_app, in_app_iff in Hnot. cbn in Hnot.
  destruct (r.(source) =? key) eqn:E.
  - apply String.eqb_eq in E. exfalso. apply Hnot. right. left. exact E.
  - apply IH. intros H. apply Hnot. left. exact H.
Qed.

Lemma score_in_unique (l : list SearchResult) (r : SearchResult) :
  NoDup (map source l) -> In r l -> score_in l r.(source) = r.(relevance_score).
Proof.
  induction l as [|r' l IH] using rev_ind; intros Hnd Hin; [destruct Hin|].
  rewrite score_in_snoc. rewrite map_app in Hnd. cbn in Hnd.
  apply in_app_or in Hin. destruct Hin as [Hin | [<- | []]].
  - destruct (r'.(source) =? r.(source)) eqn:E.
    + apply String.eqb_eq in E. exfalso.
      apply NoDup_remove_2 in Hnd. rewrite app_nil_r in Hnd. apply Hnd.
      rewrite E. apply in_map, Hin.
    + apply IH; [|exact Hin]. apply NoDup_remove_1 in Hnd.
      rewrite app_nil_r in Hnd. exact Hnd.
  - rewrite String.eqb_refl. reflexivity.
Qed.

Lemma entry_for_spec (combined : Dict.t Hybrid.scores) (ds ss : list SearchResult)
                     (r : SearchResult) :
  combines combined ds ss ->
  (Hybrid.entry_for combined r).(Hybrid.result).(source) = r.(source)
  /\ (Hybrid.entry_for combined r).(Hybrid.dense_score) = score_in ds r.(source)
  /\ (Hybrid.entry_for combined r).(Hybrid.sparse_score) = score_in ss r.(source).
Proof.
  intros (Hnd & Hkeys & Hget). unfold Hybrid.entry_for.
  destruct (Dict.get combined r.(source)) as [data|] eqn:E; [apply Hget, E|].
  apply get_None in E. cbn.
  assert (Hnone : ~ (In r.(source) (map source ds) \/ In r.(source) (map source ss)))
    by (intros H; apply E, Hkeys, H).
  repeat split; symmetry; apply score_in_absent; tauto.
Qed.

Lemma add_dense_combines (combined : Dict.t Hybrid.scores) (ds ss : list SearchResult)
                         (r : SearchResult) :
  combines combined ds ss -> combines (Hybrid.add_dense combined r) (ds ++ [r]) ss.
Proof.
  intros Hc. destruct (entry_for_spec combined ds ss r Hc) as (Hsrc & _ & Hsp).
  destruct Hc as (Hnd & Hkeys & Hget). unfold Hybrid.add_dense.
  split; [apply keys_set_NoDup, Hnd|]. split.
  - intros key. rewrite keys_set, set_add_In, Hkeys, map_app, in_app_iff. cbn.
    intuition.
  - intros key data. rewrite get_set, score_in_snoc.
    destruct (key =? r.(source)) eqn:E.
    + apply String.eqb_eq in E. subst key. rewrite String.eqb_refl.
      intros H. injection H as <-. cbn. auto.
    + rewrite String.eqb_sym, E. apply Hget.
Qed.

Lemma add_sparse_combines (combined : Dict.t Hybrid.scores) (ds ss : list SearchResult)
                          (r : SearchResult) :
  combines combined ds ss -> combines (Hybrid.add_sparse combined r) ds (ss ++ [r]).
Proof.
  intros Hc. destruct (entry_for_spec combined ds ss r Hc) as (Hsrc & Hde & _).
  destruct Hc as (Hnd & Hkeys & Hget). unfold Hybrid.add_sparse.
  split; [apply keys_set_NoDup, Hnd|]. split.
  - intros key. rewrite keys_set, set_add_In, Hkeys, map_app, in_app_iff. cbn.
    intuition.
  - intros key data. rewrite get_set, score_in_snoc.
    destruct (key =? r.(source)) eqn:E.
    + apply String.eqb_eq in E. subst key. rewrite String.eqb_refl.
      intros H. injection H as <-. cbn. auto.
    + rewrite String.eqb_sym, E. apply Hget.
Qed.

Lemma combine_scores_combines (ds ss : list SearchResult) :
  combines (Hybrid.combine_scores ds ss) ds ss.
Proof.
  unfold Hybrid.combine_scores.
  assert (Hd : forall l pre combined,
             combines combined pre [] ->
             combines (fold_left Hybrid.add_dense l combined) (pre ++ l) []).
  { induction l as [|r l IH]; intros pre combined Hc; cbn.
    - rewrite app_nil_r. exact Hc.
    - replace (pre ++ r :: l) with ((pre ++ [r]) ++ l)
        by (rewrite <- app_assoc; reflexivity).
      apply IH, add_dense_combines, Hc. }
  assert (Hs : forall l pre combined,
             combines combined ds pre ->
             combines (fold_left Hybrid.add_sparse l combined) ds (pre ++ l)).
  { induction l as [|r l IH]; intros pre combined Hc; cbn.
    - rewrite app_nil_r. exact Hc.
    - replace (pre ++ r :: l) with ((pre ++ [r]) ++ l)
        by (rewrite <- app_assoc; reflexivity).
      apply IH, add_sparse_combines, Hc. }
  apply (Hs ss []). apply (Hd ds []).
  split; [constructor|]. split; [cbn; tauto | discriminate].
Qed.

(** Two dense results of one source and no sparse result: one fused result,
    made of the first result and of the score of the second. *)
Lemma rerank_chunks (t : Hybrid.tool) (first later : SearchResult) (top_k : nat) :
  later.(source) = first.(source) ->
  Hybrid.rerank t [first; later] [] (S top_k)
  = [Hybrid.fuse t (first.(source),
                    Hybrid.mkScores first later.(relevance_score) 0)].
Proof.
  intros Hsrc. unfold Hybrid.rerank, Hybrid.combine_scores.
  cbn [fold_left]. unfold Hybrid.add_dense at 2, Hybrid.entry_for.
  cbn [Dict.get Dict.set].
  unfold Hybrid.add_dense, Hybrid.entry_for. cbn [Dict.get Dict.set].
  rewrite Hsrc, String.eqb_refl. cbn [Hybrid.result Hybrid.sparse_score].
  unfold PyList.sorted_desc.
  cbn [map fold_right PyList.insert_desc firstn]. rewrite firstn_nil. reflexivity.
Qed.

(** C5. The hybrid search re-ranks the union by source key of the dense and
    the sparse results: each source of either list gets one fused result,
    whose score is [dense_weight] times the score the dense list records for
    the source plus [sparse_weight] times the score the sparse list records
    for it, a list that lacks the source contributing exactly 0 (the source
    is kept); the fused results are arranged by descending fused score and
    cut to [top_k]. The default weights are 0.6 and 0.4. The score a list
    records for a source is the relevance score of its result with this
    source when the list names the source once. When the dense list names
    a source twice (two chunks of one file, each a result of its own), the
    fused result is made of the first of the two, the more similar one, but
    the dense score that is fused is the relevance score of the second: for
    [chunk_0] (0.9) and [chunk_1] (0.2) the fused result has the content and
    the ["similarity"] of [chunk_0] and the score [dense_weight * 0.2]. *)
Theorem C5_hybrid_fusion (t : Hybrid.tool) (ds ss : list SearchResult) (top_k : nat) :
  let w_dense := t.(Hybrid.dense_weight) in
  let w_sparse := t.(Hybrid.sparse_weight) in
  let fused := map (Hybrid.fuse t) (Hybrid.combine_scores ds ss) in
  (forall q, Hybrid.search t q top_k
             = (dense_results <- Dense.search t.(Hybrid.dense_tool) q (top_k * 2)
                                   Dense.default_threshold ;;
                sparse_results <- BM25.search t.(Hybrid.bm25_tool) q (top_k * 2) ;;
                Ok (Hybrid.rerank t dense_results sparse_results top_k)))
  /\ NoDup (map source fused)
  /\ (forall key, In key (map source fused)
                  <-> In key (map source ds) \/ In key (map source ss))
  /\ (forall r, In r fused ->
        r.(relevance_score) = w_dense * score_in ds r.(source)
                              + w_sparse * score_in ss r.(source))
  /\ (forall r, In r fused -> ~ In r.(source) (map source ss) ->
        r.(relevance_score) = w_dense * score_in ds r.(source) + w_sparse * 0)
  /\ (forall r, In r fused -> ~ In r.(source) (map source ds) ->
        r.(relevance_score) = w_dense * 0 + w_sparse * score_in ss r.(source))
  /\ (exists ranked,
        Permutation ranked fused
        /\ StronglySorted (desc relevance_score) ranked
        /\ Hybrid.rerank t ds ss top_k = firstn top_k ranked)
  /\ (NoDup (map source ds) ->
      forall d, In d ds -> score_in ds d.(source) = d.(relevance_score))
  /\ (NoDup (map source ss) ->
      forall s, In s ss -> score_in ss s.(source) = s.(relevance_score))
  /\ Hybrid.default_dense_weight = 0.6 /\ Hybrid.default_sparse_weight = 0.4
  /\ (forall first later n,
        later.(source) = first.(source) ->
        exists r,
          Hybrid.rerank t [first; later] [] (S n) = [r]
          /\ r.(source) = first.(source)
          /\ r.(content) = first.(content)
          /\ r.(relevance_score) = w_dense * later.(relevance_score) + w_sparse * 0)
  /\ (exists r,
        Hybrid.rerank t [chunk_0; chunk_1] [] 10 = [r]
        /\ r.(content) = chunk_0.(content)
        /\ Dict.get r.(metadata) "similarity" = Some (MFloat 0.9)
        /\ Dict.get r.(metadata) "dense_score" = Some (MFloat 0.2)
        /\ r.(relevance_score) = w_dense * 0.2 + w_sparse * 0
        /\ (w_dense <> 0 -> r.(relevance_score) <> w_dense * 0.9 + w_sparse * 0)).
Proof.
  intros w_dense w_sparse fused.
  destruct (combine_scores_combines ds ss) as (Hnd & Hkeys & Hget).
  assert (Hitem : forall item, In item (Hybrid.combine_scores ds ss) ->
            (Hybrid.fuse t item).(source) = fst item
            /\ (Hybrid.fuse t item).(relevance_score)
               = w_dense * score_in ds (fst item) + w_sparse * score_in ss (fst item)).
  { intros [key data] Hin. apply (In_get _ _ _ Hnd) in Hin.
    destruct (Hget key data Hin) as (Hsrc & Hde & Hsp).
    cbn. rewrite Hsrc, Hde, Hsp. split; reflexivity. }
  assert (Hsources : map source fused = Dict.keys (Hybrid.combine_scores ds ss)).
  { unfold fused, Dict.keys. rewrite map_map. apply map_ext_in.
    intros item Hin. apply Hitem, Hin. }
  assert (Hscore : forall r, In r fused ->
            r.(relevance_score) = w_dense * score_in ds r.(source)
                                  + w_sparse * score_in ss r.(source)).
  { intros r Hr. apply in_map_iff in Hr. destruct Hr as (item & <- & Hin).
    destruct (Hitem item Hin) as [Hsrc Hrel]. rewrite Hsrc. exact Hrel. }
  split; [reflexivity|].
  split; [rewrite Hsources; exact Hnd|].
  split; [intros key; rewrite Hsources; apply Hkeys|].
  split; [exact Hscore|].
  split; [intros r Hr Hnot; rewrite (Hscore r Hr), (score_in_absent ss _ Hnot); reflexivity|].
  split; [intros r Hr Hnot; rewrite (Hscore r Hr), (score_in_absent ds _ Hnot); reflexivity|].
  split.
  - exists (PyList.sorted_desc relevance_score fused).
    split; [apply sorted_desc_perm|]. split; [apply sorted_desc_sorted | reflexivity].
  - split; [intros Hnd' d Hd; apply score_in_unique; assumption|].
    split; [intros Hnd' r Hr; apply score_in_unique; assumption|].
    split; [reflexivity|]. split; [reflexivity|]. split.
    + intros first later n Hsrc. eexists.
      split; [apply rerank_chunks, Hsrc|]. cbn. repeat split; reflexivity.
    + eexists. split; [apply (rerank_chunks t chunk_0 chunk_1 9); reflexivity|].
      cbn. repeat split; try reflexivity.
      intros Hw Heq. fold w_dense in Heq. apply Hw. lra.
Qed.

(** ** Chunks of a document *)

Lemma ceil_div_covers (n w : nat) : (0 < w)%nat -> (n <= (n + w - 1) / w * w)%nat.
Proof.
  intros Hw. pose proof (Nat.div_mod_eq (n + w - 1) w) as Hd.
  pose proof (Nat.mod_upper_bound (n + w - 1) w ltac:(lia)) as Hm. nia.
Qed.

Lemma slices_cover (w m : nat) (words : list string) :
  (List.length words <= m * w)%nat ->
  List.concat (map (fun j => firstn w (skipn (j * w) words)) (seq 0 m)) = words.
Proof.
  revert words. induction m as [|m IH]; intros words Hlen.
  - destruct words; [reflexivity | simpl in Hlen; lia].
  - cbn [seq map List.concat]. rewrite <- seq_shift, map_map.
    replace (map (fun j => firstn w (skipn (S j * w) words)) (seq 0 m))
      with (map (fun j => firstn w (skipn (j * w) (skipn w words))) (seq 0 m)).
    + rewrite IH; [apply firstn_skipn|]. rewrite length_skipn. lia.
    + apply map_ext. intros j. rewrite skipn_skipn. f_equal. f_equal. lia.
Qed.

(** The chunks cut the words of a text into consecutive pieces: no word
    position belongs to two chunks. *)
Lemma chunk_slices_partition (words : list string) (width : nat) :
  (0 < width)%nat ->
  List.concat (Dense.chunk_slices words width) = words
  /\ Forall (fun slice => (List.length slice <= width)%nat)
            (Dense.chunk_slices words width).
Proof.
  intros Hw. unfold Dense.chunk_slices, Dense.range_step. rewrite map_map. split.
  - apply slices_cover, ceil_div_covers, Hw.
  - apply Forall_forall. intros slice Hs. apply in_map_iff in Hs.
    destruct Hs as (j & <- & _). rewrite length_firstn. lia.
Qed.

(** C9. [_split_into_chunks] cuts a text at word boundaries into consecutive
    windows of [chunk_size // 10] words: joined back, the windows give the
    words of the text once each, so that a chunk shares no token position
    with the chunk before it; the text "alpha beta gamma delta" with
    [chunk_size = 20] gives the two chunks "alpha beta" and "gamma delta".
    When indexing, a non-empty text that is not longer than [chunk_size] is
    stored whole, as the single document of its file. *)
Theorem C9_chunks_do_not_overlap :
  (forall text chunk_size,
     (10 <= chunk_size)%Z ->
     exists slices,
       Dense._split_into_chunks text chunk_size = Ok (map (PyStr.join " ") slices)
       /\ List.concat slices = PyStr.split text
       /\ Forall (fun slice => (Z.of_nat (List.length slice) <= chunk_size / 10)%Z) slices)
  /\ Dense._split_into_chunks "alpha beta gamma delta" 20
     = Ok ["alpha beta"; "gamma delta"]
  /\ (forall ws chunk_size docs vocab file_path text,
        Dict.mem docs file_path = false ->
        read_nonempty ws file_path = Some text ->
        (Z.of_nat (PyStr.len text) <= chunk_size)%Z ->
        Dense.read_document ws chunk_size (docs, vocab) file_path
        = Ok (Dict.set docs file_path text, PySet.update vocab (_tokenize text))).
Proof.
  split; [|split].
  - intros text chunk_size Hsize.
    assert (Hw : (1 <= chunk_size / 10)%Z)
      by (apply Z.div_le_lower_bound; lia).
    exists (Dense.chunk_slices (PyStr.split text) (Z.to_nat (chunk_size / 10))).
    destruct (chunk_slices_partition (PyStr.split text) (Z.to_nat (chunk_size / 10))
                ltac:(lia)) as [Hc Hl].
    split; [|split; [exact Hc|]].
    + unfold Dense._split_into_chunks.
      destruct (chunk_size / 10 =? 0)%Z eqn:E0; [apply Z.eqb_eq in E0; lia|].
      destruct (chunk_size / 10 <? 0)%Z eqn:E1; [apply Z.ltb_lt in E1; lia|].
      reflexivity.
    + eapply Forall_impl; [|exact Hl]. cbn. intros slice Hs. lia.
  - reflexivity.
  - intros ws chunk_size docs vocab file_path text Hmem Hread Hlen.
    unfold Dense.read_document. rewrite Hmem, Hread.
    destruct (chunk_size <? Z.of_nat (PyStr.len text))%Z eqn:E;
      [apply Z.ltb_lt in E; lia | reflexivity].
Qed.

(** ** Vectors *)

Lemma sum_sq_cons (x : R) (v : list R) : sum_sq (x :: v) = x * x + sum_sq v.
Proof. unfold sum_sq. cbn [map]. apply sum_cons. Qed.

Lemma sum_sq_nonneg (v : list R) : 0 <= sum_sq v.
Proof.
  induction v as [|x v IH]; [unfold sum_sq, PyList.sum; simpl; lra|].
  rewrite sum_sq_cons. nra.
Qed.

Lemma norm_nonneg (v : list R) : 0 <= norm v.
Proof. apply sqrt_pos. Qed.

Lemma norm_zeros (v : list R) : Forall (fun x => x = 0) v -> norm v = 0.
Proof.
  intros H. unfold norm. fold (sum_sq v).
  replace (sum_sq v) with 0; [apply sqrt_0|].
  induction H as [|x v -> _ IH]; [reflexivity|]. rewrite sum_sq_cons, <- IH. lra.
Qed.

Lemma sum_sq_scale (n : R) (v : list R) :
  n <> 0 -> sum_sq (map (fun x => x / n) v) = sum_sq v / (n * n).
Proof.
  intros Hn. induction v as [|x v IH].
  - unfold sum_sq, PyList.sum. simpl. field. exact Hn.
  - cbn [map]. rewrite !sum_sq_cons, IH. field. exact Hn.
Qed.

(** Dividing a vector by its non-zero norm gives a vector of norm 1. *)
Lemma norm_normalised (v : list R) :
  0 < norm v -> norm (map (fun x => x / norm v) v) = 1.
Proof.
  intros Hn. unfold norm at 1. fold (sum_sq (map (fun x => x / norm v) v)).
  rewrite sum_sq_scale by lra.
  assert (Hsq : norm v * norm v = sum_sq v) by (apply sqrt_sqrt, sum_sq_nonneg).
  rewrite Hsq.
  assert (Hpos : 0 < sum_sq v) by (rewrite <- Hsq; nra).
  replace (sum_sq v / sum_sq v) with 1 by (field; lra). apply sqrt_1.
Qed.

Lemma dot_length (v1 v2 : list R) (d : R) :
  dot v1 v2 = Ok d -> List.length v1 = List.length v2.
Proof.
  revert v2 d. induction v1 as [|x v1 IH]; intros [|y v2] d H; simpl in H;
    try discriminate; [reflexivity|].
  destruct (dot v1 v2) as [d'|e] eqn:E; [|discriminate].
  simpl. f_equal. eapply IH. exact E.
Qed.

Lemma dot_defined (v1 v2 : list R) :
  List.length v1 = List.length v2 -> exists d, dot v1 v2 = Ok d.
Proof.
  revert v2. induction v1 as [|x v1 IH]; intros [|y v2] H; simpl in H;
    try discriminate; [exists 0; reflexivity|].
  injection H as H. destruct (IH v2 H) as [d Hd]. simpl. rewrite Hd.
  eexists. reflexivity.
Qed.

Lemma cauchy_schwarz_sq (v1 v2 : list R) (d : R) :
  dot v1 v2 = Ok d -> d * d <= sum_sq v1 * sum_sq v2.
Proof.
  revert v2 d. induction v1 as [|x v1 IH]; intros [|y v2] d H; simpl in H;
    try discriminate.
  - injection H as <-. unfold sum_sq, PyList.sum. simpl. lra.
  - destruct (dot v1 v2) as [d'|e] eqn:E; [|discriminate].
    simpl in H. injection H as <-. specialize (IH v2 d' E).
    rewrite !sum_sq_cons.
    pose proof (sum_sq_nonneg v1) as HA. pose proof (sum_sq_nonneg v2) as HB.
    set (a := sqrt (sum_sq v1)). set (c := sqrt (sum_sq v2)).
    assert (Ha : a * a = sum_sq v1) by (apply sqrt_sqrt, HA).
    assert (Hc : c * c = sum_sq v2) by (apply sqrt_sqrt, HB).
    assert (Ha0 : 0 <= a) by apply sqrt_pos.
    assert (Hc0 : 0 <= c) by apply sqrt_pos.
    rewrite <- Ha, <- Hc in IH |- *.
    assert (Hd : - (a * c) <= d' <= a * c).
    { assert (0 <= a * c) by nra. split; nra. }
    destruct (Rle_dec 0 (x * y)) as [Hxy | Hxy].
    + assert (H1 : 2 * (x * y) * d' <= 2 * (x * y) * (a * c)) by nra.
      pose proof (Rle_0_sqr (x * c - a * y)) as H2. unfold Rsqr in H2. nra.
    + assert (H1 : 2 * (x * y) * d' <= 2 * (x * y) * (- (a * c))) by nra.
      pose proof (Rle_0_sqr (x * c + a * y)) as H2. unfold Rsqr in H2. nra.
Qed.

Lemma cauchy_schwarz (v1 v2 : list R) (d : R) :
  dot v1 v2 = Ok d -> d <= norm v1 * norm v2.
Proof.
  intros H. pose proof (cauchy_schwarz_sq v1 v2 d H) as Hsq.
  pose proof (norm_nonneg v1). pose proof (norm_nonneg v2).
  destruct (Rle_dec d 0) as [Hd | Hd]; [nra|].
  unfold norm. fold (sum_sq v1) (sum_sq v2).
  rewrite <- sqrt_mult_alt by apply sum_sq_nonneg.
  rewrite <- (sqrt_square d) by lra. apply sqrt_le_1_alt, Hsq.
Qed.

Lemma aligned_dot (idfs v1 v2 : list R) :
  aligned idfs v1 -> aligned idfs v2 -> exists d, dot v1 v2 = Ok d /\ 0 <= d.
Proof.
  intros H1. revert v2. induction H1 as [|idf x idfs v1 (c1 & Hc1 & ->) _ IH];
    intros v2 H2; inversion H2 as [|? y ? v2' (c2 & Hc2 & ->) H2']; subst.
  - exists 0. split; [reflexivity | lra].
  - destruct (IH v2' H2') as (d & Hd & Hpos). simpl. rewrite Hd.
    eexists. split; [reflexivity|].
    assert (0 <= c1 * c2 * (idf * idf)) by (apply Rmult_le_pos; nra). nra.
Qed.

Lemma aligned_scale (idfs v : list R) (n : R) :
  0 < n -> aligned idfs v -> aligned idfs (map (fun x => x / n) v).
Proof.
  intros Hn. induction 1 as [|idf x idfs v (c & Hc & ->) _ IH]; cbn [map];
    constructor; [|exact IH].
  exists (c / n). split; [apply Rmult_le_pos; [lra|]; left; apply Rinv_0_lt_compat, Hn|].
  field. lra.
Qed.

Lemma Reqb_true (x y : R) : Reqb x y = true <-> x = y.
Proof.
  unfold Reqb. destruct (Req_dec_T x y); split; intros;
    (assumption || discriminate || contradiction || reflexivity).
Qed.

Lemma Reqb_false (x y : R) : Reqb x y = false <-> x <> y.
Proof.
  unfold Reqb. destruct (Req_dec_T x y); split; intros;
    (assumption || discriminate || contradiction || reflexivity).
Qed.

(** The cosine similarity of two aligned vectors lies in [[0, 1]]. *)
Lemma cosine_aligned (idfs v1 v2 : list R) :
  aligned idfs v1 -> aligned idfs v2 ->
  exists c, Dense._cosine_similarity v1 v2 = Ok c /\ 0 <= c <= 1.
Proof.
  intros H1 H2. destruct (aligned_dot idfs v1 v2 H1 H2) as (d & Hd & Hpos).
  unfold Dense._cosine_similarity. rewrite Hd. cbn [bind].
  destruct (Reqb (norm v1) 0 || Reqb (norm v2) 0)%bool eqn:E.
  - exists 0.0. split; [reflexivity | lra].
  - apply orb_false_iff in E. destruct E as [E1 E2].
    apply Reqb_false in E1, E2.
    pose proof (norm_nonneg v1). pose proof (norm_nonneg v2).
    pose proof (cauchy_schwarz v1 v2 d Hd) as Hcs.
    assert (Hn : 0 < norm v1 * norm v2) by (apply Rmult_lt_0_compat; lra).
    eexists. split; [reflexivity|]. split.
    + apply Rmult_le_pos; [exact Hpos | left; apply Rinv_0_lt_compat, Hn].
    + apply (Rmult_le_reg_r (norm v1 * norm v2)); [exact Hn|].
      unfold Rdiv. rewrite Rmult_assoc, Rinv_l by lra. lra.
Qed.

(** ** TF-IDF vectors of the dense tool *)

Lemma sorted_strings_perm (s : list string) : Permutation (PySet.sorted s) s.
Proof.
  unfold PySet.sorted. induction s as [|x s IH]; cbn [fold_right]; [constructor|].
  assert (Hins : forall l, Permutation (PySet.insert_sorted x l) (x :: l)).
  { induction l as [|y l IHl]; cbn [PySet.insert_sorted]; [apply Permutation_refl|].
    destruct (String.leb x y); [apply Permutation_refl|].
    eapply perm_trans; [apply perm_skip, IHl | apply perm_swap]. }
  eapply perm_trans; [apply Hins | apply perm_skip, IH].
Qed.

Lemma Counter_absent (words : list string) (w : string) :
  ~ In w words -> Dict.get (Counter words) w = None.
Proof.
  intros Hnot. destruct (Dict.get (Counter words) w) as [n|] eqn:E; [|reflexivity].
  destruct (Hnot (Counter_keys words w n E)).
Qed.

Lemma weight_aligned (t : Dense.tool) (words : list string) (word_count : Dict.t nat)
                     (word : string) (x : R) :
  Dense.weight t words word_count word = Ok x ->
  exists c, 0 <= c /\ x = c * idf_of t word.
Proof.
  unfold Dense.weight. destruct (Dict.get word_count word) as [occurrences|].
  - unfold py_div. destruct (Req_dec_T (INR (List.length words)) 0) as [|Hlen];
      [discriminate|]. cbn [bind]. intros H. injection H as <-.
    exists (INR occurrences / INR (List.length words)). split; [|reflexivity].
    apply Rmult_le_pos; [apply pos_INR|]. left. apply Rinv_0_lt_compat.
    pose proof (pos_INR (List.length words)). lra.
  - intros H. injection H as <-. exists 0. split; lra.
Qed.

Lemma text_to_vector_aligned (t : Dense.tool) (text : string) (v : list R) :
  Dense._text_to_vector t text = Ok v ->
  aligned (idf_list t) v /\ (norm v = 1 \/ norm v = 0).
Proof.
  unfold Dense._text_to_vector.
  destruct (mapM _ _) as [vector|e] eqn:E; [|discriminate]. cbn [bind].
  intros H. injection H as <-.
  assert (Ha : aligned (idf_list t) vector).
  { apply mapM_Ok in E. unfold aligned, idf_list.
    clear -E. induction E as [|word x words vector Hw _ IH]; cbn [map]; constructor;
      [eapply weight_aligned; exact Hw | exact IH]. }
  destruct (PyList.Rltb 0 (norm vector)) eqn:En.
  - apply Rltb_true in En. split; [apply aligned_scale; assumption|].
    left. apply norm_normalised, En.
  - apply Rltb_false in En. split; [exact Ha|]. right.
    pose proof (norm_nonneg vector). lra.
Qed.

Lemma text_to_vector_ext (t t' : Dense.tool) (text : string) :
  t.(Dense.vocabulary) = t'.(Dense.vocabulary) ->
  t.(Dense.idf_scores) = t'.(Dense.idf_scores) ->
  Dense._text_to_vector t text = Dense._text_to_vector t' text.
Proof.
  intros Hv Hi. unfold Dense._text_to_vector, Dense.weight. rewrite Hv, Hi. reflexivity.
Qed.

(** A query none of whose tokens is in the vocabulary gives the zero vector. *)
Lemma text_to_vector_oov (t : Dense.tool) (q : string) :
  (forall w, In w (_tokenize q) -> ~ In w t.(Dense.vocabulary)) ->
  Dense._text_to_vector t q
  = Ok (map (fun _ => 0) (PySet.sorted t.(Dense.vocabulary))).
Proof.
  intros Hoov. unfold Dense._text_to_vector.
  rewrite (mapM_const _ 0).
  - cbn [bind]. rewrite norm_zeros.
    + rewrite (proj2 (Rltb_false 0 0)) by lra. reflexivity.
    + apply Forall_forall. intros x Hx. apply in_map_iff in Hx.
      destruct Hx as (? & <- & _). reflexivity.
  - intros word Hword. unfold Dense.weight. rewrite Counter_absent; [reflexivity|].
    intros Hin. apply (Hoov word Hin).
    apply (Permutation_in _ (sorted_strings_perm _)). exact Hword.
Qed.

Lemma In_set_value {V : Type} (d : Dict.t V) (k : string) (v : V) (item : string * V) :
  In item (Dict.set d k v) -> In item d \/ snd item = v.
Proof.
  induction d as [|[k' v'] d IH]; cbn [Dict.set].
  - intros [<- | []]. right. reflexivity.
  - destruct (k =? k').
    + intros [<- | H]; [right; reflexivity | left; right; exact H].
    + intros [<- | H]; [left; left; reflexivity|].
      destruct (IH H) as [H' | H']; [left; right; exact H' | right; exact H'].
Qed.

Lemma load_cache_fresh (ws : Workspace) (cache_file : option Dense.Cache) :
  exists docs vocab,
    Dense.load_cache (Dense.init ws) cache_file = Dense.mk ws docs [] vocab []
    /\ (cache_file = None -> docs = [] /\ vocab = [])
    /\ (forall cached_data, cache_file = Some cached_data -> (docs, vocab) = cached_data).
Proof.
  destruct cache_file as [[docs vocab]|].
  - exists docs, vocab. split; [reflexivity|]. split; [discriminate|].
    intros cached_data H. injection H as <-. reflexivity.
  - exists [], []. split; [reflexivity|]. split; [auto | discriminate].
Qed.

Lemma dense_index_generated (ws : Workspace) (cache_file : option Dense.Cache)
                            (file_paths : list string) (chunk_size : Z)
                            (t : Dense.tool) :
  Dense.index_documents (Dense.init ws) cache_file file_paths chunk_size = Ok t ->
  embeddings_generated t.
Proof.
  unfold Dense.index_documents.
  destruct (load_cache_fresh ws cache_file) as (docs0 & vocab0 & -> & _). cbn zeta.
  destruct (foldM _ _ _) as [read|e]; [|discriminate]. cbn [bind].
  destruct (Dense._calculate_idf_scores _) as [idfs|e]; [|discriminate]. cbn [bind].
  destruct (Dense._generate_embeddings _) as [embs|e] eqn:E; [|discriminate].
  cbn [bind]. intros H. injection H as <-.
  cbn [Dense.workspace Dense.documents Dense.embeddings Dense.vocabulary
       Dense.idf_scores] in E |- *.
  set (t2 := Dense.mk ws (fst read) [] (snd read) idfs) in *.
  unfold Dense._generate_embeddings in E. cbn [t2 Dense.embeddings Dense.documents] in E.
  assert (Hgen : forall item, In item embs ->
                   exists text, Dense._text_to_vector t2 text = Ok (snd item)).
  { eapply (foldM_invariant
              (fun embs => forall item, In item embs ->
                 exists text, Dense._text_to_vector t2 text = Ok (snd item)));
      [| |exact E].
    - intros item [].
    - intros embs0 doc embs1 _ Hinv Hstep. cbn beta in Hstep.
      destruct (Dense._text_to_vector t2 (snd doc)) as [vector|e] eqn:Ev;
        [|discriminate].
      cbn [bind] in Hstep. injection Hstep as <-.
      intros item Hitem. destruct (In_set_value _ _ _ _ Hitem) as [H | ->]; eauto. }
  intros doc_path emb Hin. destruct (Hgen (doc_path, emb) Hin) as [text Ht].
  exists text. cbn [snd] in Ht. rewrite <- Ht. apply text_to_vector_ext; reflexivity.
Qed.

(** ** Dense search *)

Lemma similarities_In (query_embedding : list R) (threshold : R)
                      (embs : Dict.t (list R)) (found : list (string * R)) :
  Dense.similarities query_embedding threshold embs = Ok found ->
  forall doc_path similarity,
    In (doc_path, similarity) found ->
    exists emb,
      In (doc_path, emb) embs
      /\ Dense._cosine_similarity query_embedding emb = Ok similarity
      /\ threshold <= similarity.
Proof.
  revert found. induction embs as [|[d emb] embs IH]; intros found H; simpl in H.
  - injection H as <-. intros ? ? [].
  - destruct (Dense._cosine_similarity query_embedding emb) as [s|e] eqn:Ec;
      [|discriminate]. cbn [bind] in H.
    destruct (Dense.similarities query_embedding threshold embs) as [others|e];
      [|discriminate]. cbn [bind] in H. injection H as <-.
    intros doc_path similarity Hin.
    assert (Hrest : In (doc_path, similarity) others ->
              exists emb0, In (doc_path, emb0) ((d, emb) :: embs)
                /\ Dense._cosine_similarity query_embedding emb0 = Ok similarity
                /\ threshold <= similarity).
    { intros Ho. destruct (IH others eq_refl doc_path similarity Ho) as (emb0 & ? & ? & ?).
      exists emb0. repeat split; [right|..]; assumption. }
    destruct (Rgeb s threshold) eqn:Eg; [|auto].
    destruct Hin as [Heq | Hin]; [|auto]. injection Heq as <- <-.
    apply Rgeb_true in Eg. exists emb. repeat split; [left; reflexivity|..]; assumption.
Qed.

Lemma similarities_none (query_embedding : list R) (threshold : R)
                        (embs : Dict.t (list R)) :
  0 < threshold ->
  (forall doc_path emb, In (doc_path, emb) embs ->
     Dense._cosine_similarity query_embedding emb = Ok 0.0) ->
  Dense.similarities query_embedding threshold embs = Ok [].
Proof.
  intros Hthr. induction embs as [|[d emb] embs IH]; intros Hall; [reflexivity|].
  cbn [Dense.similarities]. rewrite (Hall d emb) by (left; reflexivity). cbn [bind].
  rewrite IH by (intros d' emb' H; apply (Hall d' emb'); right; exact H). cbn [bind].
  rewrite (proj2 (Rgeb_false 0.0 threshold)) by lra. reflexivity.
Qed.

(** Every result of a dense search carries the cosine similarity of the
    query vector and a stored embedding, at least [threshold]. *)
Lemma dense_search_result (t : Dense.tool) (q : string) (top_k : nat) (threshold : R)
                          (rs : list SearchResult) (r : SearchResult) :
  Dense.search t q top_k threshold = Ok rs -> In r rs ->
  exists query_embedding doc_path emb,
    Dense._text_to_vector t q = Ok query_embedding
    /\ In (doc_path, emb) t.(Dense.embeddings)
    /\ Dense._cosine_similarity query_embedding emb = Ok r.(relevance_score)
    /\ threshold <= r.(relevance_score)
    /\ r.(source) = before_hash doc_path.
Proof.
  unfold Dense.search. destruct t.(Dense.embeddings) as [|e0 embs] eqn:Ee.
  - intros H. injection H as <-. intros [].
  - rewrite <- Ee. clear Ee.
    destruct (Dense._text_to_vector t q) as [qv|e] eqn:Eq; [|discriminate]. cbn [bind].
    destruct (Dense.similarities qv threshold t.(Dense.embeddings)) as [found|e] eqn:Ef;
      [|discriminate]. cbn [bind].
    intros Hm Hr. apply mapM_Ok in Hm.
    destruct (Forall2_In_right _ _ _ r Hm Hr) as ([doc_path similarity] & Hin & Hmk).
    apply In_firstn in Hin.
    apply (Permutation_in _ (sorted_desc_perm snd found)) in Hin.
    destruct (similarities_In _ _ _ _ Ef doc_path similarity Hin) as (emb & Hemb & Hc & Hthr).
    unfold Dense.make_result in Hmk.
    destruct (Dict.getitem _ _) as [text|e]; [|discriminate]. cbn [bind] in Hmk.
    injection Hmk as <-. exists qv, doc_path, emb. cbn. repeat split; assumption.
Qed.

Lemma dense_search_range (t : Dense.tool) (q : string) (top_k : nat) (threshold : R)
                         (rs : list SearchResult) :
  embeddings_generated t ->
  Dense.search t q top_k threshold = Ok rs ->
  Forall (fun r => 0 <= r.(relevance_score) <= 1) rs.
Proof.
  intros Hgen Hs. apply Forall_forall. intros r Hr.
  destruct (dense_search_result t q top_k threshold rs r Hs Hr)
    as (qv & doc_path & emb & Hq & Hemb & Hc & _).
  destruct (Hgen doc_path emb Hemb) as [text Ht].
  destruct (text_to_vector_aligned t q qv Hq) as [Ha1 _].
  destruct (text_to_vector_aligned t text emb Ht) as [Ha2 _].
  destruct (cosine_aligned _ _ _ Ha1 Ha2) as (c & Hc' & Hrange).
  rewrite Hc in Hc'. injection Hc' as <-. exact Hrange.
Qed.

(** ** A dense index is built, and searched, without an exception *)

Lemma set_not_nil {V : Type} (d : Dict.t V) (k : string) (v : V) : Dict.set d k v <> [].
Proof. destruct d as [|[k' v'] d]; cbn; [|destruct (k =? k')]; discriminate. Qed.

Lemma text_to_vector_total (t : Dense.tool) (text : string) :
  exists v, Dense._text_to_vector t text = Ok v.
Proof.
  unfold Dense._text_to_vector.
  destruct (mapM_total (Dense.weight t (_tokenize text) (Counter (_tokenize text)))
              (PySet.sorted t.(Dense.vocabulary))) as [vector Hv].
  - intros word _. unfold Dense.weight.
    destruct (Dict.get (Counter (_tokenize text)) word) as [occurrences|] eqn:E;
      [|eexists; reflexivity].
    apply Counter_keys in E. rewrite py_div_Ok; [cbn [bind]; eexists; reflexivity|].
    destruct (_tokenize text); [destruct E|].
    apply not_0_INR. discriminate.
  - rewrite Hv. cbn [bind]. eexists. reflexivity.
Qed.

Lemma read_document_total (ws : Workspace) (chunk_size : Z)
                          (acc : Dict.t string * list string) (file_path : string) :
  (chunk_size / 10 <> 0)%Z ->
  vocabulary_has_documents acc ->
  exists acc', Dense.read_document ws chunk_size acc file_path = Ok acc'
               /\ vocabulary_has_documents acc'.
Proof.
  intros Hw Hacc. destruct acc as [docs vocab]. unfold Dense.read_document.
  destruct (Dict.mem docs file_path); [eexists; split; [reflexivity | exact Hacc]|].
  destruct (read_nonempty ws file_path) as [text|];
    [|eexists; split; [reflexivity | exact Hacc]].
  destruct (chunk_size <? Z.of_nat (PyStr.len text))%Z.
  - unfold Dense._split_into_chunks.
    destruct (chunk_size / 10 =? 0)%Z eqn:E0; [apply Z.eqb_eq in E0; contradiction|].
    destruct (chunk_size / 10 <? 0)%Z; cbn [bind];
      (eexists; split; [reflexivity|]).
    + exact Hacc.
    + unfold Dense.add_chunks. apply fold_left_invariant; [exact Hacc|].
      intros [docs' vocab'] [i chunk] _ _. right. cbn [fst]. apply set_not_nil.
  - eexists. split; [reflexivity|]. right. cbn [fst]. apply set_not_nil.
Qed.

Lemma calculate_idf_scores_total (t : Dense.tool) :
  vocabulary_has_documents (t.(Dense.documents), t.(Dense.vocabulary)) ->
  exists idfs, Dense._calculate_idf_scores t = Ok idfs.
Proof.
  intros Hv. unfold Dense._calculate_idf_scores.
  destruct (foldM_total (fun _ => True)
              (fun idfs word =>
                 let containing :=
                   match Dict.get (Dense.count_word_documents t.(Dense.documents)) word with
                   | Some n => n | None => 0%nat end in
                 ratio <- py_div (INR (List.length t.(Dense.documents)))
                                 (INR (containing + 1)) ;;
                 idf <- py_log ratio ;;
                 Ok (Dict.set idfs word idf))
              t.(Dense.vocabulary) t.(Dense.idf_scores) I) as (idfs & H & _).
  - intros idfs word Hword _. cbn zeta.
    assert (Hdocs : (1 <= List.length t.(Dense.documents))%nat).
    { destruct Hv as [Hnil | Hne]; cbn [fst snd] in *.
      - rewrite Hnil in Hword. destruct Hword.
      - destruct t.(Dense.documents); [congruence | simpl; lia]. }
    set (c := match Dict.get _ word with Some n => n | None => 0%nat end).
    assert (Hc : 0 < INR (c + 1)) by (apply lt_0_INR; lia).
    rewrite py_div_Ok by lra. cbn [bind].
    rewrite py_log_Ok; [cbn [bind]; eexists; split; [reflexivity | exact I]|].
    apply Rdiv_lt_0_compat; [apply lt_0_INR; lia | exact Hc].
  - exists idfs. exact H.
Qed.

(** [_generate_embeddings] raises nothing: when [index_documents] raises,
    it does so before any embedding is stored. *)
Lemma generate_embeddings_total (t : Dense.tool) :
  exists embs, Dense._generate_embeddings t = Ok embs.
Proof.
  unfold Dense._generate_embeddings.
  match goal with
  | |- context [foldM ?f ?l ?s] =>
      destruct (foldM_total (fun _ => True) f l s I) as (embs & Hembs & _)
  end.
  - intros embs doc _ _. cbn beta.
    destruct (text_to_vector_total t (snd doc)) as [v Hv].
    rewrite Hv. cbn [bind]. eexists. split; [reflexivity | exact I].
  - exists embs. exact Hembs.
Qed.

(** With a chunk size whose tenth is not zero (the default is 1000), the
    index is built. *)
Lemma dense_index_total (ws : Workspace) (cache_file : option Dense.Cache)
                        (file_paths : list string) (chunk_size : Z) :
  (chunk_size / 10 <> 0)%Z ->
  cache_has_documents cache_file ->
  exists t, Dense.index_documents (Dense.init ws) cache_file file_paths chunk_size = Ok t.
Proof.
  intros Hw Hcache. unfold Dense.index_documents.
  destruct (load_cache_fresh ws cache_file) as (docs0 & vocab0 & -> & Hnone & Hsome).
  cbn zeta. cbn [Dense.workspace Dense.documents Dense.embeddings Dense.vocabulary
                 Dense.idf_scores].
  match goal with
  | |- context [foldM ?f ?l ?s] =>
      destruct (foldM_total vocabulary_has_documents f l s) as (read & Hread & Hinv)
  end.
  - destruct cache_file as [cached_data|].
    + rewrite (Hsome cached_data eq_refl). exact Hcache.
    + destruct (Hnone eq_refl) as [_ ->]. left. reflexivity.
  - intros acc file_path _ Hacc. apply read_document_total; assumption.
  - rewrite Hread. cbn [bind].
    match goal with
    | |- context [Dense._calculate_idf_scores ?t1] =>
        destruct (calculate_idf_scores_total t1) as [idfs Hidf]; [exact Hinv|]
    end.
    rewrite Hidf. cbn [bind].
    match goal with
    | |- context [Dense._generate_embeddings ?t2] =>
        destruct (generate_embeddings_total t2) as [embs Hembs]
    end.
    rewrite Hembs. cbn [bind]. eexists. reflexivity.
Qed.

(** The cache dumped by [index_documents] holds a document if it holds a
    word. *)
Lemma dense_index_dumped (ws : Workspace) (cache_file : option Dense.Cache)
                         (file_paths : list string) (chunk_size : Z)
                         (t : Dense.tool) :
  cache_has_documents cache_file ->
  Dense.index_documents (Dense.init ws) cache_file file_paths chunk_size = Ok t ->
  cache_has_documents (Some (Dense.dumped t)).
Proof.
  intros Hcache. unfold Dense.index_documents.
  destruct (load_cache_fresh ws cache_file) as (docs0 & vocab0 & -> & Hnone & Hsome).
  cbn zeta. cbn [Dense.workspace Dense.documents Dense.embeddings Dense.vocabulary
                 Dense.idf_scores].
  destruct (foldM _ _ _) as [read|e] eqn:Eread; [|discriminate]. cbn [bind].
  destruct (Dense._calculate_idf_scores _) as [idfs|e]; [|discriminate]. cbn [bind].
  destruct (Dense._generate_embeddings _) as [embs|e]; [|discriminate].
  cbn [bind]. intros H. injection H as <-.
  unfold cache_has_documents, Dense.dumped. cbn [Dense.documents Dense.vocabulary].
  rewrite <- surjective_pairing.
  eapply (foldM_invariant vocabulary_has_documents); [| |exact Eread].
  - destruct cache_file as [cached_data|].
    + rewrite (Hsome cached_data eq_refl). exact Hcache.
    + destruct (Hnone eq_refl) as [_ ->]. left. reflexivity.
  - intros [docs vocab] file_path acc' _ Hacc. unfold Dense.read_document.
    destruct (Dict.mem docs file_path); [intros H; injection H as <-; exact Hacc|].
    destruct (read_nonempty ws file_path) as [text|];
      [|intros H; injection H as <-; exact Hacc].
    destruct (chunk_size <? Z.of_nat (PyStr.len text))%Z.
    + destruct (Dense._split_into_chunks text chunk_size) as [chunks|e];
        [|discriminate].
      cbn [bind]. intros H. injection H as <-. unfold Dense.add_chunks.
      apply fold_left_invariant; [exact Hacc|].
      intros [docs' vocab'] [i chunk] _ _. right. cbn [fst]. apply set_not_nil.
    + intros H. injection H as <-. right. cbn [fst]. apply set_not_nil.
Qed.

Lemma In_set_key {V : Type} (d : Dict.t V) (k : string) (v : V) (item : string * V) :
  In item (Dict.set d k v) -> In item d \/ fst item = k.
Proof.
  induction d as [|[k' v'] d IH]; cbn [Dict.set].
  - intros [<- | []]. right. reflexivity.
  - destruct (k =? k') eqn:E.
    + apply String.eqb_eq in E. subst k'.
      intros [<- | H]; [right; reflexivity | left; right; exact H].
    + intros [<- | H]; [left; left; reflexivity|].
      destruct (IH H) as [H' | H']; [left; right; exact H' | right; exact H'].
Qed.

Lemma dense_index_documented (ws : Workspace) (cache_file : option Dense.Cache)
                             (file_paths : list string) (chunk_size : Z)
                             (t : Dense.tool) :
  Dense.index_documents (Dense.init ws) cache_file file_paths chunk_size = Ok t ->
  embeddings_documented t.
Proof.
  unfold Dense.index_documents.
  destruct (load_cache_fresh ws cache_file) as (docs0 & vocab0 & -> & _). cbn zeta.
  destruct (foldM _ _ _) as [read|e]; [|discriminate]. cbn [bind].
  destruct (Dense._calculate_idf_scores _) as [idfs|e]; [|discriminate]. cbn [bind].
  destruct (Dense._generate_embeddings _) as [embs|e] eqn:E; [|discriminate].
  cbn [bind]. intros H. injection H as <-.
  cbn [Dense.init Dense.workspace Dense.documents Dense.embeddings Dense.vocabulary
       Dense.idf_scores] in E |- *.
  unfold Dense._generate_embeddings in E. cbn [Dense.embeddings Dense.documents] in E.
  intros doc_path emb Hin. cbn [Dense.documents Dense.embeddings] in *.
  assert (Hkeys : forall item, In item embs -> In (fst item) (Dict.keys (fst read))).
  { eapply (foldM_invariant
              (fun embs => forall item, In item embs ->
                 In (fst item) (Dict.keys (fst read)))); [| |exact E].
    - intros item [].
    - intros embs0 doc embs1 Hdoc Hinv Hstep. cbn beta in Hstep.
      destruct (Dense._text_to_vector _ (snd doc)) as [vector|e]; [|discriminate].
      cbn [bind] in Hstep. injection Hstep as <-.
      intros item Hitem. destruct (In_set_key _ _ _ _ Hitem) as [H | ->]; [auto|].
      unfold Dict.keys. apply in_map, Hdoc. }
  specialize (Hkeys (doc_path, emb) Hin). cbn [fst] in Hkeys.
  destruct (Dict.get (fst read) doc_path) as [text|] eqn:Eg; [eauto|].
  apply get_None in Eg. contradiction.
Qed.

Lemma dense_search_total (t : Dense.tool) (q : string) (top_k : nat) (threshold : R) :
  embeddings_generated t -> embeddings_documented t ->
  exists rs, Dense.search t q top_k threshold = Ok rs.
Proof.
  intros Hgen Hdoc. unfold Dense.search.
  destruct t.(Dense.embeddings) as [|e0 embs] eqn:Ee; [exists []; reflexivity|].
  rewrite <- Ee. clear Ee.
  destruct (text_to_vector_total t q) as [qv Hq]. rewrite Hq. cbn [bind].
  destruct (text_to_vector_aligned t q qv Hq) as [Ha _].
  assert (Hsim : forall l, (forall item, In item l -> In item t.(Dense.embeddings)) ->
                   exists found, Dense.similarities qv threshold l = Ok found).
  { induction l as [|[d emb] l IH]; intros Hsub; [exists []; reflexivity|].
    cbn [Dense.similarities].
    destruct (Hgen d emb (Hsub _ (or_introl eq_refl))) as [text Ht].
    destruct (text_to_vector_aligned t text emb Ht) as [Ha2 _].
    destruct (cosine_aligned _ _ _ Ha Ha2) as (c & Hc & _). rewrite Hc. cbn [bind].
    destruct IH as [found Hf]; [intros item Hi; apply Hsub; right; exact Hi|].
    rewrite Hf. cbn [bind]. eexists. reflexivity. }
  destruct (Hsim t.(Dense.embeddings) ltac:(auto)) as [found Hf].
  rewrite Hf. cbn [bind]. apply mapM_total.
  intros [doc_path similarity] Hin. apply In_firstn in Hin.
  apply (Permutation_in _ (sorted_desc_perm snd found)) in Hin.
  destruct (similarities_In _ _ _ _ Hf doc_path similarity Hin) as (emb & Hemb & _).
  destruct (Hdoc doc_path emb Hemb) as [text Ht].
  unfold Dense.make_result, Dict.getitem. rewrite Ht. cbn [bind].
  eexists. reflexivity.
Qed.

(** With the default parameters, the hybrid tool indexes and searches
    without an exception. *)
Lemma hybrid_search_total (ws : Workspace) (w_dense w_sparse : R)
                          (cache_file : option Dense.Cache)
                          (file_paths : list string) (q : string) (top_k : nat) :
  cache_has_documents cache_file ->
  exists t rs,
    Hybrid.index_documents (Hybrid.init ws w_dense w_sparse) cache_file file_paths = Ok t
    /\ Hybrid.search t q top_k = Ok rs.
Proof.
  intros Hcache.
  destruct (dense_index_total ws cache_file file_paths Dense.default_chunk_size)
    as [dense Hd]; [unfold Dense.default_chunk_size; discriminate | exact Hcache|].
  destruct (dense_search_total dense q (top_k * 2) Dense.default_threshold
              (dense_index_generated _ _ _ _ _ Hd) (dense_index_documented _ _ _ _ _ Hd))
    as [dr Hdr].
  assert (Hk1 : 0 < BM25.default_k1) by (unfold BM25.default_k1; lra).
  assert (Hb : 0 <= BM25.default_b <= 1) by (unfold BM25.default_b; lra).
  destruct (bm25_search_total ws file_paths _ _ Hk1 Hb q (top_k * 2)) as [sr Hsr].
  unfold Hybrid.index_documents, Hybrid.init.
  cbn [Hybrid.dense_tool Hybrid.bm25_tool Hybrid.dense_weight Hybrid.sparse_weight].
  rewrite Hd. cbn [bind]. eexists. eexists. split; [reflexivity|].
  unfold Hybrid.search. cbn [Hybrid.dense_tool Hybrid.bm25_tool].
  rewrite Hdr. cbn [bind]. rewrite Hsr. cbn [bind]. reflexivity.
Qed.

(** With a threshold of 0 or less, every entry whose similarity is 0 is
    kept. *)
Lemma similarities_all (query_embedding : list R) (threshold : R)
                       (embs : Dict.t (list R)) :
  threshold <= 0 ->
  (forall doc_path emb, In (doc_path, emb) embs ->
     Dense._cosine_similarity query_embedding emb = Ok 0.0) ->
  Dense.similarities query_embedding threshold embs
  = Ok (map (fun entry => (fst entry, 0.0)) embs).
Proof.
  intros Hthr. induction embs as [|[d emb] embs IH]; intros Hall; [reflexivity|].
  cbn [Dense.similarities]. rewrite (Hall d emb) by (left; reflexivity). cbn [bind].
  rewrite IH by (intros d' emb' H; apply (Hall d' emb'); right; exact H). cbn [bind].
  rewrite (proj2 (Rgeb_true 0.0 threshold)) by lra. reflexivity.
Qed.

(** The search for a query without a token of the vocabulary, on an index
    whose embeddings are those of its documents. *)
Lemma dense_search_oov (t : Dense.tool) (q : string) (top_k : nat) (threshold : R) :
  embeddings_generated t -> embeddings_documented t ->
  (forall w, In w (_tokenize q) -> ~ In w t.(Dense.vocabulary)) ->
  exists zero,
    Dense._text_to_vector t q = Ok zero
    /\ Forall (fun x => x = 0) zero
    /\ norm zero = 0
    /\ (forall doc_path emb, In (doc_path, emb) t.(Dense.embeddings) ->
          Dense._cosine_similarity zero emb = Ok 0)
    /\ (0 < threshold -> Dense.search t q top_k threshold = Ok [])
    /\ (threshold <= 0 ->
        exists rs,
          Dense.search t q top_k threshold = Ok rs
          /\ List.length rs = Nat.min top_k (List.length t.(Dense.embeddings))
          /\ Forall (fun r => r.(relevance_score) = 0) rs).
Proof.
  intros Hgen Hdoc Hoov.
  pose proof (text_to_vector_oov t q Hoov) as Hq.
  set (zero := map (fun _ : string => 0) (PySet.sorted t.(Dense.vocabulary))) in *.
  assert (Hz : Forall (fun x => x = 0) zero).
  { apply Forall_forall. intros x Hx. apply in_map_iff in Hx.
    destruct Hx as (? & <- & _). reflexivity. }
  assert (Hcos : forall doc_path emb, In (doc_path, emb) t.(Dense.embeddings) ->
                   Dense._cosine_similarity zero emb = Ok 0.0).
  { intros doc_path emb Hin. destruct (Hgen doc_path emb Hin) as [text Ht].
    destruct (text_to_vector_aligned t q zero Hq) as [Ha1 _].
    destruct (text_to_vector_aligned t text emb Ht) as [Ha2 _].
    destruct (aligned_dot _ _ _ Ha1 Ha2) as (d & Hd & _).
    unfold Dense._cosine_similarity. rewrite Hd. cbn [bind].
    rewrite (proj2 (Reqb_true (norm zero) 0)) by (apply norm_zeros, Hz). reflexivity. }
  exists zero. split; [exact Hq|]. split; [exact Hz|].
  split; [apply norm_zeros, Hz|]. split; [|split].
  - intros doc_path emb Hin. rewrite (Hcos doc_path emb Hin). f_equal. lra.
  - intros Hthr. unfold Dense.search.
    destruct t.(Dense.embeddings) as [|e0 embs] eqn:Ee; [reflexivity|].
    rewrite <- Ee in Hcos |- *. rewrite Hq. cbn [bind].
    rewrite (similarities_none zero threshold t.(Dense.embeddings) Hthr Hcos).
    cbn [bind]. destruct top_k; reflexivity.
  - intros Hthr.
    destruct (dense_search_total t q top_k threshold Hgen Hdoc) as [rs Hs].
    exists rs. split; [exact Hs|]. unfold Dense.search in Hs.
    destruct t.(Dense.embeddings) as [|e0 embs] eqn:Ee.
    + injection Hs as <-. split; [rewrite Nat.min_0_r; reflexivity | constructor].
    + rewrite <- Ee in Hcos, Hs |- *. clear Ee. rewrite Hq in Hs. cbn [bind] in Hs.
      rewrite (similarities_all zero threshold t.(Dense.embeddings) Hthr Hcos) in Hs.
      cbn [bind] in Hs. apply mapM_Ok in Hs. split.
      * rewrite <- (Forall2_length Hs), length_firstn, sorted_desc_length, length_map.
        reflexivity.
      * apply Forall_forall. intros r Hr.
        destruct (Forall2_In_right _ _ _ r Hs Hr) as ([doc_path similarity] & Hin & Hmk).
        apply In_firstn in Hin.
        apply (Permutation_in _ (sorted_desc_perm snd _)) in Hin.
        apply in_map_iff in Hin. destruct Hin as (entry & Hentry & _).
        injection Hentry as _ <-.
        unfold Dense.make_result in Hmk.
        destruct (Dict.getitem _ _) as [text|e]; [|discriminate]. cbn [bind] in Hmk.
        injection Hmk as <-. cbn. lra.
Qed.

(** C7 (amended). On every index that [index_documents] builds, a query that
    has no token, or whose tokens are all out of the vocabulary, gets the
    zero vector, of norm 0, and its cosine similarity with every stored
    embedding is 0. The search raises nothing: with a positive threshold
    (the default, 0.1, is one) it returns the empty list; with a threshold
    of 0 or less the test [similarity >= threshold] keeps every stored
    chunk, and the search returns [top_k] of them (all, when there are
    fewer), each with relevance score 0. *)
Theorem C7_out_of_vocabulary_query (ws : Workspace) (cache_file : option Dense.Cache)
                                   (file_paths : list string) (chunk_size : Z)
                                   (t : Dense.tool)
                                   (q : string) (top_k : nat) (threshold : R) :
  Dense.index_documents (Dense.init ws) cache_file file_paths chunk_size = Ok t ->
  (forall w, In w (_tokenize q) -> ~ In w t.(Dense.vocabulary)) ->
  exists zero,
    Dense._text_to_vector t q = Ok zero
    /\ Forall (fun x => x = 0) zero
    /\ norm zero = 0
    /\ (forall doc_path emb, In (doc_path, emb) t.(Dense.embeddings) ->
          Dense._cosine_similarity zero emb = Ok 0)
    /\ (0 < threshold -> Dense.search t q top_k threshold = Ok [])
    /\ (threshold <= 0 ->
        exists rs,
          Dense.search t q top_k threshold = Ok rs
          /\ List.length rs = Nat.min top_k (List.length t.(Dense.embeddings))
          /\ Forall (fun r => r.(relevance_score) = 0) rs)
    /\ 0 < Dense.default_threshold.
Proof.
  intros Hidx Hoov.
  destruct (dense_search_oov t q top_k threshold
              (dense_index_generated _ _ _ _ _ Hidx)
              (dense_index_documented _ _ _ _ _ Hidx) Hoov)
    as (zero & Hq & Hz & Hn & Hcos & Hpos & Hneg).
  exists zero. repeat (split; [assumption|]).
  unfold Dense.default_threshold. lra.
Qed.

(** ** Relevance scores of the three tools *)

Lemma fused_score (t : Hybrid.tool) (ds ss : list SearchResult) (r : SearchResult) :
  In r (map (Hybrid.fuse t) (Hybrid.combine_scores ds ss)) ->
  r.(relevance_score)
  = t.(Hybrid.dense_weight) * score_in ds r.(source)
    + t.(Hybrid.sparse_weight) * score_in ss r.(source).
Proof.
  intros Hr. apply in_map_iff in Hr. destruct Hr as ([key data] & <- & Hin).
  destruct (combine_scores_combines ds ss) as (Hnd & _ & Hget).
  apply (In_get _ _ _ Hnd) in Hin.
  destruct (Hget key data Hin) as (Hsrc & Hde & Hsp).
  cbn. rewrite Hsrc, Hde, Hsp. reflexivity.
Qed.

Lemma score_in_range (l : list SearchResult) (key : string) :
  Forall (fun r => 0 <= r.(relevance_score) <= 1) l -> 0 <= score_in l key <= 1.
Proof.
  induction l as [|r l IH] using rev_ind; intros Hall.
  - unfold score_in. simpl. lra.
  - rewrite score_in_snoc. apply Forall_app in Hall. destruct Hall as [Hl Hr].
    destruct (r.(source) =? key); [inversion Hr; assumption | apply IH, Hl].
Qed.

Lemma hybrid_index_dense (ws : Workspace) (w_dense w_sparse : R)
                         (cache_file : option Dense.Cache)
                         (file_paths : list string) (t : Hybrid.tool) :
  Hybrid.index_documents (Hybrid.init ws w_dense w_sparse) cache_file file_paths = Ok t ->
  embeddings_generated t.(Hybrid.dense_tool)
  /\ t.(Hybrid.dense_weight) = w_dense /\ t.(Hybrid.sparse_weight) = w_sparse.
Proof.
  unfold Hybrid.index_documents. cbn [Hybrid.init Hybrid.dense_tool Hybrid.bm25_tool
    Hybrid.dense_weight Hybrid.sparse_weight].
  destruct (Dense.index_documents _ _ _ _) as [dense|e] eqn:E; [|discriminate].
  cbn [bind]. intros H. injection H as <-. cbn.
  split; [eapply dense_index_generated; exact E | split; reflexivity].
Qed.

Lemma hybrid_search_range (ws : Workspace) (cache_file : option Dense.Cache)
                           (file_paths : list string) (t : Hybrid.tool)
                           (q : string) (top_k : nat) (rs : list SearchResult) :
  Hybrid.index_documents
    (Hybrid.init ws Hybrid.default_dense_weight Hybrid.default_sparse_weight)
    cache_file file_paths = Ok t ->
  Hybrid.search t q top_k = Ok rs ->
  Forall (fun r =>
            0 <= r.(relevance_score) <= 1
            /\ exists d s, 0 <= d <= 1 /\ 0 <= s <= 1
                           /\ r.(relevance_score) = 0.6 * d + 0.4 * s)
         rs.
Proof.
  intros Hidx Hs.
  destruct (hybrid_index_dense ws _ _ cache_file file_paths t Hidx)
    as (Hgen & Hwd & Hws).
  unfold Hybrid.search in Hs.
  destruct (Dense.search _ _ _ _) as [dense_results|e] eqn:Ed; [|discriminate].
  cbn [bind] in Hs.
  destruct (BM25.search _ _ _) as [sparse_results|e] eqn:Eb; [|discriminate].
  cbn [bind] in Hs. injection Hs as <-.
  pose proof (dense_search_range _ _ _ _ _ Hgen Ed) as Hd.
  assert (Hb : Forall (fun r => 0 <= r.(relevance_score) <= 1) sparse_results).
  { eapply Forall_impl; [|exact (bm25_search_range _ _ _ _ Eb)].
    cbn. intros r [[H0 H1] _]. lra. }
  apply Forall_forall. intros r Hr. unfold Hybrid.rerank in Hr.
  apply In_firstn in Hr. apply (Permutation_in _ (sorted_desc_perm _ _)) in Hr.
  pose proof (fused_score t dense_results sparse_results r Hr) as Hscore.
  rewrite Hwd, Hws in Hscore.
  unfold Hybrid.default_dense_weight, Hybrid.default_sparse_weight in Hscore.
  pose proof (score_in_range dense_results r.(source) Hd) as Hd1.
  pose proof (score_in_range sparse_results r.(source) Hb) as Hb1.
  split; [rewrite Hscore; lra|].
  exists (score_in dense_results r.(source)), (score_in sparse_results r.(source)).
  repeat split; (lra || exact Hscore).
Qed.

(** A dense index is built and searched without an exception. *)
Lemma dense_index_search_total (ws : Workspace) (cache_file : option Dense.Cache)
                               (file_paths : list string) (chunk_size : Z)
                               (q : string) (top_k : nat) (threshold : R) :
  (chunk_size / 10 <> 0)%Z ->
  cache_has_documents cache_file ->
  exists t rs,
    Dense.index_documents (Dense.init ws) cache_file file_paths chunk_size = Ok t
    /\ Dense.search t q top_k threshold = Ok rs.
Proof.
  intros Hwidth Hcache.
  destruct (dense_index_total ws cache_file file_paths chunk_size Hwidth Hcache)
    as [t Hidx].
  destruct (dense_search_total t q top_k threshold
              (dense_index_generated _ _ _ _ _ Hidx)
              (dense_index_documented _ _ _ _ _ Hidx))
    as [rs Hs].
  exists t, rs. split; assumption.
Qed.

(** The vector of a text is the vector of its weights, divided by its norm
    when this norm is positive. *)
Lemma text_to_vector_normalised (t : Dense.tool) (text : string) (v : list R) :
  Dense._text_to_vector t text = Ok v -> normalised v.
Proof.
  unfold Dense._text_to_vector. cbn zeta.
  destruct (mapM _ _) as [vector|e]; [|discriminate]. cbn [bind].
  intros H. injection H as <-. exists vector. reflexivity.
Qed.

(** C10 (amended). The three tools index and search without raising (the
    dense one for a chunk size with [chunk_size // 10] non-zero, the BM25 one
    for [0 < k1] and [0 <= b <= 1], the hybrid one with its defaults; the
    cache file, when there is one, holding a document if it holds a word),
    and no result of a dense, BM25 or hybrid (default weights) search has a
    negative relevance score. A dense score is the cosine similarity of two
    vectors, each divided by its norm, whose components are non-negative
    multiples of the idfs of their terms, so that the two vectors agree in
    sign term by term (the components themselves may be negative); a BM25
    score is [min(raw / 10, 1)] for a strictly positive raw score, and so
    in (0, 1]; a hybrid score is [0.6 * d + 0.4 * s] for [0 <= d] and [s] in
    [[0, 1]]. No bound from above is stated for the dense and the hybrid
    scores: a cosine is at most 1 over the reals, and in binary64 the query
    "fox dog" on [Dense64.fox_dog_index] scores 1.0000000000000002. *)
Theorem C10_relevance_scores (ws : Workspace)
                             (cache_file : option Dense.Cache)
                             (file_paths : list string)
                             (q : string) (top_k : nat) :
  (forall chunk_size threshold,
     (chunk_size / 10 <> 0)%Z ->
     cache_has_documents cache_file ->
     exists t rs,
       Dense.index_documents (Dense.init ws) cache_file file_paths chunk_size = Ok t
       /\ Dense.search t q top_k threshold = Ok rs)
  /\ (forall chunk_size t threshold rs,
        Dense.index_documents (Dense.init ws) cache_file file_paths chunk_size = Ok t ->
        Dense.search t q top_k threshold = Ok rs ->
        Forall (fun r =>
                  0 <= r.(relevance_score)
                  /\ exists v1 v2,
                       Dense._cosine_similarity v1 v2 = Ok r.(relevance_score)
                       /\ aligned (idf_list t) v1 /\ aligned (idf_list t) v2
                       /\ normalised v1 /\ normalised v2)
               rs)
  /\ (forall k1 b,
        0 < k1 -> 0 <= b <= 1 ->
        exists rs,
          BM25.search (BM25.index_documents (BM25.init ws k1 b) file_paths) q top_k
          = Ok rs)
  /\ (forall (t : BM25.tool) rs,
        BM25.search t q top_k = Ok rs ->
        Forall (fun r =>
                  0 < r.(relevance_score) <= 1
                  /\ exists raw, 0 < raw /\ r.(relevance_score) = Rmin (raw / 10.0) 1.0)
               rs)
  /\ (cache_has_documents cache_file ->
      exists t rs,
        Hybrid.index_documents
          (Hybrid.init ws Hybrid.default_dense_weight Hybrid.default_sparse_weight)
          cache_file file_paths = Ok t
        /\ Hybrid.search t q top_k = Ok rs)
  /\ (forall t rs,
        Hybrid.index_documents
          (Hybrid.init ws Hybrid.default_dense_weight Hybrid.default_sparse_weight)
          cache_file file_paths = Ok t ->
        Hybrid.search t q top_k = Ok rs ->
        Forall (fun r =>
                  0 <= r.(relevance_score)
                  /\ exists d s, 0 <= d /\ 0 <= s <= 1
                                 /\ r.(relevance_score) = 0.6 * d + 0.4 * s)
               rs).
Proof.
  split; [|split; [|split; [|split; [|split]]]].
  - intros chunk_size threshold Hwidth Hcache.
    apply dense_index_search_total; assumption.
  - intros chunk_size t threshold rs Hidx Hs.
    pose proof (dense_index_generated ws cache_file file_paths chunk_size t Hidx) as Hgen.
    pose proof (dense_search_range t q top_k threshold rs Hgen Hs) as Hrange.
    rewrite Forall_forall in *. intros r Hr. split; [apply Hrange, Hr|].
    destruct (dense_search_result t q top_k threshold rs r Hs Hr)
      as (qv & doc_path & emb & Hq & Hemb & Hc & _).
    destruct (Hgen doc_path emb Hemb) as [text Ht].
    destruct (text_to_vector_aligned t q qv Hq) as [Ha1 _].
    destruct (text_to_vector_aligned t text emb Ht) as [Ha2 _].
    exists qv, emb. split; [exact Hc|]. split; [exact Ha1|]. split; [exact Ha2|].
    split; eapply text_to_vector_normalised; eassumption.
  - intros k1 b Hk1 Hb. apply bm25_search_total; assumption.
  - intros t rs Hs. exact (bm25_search_range t q top_k rs Hs).
  - apply hybrid_search_total.
  - intros t rs Hidx Hs.
    eapply Forall_impl;
      [|exact (hybrid_search_range ws cache_file file_paths t q top_k rs Hidx Hs)].
    cbn beta. intros r (Hr & d & s & Hd & Hsp & Hscore).
    split; [lra|]. exists d, s. split; [lra|]. split; assumption.
Qed.

(** ** Evaluating the retrieval tools on sample workspaces *)

Ltac run_floats :=
  cbv -[Rgeb PyList.Rltb PyList.Rleb Reqb py_div py_log norm IZR Rdiv Rplus Rmult Rinv
        Rmin INR Rminus Ropp Rle Rlt Rge Rgt ln sqrt].

Ltac float_side := cbn [INR]; lra.

(** A division or a logarithm whose argument is in the domain. *)
Ltac py_step :=
  first [ rewrite py_div_Ok by float_side
        | rewrite py_log_Ok by float_side ].

(** The sign of [0 + ln x * w] for [1 < x] and a positive constant [w]. *)
Ltac float_sign :=
  first [ float_side
        | apply Rle_refl
        | apply Rplus_le_lt_0_compat;
          [float_side | apply Rmult_lt_0_compat; [apply ln_pos; float_side | float_side]] ].

Ltac decide_Rltb :=
  match goal with
  | |- context [PyList.Rltb ?x ?y] =>
      first [ rewrite (proj2 (Rltb_true x y)) by float_sign
            | rewrite (proj2 (Rltb_false x y)) by float_sign ]
  end.

Lemma bm25_fox_score :
  let t := BM25.index_documents (BM25.init ws_fox BM25.default_k1 BM25.default_b)
             ["a.txt"] in
  exists score,
    BM25.score_terms t "a.txt" (_tokenize "fox") 0.0 = Ok score /\ score < 0.
Proof.
  intros t. run_floats. repeat (py_step; run_floats).
  eexists. split; [reflexivity|].
  assert (Hln : ln ((INR 1 - INR 1 + 5 * / 10) / (INR 1 + 5 * / 10)) < 0)
    by (apply ln_neg; float_side).
  assert (Hw : INR 1 * (15 * / 10 + 1)
               / (INR 1 + 15 * / 10 * (1 - 75 * / 100 + 75 * / 100 * (INR 1 / (INR 1 / INR 1))))
               = 1) by (cbn [INR]; lra).
  rewrite Hw. lra.
Qed.

(** C1, counterexample. In an index of the single document "fox", the
    document holds the query term "fox", yet its score sum is negative (the
    idf of a term found in every document is [ln (1/3)]); the search returns
    nothing. *)
Lemma C1_negative_score_example :
  let t := BM25.index_documents (BM25.init ws_fox BM25.default_k1 BM25.default_b)
             ["a.txt"] in
  Dict.get t.(BM25.documents) "a.txt" = Some ["fox"]
  /\ In "fox" (_tokenize "fox")
  /\ (exists score,
        BM25.score_terms t "a.txt" (_tokenize "fox") 0.0 = Ok score /\ score < 0)
  /\ ~ (forall tokens term score,
          Dict.get t.(BM25.documents) "a.txt" = Some tokens ->
          In term (_tokenize "fox") -> In term tokens ->
          BM25.score_terms t "a.txt" (_tokenize "fox") 0.0 = Ok score ->
          0 <= score).
Proof.
  intros t. split; [reflexivity|]. split; [left; reflexivity|].
  pose proof bm25_fox_score as (score & Hscore & Hneg). fold t in Hscore.
  split; [exists score; split; assumption|].
  intros Hclaim.
  specialize (Hclaim ["fox"] "fox" score eq_refl (or_introl eq_refl)
                     (or_introl eq_refl) Hscore).
  lra.
Qed.

Lemma bm25_five_search :
  let t := BM25.index_documents (BM25.init ws_five BM25.default_k1 BM25.default_b)
             five_paths in
  exists r1 r2,
    BM25.search t "fox" 10 = Ok [r1; r2]
    /\ r1.(source) = "b.txt" /\ r2.(source) = "a.txt"
    /\ r1.(relevance_score) = r2.(relevance_score)
    /\ BM25.score_terms t "b.txt" (_tokenize "fox") 0.0
       = BM25.score_terms t "a.txt" (_tokenize "fox") 0.0.
Proof.
  intros t. run_floats. repeat (py_step; run_floats).
  repeat (decide_Rltb; run_floats).
  do 2 eexists. split; [reflexivity|]. repeat split.
Qed.

(** C8, counterexample. Files indexed in the order b, a, c, d, e, the first
    two holding the query term: the search returns [b.txt] before [a.txt]
    although both have the same score and "a.txt" is the smaller id. *)
Lemma C8_tie_in_index_order_example :
  let t := BM25.index_documents (BM25.init ws_five BM25.default_k1 BM25.default_b)
             five_paths in
  exists r1 r2,
    BM25.search t "fox" 10 = Ok [r1; r2]
    /\ r1.(relevance_score) = r2.(relevance_score)
    /\ BM25.score_terms t r1.(source) (_tokenize "fox") 0.0
       = BM25.score_terms t r2.(source) (_tokenize "fox") 0.0
    /\ r1.(source) = "b.txt" /\ r2.(source) = "a.txt"
    /\ String.ltb r2.(source) r1.(source) = true.
Proof.
  intros t. destruct bm25_five_search as (r1 & r2 & Hs & H1 & H2 & Hrel & Hscore).
  fold t in Hs, Hscore. exists r1, r2. rewrite H1, H2.
  repeat split; assumption || reflexivity.
Qed.

Lemma C1_bm25_returned_scores_witness :
  let t := BM25.index_documents (BM25.init ws_five BM25.default_k1 BM25.default_b)
             five_paths in
  exists rs,
    BM25.search t "fox" 10 = Ok rs
    /\ rs <> []
    /\ forall r, In r rs -> 0 < r.(relevance_score) <= 1.
Proof.
  intros t. destruct bm25_five_search as (r1 & r2 & Hs & _). fold t in Hs.
  exists [r1; r2]. split; [exact Hs|]. split; [discriminate|].
  intros r Hr.
  destruct (C1_bm25_returned_scores ws_five BM25.default_k1 BM25.default_b five_paths
              "fox" 10) as [_ Hsafe].
  destruct (Hsafe [r1; r2] Hs) as [Hall _].
  destruct (Hall r Hr) as (score & tokens & term & _ & _ & Hrange & _).
  exact Hrange.
Defined.

Lemma C8_bm25_ranking_witness :
  let t := BM25.index_documents (BM25.init ws_five BM25.default_k1 BM25.default_b)
             five_paths in
  exists rs,
    BM25.search t "fox" 10 = Ok rs
    /\ rs <> []
    /\ (List.length rs <= 10)%nat
    /\ StronglySorted (desc relevance_score) rs.
Proof.
  intros t. destruct bm25_five_search as (r1 & r2 & Hs & _). fold t in Hs.
  exists [r1; r2]. split; [exact Hs|]. split; [discriminate|].
  destruct (C8_bm25_ranking ws_five BM25.default_k1 BM25.default_b five_paths
              "fox" 10) as (_ & _ & Hranked).
  destruct (Hranked [r1; r2] Hs) as (Hlen & Hsorted & _).
  split; assumption.
Defined.

Lemma norm_pos (v : list R) (x : R) : In x v -> x <> 0 -> 0 < norm v.
Proof.
  intros Hin Hx. unfold norm. fold (sum_sq v). apply sqrt_lt_R0.
  induction v as [|y v IH]; [destruct Hin|]. rewrite sum_sq_cons.
  pose proof (sum_sq_nonneg v). destruct Hin as [-> | Hin].
  - assert (0 < x * x) by nra. lra.
  - specialize (IH Hin). nra.
Qed.

Lemma dense_fox_index :
  exists t v,
    Dense.index_documents (Dense.init ws_fox) None ["a.txt"] Dense.default_chunk_size = Ok t
    /\ t.(Dense.documents) = [("a.txt", "fox")]
    /\ t.(Dense.embeddings) = [("a.txt", [v])]
    /\ v < 0.
Proof.
  run_floats. repeat (py_step; run_floats).
  assert (Hl : ln (INR 1 / INR 2) < 0) by (apply ln_neg; float_side).
  assert (Hn : 0 < norm [INR 1 / INR 1 * ln (INR 1 / INR 2)]).
  { apply (norm_pos _ (INR 1 / INR 1 * ln (INR 1 / INR 2))); [left; reflexivity|].
    cbn [INR] in *. lra. }
  rewrite (proj2 (Rltb_true _ _) Hn).
  do 2 eexists. split; [reflexivity|]. split; [reflexivity|]. split; [reflexivity|].
  apply Rmult_neg_pos; [cbn [INR] in *; lra | apply Rinv_0_lt_compat, Hn].
Qed.

(** The index of the single document "fox" stores for it a vector whose
    only component is negative: the idf of a term found in every document
    is [ln (1/2)]. The vectors compared by the dense search are not
    non-negative. *)
Lemma dense_negative_component :
  exists t emb,
    Dense.index_documents (Dense.init ws_fox) None ["a.txt"] Dense.default_chunk_size = Ok t
    /\ Dict.get t.(Dense.embeddings) "a.txt" = Some emb
    /\ ~ Forall (fun x => 0 <= x) emb.
Proof.
  destruct dense_fox_index as (t & v & Hidx & _ & Hemb & Hv).
  exists t, [v]. split; [exact Hidx|]. split; [rewrite Hemb; reflexivity|].
  intros Hall. inversion Hall as [|? ? Hpos _]; subst. lra.
Qed.

(** C10, counterexample. In binary64, the index of the single document
    "fox dog" stores for it a vector whose two components are negative,
    and the search for "fox dog", with the default threshold, returns this
    document with the relevance score 1.0000000000000002, which is greater
    than 1: the sum of the two squares is rounded up, its root is 1. *)
Lemma C10_score_above_one_example :
  exists t emb r,
    Dense64.fox_dog_index = Ok t
    /\ Dict.get t.(Dense64.embeddings) "a.txt" = Some emb
    /\ forallb (fun x => PrimFloat.ltb x Dense64.zero) emb = true
    /\ Dense64.search t "fox dog" 10 Dense64.default_threshold = Ok [r]
    /\ r.(Dense64.relevance_score) = Dense64.above_one
    /\ PrimFloat.ltb Dense64.one r.(Dense64.relevance_score) = true.
Proof.
  do 3 eexists. split; [vm_compute; reflexivity|].
  split; [vm_compute; reflexivity|]. split; [vm_compute; reflexivity|].
  split; [vm_compute; reflexivity|]. split; vm_compute; reflexivity.
Qed.

Lemma dense_five_index :
  exists t,
    Dense.index_documents (Dense.init ws_five) None five_paths Dense.default_chunk_size = Ok t
    /\ t.(Dense.vocabulary) = ["fox"; "dog"]
    /\ List.length t.(Dense.embeddings) = 5%nat.
Proof.
  run_floats. repeat (py_step; run_floats).
  assert (H3 : 0 < ln (INR 5 / INR 3)) by (apply ln_pos; float_side).
  assert (H4 : 0 < ln (INR 5 / INR 4)) by (apply ln_pos; float_side).
  assert (Hn3 : 0 < norm [0; INR 1 / INR 1 * ln (INR 5 / INR 3)]).
  { apply (norm_pos _ (INR 1 / INR 1 * ln (INR 5 / INR 3))); [right; left; reflexivity|].
    cbn [INR] in *. lra. }
  assert (Hn4 : 0 < norm [INR 1 / INR 1 * ln (INR 5 / INR 4); 0]).
  { apply (norm_pos _ (INR 1 / INR 1 * ln (INR 5 / INR 4))); [left; reflexivity|].
    cbn [INR] in *. lra. }
  rewrite !(proj2 (Rltb_true _ _) Hn3), !(proj2 (Rltb_true _ _) Hn4).
  eexists. split; [reflexivity|]. split; reflexivity.
Qed.

(** C7, counterexample. The claim as stated fails at threshold 0: the index of [ws_five] is not
    empty, "cat" is out of its vocabulary, and the search returns the five
    stored documents. *)
Lemma C7_zero_threshold_example :
  exists t rs,
    Dense.index_documents (Dense.init ws_five) None five_paths Dense.default_chunk_size = Ok t
    /\ t.(Dense.embeddings) <> []
    /\ (forall w, In w (_tokenize "cat") -> ~ In w t.(Dense.vocabulary))
    /\ Dense.search t "cat" 10 0 = Ok rs
    /\ List.length rs = 5%nat
    /\ rs <> [].
Proof.
  destruct dense_five_index as (t & Hidx & Hvocab & Hlen).
  assert (Hoov : forall w, In w (_tokenize "cat") -> ~ In w t.(Dense.vocabulary)).
  { intros w Hw. rewrite Hvocab. cbv in Hw. destruct Hw as [<- | []].
    intros [H | [H | []]]; discriminate. }
  destruct (dense_search_oov t "cat" 10 0
              (dense_index_generated _ _ _ _ _ Hidx)
              (dense_index_documented _ _ _ _ _ Hidx) Hoov)
    as (_ & _ & _ & _ & _ & _ & Hall).
  destruct (Hall (Rle_refl 0)) as (rs & Hs & Hl & _).
  rewrite Hlen in Hl. cbn in Hl.
  exists t, rs. split; [exact Hidx|].
  split; [intros Hnil; rewrite Hnil in Hlen; discriminate|].
  split; [exact Hoov|]. split; [exact Hs|]. split; [exact Hl|].
  intros Hnil. rewrite Hnil in Hl. discriminate.
Qed.

(** The search for "cat" on the index of [ws_five], with the default
    threshold. *)
Lemma C7_out_of_vocabulary_query_witness :
  exists t,
    Dense.index_documents (Dense.init ws_five) None five_paths Dense.default_chunk_size = Ok t
    /\ t.(Dense.embeddings) <> []
    /\ Dense.search t "cat" 10 Dense.default_threshold = Ok [].
Proof.
  destruct dense_five_index as (t & Hidx & Hvocab & Hlen).
  exists t. split; [exact Hidx|].
  split; [intros Hnil; rewrite Hnil in Hlen; discriminate|].
  destruct (C7_out_of_vocabulary_query ws_five None five_paths Dense.default_chunk_size
              t "cat" 10 Dense.default_threshold Hidx)
    as (zero & _ & _ & _ & _ & Hs & _).
  - intros w Hw. rewrite Hvocab. cbv in Hw. destruct Hw as [<- | []].
    intros [H | [H | []]]; discriminate.
  - apply Hs. unfold Dense.default_threshold. lra.
Defined.

(** ** Relevance filtering and the decision of [AnalysisNode] *)

Lemma relevant_results_nonempty (state : ResearchState) :
  state.(all_results) <> [] -> relevant_results state <> [].
Proof.
  intros Hne. unfold relevant_results.
  destruct (filter _ _) eqn:E; [|discriminate].
  intros H. apply (f_equal (@List.length _)) in H.
  rewrite length_firstn, sorted_desc_length in H.
  destruct state.(all_results); [congruence | simpl in H; lia].
Qed.

(** C6. With a non-empty accumulated result list, the results handed to
    analysis are exactly those whose [relevance_score] reaches
    [similarity_threshold], in their original order; when none does, they are
    the first ten of the accumulated results arranged by descending score
    (all of them when there are fewer than ten); in both cases the list
    handed to analysis is non-empty. *)
Theorem C6_relevance_filtering (state : ResearchState) :
  state.(all_results) <> [] ->
  let meets r := state.(similarity_threshold) <= r.(relevance_score) in
  let relevant := relevant_results state in
  ((exists r, In r state.(all_results) /\ meets r) ->
     relevant = filter (fun r => Rgeb r.(relevance_score) state.(similarity_threshold))
                       state.(all_results)
     /\ forall r, In r relevant <-> In r state.(all_results) /\ meets r)
  /\ ((forall r, In r state.(all_results) -> ~ meets r) ->
     exists ranked,
       Permutation ranked state.(all_results)
       /\ StronglySorted (desc relevance_score) ranked
       /\ relevant = firstn 10 ranked
       /\ List.length relevant = Nat.min 10 (List.length state.(all_results)))
  /\ relevant <> [].
Proof.
  intros Hne meets relevant. split; [|split].
  - intros [r [Hin Hr]].
    assert (Hf : In r (filter (fun r => Rgeb r.(relevance_score) state.(similarity_threshold))
                              state.(all_results))).
    { apply filter_In. split; [exact Hin | apply Rgeb_true; exact Hr]. }
    assert (Heq : relevant = filter (fun r => Rgeb r.(relevance_score) state.(similarity_threshold))
                              state.(all_results)).
    { unfold relevant, relevant_results. destruct (filter _ _); [destruct Hf | reflexivity]. }
    split; [exact Heq|]. intros r'. rewrite Heq, filter_In, Rgeb_true. reflexivity.
  - intros Hnone.
    exists (PyList.sorted_desc relevance_score state.(all_results)).
    assert (Heq : relevant = firstn 10 (PyList.sorted_desc relevance_score state.(all_results))).
    { unfold relevant, relevant_results. destruct (filter _ _) as [|r l] eqn:E; [reflexivity|].
      assert (Hr : In r (filter (fun r => Rgeb r.(relevance_score) state.(similarity_threshold))
                                state.(all_results))) by (rewrite E; left; reflexivity).
      apply filter_In in Hr. destruct Hr as [Hin Hr]. apply Rgeb_true in Hr.
      destruct (Hnone r Hin Hr). }
    repeat split.
    + apply sorted_desc_perm.
    + apply sorted_desc_sorted.
    + exact Heq.
    + rewrite Heq, length_firstn, sorted_desc_length. reflexivity.
  - apply relevant_results_nonempty, Hne.
Qed.

Lemma C6_relevance_filtering_witness :
  relevant_results state_one_hit <> [].
Proof.
  apply (C6_relevance_filtering state_one_hit). discriminate.
Defined.

Lemma AnalysisNode_nonempty (env : Env) (state : ResearchState) :
  state.(all_results) <> [] ->
  let relevant := relevant_results state in
  let follow_ups := env.(suggest_follow_up_queries) relevant state.(original_query) in
  let decision := ((state.(current_iteration) <? state.(max_iterations))%Z
                   && negb (Nat.eqb (List.length follow_ups) 0)
                   && (List.length relevant <? 20)%nat)%bool in
  (AnalysisNode env state).(status) = (if decision then ITERATING else SYNTHESIZING)
  /\ (AnalysisNode env state).(all_results) = state.(all_results)
  /\ (AnalysisNode env state).(current_iteration) = state.(current_iteration)
  /\ (AnalysisNode env state).(max_iterations) = state.(max_iterations)
  /\ (AnalysisNode env state).(confidence_score) = state.(confidence_score)
  /\ (AnalysisNode env state).(pending_searches) = state.(pending_searches)
  /\ (AnalysisNode env state).(iterations) =
       state.(iterations) ++
       [mkResearchIteration state.(current_iteration)
          (if is_empty_str state.(current_query)
           then state.(original_query) else state.(current_query))
          relevant (env.(extract_key_insights) relevant) follow_ups ANALYZING].
Proof.
  intros Hne relevant follow_ups decision. unfold AnalysisNode.
  destruct state.(all_results) as [|r l] eqn:E; [congruence|].
  cbn [set_key_insights set_iterations current_iteration max_iterations].
  fold relevant follow_ups decision.
  destruct decision; cbn; rewrite ?E; repeat split; reflexivity.
Qed.

(** C4. When [AnalysisNode] runs on a state whose accumulated result list is
    non-empty, it leaves status ITERATING exactly when
    [current_iteration < max_iterations], the follow-up list it generated is
    non-empty and fewer than 20 results passed the relevance filter; in every
    other case it leaves status SYNTHESIZING. The workflow then moves to the
    iteration node in the first case and to the synthesis node in the
    second. *)
Theorem C4_analysis_transition (env : Env) (state : ResearchState) :
  state.(all_results) <> [] ->
  let relevant := relevant_results state in
  let follow_ups := env.(suggest_follow_up_queries) relevant state.(original_query) in
  let state' := AnalysisNode env state in
  let iterate := (state.(current_iteration) < state.(max_iterations))%Z
                 /\ follow_ups <> []
                 /\ (List.length relevant < 20)%nat in
  (state'.(status) = ITERATING <-> iterate)
  /\ (~ iterate -> state'.(status) = SYNTHESIZING)
  /\ (iterate -> next_node analysis state' = Some iteration)
  /\ (~ iterate -> next_node analysis state' = Some synthesis).
Proof.
  intros Hne relevant follow_ups state' iterate.
  destruct (AnalysisNode_nonempty env state Hne) as [Hst _].
  fold relevant follow_ups state' in Hst.
  assert (Hdec : ((state.(current_iteration) <? state.(max_iterations))%Z
                  && negb (Nat.eqb (List.length follow_ups) 0)
                  && (List.length relevant <? 20)%nat)%bool = true <-> iterate).
  { unfold iterate. rewrite !andb_true_iff, Z.ltb_lt, Nat.ltb_lt, negb_true_iff, Nat.eqb_neq.
    destruct follow_ups; simpl; intuition (congruence || lia). }
  destruct (_ && _ && _)%bool eqn:D.
  - assert (Hi : iterate) by (apply Hdec; reflexivity).
    split; [|split; [|split]]; intros; try tauto.
    unfold next_node, _analysis_condition. rewrite Hst. reflexivity.
  - assert (Hi : ~ iterate) by (intros Hi; apply Hdec in Hi; discriminate).
    split; [|split; [|split]]; intros; try tauto.
    + split; [intros Hs; rewrite Hst in Hs; discriminate | tauto].
    + unfold next_node, _analysis_condition. rewrite Hst. reflexivity.
Qed.

Lemma C4_analysis_transition_witness :
  (AnalysisNode env_grep state_one_hit).(status) = ITERATING <->
  (state_one_hit.(current_iteration) < state_one_hit.(max_iterations))%Z
  /\ env_grep.(suggest_follow_up_queries) (relevant_results state_one_hit)
       state_one_hit.(original_query) <> []
  /\ (List.length (relevant_results state_one_hit) < 20)%nat.
Proof.
  apply (C4_analysis_transition env_grep state_one_hit). discriminate.
Defined.

(** ** Confidence of a synthesised run *)

Lemma count_distinct_pos (l : list string) : l <> [] -> (1 <= PyList.count_distinct l)%nat.
Proof.
  intros Hne. unfold PyList.count_distinct.
  destruct l as [|x l]; [congruence|].
  destruct (nodup string_dec (x :: l)) eqn:E; [|simpl; lia].
  assert (Hin : In x (nodup string_dec (x :: l))) by (apply nodup_In; left; reflexivity).
  rewrite E in Hin. destruct Hin.
Qed.

Lemma confidence_no_results (state : ResearchState) :
  state.(all_results) = [] -> (SynthesisNode state).(confidence_score) = 0.1.
Proof.
  intros E. unfold SynthesisNode, confidence_factors. rewrite E. cbn.
  rewrite sum_cons. unfold PyList.sum. simpl. lra.
Qed.

Lemma confidence_with_results (state : ResearchState) :
  state.(all_results) <> [] -> state.(iterations) <> [] -> nonneg_results state ->
  0.1 <= (SynthesisNode state).(confidence_score) <= 1.0.
Proof.
  intros Hres Hit Hnn. unfold SynthesisNode.
  cbn [confidence_score set_status set_confidence_score]. unfold confidence_factors.
  destruct state.(all_results) as [|r0 rs] eqn:E; [congruence|].
  set (avg := PyList.sum (map relevance_score (r0 :: rs)) / INR (List.length (r0 :: rs))).
  set (n := List.length state.(iterations)).
  set (u := PyList.count_distinct (map source (r0 :: rs))).
  rewrite !sum_cons. replace (PyList.sum []) with 0 by reflexivity.
  replace (INR (List.length [Rmin (avg * 2) 1.0; Rmin (INR n / 3) 1.0; Rmin (INR u / 10) 1.0]))
    with 3 by (simpl; lra).
  assert (Havg : 0 <= avg).
  { unfold avg. apply Rmult_le_pos.
    - apply sum_nonneg. unfold nonneg_results in Hnn. rewrite E in Hnn.
      rewrite Forall_forall in *. intros x Hx. apply in_map_iff in Hx.
      destruct Hx as [r [<- Hr]]. auto.
    - left. apply Rinv_0_lt_compat. apply lt_0_INR. simpl. lia. }
  assert (Hn : 1 <= INR n).
  { change 1 with (INR 1). apply le_INR. unfold n.
    destruct state.(iterations); [congruence | simpl; lia]. }
  assert (Hu : 1 <= INR u).
  { change 1 with (INR 1). apply le_INR. apply count_distinct_pos. discriminate. }
  assert (H1 : 0 <= Rmin (avg * 2) 1.0 <= 1).
  { split; [apply Rmin_glb; lra | eapply Rle_trans; [apply Rmin_r | lra]]. }
  assert (H2 : 1 / 3 <= Rmin (INR n / 3) 1.0 <= 1).
  { split; [apply Rmin_glb; lra | eapply Rle_trans; [apply Rmin_r | lra]]. }
  assert (H3 : 1 / 10 <= Rmin (INR u / 10) 1.0 <= 1).
  { split; [apply Rmin_glb; lra | eapply Rle_trans; [apply Rmin_r | lra]]. }
  lra.
Qed.

(** ** Invariant of a run *)

Lemma plan_strategies_length (q : string) :
  (2 <= List.length (plan_strategies q) <= 8)%nat.
Proof.
  unfold plan_strategies.
  repeat match goal with |- context [if ?b then _ else _] => destruct b end;
    simpl; lia.
Qed.

(** A workflow that has just been created holds no tool. *)
Lemma new_workflow_built (cache : option Dense.Cache) : world_built (new_workflow cache).
Proof. split; intros tool H; discriminate. Qed.

(** The dense strategy returns scores in [[0, 1]] and keeps a built tool. *)
Lemma dense_strategy_range (env : Env) (w : World) (q : string) (files : list string) :
  world_built w ->
  world_built (fst (_dense_retrieval_search env w q files))
  /\ forall rs, snd (_dense_retrieval_search env w q files) = Ok rs ->
                Forall (fun r => 0 <= r.(relevance_score) <= 1) rs.
Proof.
  intros Hw. pose proof Hw as [Hdense Hhybrid]. unfold _dense_retrieval_search.
  destruct w.(dense_tool) as [[tool|e]|] eqn:Ew; cbn [fst snd].
  - split; [exact Hw|]. intros rs Hs.
    apply (dense_search_range _ _ _ _ _ (Hdense tool eq_refl) Hs).
  - split; [exact Hw|]. intros rs Hs. injection Hs as <-. constructor.
  - destruct (Dense.index_documents _ _ _ _) as [tool|e] eqn:Eidx; cbn [bind].
    + pose proof (dense_index_generated _ _ _ _ _ Eidx) as Hgen. split.
      * split; cbn [dense_tool hybrid_tool]; [|exact Hhybrid].
        intros tool' H. injection H as <-. exact Hgen.
      * intros rs Hs. apply (dense_search_range _ _ _ _ _ Hgen Hs).
    + split; [|discriminate].
      split; cbn [dense_tool hybrid_tool]; [discriminate | exact Hhybrid].
Qed.

Lemma bm25_strategy_range (env : Env) (w : World) (q : string) (files : list string) :
  world_built w ->
  world_built (fst (_bm25_retrieval_search env w q files))
  /\ forall rs, snd (_bm25_retrieval_search env w q files) = Ok rs ->
                Forall (fun r => 0 <= r.(relevance_score) <= 1) rs.
Proof.
  intros Hw. unfold _bm25_retrieval_search.
  assert (Hrange : forall tool rs, BM25.search tool q 10 = Ok rs ->
                     Forall (fun r => 0 <= r.(relevance_score) <= 1) rs).
  { intros tool rs Hs. eapply Forall_impl; [|exact (bm25_search_range _ _ _ _ Hs)].
    cbn. intros r [[H0 H1] _]. lra. }
  destruct w.(bm25_tool) as [tool|]; cbn [fst snd];
    (split; [|apply Hrange]); [exact Hw|].
  destruct Hw as [Hdense Hhybrid]. split; assumption.
Qed.

Lemma hybrid_strategy_range (env : Env) (w : World) (q : string) (files : list string) :
  world_built w ->
  world_built (fst (_hybrid_retrieval_search env w q files))
  /\ forall rs, snd (_hybrid_retrieval_search env w q files) = Ok rs ->
                Forall (fun r => 0 <= r.(relevance_score) <= 1) rs.
Proof.
  intros Hw. pose proof Hw as [Hdense Hhybrid]. unfold _hybrid_retrieval_search.
  assert (Hrange : forall tool rs,
            (exists ws cache_file file_paths,
               Hybrid.index_documents
                 (Hybrid.init ws Hybrid.default_dense_weight Hybrid.default_sparse_weight)
                 cache_file file_paths = Ok tool) ->
            Hybrid.search tool q 10 = Ok rs ->
            Forall (fun r => 0 <= r.(relevance_score) <= 1) rs).
  { intros tool rs (ws & cache & paths & Hidx) Hs.
    eapply Forall_impl; [|exact (hybrid_search_range _ _ _ _ _ _ _ Hidx Hs)].
    cbn. intros r [H _]. exact H. }
  destruct w.(hybrid_tool) as [[tool|e]|] eqn:Ew; cbn [fst snd].
  - split; [exact Hw|]. intros rs Hs. apply (Hrange tool rs); auto.
  - split; [exact Hw|]. intros rs Hs. injection Hs as <-. constructor.
  - destruct (Hybrid.index_documents _ _ _) as [tool|e] eqn:Eidx; cbn [bind].
    + split.
      * split; cbn [dense_tool hybrid_tool]; [exact Hdense|].
        intros tool' H. injection H as <-. eauto.
      * intros rs Hs. apply (Hrange tool rs); eauto.
    + split; [|discriminate].
      split; cbn [dense_tool hybrid_tool]; [exact Hdense | discriminate].
Qed.

(** Whatever the strategy, [SearchNode] appends no negative score: the three
    retrieval strategies return scores in [[0, 1]], and a strategy that
    raises contributes nothing. *)
Lemma run_strategy_nonneg (env : Env) (w : World) (strategy q : string)
                          (files : list string) :
  scores_nonneg env ->
  world_built w ->
  Forall (fun r => 0 <= r.(relevance_score)) (snd (run_strategy env w strategy q files))
  /\ world_built (fst (run_strategy env w strategy q files)).
Proof.
  intros Hscores Hw.
  assert (Hfile : forall found,
            (forall r, In r found ->
               In r (env.(grep_search) q files ++ env.(fuzzy_search) q files
                     ++ env.(code_structure_search) q files
                     ++ env.(config_file_search) q files
                     ++ env.(data_flow_search) q files)) ->
            Forall (fun r => 0 <= r.(relevance_score)) (snd (w, found))
            /\ world_built (fst (w, found))).
  { intros found Hsub. split; [|exact Hw]. apply Forall_forall.
    intros r Hr. apply (Hscores q files r), Hsub, Hr. }
  assert (Htool : forall found : World * Py (list SearchResult),
            world_built (fst found)
            /\ (forall rs, snd found = Ok rs ->
                           Forall (fun r => 0 <= r.(relevance_score) <= 1) rs) ->
            Forall (fun r => 0 <= r.(relevance_score)) (snd (or_nothing found))
            /\ world_built (fst (or_nothing found))).
  { intros [w' [rs|e]] [Hw' Hrange]; cbn [or_nothing fst snd] in *;
      (split; [|exact Hw']); [|constructor].
    eapply Forall_impl; [|apply Hrange; reflexivity]. cbn. intros r Hr. lra. }
  unfold run_strategy.
  destruct (strategy =? "grep_search");
    [apply Hfile; intros r Hr; rewrite !in_app_iff; tauto|].
  destruct (strategy =? "fuzzy_search");
    [apply Hfile; intros r Hr; rewrite !in_app_iff; tauto|].
  destruct (strategy =? "code_structure_analysis");
    [apply Hfile; intros r Hr; rewrite !in_app_iff; tauto|].
  destruct (strategy =? "config_file_search");
    [apply Hfile; intros r Hr; rewrite !in_app_iff; tauto|].
  destruct (strategy =? "data_flow_analysis");
    [apply Hfile; intros r Hr; rewrite !in_app_iff; tauto|].
  destruct (strategy =? "dense_retrieval");
    [apply Htool, dense_strategy_range, Hw|].
  destruct (strategy =? "bm25_retrieval");
    [apply Htool, bm25_strategy_range, Hw|].
  destruct (strategy =? "hybrid_retrieval");
    [apply Htool, hybrid_strategy_range, Hw|].
  apply (Hfile []). intros r [].
Qed.

(** One turn of the loop of [run_research]. *)
Lemma stream_events_step (env : Env) (budget : nat) (node : NodeName) (w : World)
                         (state : ResearchState) :
  stream_events env (S budget) node w state
  = (node, snd (run_node env node w state)) ::
    match next_node node (snd (run_node env node w state)) with
    | None => []
    | Some node' =>
        stream_events env budget node' (fst (run_node env node w state))
                      (snd (run_node env node w state))
    end.
Proof. cbn [stream_events]. destruct (run_node env node w state). reflexivity. Qed.

Section RunInvariant.

Variable env : Env.

Hypothesis Hscores : scores_nonneg env.

Lemma SearchNode_cases (w : World) (state : ResearchState) :
  world_built w ->
  let state' := snd (SearchNode env w state) in
  world_built (fst (SearchNode env w state))
  /\ ((state.(pending_searches) = [] /\ state' = set_status ANALYZING state)
      \/ exists strategy rest found,
           state.(pending_searches) = strategy :: rest
           /\ Forall (fun r => 0 <= r.(relevance_score)) found
           /\ state'.(pending_searches) = rest
           /\ state'.(all_results) = state.(all_results) ++ found
           /\ state'.(iterations) = state.(iterations)
           /\ state'.(status) =
                match rest with [] => ANALYZING | _ :: _ => state.(status) end).
Proof.
  intros Hw. unfold SearchNode.
  destruct state.(pending_searches) as [|strategy rest] eqn:E; cbn [fst snd].
  - split; [exact Hw|]. left. split; reflexivity.
  - match goal with
    | |- context [run_strategy env w ?s ?q ?f] =>
        destruct (run_strategy_nonneg env w s q f Hscores Hw) as [Hf Hw']
    end.
    split; [exact Hw'|]. right. exists strategy, rest. eexists.
    split; [reflexivity|]. split; [exact Hf|].
    destruct rest; cbn; repeat split; reflexivity.
Qed.

Lemma step_invariant (k : nat) (node : NodeName) (w : World) (state : ResearchState) :
  world_built w ->
  before k node state ->
  let state' := snd (run_node env node w state) in
  world_built (fst (run_node env node w state))
  /\ after (S k) node state'
  /\ forall node', next_node node state' = Some node' -> before (S k) node' state'.
Proof.
  intros Hw [Hnn Hb] state'. subst state'.
  destruct node; cbn [run_node fst snd]; try (split; [exact Hw|]).
  - (* planning *)
    destruct Hb as (-> & Hres & Hit). split.
    + right. left. lia.
    + intros node' Hn. injection Hn as <-. unfold before, nonneg_results.
      cbn. rewrite Hres, Hit. split; [constructor|]. split; [discriminate|].
      left. split; [reflexivity|].
      pose proof (plan_strategies_length state.(original_query)). lia.
  - (* search *)
    destruct Hb as (Hst & Hround).
    destruct (SearchNode_cases w state Hw) as [Hw' Hcases]. split; [exact Hw'|].
    set (state' := snd (SearchNode env w state)) in *.
    destruct Hcases
      as [[Hp Heq] | (strategy & rest & found & Hp & Hf & Hp' & Hr' & Hi' & Hs')].
    + rewrite Heq. split.
      * destruct Hround as [[Hit Hk] | [Hit Hres]].
        -- right. left. rewrite Hp in Hk. simpl in Hk. lia.
        -- right. right. cbn. split; [discriminate | exact Hres].
      * intros node'. unfold next_node, _search_condition. cbn. rewrite Hp.
        intros Hn. injection Hn as <-. split; [exact Hnn|].
        destruct Hround as [[Hit Hk] | [Hit Hres]].
        -- left. cbn. split; [exact Hit|]. rewrite Hp in Hk. simpl in Hk. lia.
        -- right. split; cbn; assumption.
    + assert (Hstatus : state'.(status) <> COMPLETED).
      { rewrite Hs'. destruct rest; [discriminate | exact Hst]. }
      split.
      * destruct Hround as [[Hit Hk] | [Hit Hres]].
        -- right. left. rewrite Hp in Hk. simpl in Hk. lia.
        -- right. right. split; [exact Hstatus|]. rewrite Hr'.
           destruct state.(all_results); [congruence | discriminate].
      * intros node'. unfold next_node, _search_condition. rewrite Hp'.
        assert (Hnn' : nonneg_results state').
        { unfold nonneg_results. rewrite Hr'. apply Forall_app. split; assumption. }
        assert (Hlater : later_round state -> later_round state').
        { intros [Hit Hres]. split; [rewrite Hi'; exact Hit|]. rewrite Hr'.
          destruct state.(all_results); [congruence | discriminate]. }
        destruct rest as [|s2 rest]; intros Hn; injection Hn as <-;
          (split; [exact Hnn'|]).
        -- destruct Hround as [[Hit Hk] | Hl]; [left | right; auto].
           rewrite Hi'. split; [exact Hit|]. rewrite Hp in Hk. simpl in Hk. lia.
        -- split; [exact Hstatus|].
           destruct Hround as [[Hit Hk] | Hl]; [left | right; auto].
           rewrite Hi', Hp'. split; [exact Hit|]. rewrite Hp in Hk. simpl in *. lia.
  - (* analysis *)
    destruct (state.(all_results)) as [|r0 rs] eqn:E.
    + assert (Hk : (k <= 9)%nat).
      { destruct Hb as [[_ Hk] | [_ Hres]]; [exact Hk | congruence]. }
      unfold AnalysisNode. rewrite E. split.
      * right. left. lia.
      * intros node'. unfold next_node, _analysis_condition. cbn.
        intros Hn. injection Hn as <-. unfold before, nonneg_results. cbn.
        rewrite E. split; [constructor|]. left. split; [reflexivity | lia].
    + assert (Hne : state.(all_results) <> []) by (rewrite E; discriminate).
      destruct (AnalysisNode_nonempty env state Hne) as (Hs & Hr & _ & _ & _ & _ & Hi).
      assert (Hl : later_round (AnalysisNode env state)).
      { split; [rewrite Hi; destruct state.(iterations); discriminate | rewrite Hr; exact Hne]. }
      assert (Hc : (AnalysisNode env state).(status) <> COMPLETED).
      { rewrite Hs. destruct (_ && _ && _)%bool; discriminate. }
      split.
      * right. right. split; [exact Hc | apply Hl].
      * intros node'. unfold next_node.
        assert (Hnn' : nonneg_results (AnalysisNode env state)).
        { unfold nonneg_results. rewrite Hr. exact Hnn. }
        destruct (_analysis_condition _); intros Hn; injection Hn as <-;
          (split; [exact Hnn'|]); [exact Hl | right; exact Hl].
  - (* iteration *)
    destruct Hb as [Hit Hres].
    assert (Hkeep : (IterationNode state).(all_results) = state.(all_results)
                    /\ (IterationNode state).(iterations) = state.(iterations)
                    /\ (IterationNode state).(status) <> COMPLETED).
    { unfold IterationNode. destruct (rev _) as [|last_iteration ?].
      - cbn. repeat split. discriminate.
      - destruct last_iteration.(follow_up_questions); cbn; repeat split; discriminate. }
    destruct Hkeep as (Hr & Hi & Hs). split.
    + right. right. split; [exact Hs | rewrite Hr; exact Hres].
    + intros node' Hn. injection Hn as <-. unfold before, nonneg_results.
      rewrite Hr. split; [exact Hnn|]. split; [exact Hs|]. right.
      split; [rewrite Hi | rewrite Hr]; assumption.
  - (* synthesis *)
    assert (Hc : confident (SynthesisNode state)).
    { unfold confident. split; [reflexivity|].
      destruct Hb as [[Hres _] | [Hit Hres]].
      - rewrite (confidence_no_results state Hres). split; [lra | reflexivity].
      - split; [apply confidence_with_results; assumption|].
        cbn. intros Hempty. congruence. }
    split; [left; exact Hc|].
    intros node' Hn. injection Hn as <-. split; [exact Hnn | exact Hc].
  - (* report *)
    split; [exact Hb | discriminate].
Qed.

(** The last event read by the loop, with the number of events read. *)
Lemma stream_events_last (budget k : nat) (node : NodeName) (w : World)
                         (state : ResearchState) :
  world_built w ->
  before k node state ->
  exists events node_f final_state,
    stream_events env (S budget) node w state = events ++ [(node_f, final_state)]
    /\ after (k + S (List.length events)) node_f final_state
    /\ (List.length events = budget \/ node_f = report).
Proof.
  revert k node w state. induction budget as [|budget IH]; intros k node w state Hw Hb;
    destruct (step_invariant k node w state Hw Hb) as (Hw' & Ha & Hnext);
    rewrite stream_events_step;
    set (w' := fst (run_node env node w state)) in *;
    set (state' := snd (run_node env node w state)) in *.
  - exists [], node, state'. cbn [stream_events app List.length].
    replace (k + 1)%nat with (S k) by lia.
    destruct (next_node node state'); auto.
  - destruct (next_node node state') as [node'|] eqn:En.
    + destruct (IH (S k) node' w' state' Hw' (Hnext node' eq_refl))
        as (events & node_f & final_state & He & Hafter & Hlen).
      exists ((node, state') :: events), node_f, final_state.
      split; [rewrite He; reflexivity|]. cbn [List.length]. split.
      * replace (k + S (S (List.length events)))%nat
          with (S k + S (List.length events))%nat by lia. exact Hafter.
      * destruct Hlen; [left; lia | right; assumption].
    + exists [], node, state'. split; [reflexivity|]. split.
      * cbn. replace (k + 1)%nat with (S k) by lia. exact Ha.
      * right. destruct node; cbn in En; try discriminate.
        -- destruct (_search_condition _); discriminate.
        -- destruct (_analysis_condition _); discriminate.
        -- reflexivity.
Qed.

End RunInvariant.

Lemma initial_state_before (ws : string) (max_it : Z) (thr : R) (q : string)
                           (goal : option string) :
  before 0 planning (create_initial_state ws max_it thr q goal).
Proof. split; [constructor | repeat split]. Qed.

(** C3. A run of a workflow whose file strategies return non-negative
    relevance scores, and whose retrieval tools, when it already holds some,
    were built by its search node (a new workflow holds none), ends in a
    state where status COMPLETED comes with a confidence score in
    [[0.1, 1.0]]; a run that accumulated no result at all ends with status
    COMPLETED and confidence exactly 0.1. *)
Theorem C3_confidence_range (env : Env) (w : World) (ws : string) (max_it : Z)
                            (thr : R) (q : string) (goal : option string) :
  scores_nonneg env ->
  world_built w ->
  exists final_state,
    run_research env w ws max_it thr q goal = Some final_state
    /\ (final_state.(status) = COMPLETED ->
        0.1 <= final_state.(confidence_score) <= 1.0)
    /\ (final_state.(all_results) = [] ->
        final_state.(status) = COMPLETED /\ final_state.(confidence_score) = 0.1).
Proof.
  intros Hscores Hw.
  destruct (stream_events_last env Hscores STEP_CEILING 0 planning w _ Hw
              (initial_state_before ws max_it thr q goal))
    as (events & node_f & final_state & He & Hafter & Hlen).
  exists final_state. split.
  - unfold run_research, run_events. rewrite He, rev_app_distr. reflexivity.
  - assert (Hc : confident final_state
                 \/ (final_state.(status) <> COMPLETED /\ final_state.(all_results) <> [])).
    { destruct Hlen as [Hlen | ->]; [|left; exact Hafter].
      rewrite Hlen in Hafter. unfold STEP_CEILING in Hafter.
      destruct node_f; cbn in Hafter; try (left; exact Hafter);
        (destruct Hafter as [Hc | [Hk | Hne]]; [left; exact Hc | lia | right; exact Hne]). }
    destruct Hc as [(Hs & Hb & Hz) | (Hs & Hr)].
    + split; [intros _; exact Hb | intros Hempty; split; [exact Hs | exact (Hz Hempty)]].
    + split; [intros Hs'; congruence | intros Hempty; congruence].
Qed.

Lemma env_silent_scores : scores_nonneg env_silent.
Proof. intros q files r Hr. destruct Hr. Qed.

Lemma C3_confidence_range_witness :
  exists final_state,
    run_research env_silent (new_workflow None) "ws" 3 0.3 "fox" None = Some final_state
    /\ (final_state.(status) = COMPLETED ->
        0.1 <= final_state.(confidence_score) <= 1.0)
    /\ (final_state.(all_results) = [] ->
        final_state.(status) = COMPLETED /\ final_state.(confidence_score) = 0.1).
Proof.
  apply (C3_confidence_range env_silent (new_workflow None) "ws" 3 0.3 "fox" None).
  - exact env_silent_scores.
  - apply new_workflow_built.
Defined.

(** ** Bounds on a run *)

Lemma stream_events_length (env : Env) (budget : nat) (node : NodeName) (w : World)
                           (state : ResearchState) :
  (List.length (stream_events env budget node w state) <= budget)%nat
  /\ (budget <> 0%nat -> stream_events env budget node w state <> []).
Proof.
  revert node w state. induction budget as [|budget IH]; intros node w state.
  - split; [simpl; lia | congruence].
  - rewrite stream_events_step. split; [|discriminate]. cbn [List.length].
    destruct (next_node _ _) as [node'|]; [|simpl; lia].
    destruct (IH node' (fst (run_node env node w state))
                 (snd (run_node env node w state))) as [Hl _]. lia.
Qed.

Lemma SearchNode_keeps (env : Env) (w : World) (state : ResearchState) :
  (snd (SearchNode env w state)).(current_iteration) = state.(current_iteration)
  /\ (snd (SearchNode env w state)).(max_iterations) = state.(max_iterations).
Proof.
  unfold SearchNode. destruct state.(pending_searches) as [|strategy rest];
    [split; reflexivity|]. destruct rest; split; reflexivity.
Qed.

Lemma AnalysisNode_keeps (env : Env) (state : ResearchState) :
  (AnalysisNode env state).(current_iteration) = state.(current_iteration)
  /\ (AnalysisNode env state).(max_iterations) = state.(max_iterations).
Proof.
  unfold AnalysisNode. destruct state.(all_results); [split; reflexivity|].
  destruct (_ && _ && _)%bool; split; reflexivity.
Qed.

Lemma AnalysisNode_iterating (env : Env) (state : ResearchState) :
  _analysis_condition (AnalysisNode env state) = true ->
  can_iterate (AnalysisNode env state).
Proof.
  unfold _analysis_condition. intros Hc.
  destruct state.(all_results) as [|r0 rs] eqn:E.
  - unfold AnalysisNode in Hc. rewrite E in Hc. discriminate.
  - assert (Hne : state.(all_results) <> []) by (rewrite E; discriminate).
    destruct (AnalysisNode_nonempty env state Hne) as (Hs & _ & Hcur & Hmax & _ & _ & Hi).
    rewrite Hs in Hc. destruct (_ && _ && _)%bool eqn:D; [|discriminate].
    apply andb_true_iff in D. destruct D as [D Hlen].
    apply andb_true_iff in D. destruct D as [Hlt Hfu].
    split; [rewrite Hcur, Hmax; apply Z.ltb_lt; exact Hlt|].
    rewrite Hi, rev_app_distr. cbn [rev app]. do 2 eexists. split; [reflexivity|].
    cbn. apply negb_true_iff, Nat.eqb_neq in Hfu.
    intros Hnil. rewrite Hnil in Hfu. apply Hfu. reflexivity.
Qed.

Lemma IterationNode_counts (state : ResearchState) :
  can_iterate state ->
  (IterationNode state).(current_iteration) = (state.(current_iteration) + 1)%Z
  /\ (IterationNode state).(max_iterations) = state.(max_iterations)
  /\ (IterationNode state).(status) = SEARCHING.
Proof.
  intros (_ & last_iteration & earlier & Hrev & Hfu). unfold IterationNode.
  rewrite Hrev. destruct last_iteration.(follow_up_questions); [congruence|].
  repeat split.
Qed.

Lemma iteration_cycles_cons (node : NodeName) (state : ResearchState)
                            (events : list (NodeName * ResearchState)) :
  iteration_cycles ((node, state) :: events)
  = ((match node with iteration => 1 | _ => 0 end) + iteration_cycles events)%nat.
Proof. unfold iteration_cycles. destruct node; reflexivity. Qed.

Lemma iteration_cycles_bound (env : Env) (budget : nat) (node : NodeName) (w : World)
                             (state : ResearchState) :
  counted node state ->
  (Z.of_nat (iteration_cycles (stream_events env budget node w state))
   <= Z.max 0 (state.(max_iterations) - state.(current_iteration)))%Z.
Proof.
  revert node w state. induction budget as [|budget IH]; intros node w state Hc.
  - simpl. lia.
  - rewrite stream_events_step, iteration_cycles_cons.
    destruct node; cbn [run_node next_node fst snd].
    + specialize (IH search w (PlanningNode env state) I). cbn in IH, Hc |- *.
      rewrite Hc. exact IH.
    + destruct (SearchNode_keeps env w state) as [Hcur Hmax].
      destruct (_search_condition _);
        [specialize (IH search (fst (SearchNode env w state))
                        (snd (SearchNode env w state)) I)
        |specialize (IH analysis (fst (SearchNode env w state))
                        (snd (SearchNode env w state)) I)];
        rewrite Hcur, Hmax in IH; exact IH.
    + destruct (AnalysisNode_keeps env state) as [Hcur Hmax].
      destruct (_analysis_condition _) eqn:Ec;
        [specialize (IH iteration w (AnalysisNode env state)
                        (AnalysisNode_iterating env state Ec))
        |specialize (IH synthesis w (AnalysisNode env state) I)];
        rewrite Hcur, Hmax in IH; exact IH.
    + destruct (IterationNode_counts state Hc) as (Hcur & Hmax & _).
      specialize (IH search w (IterationNode state) I). rewrite Hcur, Hmax in IH.
      destruct Hc as [Hlt _]. lia.
    + specialize (IH report w (SynthesisNode state) I). cbn in IH. exact IH.
    + cbn. lia.
Qed.

Lemma initial_state_counted (ws : string) (max_it : Z) (thr : R) (q : string)
                            (goal : option string) :
  counted planning (create_initial_state ws max_it thr q goal).
Proof. reflexivity. Qed.

Lemma next_node_none (node : NodeName) (state : ResearchState) :
  next_node node state = None -> node = report.
Proof.
  destruct node; cbn; try discriminate;
    [destruct (_search_condition _) | destruct (_analysis_condition _) |];
    try discriminate. reflexivity.
Qed.

(** The loop stops on the report node or with its budget used up. *)
Lemma stream_events_shape (env : Env) (budget : nat) (node : NodeName) (w : World)
                          (state : ResearchState) :
  exists earlier node_f final_state,
    stream_events env (S budget) node w state = earlier ++ [(node_f, final_state)]
    /\ (List.length earlier = budget \/ node_f = report).
Proof.
  revert node w state. induction budget as [|budget IH]; intros node w state;
    rewrite stream_events_step;
    set (w' := fst (run_node env node w state));
    set (state' := snd (run_node env node w state)).
  - exists [], node, state'. cbn [stream_events].
    destruct (next_node _ _); auto.
  - destruct (next_node node state') as [node'|] eqn:En.
    + destruct (IH node' w' state') as (earlier & node_f & final_state & He & Hlen).
      exists ((node, state') :: earlier), node_f, final_state.
      rewrite He. split; [reflexivity|]. cbn [List.length].
      destruct Hlen; [left; lia | right; assumption].
    + exists [], node, state'. split; [reflexivity|].
      right. eapply next_node_none, En.
Qed.

(** C2 (amended). Every run terminates: the loop of [run_research] reads at
    least one and at most 21 events. [IterationNode] runs at most
    [max (0, max_iterations)] times, hence at most [max_iterations + 20] times
    when [max_iterations] is not negative. The state returned is the one left
    by the last node that ran, as it is: when the loop is left before the
    report node has run, 21 nodes have run and nothing marks the state
    COMPLETED. *)
Theorem C2_run_bounded (env : Env) (w : World) (ws : string) (max_it : Z) (thr : R)
                       (q : string) (goal : option string) :
  let events := run_events env w ws max_it thr q goal in
  (1 <= step_count events <= S STEP_CEILING)%nat
  /\ (Z.of_nat (iteration_cycles events) <= Z.max 0 max_it)%Z
  /\ ((0 <= max_it)%Z ->
      (Z.of_nat (iteration_cycles events) <= max_it + Z.of_nat STEP_CEILING)%Z)
  /\ exists earlier node_f final_state,
       events = earlier ++ [(node_f, final_state)]
       /\ run_research env w ws max_it thr q goal = Some final_state
       /\ (node_f <> report -> step_count events = S STEP_CEILING).
Proof.
  intros events.
  pose proof (stream_events_length env (S STEP_CEILING) planning w
                (create_initial_state ws max_it thr q goal)) as [Hlen Hne].
  pose proof (iteration_cycles_bound env (S STEP_CEILING) planning w _
                (initial_state_counted ws max_it thr q goal)) as Hcyc.
  fold (run_events env w ws max_it thr q goal) in Hlen, Hne, Hcyc.
  fold events in Hlen, Hne, Hcyc.
  cbn [create_initial_state max_iterations current_iteration] in Hcyc.
  rewrite Z.sub_0_r in Hcyc.
  split; [|split; [exact Hcyc | split]].
  - split; [|exact Hlen]. unfold step_count.
    destruct events; [exfalso; apply Hne; [discriminate | reflexivity] | simpl; lia].
  - unfold STEP_CEILING. lia.
  - destruct (stream_events_shape env STEP_CEILING planning w
                (create_initial_state ws max_it thr q goal))
      as (earlier & node_f & final_state & He & Hshape).
    fold (run_events env w ws max_it thr q goal) in He. fold events in He.
    exists earlier, node_f, final_state. split; [exact He|]. split.
    + unfold run_research. fold events. rewrite He, rev_app_distr. reflexivity.
    + intros Hnr. unfold step_count. rewrite He, length_app. cbn [List.length].
      destruct Hshape as [Hl | Hr]; [lia | contradiction].
Qed.

(** ** A run stopped by the step ceiling *)

Lemma last_event_step (env : Env) (budget : nat) (node : NodeName) (w : World)
                      (state : ResearchState) :
  last_event env (S (S budget)) node w state =
  match next_node node (snd (run_node env node w state)) with
  | Some node' =>
      last_event env (S budget) node' (fst (run_node env node w state))
                 (snd (run_node env node w state))
  | None => (node, snd (run_node env node w state))
  end.
Proof. cbn [last_event]. destruct (run_node env node w state). reflexivity. Qed.

Lemma last_event_spec (env : Env) (budget : nat) (node : NodeName) (w : World)
                      (state : ResearchState) :
  exists earlier,
    stream_events env (S budget) node w state
    = earlier ++ [last_event env (S budget) node w state].
Proof.
  revert node w state. induction budget as [|budget IH]; intros node w state.
  - exists []. cbn. destruct (run_node env node w state) as [w' state'].
    destruct (next_node _ _); reflexivity.
  - rewrite last_event_step, stream_events_step.
    destruct (next_node node (snd (run_node env node w state))) as [node'|].
    + destruct (IH node' (fst (run_node env node w state))
                   (snd (run_node env node w state))) as [earlier He].
      exists ((node, snd (run_node env node w state)) :: earlier).
      rewrite He. reflexivity.
    + exists []. reflexivity.
Qed.

(** Over [ws_grep], the follow-up query shares no word with [a.py]: the
    two retrieval strategies of the later rounds find nothing. *)
Lemma dense_grep_index :
  exists t,
    Dense.index_documents (Dense.init ws_grep) None ["a.py"] Dense.default_chunk_size
    = Ok t
    /\ Dense.search t deep_dive 10 Dense.default_threshold = Ok [].
Proof.
  run_floats. repeat (py_step; run_floats).
  assert (Hl : ln (INR 1 / INR 2) < 0) by (apply ln_neg; float_side).
  assert (Hn : 0 < norm [INR 1 / INR 3 * ln (INR 1 / INR 2);
                         INR 1 / INR 3 * ln (INR 1 / INR 2);
                         INR 1 / INR 3 * ln (INR 1 / INR 2)]).
  { apply (norm_pos _ (INR 1 / INR 3 * ln (INR 1 / INR 2))); [left; reflexivity|].
    cbn [INR] in *. lra. }
  assert (Hz : norm [0; 0; 0] = 0) by (apply norm_zeros; repeat constructor).
  rewrite !(proj2 (Rltb_true _ _) Hn).
  eexists. split; [reflexivity|].
  run_floats. repeat (py_step; run_floats).
  rewrite !Hz.
  rewrite !(proj2 (Rltb_false 0 0)) by lra. run_floats. rewrite !Hz.
  rewrite (proj2 (Reqb_true 0 0) eq_refl).
  rewrite (proj2 (Rgeb_false _ _)) by lra. reflexivity.
Qed.

Lemma bm25_grep_search :
  BM25.search (BM25.index_documents
                 (BM25.init ws_grep BM25.default_k1 BM25.default_b) ["a.py"])
              deep_dive 10 = Ok [].
Proof.
  run_floats. repeat (py_step; run_floats). repeat (decide_Rltb; run_floats).
  reflexivity.
Qed.

(** Evaluation that leaves alone the operations on floats and the retrieval
    strategies. *)
Ltac run_floats_in H :=
  cbv -[Rgeb PyList.Rltb PyList.Rleb IZR Rdiv Rplus Rmult Rinv Rmin INR Rminus Ropp
        Rle Rlt Rge Rgt ln sqrt
        _dense_retrieval_search _bm25_retrieval_search _hybrid_retrieval_search] in H.

(** One node of a run, with the comparisons and the retrieval searches
    decided by [rewrite_facts]. *)
Ltac walk_step rewrite_facts :=
  rewrite last_event_step;
  match goal with
  | |- context [run_node ?e ?n ?w ?s] =>
      let st := fresh "st" in
      let E := fresh "E" in
      remember (run_node e n w s) as st eqn:E;
      run_floats_in E; rewrite_facts E; run_floats_in E;
      subst st
  end;
  cbv [next_node _search_condition _analysis_condition pending_searches status
       ResearchStatus_eqb fst snd].

Lemma env_grep_last_event :
  exists final_state,
    last_event env_grep (S STEP_CEILING) planning (new_workflow None)
      (create_initial_state "ws" 10 0.3 "foo" None) = (iteration, final_state)
    /\ final_state.(status) = SEARCHING.
Proof.
  assert (H : Rgeb 0.9 0.3 = true) by (apply Rgeb_true; lra).
  destruct dense_grep_index as (t & Hidx & Hsearch).
  pose proof bm25_grep_search as Hsparse.
  set (tb := BM25.index_documents
               (BM25.init ws_grep BM25.default_k1 BM25.default_b) ["a.py"]) in Hsparse.
  assert (Hd1 : forall b h,
            _dense_retrieval_search env_grep (mkWorld None b h None) deep_dive ["a.py"]
            = (mkWorld (Some (Ok t)) b h (Some (Dense.dumped t)), Ok [])).
  { intros b h. unfold _dense_retrieval_search.
    cbn [dense_tool bm25_tool hybrid_tool cache_file env_grep workspace_files firstn].
    rewrite Hidx. cbn [bind]. rewrite Hsearch. reflexivity. }
  assert (Hd2 : forall b h c,
            _dense_retrieval_search env_grep (mkWorld (Some (Ok t)) b h c) deep_dive
                                    ["a.py"]
            = (mkWorld (Some (Ok t)) b h c, Ok [])).
  { intros b h c. unfold _dense_retrieval_search. cbn [dense_tool].
    rewrite Hsearch. reflexivity. }
  assert (Hb1 : forall d h c,
            _bm25_retrieval_search env_grep (mkWorld d None h c) deep_dive ["a.py"]
            = (mkWorld d (Some tb) h c, Ok [])).
  { intros d h c. unfold _bm25_retrieval_search.
    cbn [dense_tool bm25_tool hybrid_tool cache_file env_grep workspace_files firstn].
    fold tb. rewrite Hsparse. reflexivity. }
  assert (Hb2 : forall d h c,
            _bm25_retrieval_search env_grep (mkWorld d (Some tb) h c) deep_dive ["a.py"]
            = (mkWorld d (Some tb) h c, Ok [])).
  { intros d h c. unfold _bm25_retrieval_search. cbn [bm25_tool].
    rewrite Hsparse. reflexivity. }
  clearbody tb. clear Hidx Hsearch Hsparse.
  run_floats_in H. run_floats_in Hd1. run_floats_in Hd2. run_floats_in Hb1.
  run_floats_in Hb2. unfold STEP_CEILING, new_workflow.
  do 20 walk_step ltac:(fun E => rewrite ?H, ?Hd1, ?Hd2, ?Hb1, ?Hb2 in E).
  eexists. split; reflexivity.
Qed.

(** C2, counterexample. With [max_iterations = 10], on a new workflow over a
    workspace where every grep finds a line, the loop is left at the step
    ceiling after 21 nodes, the last one being the iteration node: the state
    returned has status SEARCHING, it is not marked COMPLETED. *)
Lemma C2_ceiling_not_completed :
  step_count (run_events env_grep (new_workflow None) "ws" 10 0.3 "foo" None)
  = S STEP_CEILING
  /\ exists final_state,
       run_research env_grep (new_workflow None) "ws" 10 0.3 "foo" None
       = Some final_state
       /\ final_state.(status) = SEARCHING
       /\ final_state.(status) <> COMPLETED.
Proof.
  destruct env_grep_last_event as (final_state & Hlast & Hstatus).
  destruct (last_event_spec env_grep STEP_CEILING planning (new_workflow None)
              (create_initial_state "ws" 10 0.3 "foo" None)) as [earlier He].
  rewrite Hlast in He.
  destruct (stream_events_shape env_grep STEP_CEILING planning (new_workflow None)
              (create_initial_state "ws" 10 0.3 "foo" None))
    as (earlier' & node_f & st_f & He' & Hshape).
  rewrite He in He'. apply app_inj_tail in He'. destruct He' as [<- Hpair].
  injection Hpair as <- <-. split.
  - unfold step_count, run_events. rewrite He, length_app. cbn [List.length].
    destruct Hshape as [Hl | Hr]; [lia | discriminate].
  - exists final_state. unfold run_research, run_events.
    rewrite He, rev_app_distr. split; [reflexivity|].
    split; [exact Hstatus | rewrite Hstatus; discriminate].
Qed.

(** * Further properties *)

(** ** Tokens *)

Lemma all_chars_app (p : ascii -> bool) (s1 s2 : string) :
  all_chars p (s1 ++ s2) = all_chars p s1 && all_chars p s2.
Proof.
  induction s1 as [|c s1 IH]; cbn; [reflexivity|]. rewrite IH. apply andb_assoc.
Qed.

Lemma all_chars_impl (p q : ascii -> bool) (s : string) :
  (forall c, p c = true -> q c = true) -> all_chars p s = true -> all_chars q s = true.
Proof.
  intros Hpq. induction s as [|c s IH]; cbn; [reflexivity|].
  intros H. apply andb_true_iff in H. destruct H as [Hc Hs].
  rewrite (Hpq c Hc), (IH Hs). reflexivity.
Qed.

Lemma len_app (s1 s2 : string) : PyStr.len (s1 ++ s2) = (PyStr.len s1 + PyStr.len s2)%nat.
Proof. unfold PyStr.len. induction s1; cbn; [reflexivity | rewrite IHs1; reflexivity]. Qed.

Lemma append_assoc (s1 s2 s3 : string) : ((s1 ++ s2) ++ s3 = s1 ++ (s2 ++ s3))%string.
Proof. induction s1; cbn; [reflexivity | rewrite IHs1; reflexivity]. Qed.

Lemma append_nil_r (s : string) : (s ++ "" = s)%string.
Proof. induction s; cbn; [reflexivity | rewrite IHs; reflexivity]. Qed.

(** The words of [split]: non-empty, without a space, made of characters of
    the text. *)
Lemma split_from_words (p : ascii -> bool) (s cur w : string) :
  all_chars (fun c => PyStr.is_space c || p c) s = true ->
  all_chars (fun c => negb (PyStr.is_space c) && p c) cur = true ->
  In w (PyStr.split_from cur s) ->
  (1 <= PyStr.len w)%nat /\ all_chars (fun c => negb (PyStr.is_space c) && p c) w = true.
Proof.
  revert cur. induction s as [|c s IH]; intros cur Hs Hcur Hw; cbn in Hw.
  - destruct (PyStr.len cur =? 0)%nat eqn:E; [destruct Hw|].
    destruct Hw as [<- | []]. apply Nat.eqb_neq in E. split; [lia | exact Hcur].
  - cbn in Hs. apply andb_true_iff in Hs. destruct Hs as [Hc Hs].
    destruct (PyStr.is_space c) eqn:Esp.
    + destruct (PyStr.len cur =? 0)%nat eqn:E.
      * apply (IH ""%string); [exact Hs | reflexivity | exact Hw].
      * destruct Hw as [<- | Hw].
        -- apply Nat.eqb_neq in E. split; [lia | exact Hcur].
        -- apply (IH ""%string); [exact Hs | reflexivity | exact Hw].
    + apply (IH (cur ++ String c "")%string); [exact Hs | | exact Hw].
      rewrite all_chars_app, Hcur. cbn. rewrite Esp. cbn in Hc |- *.
      rewrite Hc. reflexivity.
Qed.

Lemma lower_char_not_upper (c : ascii) : PyStr.is_upper (PyStr.lower_char c) = false.
Proof. destruct c as [[] [] [] [] [] [] [] []]; reflexivity. Qed.

Lemma lower_char_keeps (c : ascii) :
  PyStr.is_upper c = false -> PyStr.lower_char c = c.
Proof. unfold PyStr.lower_char. intros ->. reflexivity. Qed.

Lemma token_char_classes (c : ascii) :
  is_token_char c = true -> PyStr.is_upper c = false /\ PyStr.is_space c = false.
Proof. destruct c as [[] [] [] [] [] [] [] []]; cbn; intros H; try discriminate; auto. Qed.

Lemma space_not_upper (c : ascii) : PyStr.is_space c = true -> PyStr.is_upper c = false.
Proof. destruct c as [[] [] [] [] [] [] [] []]; cbn; intros H; try discriminate; auto. Qed.

(** After [lower] and the substitution, a text holds token characters and
    spaces only. *)
Lemma normalised_chars (text : string) :
  all_chars (fun c => PyStr.is_space c || is_token_char c)
            (PyStr.sub_non_alnum (PyStr.lower text)) = true.
Proof.
  induction text as [|c text IH]; [reflexivity|]. cbn [PyStr.lower PyStr.sub_non_alnum all_chars].
  rewrite IH, andb_true_r. pose proof (lower_char_not_upper c) as Hu.
  destruct (PyStr.is_lower (PyStr.lower_char c)
            || PyStr.is_upper (PyStr.lower_char c)
            || PyStr.is_digit (PyStr.lower_char c)
            || PyStr.is_space (PyStr.lower_char c)) eqn:E; [|reflexivity].
  rewrite Hu in E. unfold is_token_char.
  destruct (PyStr.is_lower _), (PyStr.is_digit _), (PyStr.is_space _);
    cbn in E |- *; congruence.
Qed.

(** A text made of token characters and spaces is left as it is. *)
Lemma normalised_fixed (s : string) :
  all_chars (fun c => PyStr.is_space c || is_token_char c) s = true ->
  PyStr.sub_non_alnum (PyStr.lower s) = s.
Proof.
  induction s as [|c s IH]; [reflexivity|]. cbn [all_chars]. intros H.
  apply andb_true_iff in H. destruct H as [Hc Hs].
  cbn [PyStr.lower PyStr.sub_non_alnum]. rewrite (IH Hs).
  assert (Hu : PyStr.is_upper c = false).
  { apply orb_true_iff in Hc. destruct Hc as [Hc | Hc];
      [apply space_not_upper, Hc | apply token_char_classes, Hc]. }
  rewrite (lower_char_keeps c Hu), Hu. unfold is_token_char in Hc.
  destruct (PyStr.is_lower c), (PyStr.is_digit c), (PyStr.is_space c);
    cbn in Hc |- *; congruence.
Qed.

Lemma split_from_word (w s cur : string) :
  all_chars (fun c => negb (PyStr.is_space c)) w = true ->
  PyStr.split_from cur (w ++ s) = PyStr.split_from (cur ++ w) s.
Proof.
  revert cur. induction w as [|c w IH]; intros cur Hw; cbn [append].
  - rewrite append_nil_r. reflexivity.
  - cbn in Hw. apply andb_true_iff in Hw. destruct Hw as [Hc Hw].
    cbn [PyStr.split_from]. apply negb_true_iff in Hc. rewrite Hc.
    rewrite (IH _ Hw), append_assoc. reflexivity.
Qed.

(** [split] undoes [join] on words that are not empty and hold no space. *)
Lemma split_join (words : list string) :
  Forall (fun w => (1 <= PyStr.len w)%nat
                   /\ all_chars (fun c => negb (PyStr.is_space c)) w = true) words ->
  PyStr.split (PyStr.join " " words) = words.
Proof.
  unfold PyStr.split. induction 1 as [|w words [Hlen Hw] Hall IH]; [reflexivity|].
  destruct words as [|w2 words].
  - cbn [PyStr.join]. rewrite <- (append_nil_r w) at 1.
    rewrite (split_from_word w "" "" Hw). cbn [append PyStr.split_from].
    destruct (PyStr.len w =? 0)%nat eqn:E; [apply Nat.eqb_eq in E; lia | reflexivity].
  - change (PyStr.join " " (w :: w2 :: words))
      with (w ++ " " ++ PyStr.join " " (w2 :: words))%string.
    rewrite (split_from_word w _ "" Hw). cbn [append PyStr.split_from].
    change (PyStr.is_space " ") with true. cbn match.
    destruct (PyStr.len w =? 0)%nat eqn:E; [apply Nat.eqb_eq in E; lia|].
    rewrite IH. reflexivity.
Qed.

Lemma join_chars (p : ascii -> bool) (words : list string) :
  p " "%char = true ->
  Forall (fun w => all_chars p w = true) words ->
  all_chars p (PyStr.join " " words) = true.
Proof.
  intros Hsp. induction 1 as [|w words Hw Hall IH]; [reflexivity|].
  destruct words as [|w2 words]; [exact Hw|].
  change (PyStr.join " " (w :: w2 :: words))
    with (w ++ " " ++ PyStr.join " " (w2 :: words))%string.
  rewrite all_chars_app, Hw. cbn [append all_chars]. rewrite Hsp, IH. reflexivity.
Qed.

Lemma tokenize_words (text w : string) :
  In w (_tokenize text) ->
  (3 <= PyStr.len w)%nat /\ all_chars is_token_char w = true
  /\ all_chars (fun c => negb (PyStr.is_space c)) w = true.
Proof.
  unfold _tokenize. intros H. apply filter_In in H. destruct H as [Hin Hlen].
  apply Nat.ltb_lt in Hlen. split; [lia|].
  destruct (split_from_words is_token_char _ "" w (normalised_chars text) eq_refl Hin)
    as [_ Hchars].
  split; eapply all_chars_impl; try exact Hchars; cbn; intros c Hc;
    apply andb_true_iff in Hc; tauto.
Qed.

(** X1. A token of [_tokenize] has at least three characters, all of them
    lowercase letters or digits; a text without such a word (the empty text
    among them) has no token; and tokenising is idempotent: the tokens joined
    by spaces give the same tokens again. *)
Theorem X1_tokenize_shape (text : string) :
  (forall w, In w (_tokenize text) ->
     (3 <= PyStr.len w)%nat /\ all_chars is_token_char w = true)
  /\ _tokenize "" = []
  /\ _tokenize (PyStr.join " " (_tokenize text)) = _tokenize text.
Proof.
  split; [intros w Hw; destruct (tokenize_words text w Hw) as (H1 & H2 & _); auto|].
  split; [reflexivity|].
  set (tokens := _tokenize text).
  assert (Hall : Forall (fun w => (3 <= PyStr.len w)%nat
                                  /\ all_chars is_token_char w = true
                                  /\ all_chars (fun c => negb (PyStr.is_space c)) w = true)
                        tokens).
  { apply Forall_forall. intros w Hw. apply (tokenize_words text w Hw). }
  unfold _tokenize at 1. rewrite normalised_fixed.
  - rewrite split_join.
    + apply forallb_filter_id. apply forallb_forall. intros w Hw.
      rewrite Forall_forall in Hall. destruct (Hall w Hw) as (Hlen & _).
      apply Nat.ltb_lt. lia.
    + eapply Forall_impl; [|exact Hall]. cbn. intros w (Hlen & _ & Hsp).
      split; [lia | exact Hsp].
  - apply join_chars; [reflexivity|].
    eapply Forall_impl; [|exact Hall]. cbn. intros w (_ & Htok & _).
    eapply all_chars_impl; [|exact Htok]. intros c Hc. rewrite Hc. apply orb_true_r.
Qed.

(** ** The BM25 index, exactly *)

Lemma Counter_from (words : list string) (c : Dict.t nat) (w : string) :
  Dict.get (fold_left (fun c w => Dict.set c w (match Dict.get c w with
                                                | Some n => S n | None => 1%nat end))
                      words c) w
  = match count_occ string_dec words w with
    | O => Dict.get c w
    | S n => Some (S n + match Dict.get c w with Some m => m | None => 0 end)%nat
    end.
Proof.
  revert c. induction words as [|x words IH]; intros c; [reflexivity|].
  cbn [fold_left count_occ]. rewrite IH, get_set.
  destruct (string_dec x w) as [->|Hne].
  - rewrite String.eqb_refl.
    destruct (count_occ string_dec words w), (Dict.get c w); f_equal; lia.
  - destruct (w =? x) eqn:E; [apply String.eqb_eq in E; congruence|]. reflexivity.
Qed.

(** [Counter(tokens)[term]] is the number of occurrences of [term]. *)
Lemma Counter_get (words : list string) (w : string) :
  Dict.get (Counter words) w = occurrences words w.
Proof.
  unfold Counter, occurrences. rewrite Counter_from. cbn.
  destruct (count_occ string_dec words w); [reflexivity | f_equal; lia].
Qed.

Lemma mem_count (tokens : list string) (term : string) :
  PySet.mem term tokens
  = match count_occ string_dec tokens term with O => false | S _ => true end.
Proof.
  unfold PySet.mem. induction tokens as [|x tokens IH]; [reflexivity|].
  cbn [existsb count_occ]. destruct (string_dec x term) as [->|Hne].
  - rewrite String.eqb_refl. reflexivity.
  - destruct (term =? x) eqn:E; [apply String.eqb_eq in E; congruence|]. exact IH.
Qed.

Lemma posting_set (tfs : Dict.t (Dict.t nat)) (term doc_id : string) (freq : nat)
                  (term' doc' : string) :
  posting (Dict.set tfs term
             (Dict.set (match Dict.get tfs term with Some p => p | None => [] end)
                       doc_id freq)) term' doc'
  = if (term' =? term) && (doc' =? doc_id) then Some freq else posting tfs term' doc'.
Proof.
  unfold posting. rewrite get_set. destruct (term' =? term) eqn:Et; [|reflexivity].
  apply String.eqb_eq in Et. subst term'. rewrite get_set.
  destruct (doc' =? doc_id); [reflexivity|].
  destruct (Dict.get tfs term); reflexivity.
Qed.

(** The inner loop of the second loop of [index_documents], over entries
    with distinct terms. *)
Lemma add_postings_exact (doc_id : string) (entries : Dict.t nat)
                         (acc : Dict.t (Dict.t nat) * Dict.t nat) :
  NoDup (Dict.keys entries) ->
  let acc' := fold_left (BM25.add_posting doc_id) entries acc in
  (forall term d,
     posting (fst acc') term d
     = match (if d =? doc_id then Dict.get entries term else None) with
       | Some freq => Some freq
       | None => posting (fst acc) term d
       end)
  /\ (forall term,
        Dict.get (snd acc') term
        = match Dict.get entries term with
          | Some _ => Some (S (match Dict.get (snd acc) term with
                               | Some n => n | None => 0%nat end))
          | None => Dict.get (snd acc) term
          end).
Proof.
  revert acc. induction entries as [|[term0 freq0] entries IH]; intros acc Hnd.
  - split; intros; cbn; [destruct (_ =? _)|]; reflexivity.
  - inversion Hnd as [|? ? Hnotin Hnd']; subst.
    destruct acc as [tfs dfs]. cbn [fold_left BM25.add_posting].
    specialize (IH (Dict.set tfs term0
                      (Dict.set (match Dict.get tfs term0 with
                                 | Some p => p | None => [] end) doc_id freq0),
                    Dict.set dfs term0
                      (match Dict.get dfs term0 with Some n => n | None => 0%nat end + 1)%nat)
                   Hnd').
    cbn zeta in IH |- *. destruct IH as [IHt IHd]. cbn [fst snd] in *.
    apply get_None in Hnotin. split.
    + intros term d. rewrite IHt, posting_set. cbn [Dict.get].
      destruct (term =? term0) eqn:Et.
      * apply String.eqb_eq in Et. subst term. rewrite Hnotin.
        destruct (d =? doc_id); reflexivity.
      * destruct (if d =? doc_id then Dict.get entries term else None); reflexivity.
    + intros term. rewrite IHd, get_set. cbn [Dict.get].
      destruct (term =? term0) eqn:Et.
      * apply String.eqb_eq in Et. subst term. rewrite Hnotin.
        rewrite Nat.add_1_r. reflexivity.
      * reflexivity.
Qed.

(** The second loop of [index_documents], over documents with distinct
    ids. *)
Lemma add_documents_exact (docs : Dict.t (list string))
                          (acc : Dict.t (Dict.t nat) * Dict.t nat) :
  NoDup (Dict.keys docs) ->
  let acc' := fold_left BM25.add_document docs acc in
  (forall term d,
     posting (fst acc') term d
     = match (match Dict.get docs d with
              | Some tokens => occurrences tokens term
              | None => None
              end) with
       | Some freq => Some freq
       | None => posting (fst acc) term d
       end)
  /\ (forall term,
        Dict.get (snd acc') term
        = match List.length (documents_with docs term) with
          | O => Dict.get (snd acc) term
          | S n => Some (S n + match Dict.get (snd acc) term with
                               | Some m => m | None => 0 end)%nat
          end).
Proof.
  revert acc. induction docs as [|[d0 tokens0] docs IH]; intros acc Hnd.
  - split; intros; reflexivity.
  - inversion Hnd as [|? ? Hnotin Hnd']; subst. cbn [fold_left].
    specialize (IH (BM25.add_document acc (d0, tokens0)) Hnd').
    cbn zeta in IH |- *. destruct IH as [IHt IHd].
    destruct (add_postings_exact d0 (Counter tokens0) acc (Counter_NoDup tokens0))
      as [Ht Hd].
    fold (BM25.add_document acc (d0, tokens0)) in Ht, Hd.
    change (fold_left (BM25.add_posting d0) (Counter tokens0) acc)
      with (BM25.add_document acc (d0, tokens0)) in Ht, Hd.
    apply get_None in Hnotin. split.
    + intros term d. rewrite IHt, Ht. cbn [Dict.get].
      destruct (d =? d0) eqn:Ed.
      * apply String.eqb_eq in Ed. subst d. rewrite Hnotin, Counter_get.
        reflexivity.
      * destruct (match Dict.get docs d with
                  | Some tokens => occurrences tokens term | None => None end);
          reflexivity.
    + intros term. rewrite IHd, Hd, Counter_get. unfold documents_with, occurrences.
      cbn [filter snd]. rewrite mem_count.
      fold (documents_with docs term).
      destruct (count_occ string_dec tokens0 term); cbn [List.length].
      * reflexivity.
      * destruct (List.length (documents_with docs term)), (Dict.get (snd acc) term);
          f_equal; lia.
Qed.

Lemma bm25_documents_exact (ws : Workspace) (k1 b : R) (file_paths : list string)
                           (doc_id : string) (tokens : list string) :
  Dict.get (BM25.index_documents (BM25.init ws k1 b) file_paths).(BM25.documents) doc_id
  = Some tokens
  <-> In doc_id file_paths
      /\ exists text, read_nonempty ws doc_id = Some text /\ tokens = _tokenize text.
Proof.
  pose proof (index_documents_read ws k1 b file_paths) as [Hnd Hread].
  pose proof (index_documents_keys ws k1 b file_paths) as Hkeys.
  set (t := BM25.index_documents (BM25.init ws k1 b) file_paths) in *.
  assert (Hin : forall d, In d (Dict.keys t.(BM25.documents))
                          <-> In d file_paths /\ readable ws d = true).
  { intros d. rewrite Hkeys. unfold PySet.of_list. rewrite set_update_In, filter_In.
    cbn. tauto. }
  split.
  - intros Hget. split; [|apply Hread, Hget].
    apply (Hin doc_id). eapply get_Some_key, Hget.
  - intros (Hpath & text & Htext & ->).
    assert (Hkey : In doc_id (Dict.keys t.(BM25.documents))).
    { apply Hin. split; [exact Hpath|]. unfold readable. rewrite Htext. reflexivity. }
    destruct (Dict.get t.(BM25.documents) doc_id) as [tokens|] eqn:E.
    + destruct (Hread doc_id tokens E) as (text' & Htext' & ->). congruence.
    + apply get_None in E. contradiction.
Qed.

(** X2. In an index built by [BM25RetrievalTool.index_documents], the
    documents are the readable, non-empty files of [file_paths] with their
    tokens, and [term_frequencies[term][doc_id]] is there exactly when the
    term stands among the tokens of the document, holding the number of its
    occurrences. *)
Theorem X2_bm25_term_frequencies (ws : Workspace) (k1 b : R)
                                 (file_paths : list string) (doc_id term : string) :
  let t := BM25.index_documents (BM25.init ws k1 b) file_paths in
  BM25.term_hit t doc_id term
  = match Dict.get t.(BM25.documents) doc_id with
    | Some tokens => occurrences tokens term
    | None => None
    end
  /\ (forall tokens,
        Dict.get t.(BM25.documents) doc_id = Some tokens
        <-> In doc_id file_paths
            /\ exists text, read_nonempty ws doc_id = Some text
                            /\ tokens = _tokenize text).
Proof.
  intros t. split; [|intros tokens; apply bm25_documents_exact].
  pose proof (index_documents_read ws k1 b file_paths) as [Hnd _]. fold t in Hnd.
  destruct (add_documents_exact t.(BM25.documents) ([], []) Hnd) as [Ht _].
  specialize (Ht term doc_id). cbn [fst] in Ht.
  change (BM25.term_hit t doc_id term)
    with (posting (fst (fold_left BM25.add_document t.(BM25.documents) ([], [])))
                  term doc_id).
  rewrite Ht.
  destruct (Dict.get t.(BM25.documents) doc_id) as [tokens|]; [|reflexivity].
  destruct (occurrences tokens term); reflexivity.
Qed.

Lemma read_documents_vocabulary (ws : Workspace) (file_paths : list string)
    (acc : Dict.t (list string) * Dict.t nat * list string * nat) (term : string) :
  In term (snd (fst (fold_left (BM25.read_document ws) file_paths acc)))
  <-> In term (snd (fst acc))
      \/ exists file_path text,
           In file_path file_paths /\ read_nonempty ws file_path = Some text
           /\ In term (_tokenize text).
Proof.
  revert acc. induction file_paths as [|p paths IH]; intros acc.
  - cbn. split; [auto | intros [H | (? & ? & [] & _)]; exact H].
  - cbn [fold_left]. rewrite IH. destruct acc as [[[docs lengths] vocab] total].
    unfold BM25.read_document. destruct (read_nonempty ws p) as [text|] eqn:E; cbn [fst snd].
    + rewrite set_update_In. split.
      * intros [[H | H] | (q & text' & Hq & Hr & Ht)]; [auto | |].
        -- right. exists p, text. split; [left; reflexivity | auto].
        -- right. exists q, text'. split; [right; exact Hq | auto].
      * intros [H | (q & text' & [<- | Hq] & Hr & Ht)]; [auto | |].
        -- left. right. congruence.
        -- right. exists q, text'. auto.
    + split.
      * intros [H | (q & text' & Hq & Hr & Ht)]; [auto|].
        right. exists q, text'. split; [right; exact Hq | auto].
      * intros [H | (q & text' & [<- | Hq] & Hr & Ht)]; [auto | congruence|].
        right. exists q, text'. auto.
Qed.

(** X3. In an index built by [index_documents], [document_frequencies[term]]
    is there exactly when some indexed document holds the term, and is the
    number of indexed documents that hold it: at most the number of
    documents. The vocabulary holds exactly the terms of the indexed
    documents. *)
Theorem X3_bm25_document_frequencies (ws : Workspace) (k1 b : R)
                                     (file_paths : list string) (term : string) :
  let t := BM25.index_documents (BM25.init ws k1 b) file_paths in
  let df := List.length (documents_with t.(BM25.documents) term) in
  Dict.get t.(BM25.document_frequencies) term
  = match df with O => None | S n => Some (S n) end
  /\ (df <= List.length t.(BM25.documents))%nat
  /\ (In term t.(BM25.vocabulary) <-> (1 <= df)%nat).
Proof.
  intros t df.
  pose proof (index_documents_read ws k1 b file_paths) as [Hnd Hread]. fold t in Hnd, Hread.
  destruct (add_documents_exact t.(BM25.documents) ([], []) Hnd) as [_ Hd].
  specialize (Hd term). cbn [snd Dict.get] in Hd. split; [|split].
  - change (Dict.get t.(BM25.document_frequencies) term)
      with (Dict.get (snd (fold_left BM25.add_document t.(BM25.documents) ([], []))) term).
    rewrite Hd. fold df. destruct df; [reflexivity | f_equal; lia].
  - apply filter_length_le.
  - change t.(BM25.vocabulary)
      with (snd (fst (fold_left (BM25.read_document ws) file_paths
                                ([], [], [], 0%nat)))).
    rewrite read_documents_vocabulary. cbn [fst snd]. split.
    + intros [[] | (p & text & Hp & Hr & Ht)].
      assert (Hdoc : In (p, _tokenize text) (documents_with t.(BM25.documents) term)).
      { apply filter_In. split.
        - apply get_In, bm25_documents_exact. eauto.
        - cbn [snd]. apply set_mem_In, Ht. }
      subst df. destruct (documents_with t.(BM25.documents) term);
        [destruct Hdoc | cbn; lia].
    + intros Hdf. right. subst df.
      destruct (documents_with t.(BM25.documents) term) as [|[d tokens] others] eqn:E;
        [cbn in Hdf; lia|].
      assert (Hdoc : In (d, tokens) (documents_with t.(BM25.documents) term))
        by (rewrite E; left; reflexivity).
      apply filter_In in Hdoc. destruct Hdoc as [Hin Hmem]. cbn [snd] in Hmem.
      apply (In_get _ _ _ Hnd) in Hin.
      apply bm25_documents_exact in Hin. destruct Hin as (Hp & text & Hr & ->).
      exists d, text. split; [exact Hp|]. split; [exact Hr | apply set_mem_In, Hmem].
Qed.

Lemma set_absent {V : Type} (d : Dict.t V) (k : string) (v : V) :
  ~ In k (Dict.keys d) -> Dict.set d k v = d ++ [(k, v)].
Proof.
  induction d as [|[k' v'] d IH]; intros Hk; [reflexivity|]. cbn [Dict.set app].
  destruct (k =? k') eqn:E.
  - apply String.eqb_eq in E. subst. exfalso. apply Hk. left. reflexivity.
  - rewrite IH; [reflexivity|]. intros H. apply Hk. right. exact H.
Qed.

Lemma list_sum_step (n : nat) (l : list nat) : list_sum (n :: l) = (n + list_sum l)%nat.
Proof. reflexivity. Qed.

Lemma read_documents_total (ws : Workspace) (file_paths : list string)
    (acc : Dict.t (list string) * Dict.t nat * list string * nat) :
  snd (fold_left (BM25.read_document ws) file_paths acc)
  = (snd acc + list_sum (map (token_count ws) file_paths))%nat.
Proof.
  revert acc. induction file_paths as [|p paths IH]; intros acc; cbn [fold_left map]; rewrite ?list_sum_step.
  - cbn. lia.
  - rewrite IH. destruct acc as [[[docs lengths] vocab] total].
    unfold BM25.read_document, token_count.
    destruct (read_nonempty ws p); cbn [snd]; lia.
Qed.

Lemma read_documents_lengths_exact (ws : Workspace) (file_paths : list string)
    (acc : Dict.t (list string) * Dict.t nat * list string * nat) :
  (forall doc_id, Dict.get (snd (fst (fst acc))) doc_id
                  = option_map (@List.length string) (Dict.get (fst (fst (fst acc))) doc_id)) ->
  forall doc_id,
    Dict.get (snd (fst (fst (fold_left (BM25.read_document ws) file_paths acc)))) doc_id
    = option_map (@List.length string)
        (Dict.get (fst (fst (fst (fold_left (BM25.read_document ws) file_paths acc))))
                  doc_id).
Proof.
  intros Hinit.
  apply (fold_left_invariant
           (fun acc : Dict.t (list string) * Dict.t nat * list string * nat =>
              forall doc_id,
                Dict.get (snd (fst (fst acc))) doc_id
                = option_map (@List.length string)
                    (Dict.get (fst (fst (fst acc))) doc_id)));
    [exact Hinit|].
  intros [[[docs lengths] vocab] total] p _ Hacc. unfold BM25.read_document.
  destruct (read_nonempty ws p); [|exact Hacc]. cbn [fst snd] in *.
  intros doc_id. rewrite !get_set. destruct (doc_id =? p); [reflexivity | apply Hacc].
Qed.

Lemma read_documents_sum (ws : Workspace) (file_paths : list string)
    (acc : Dict.t (list string) * Dict.t nat * list string * nat) :
  NoDup file_paths ->
  (forall p, In p file_paths -> ~ In p (Dict.keys (fst (fst (fst acc))))) ->
  list_sum (map (fun doc => List.length (snd doc))
                (fst (fst (fst (fold_left (BM25.read_document ws) file_paths acc)))))
  = (list_sum (map (fun doc => List.length (snd doc)) (fst (fst (fst acc))))
     + list_sum (map (token_count ws) file_paths))%nat.
Proof.
  revert acc. induction file_paths as [|p paths IH]; intros acc Hnd Hfresh;
    cbn [fold_left map]; rewrite ?list_sum_step; [cbn; lia|].
  inversion Hnd as [|? ? Hp Hnd']; subst.
  destruct acc as [[[docs lengths] vocab] total]. cbn [fst snd] in Hfresh.
  rewrite IH; [|exact Hnd'|].
  - unfold BM25.read_document, token_count.
    destruct (read_nonempty ws p) as [text|]; cbn [fst snd]; [|lia].
    rewrite set_absent by (apply Hfresh; left; reflexivity).
    rewrite map_app, list_sum_app. cbn. lia.
  - intros q Hq. unfold BM25.read_document.
    destruct (read_nonempty ws p) as [text|]; cbn [fst snd];
      [|apply Hfresh; right; exact Hq].
    rewrite keys_set. intros Hin. apply set_add_In in Hin.
    destruct Hin as [Hin | ->]; [|contradiction].
    apply (Hfresh q); [right; exact Hq | exact Hin].
Qed.

(** X4. In an index built by [index_documents], [doc_lengths] holds for each
    document the number of its tokens, and [avg_doc_length] is 0 without a
    document, and otherwise the number of tokens counted over [file_paths]
    (a path named twice counts twice) divided by the number of documents;
    when no path is named twice this is the mean number of tokens of the
    documents. *)
Theorem X4_bm25_document_lengths (ws : Workspace) (k1 b : R)
                                 (file_paths : list string) :
  let t := BM25.index_documents (BM25.init ws k1 b) file_paths in
  let counted := list_sum (map (token_count ws) file_paths) in
  (forall doc_id,
     Dict.get t.(BM25.doc_lengths) doc_id
     = option_map (@List.length string) (Dict.get t.(BM25.documents) doc_id))
  /\ t.(BM25.avg_doc_length)
     = match t.(BM25.documents) with
       | [] => 0
       | _ :: _ => INR counted / INR (List.length t.(BM25.documents))
       end
  /\ (NoDup file_paths ->
      counted = list_sum (map (fun doc => List.length (snd doc)) t.(BM25.documents))).
Proof.
  intros t counted. split; [|split].
  - apply (read_documents_lengths_exact ws file_paths ([], [], [], 0%nat)).
    intros doc_id. reflexivity.
  - change t.(BM25.avg_doc_length)
      with (match t.(BM25.documents) with
            | [] => 0
            | _ :: _ =>
                INR (snd (fold_left (BM25.read_document ws) file_paths
                                    ([], [], [], 0%nat)))
                / INR (List.length t.(BM25.documents))
            end).
    rewrite read_documents_total. reflexivity.
  - intros Hnd. symmetry.
    apply (read_documents_sum ws file_paths ([], [], [], 0%nat) Hnd).
    intros p _ [].
Qed.

(** ** A BM25 search that finds nothing *)

Lemma score_documents_none (t : BM25.tool) (query_terms doc_ids : list string) :
  (forall term doc_id, In term query_terms -> BM25.term_hit t doc_id term = None) ->
  BM25.score_documents t query_terms doc_ids = Ok [].
Proof.
  intros Hnone. induction doc_ids as [|doc_id rest IH]; [reflexivity|].
  cbn [BM25.score_documents].
  rewrite score_terms_no_hit by (intros term Hterm; apply Hnone, Hterm).
  rewrite IH. cbn [bind]. rewrite (proj2 (Rltb_false 0 0.0)) by lra. reflexivity.
Qed.

Lemma bm25_vocabulary_hit (ws : Workspace) (k1 b : R) (file_paths : list string)
                          (doc_id term : string) (freq : nat) :
  let t := BM25.index_documents (BM25.init ws k1 b) file_paths in
  BM25.term_hit t doc_id term = Some freq -> In term t.(BM25.vocabulary).
Proof.
  intros t Hhit.
  destruct (term_hit_sound ws k1 b file_paths doc_id term freq Hhit)
    as (tokens & Hget & Hterm).
  apply bm25_documents_exact in Hget. destruct Hget as (Hp & text & Hr & ->).
  change t.(BM25.vocabulary)
    with (snd (fst (fold_left (BM25.read_document ws) file_paths ([], [], [], 0%nat)))).
  apply read_documents_vocabulary. right. exists doc_id, text. auto.
Qed.

(** X5. A BM25 search returns the empty list, and raises nothing whatever
    [k1] and [b] are, when the index is empty, when no token of the query has
    a posting (a query without a token among them), and, on a built index,
    when every token of the query is outside the vocabulary. *)
Theorem X5_bm25_search_without_match (t : BM25.tool) (q : string) (top_k : nat) :
  (t.(BM25.documents) = [] -> BM25.search t q top_k = Ok [])
  /\ ((forall term doc_id, In term (_tokenize q) -> BM25.term_hit t doc_id term = None) ->
      BM25.search t q top_k = Ok [])
  /\ (_tokenize q = [] -> BM25.search t q top_k = Ok [])
  /\ (forall ws k1 b file_paths,
        t = BM25.index_documents (BM25.init ws k1 b) file_paths ->
        (forall term, In term (_tokenize q) -> ~ In term t.(BM25.vocabulary)) ->
        BM25.search t q top_k = Ok []).
Proof.
  assert (Hnone : (forall term doc_id, In term (_tokenize q) ->
                     BM25.term_hit t doc_id term = None) ->
                  BM25.search t q top_k = Ok []).
  { intros H. unfold BM25.search. destruct t.(BM25.documents) as [|d docs] eqn:E;
      [reflexivity|].
    rewrite score_documents_none by exact H. cbn [bind].
    destruct top_k; reflexivity. }
  split; [intros H; unfold BM25.search; rewrite H; reflexivity|].
  split; [exact Hnone|].
  split; [intros H; apply Hnone; rewrite H; intros term doc_id []|].
  intros ws k1 b file_paths -> Hoov. apply Hnone. intros term doc_id Hterm.
  destruct (BM25.term_hit _ doc_id term) as [freq|] eqn:Eh; [|reflexivity].
  exfalso. apply (Hoov term Hterm).
  apply (bm25_vocabulary_hit ws k1 b file_paths doc_id term freq Eh).
Qed.

(** ** The ranking of a dense search *)

Lemma similarities_complete (query_embedding : list R) (threshold : R)
                            (embs : Dict.t (list R)) (found : list (string * R)) :
  Dense.similarities query_embedding threshold embs = Ok found ->
  forall doc_path emb similarity,
    In (doc_path, emb) embs ->
    Dense._cosine_similarity query_embedding emb = Ok similarity ->
    threshold <= similarity ->
    In (doc_path, similarity) found.
Proof.
  revert found. induction embs as [|[d e0] embs IH]; intros found H; simpl in H.
  - intros ? ? ? [].
  - destruct (Dense._cosine_similarity query_embedding e0) as [s|e] eqn:Ec;
      [|discriminate]. cbn [bind] in H.
    destruct (Dense.similarities query_embedding threshold embs) as [others|e];
      [|discriminate]. cbn [bind] in H. injection H as <-.
    intros doc_path emb similarity [Heq | Hin] Hcos Hthr.
    + injection Heq as -> ->. rewrite Hcos in Ec. injection Ec as <-.
      apply Rgeb_true in Hthr. rewrite Hthr. left. reflexivity.
    + pose proof (IH others eq_refl doc_path emb similarity Hin Hcos Hthr) as Ho.
      destruct (Rgeb s threshold); [right|]; exact Ho.
Qed.

Lemma StronglySorted_app_order {A : Type} (R : A -> A -> Prop) (l1 l2 : list A) :
  StronglySorted R (l1 ++ l2) -> forall x y, In x l1 -> In y l2 -> R x y.
Proof.
  induction l1 as [|a l1 IH]; intros Hs x y Hx Hy; [destruct Hx|].
  cbn in Hs. apply StronglySorted_inv in Hs. destruct Hs as [Hs Hall].
  destruct Hx as [<- | Hx].
  - rewrite Forall_forall in Hall. apply Hall. apply in_or_app. right. exact Hy.
  - exact (IH Hs x y Hx Hy).
Qed.

Lemma Forall2_In_left {A B : Type} (P : A -> B -> Prop) (l : list A) (l' : list B)
                      (x : A) :
  Forall2 P l l' -> In x l -> exists y, In y l' /\ P x y.
Proof.
  induction 1 as [|a b l l' Hab _ IH]; intros Hin; [destruct Hin|].
  destruct Hin as [<- | Hin].
  - exists b. split; [left; reflexivity | exact Hab].
  - destruct (IH Hin) as (y & Hy & Hp). exists y. split; [right|]; assumption.
Qed.

Lemma make_result_fields (t : Dense.tool) (q : string) (entry : string * R)
                         (r : SearchResult) :
  Dense.make_result t q entry = Ok r ->
  r.(source) = before_hash (fst entry)
  /\ r.(relevance_score) = snd entry
  /\ In ("document_chunk", MStr (fst entry)) r.(metadata)
  /\ r.(tool_used) = "dense_retrieval".
Proof.
  destruct entry as [doc_path similarity]. unfold Dense.make_result.
  destruct (Dict.getitem _ _) as [text|e]; [|discriminate]. cbn [bind].
  intros H. injection H as <-. cbn. repeat split. right. left. reflexivity.
Qed.

(** X6. On an index built by [index_documents], a dense search raises
    nothing and returns at most [top_k] results in descending order of
    similarity, each the cosine of the query vector with a stored embedding
    and at least the threshold. They are the best ones: a stored chunk whose
    similarity reaches the threshold is among the results, or [top_k]
    results are returned and none of them scores less than that chunk. *)
Theorem X6_dense_search_ranking (ws : Workspace) (cache_file : option Dense.Cache)
                                (file_paths : list string) (chunk_size : Z)
                                (t : Dense.tool) (q : string) (top_k : nat)
                                (threshold : R) :
  Dense.index_documents (Dense.init ws) cache_file file_paths chunk_size = Ok t ->
  exists query_embedding rs,
    Dense._text_to_vector t q = Ok query_embedding
    /\ Dense.search t q top_k threshold = Ok rs
    /\ (List.length rs <= top_k)%nat
    /\ StronglySorted (desc relevance_score) rs
    /\ (forall r, In r rs ->
          threshold <= r.(relevance_score)
          /\ r.(tool_used) = "dense_retrieval"
          /\ exists doc_path emb,
               In (doc_path, emb) t.(Dense.embeddings)
               /\ In ("document_chunk", MStr doc_path) r.(metadata)
               /\ r.(source) = before_hash doc_path
               /\ Dense._cosine_similarity query_embedding emb
                  = Ok r.(relevance_score))
    /\ (forall doc_path emb similarity,
          In (doc_path, emb) t.(Dense.embeddings) ->
          Dense._cosine_similarity query_embedding emb = Ok similarity ->
          threshold <= similarity ->
          (exists r, In r rs
                     /\ In ("document_chunk", MStr doc_path) r.(metadata)
                     /\ r.(relevance_score) = similarity)
          \/ (List.length rs = top_k
              /\ forall r, In r rs -> similarity <= r.(relevance_score))).
Proof.
  intros Hidx.
  pose proof (dense_index_generated _ _ _ _ _ Hidx) as Hgen.
  pose proof (dense_index_documented _ _ _ _ _ Hidx) as Hdoc.
  destruct (text_to_vector_total t q) as (qv & Hq).
  destruct (dense_search_total t q top_k threshold Hgen Hdoc) as (rs & Hs).
  exists qv, rs. split; [exact Hq|]. split; [exact Hs|].
  unfold Dense.search in Hs. destruct t.(Dense.embeddings) as [|e0 embs] eqn:Ee.
  - injection Hs as <-. cbn. split; [lia|]. split; [constructor|].
    split; [intros r []|]. intros ? ? ? [].
  - rewrite <- Ee in *. clear Ee e0 embs. rewrite Hq in Hs. cbn [bind] in Hs.
    destruct (Dense.similarities qv threshold t.(Dense.embeddings)) as [found|e] eqn:Ef;
      [|discriminate]. cbn [bind] in Hs. apply mapM_Ok in Hs.
    set (ranked := PyList.sorted_desc snd found) in *.
    assert (Hscores : map relevance_score rs = map snd (firstn top_k ranked)).
    { clear - Hs. induction Hs as [|entry r l l' Hr _ IH]; [reflexivity|].
      cbn. apply make_result_fields in Hr. destruct Hr as (_ & -> & _). f_equal. exact IH. }
    assert (Hlen : List.length rs = List.length (firstn top_k ranked)).
    { symmetry. exact (Forall2_length Hs). }
    split; [rewrite Hlen, length_firstn; lia|].
    split.
    { assert (Hsorted : StronglySorted (fun x y : R => y <= x) (map relevance_score rs)).
      { rewrite Hscores. apply (StronglySorted_map (desc snd)); [intros x y H; exact H|].
        apply StronglySorted_firstn. apply sorted_desc_sorted. }
      clear - Hsorted. induction rs as [|r rs IH]; [constructor|].
      cbn in Hsorted. apply StronglySorted_inv in Hsorted. destruct Hsorted as [Hs Hall].
      constructor; [exact (IH Hs)|].
      rewrite Forall_forall in *. intros r' Hr'. apply Hall. apply in_map. exact Hr'. }
    split.
    { intros r Hr. destruct (Forall2_In_right _ _ _ r Hs Hr) as ([doc_path similarity] & Hin & Hmk).
      apply make_result_fields in Hmk. cbn [fst snd] in Hmk.
      destruct Hmk as (Hsrc & Hrel & Hmeta & Htool).
      apply In_firstn in Hin. apply (Permutation_in _ (sorted_desc_perm snd found)) in Hin.
      destruct (similarities_In _ _ _ _ Ef doc_path similarity Hin) as (emb & Hemb & Hc & Hthr).
      rewrite Hrel. split; [exact Hthr|]. split; [exact Htool|].
      exists doc_path, emb. repeat split; assumption. }
    intros doc_path emb similarity Hemb Hcos Hthr.
    pose proof (similarities_complete _ _ _ _ Ef doc_path emb similarity Hemb Hcos Hthr)
      as Hfound.
    apply (Permutation_in _ (Permutation_sym (sorted_desc_perm snd found))) in Hfound.
    fold ranked in Hfound. rewrite <- (firstn_skipn top_k ranked) in Hfound.
    apply in_app_or in Hfound. destruct Hfound as [Hfirst | Hrest].
    + left. destruct (Forall2_In_left _ _ _ _ Hs Hfirst) as (r & Hr & Hmk).
      apply make_result_fields in Hmk. cbn [fst snd] in Hmk.
      destruct Hmk as (_ & Hrel & Hmeta & _). exists r. repeat split; assumption.
    + right. split.
      * rewrite Hlen, length_firstn. apply Nat.min_l.
        destruct (Nat.le_gt_cases top_k (List.length ranked)) as [Hle | Hgt]; [exact Hle|].
        rewrite skipn_all2 in Hrest by lia. destruct Hrest.
      * intros r Hr.
        destruct (Forall2_In_right _ _ _ r Hs Hr) as (entry & Hin & Hmk).
        apply make_result_fields in Hmk. destruct Hmk as (_ & -> & _).
        pose proof (sorted_desc_sorted snd found) as Hsorted. fold ranked in Hsorted.
        rewrite <- (firstn_skipn top_k ranked) in Hsorted.
        exact (StronglySorted_app_order _ _ _ Hsorted entry (doc_path, similarity) Hin Hrest).
Qed.

Lemma X6_dense_search_ranking_witness :
  exists t query_embedding rs,
    Dense.index_documents (Dense.init ws_five) None five_paths Dense.default_chunk_size = Ok t
    /\ Dense._text_to_vector t "quick fox" = Ok query_embedding
    /\ Dense.search t "quick fox" 2 Dense.default_threshold = Ok rs
    /\ (List.length rs <= 2)%nat
    /\ StronglySorted (desc relevance_score) rs.
Proof.
  destruct dense_five_index as (t & Hidx & _).
  destruct (X6_dense_search_ranking ws_five None five_paths Dense.default_chunk_size t
              "quick fox" 2 Dense.default_threshold Hidx)
    as (query_embedding & rs & Hq & Hs & Hlen & Hsorted & _).
  exists t, query_embedding, rs. repeat split; assumption.
Defined.

(** ** The index of the dense tool *)

Lemma dense_index_parts (ws : Workspace) (cache_file : option Dense.Cache)
                        (file_paths : list string) (chunk_size : Z) (t : Dense.tool) :
  Dense.index_documents (Dense.init ws) cache_file file_paths chunk_size = Ok t ->
  exists docs0 vocab0 read idfs embs,
    Dense.load_cache (Dense.init ws) cache_file = Dense.mk ws docs0 [] vocab0 []
    /\ (cache_file = None -> docs0 = [] /\ vocab0 = [])
    /\ (forall cached_data, cache_file = Some cached_data -> (docs0, vocab0) = cached_data)
    /\ foldM (Dense.read_document ws chunk_size) file_paths (docs0, vocab0) = Ok read
    /\ Dense._calculate_idf_scores (Dense.mk ws (fst read) [] (snd read) []) = Ok idfs
    /\ Dense._generate_embeddings (Dense.mk ws (fst read) [] (snd read) idfs) = Ok embs
    /\ t = Dense.mk ws (fst read) embs (snd read) idfs.
Proof.
  unfold Dense.index_documents.
  destruct (load_cache_fresh ws cache_file) as (docs0 & vocab0 & E0 & Hnone & Hsome).
  rewrite E0. cbn zeta.
  cbn [Dense.workspace Dense.documents Dense.embeddings Dense.vocabulary Dense.idf_scores].
  destruct (foldM _ _ _) as [read|e] eqn:Eread; [|discriminate]. cbn [bind].
  destruct (Dense._calculate_idf_scores _) as [idfs|e] eqn:Eidf; [|discriminate].
  cbn [bind].
  destruct (Dense._generate_embeddings _) as [embs|e] eqn:Eemb; [|discriminate].
  cbn [bind]. intros H. injection H as <-.
  exists docs0, vocab0, read, idfs, embs.
  split; [reflexivity|]. split; [exact Hnone|]. split; [exact Hsome|].
  split; [exact Eread|]. split; [exact Eidf|]. split; [exact Eemb | reflexivity].
Qed.

Lemma read_document_NoDup (ws : Workspace) (chunk_size : Z)
                          (acc acc' : Dict.t string * list string) (file_path : string) :
  NoDup (Dict.keys (fst acc)) ->
  Dense.read_document ws chunk_size acc file_path = Ok acc' ->
  NoDup (Dict.keys (fst acc')).
Proof.
  destruct acc as [docs vocab]. cbn [fst]. intros Hnd. unfold Dense.read_document.
  destruct (Dict.mem docs file_path); [intros H; injection H as <-; exact Hnd|].
  destruct (read_nonempty ws file_path) as [text|];
    [|intros H; injection H as <-; exact Hnd].
  destruct (chunk_size <? Z.of_nat (PyStr.len text))%Z.
  - destruct (Dense._split_into_chunks text chunk_size) as [chunks|e]; [|discriminate].
    cbn [bind]. intros H. injection H as <-. unfold Dense.add_chunks.
    apply (fold_left_invariant
             (fun acc : Dict.t string * list string => NoDup (Dict.keys (fst acc))));
      [exact Hnd|].
    intros [docs' vocab'] [i chunk] _ H. cbn [fst] in *. apply keys_set_NoDup. exact H.
  - intros H. injection H as <-. cbn [fst]. apply keys_set_NoDup. exact Hnd.
Qed.

Lemma dense_documents_NoDup (ws : Workspace) (cache_file : option Dense.Cache)
                            (file_paths : list string) (chunk_size : Z) (t : Dense.tool) :
  cache_keys_distinct cache_file ->
  Dense.index_documents (Dense.init ws) cache_file file_paths chunk_size = Ok t ->
  NoDup (Dict.keys t.(Dense.documents)).
Proof.
  intros Hcache Hidx.
  destruct (dense_index_parts _ _ _ _ _ Hidx)
    as (docs0 & vocab0 & read & idfs & embs & _ & Hnone & Hsome & Hread & _ & _ & ->).
  cbn [Dense.documents].
  eapply (foldM_invariant
            (fun acc : Dict.t string * list string => NoDup (Dict.keys (fst acc))));
    [| |exact Hread].
  - cbn [fst]. destruct cache_file as [cached_data|].
    + specialize (Hsome cached_data eq_refl). rewrite <- Hsome in Hcache. exact Hcache.
    + destruct (Hnone eq_refl) as [-> _]. constructor.
  - intros acc file_path acc' _. apply read_document_NoDup.
Qed.

Lemma store_vectors_exact (t : Dense.tool) (docs : Dict.t string)
                          (embs0 embs : Dict.t (list R)) :
  NoDup (Dict.keys docs) ->
  (forall k, In k (Dict.keys docs) -> ~ In k (Dict.keys embs0)) ->
  foldM (fun embs doc =>
           vector <- Dense._text_to_vector t (snd doc) ;;
           Ok (Dict.set embs (fst doc) vector)) docs embs0 = Ok embs ->
  exists new,
    embs = embs0 ++ new
    /\ Forall2 (fun (doc : string * string) (e : string * list R) =>
                  fst e = fst doc /\ Dense._text_to_vector t (snd doc) = Ok (snd e))
               docs new.
Proof.
  revert embs0. induction docs as [|[doc text] docs IH]; intros embs0 Hnd Hfresh H.
  - cbn in H. injection H as <-. exists []. rewrite app_nil_r. split; constructor.
  - cbn [foldM fst snd] in H.
    destruct (Dense._text_to_vector t text) as [vector|e] eqn:Ev; [|discriminate].
    cbn [bind] in H. cbn [Dict.keys map fst] in Hnd. apply NoDup_cons_iff in Hnd.
    destruct Hnd as [Hnot Hnd].
    rewrite set_absent in H by (apply Hfresh; left; reflexivity).
    destruct (IH (embs0 ++ [(doc, vector)]) Hnd) as (new & -> & Hall); [|exact H|].
    + intros k Hk Hin. unfold Dict.keys in Hin. rewrite map_app in Hin.
      apply in_app_or in Hin. destruct Hin as [Hin | [<- | []]].
      * apply (Hfresh k); [right; exact Hk | exact Hin].
      * apply Hnot. exact Hk.
    + exists ((doc, vector) :: new). rewrite <- app_assoc. split; [reflexivity|].
      constructor; [split; [reflexivity | exact Ev] | exact Hall].
Qed.

Lemma vector_dimension (t : Dense.tool) (text : string) (v : list R) :
  Dense._text_to_vector t text = Ok v ->
  List.length v = List.length t.(Dense.vocabulary).
Proof.
  intros H. destruct (text_to_vector_aligned t text v H) as [Ha _].
  unfold aligned in Ha. apply Forall2_length in Ha. rewrite <- Ha.
  unfold idf_list. rewrite length_map.
  apply Permutation_length. apply sorted_strings_perm.
Qed.

(** X7. After [index_documents] (on a cache file, if any, whose dictionary
    holds each key once) the embeddings have the keys of the documents, in
    the same order, and the embedding of each chunk is the TF-IDF vector of
    its text under the final vocabulary and idfs, with one component per
    vocabulary word. *)
Theorem X7_dense_index_embeddings (ws : Workspace) (cache_file : option Dense.Cache)
                                  (file_paths : list string) (chunk_size : Z)
                                  (t : Dense.tool) :
  cache_keys_distinct cache_file ->
  Dense.index_documents (Dense.init ws) cache_file file_paths chunk_size = Ok t ->
  Dict.keys t.(Dense.embeddings) = Dict.keys t.(Dense.documents)
  /\ forall doc_path text,
       In (doc_path, text) t.(Dense.documents) ->
       exists emb,
         Dict.get t.(Dense.embeddings) doc_path = Some emb
         /\ Dense._text_to_vector t text = Ok emb
         /\ List.length emb = List.length t.(Dense.vocabulary).
Proof.
  intros Hcache Hidx.
  pose proof (dense_documents_NoDup _ _ _ _ _ Hcache Hidx) as Hnd.
  destruct (dense_index_parts _ _ _ _ _ Hidx)
    as (docs0 & vocab0 & read & idfs & embs & _ & _ & _ & _ & _ & Hemb & ->).
  cbn [Dense.documents Dense.embeddings Dense.vocabulary] in *.
  set (t2 := Dense.mk ws (fst read) [] (snd read) idfs) in *.
  unfold Dense._generate_embeddings in Hemb. cbn [t2 Dense.documents Dense.embeddings] in Hemb.
  destruct (store_vectors_exact t2 (fst read) [] embs Hnd) as (new & -> & Hall);
    [intros k _ [] | exact Hemb |].
  cbn [app].
  assert (Hkeys : Dict.keys new = Dict.keys (fst read)).
  { clear - Hall. induction Hall as [|doc e docs new [Hk _] _ IH]; [reflexivity|].
    cbn. rewrite Hk. f_equal. exact IH. }
  split; [exact Hkeys|].
  intros doc_path text Hin.
  destruct (Forall2_In_left _ _ _ _ Hall Hin) as ([k emb] & He & Hk & Hv).
  cbn [fst snd] in Hk, Hv. subst k. exists emb.
  assert (Hfinal : Dense._text_to_vector (Dense.mk ws (fst read) new (snd read) idfs) text
                   = Ok emb).
  { rewrite <- Hv. apply text_to_vector_ext; reflexivity. }
  split; [apply In_get; [rewrite Hkeys; exact Hnd | exact He]|].
  split; [exact Hfinal|].
  exact (vector_dimension _ _ _ Hfinal).
Qed.

Lemma X7_dense_index_embeddings_witness :
  exists t,
    Dense.index_documents (Dense.init ws_five) None five_paths Dense.default_chunk_size = Ok t
    /\ Dict.keys t.(Dense.embeddings) = Dict.keys t.(Dense.documents).
Proof.
  destruct dense_five_index as (t & Hidx & _). exists t. split; [exact Hidx|].
  exact (proj1 (X7_dense_index_embeddings ws_five None five_paths
                  Dense.default_chunk_size t I Hidx)).
Defined.

(** ** The idf scores of the dense tool *)

Lemma count_words_step (words : list string) (counts : Dict.t nat) (w : string) :
  NoDup words ->
  match Dict.get (fold_left (fun counts word =>
                               Dict.set counts word
                                 (match Dict.get counts word with
                                  | Some n => n | None => 0%nat end + 1)%nat)
                            words counts) w with
  | Some n => n | None => 0%nat end
  = (match Dict.get counts w with Some n => n | None => 0%nat end
     + if PySet.mem w words then 1 else 0)%nat.
Proof.
  revert counts. induction words as [|x words IH]; intros counts Hnd.
  - cbn. lia.
  - apply NoDup_cons_iff in Hnd. destruct Hnd as [Hx Hnd]. cbn [fold_left].
    rewrite (IH _ Hnd). rewrite get_set. cbn [PySet.mem existsb].
    fold (PySet.mem w words). destruct (w =? x) eqn:E.
    + apply String.eqb_eq in E. subst x.
      destruct (PySet.mem w words) eqn:Em; [|cbn; lia].
      apply set_mem_In in Em. contradiction.
    + cbn [orb]. reflexivity.
Qed.

Lemma of_list_mem (w : string) (l : list string) :
  PySet.mem w (PySet.of_list l) = PySet.mem w l.
Proof.
  apply eq_true_iff_eq. rewrite !set_mem_In. unfold PySet.of_list.
  rewrite set_update_In. cbn. tauto.
Qed.

Lemma count_word_documents_exact (docs : Dict.t string) (w : string) :
  match Dict.get (Dense.count_word_documents docs) w with
  | Some n => n | None => 0%nat end
  = List.length (chunks_with docs w).
Proof.
  unfold Dense.count_word_documents, chunks_with, Dict.values.
  enough (H : forall (counts : Dict.t nat),
            match Dict.get (fold_left (fun counts text =>
                       fold_left (fun counts word =>
                                    Dict.set counts word
                                      (match Dict.get counts word with
                                       | Some n => n | None => 0%nat end + 1)%nat)
                                 (PySet.of_list (_tokenize text)) counts)
                     (map snd docs) counts) w with
            | Some n => n | None => 0%nat end
            = (match Dict.get counts w with Some n => n | None => 0%nat end
               + List.length (filter (fun doc : string * string =>
                                        PySet.mem w (_tokenize (snd doc))) docs))%nat).
  { rewrite H. reflexivity. }
  induction docs as [|[doc text] docs IH]; intros counts.
  - cbn. lia.
  - cbn [map fold_left snd filter]. rewrite IH.
    rewrite count_words_step by (apply set_update_NoDup; constructor).
    rewrite of_list_mem. destruct (PySet.mem w (_tokenize text)); cbn [List.length]; lia.
Qed.

Lemma idf_loop_exact (doc_count : nat) (word_doc_count : Dict.t nat)
                     (vocab : list string) (idfs0 idfs : Dict.t R) :
  foldM (fun idfs word =>
           let containing := match Dict.get word_doc_count word with
                             | Some n => n | None => 0%nat end in
           ratio <- py_div (INR doc_count) (INR (containing + 1)) ;;
           idf <- py_log ratio ;;
           Ok (Dict.set idfs word idf)) vocab idfs0 = Ok idfs ->
  forall w,
    (In w vocab ->
       (1 <= doc_count)%nat
       /\ Dict.get idfs w
          = Some (ln (INR doc_count
                      / INR (match Dict.get word_doc_count w with
                             | Some n => n | None => 0%nat end + 1))))
    /\ (~ In w vocab -> Dict.get idfs w = Dict.get idfs0 w).
Proof.
  revert idfs0. induction vocab as [|x vocab IH]; intros idfs0 H w.
  - cbn in H. injection H as <-. split; [intros [] | reflexivity].
  - cbn [foldM] in H. cbn zeta in H. unfold py_div in H.
    destruct (Req_dec_T _ 0) as [|Hne]; [discriminate|]. cbn [bind] in H.
    unfold py_log in H. destruct (Rlt_dec 0 _) as [Hpos|]; [|discriminate].
    cbn [bind] in H. destruct (IH _ H w) as [Hin Hout].
    assert (Hcount : (1 <= doc_count)%nat).
    { destruct doc_count; [|lia]. exfalso. cbn [INR] in Hpos.
      unfold Rdiv in Hpos. rewrite Rmult_0_l in Hpos. lra. }
    split.
    + intros Hw. split; [exact Hcount|].
      destruct (in_dec string_dec w vocab) as [Hv | Hv]; [exact (proj2 (Hin Hv))|].
      rewrite (Hout Hv). destruct Hw as [<- | Hw]; [|contradiction].
      rewrite get_set, String.eqb_refl. reflexivity.
    + intros Hw. rewrite Hout by (intros Hv; apply Hw; right; exact Hv).
      rewrite get_set. destruct (w =? x) eqn:E; [|reflexivity].
      apply String.eqb_eq in E. subst x. exfalso. apply Hw. left. reflexivity.
Qed.

(** X8. After [index_documents], exactly the vocabulary words have an idf
    score; for a word held by [df] of the [N] stored chunks it is
    [ln (N / (df + 1))]: negative when every chunk holds the word, zero when
    all but one do, positive otherwise. *)
Theorem X8_dense_idf_scores (ws : Workspace) (cache_file : option Dense.Cache)
                            (file_paths : list string) (chunk_size : Z)
                            (t : Dense.tool) (word : string) :
  Dense.index_documents (Dense.init ws) cache_file file_paths chunk_size = Ok t ->
  (~ In word t.(Dense.vocabulary) -> Dict.get t.(Dense.idf_scores) word = None)
  /\ (In word t.(Dense.vocabulary) ->
      exists idf,
        Dict.get t.(Dense.idf_scores) word = Some idf
        /\ idf = ln (INR (List.length t.(Dense.documents))
                     / INR (List.length (chunks_with t.(Dense.documents) word) + 1))
        /\ (List.length (chunks_with t.(Dense.documents) word)
            <= List.length t.(Dense.documents))%nat
        /\ (List.length (chunks_with t.(Dense.documents) word)
            = List.length t.(Dense.documents) -> idf < 0)
        /\ ((List.length (chunks_with t.(Dense.documents) word) + 1)%nat
            = List.length t.(Dense.documents) -> idf = 0)
        /\ ((List.length (chunks_with t.(Dense.documents) word) + 1
             < List.length t.(Dense.documents))%nat -> 0 < idf)).
Proof.
  intros Hidx.
  destruct (dense_index_parts _ _ _ _ _ Hidx)
    as (docs0 & vocab0 & read & idfs & embs & _ & _ & _ & _ & Hidf & _ & ->).
  cbn [Dense.documents Dense.vocabulary Dense.idf_scores].
  unfold Dense._calculate_idf_scores in Hidf.
  cbn [Dense.documents Dense.vocabulary Dense.idf_scores] in Hidf.
  destruct (idf_loop_exact _ _ _ _ _ Hidf word) as [Hin Hout].
  split; [intros Hw; rewrite (Hout Hw); reflexivity|].
  intros Hw. destruct (Hin Hw) as [Hcount Hget].
  rewrite count_word_documents_exact in Hget.
  set (df := List.length (chunks_with (fst read) word)) in *.
  set (N := List.length (fst read)) in *.
  assert (Hdf : (df <= N)%nat) by (apply filter_length_le).
  assert (HN : 0 < INR N) by (apply lt_0_INR; lia).
  assert (Hd : 0 < INR (df + 1)) by (apply lt_0_INR; lia).
  eexists. split; [exact Hget|]. split; [reflexivity|]. split; [exact Hdf|].
  split; [|split].
  - intros E. rewrite <- ln_1. apply ln_increasing.
    + apply Rdiv_lt_0_compat; assumption.
    + apply (Rmult_lt_reg_r (INR (df + 1))); [exact Hd|].
      unfold Rdiv. rewrite Rmult_assoc, Rinv_l by lra. rewrite Rmult_1_r, Rmult_1_l.
      apply lt_INR. lia.
  - intros E. rewrite E. unfold Rdiv. rewrite Rinv_r by lra. apply ln_1.
  - intros E. rewrite <- ln_1. apply ln_increasing; [lra|].
    apply (Rmult_lt_reg_r (INR (df + 1))); [exact Hd|].
    unfold Rdiv. rewrite Rmult_assoc, Rinv_l by lra. rewrite Rmult_1_r, Rmult_1_l.
    apply lt_INR. lia.
Qed.

Lemma X8_dense_idf_scores_witness :
  exists t,
    Dense.index_documents (Dense.init ws_five) None five_paths Dense.default_chunk_size = Ok t
    /\ (~ In "cat" t.(Dense.vocabulary) -> Dict.get t.(Dense.idf_scores) "cat" = None).
Proof.
  destruct dense_five_index as (t & Hidx & _). exists t. split; [exact Hidx|].
  exact (proj1 (X8_dense_idf_scores ws_five None five_paths
                  Dense.default_chunk_size t "cat" Hidx)).
Defined.

(** ** The cosine similarity *)

Lemma dot_mismatch (v1 v2 : list R) :
  List.length v1 <> List.length v2 -> dot v1 v2 = Raise ValueError.
Proof.
  revert v2. induction v1 as [|x v1 IH]; intros [|y v2] H; cbn in *;
    try reflexivity; try contradiction.
  rewrite IH by (intros E; apply H; rewrite E; reflexivity). reflexivity.
Qed.

Lemma dot_sym (v1 v2 : list R) : dot v1 v2 = dot v2 v1.
Proof.
  revert v2. induction v1 as [|x v1 IH]; intros [|y v2]; cbn; try reflexivity.
  rewrite IH. destruct (dot v2 v1); cbn [bind]; [|reflexivity].
  rewrite (Rmult_comm x y). reflexivity.
Qed.

(** X9. [_cosine_similarity] raises [ValueError] exactly when the two
    vectors differ in length. On vectors of one length it returns a number:
    0.0 when one of the norms is zero, and the dot product divided by the
    product of the norms otherwise. It is symmetric. *)
Theorem X9_cosine_similarity (v1 v2 : list R) :
  (List.length v1 <> List.length v2 ->
     Dense._cosine_similarity v1 v2 = Raise ValueError)
  /\ (List.length v1 = List.length v2 ->
        exists c d,
          Dense._cosine_similarity v1 v2 = Ok c
          /\ dot v1 v2 = Ok d
          /\ (norm v1 = 0 \/ norm v2 = 0 -> c = 0)
          /\ (norm v1 <> 0 -> norm v2 <> 0 -> c = d / (norm v1 * norm v2)))
  /\ Dense._cosine_similarity v1 v2 = Dense._cosine_similarity v2 v1.
Proof.
  split; [|split].
  - intros H. unfold Dense._cosine_similarity. rewrite dot_mismatch by exact H.
    reflexivity.
  - intros H. destruct (dot_defined v1 v2 H) as [d Hd].
    unfold Dense._cosine_similarity. rewrite Hd. cbn [bind].
    destruct (Reqb (norm v1) 0 || Reqb (norm v2) 0)%bool eqn:E.
    + exists 0.0, d. split; [reflexivity|]. split; [reflexivity|].
      split; [intros _; lra|]. intros H1 H2.
      apply orb_true_iff in E. destruct E as [E | E]; apply Reqb_true in E; contradiction.
    + apply orb_false_iff in E. destruct E as [E1 E2]. apply Reqb_false in E1, E2.
      eexists. exists d. split; [reflexivity|]. split; [reflexivity|].
      split; [intros [?|?]; contradiction | reflexivity].
  - unfold Dense._cosine_similarity. rewrite (dot_sym v1 v2).
    destruct (dot v2 v1); cbn [bind]; [|reflexivity].
    rewrite (orb_comm (Reqb (norm v1) 0)), (Rmult_comm (norm v1)). reflexivity.
Qed.

(** ** Chunk sizes below ten *)

Lemma split_into_chunks_small (text : string) (chunk_size : Z) :
  (0 <= chunk_size < 10)%Z -> Dense._split_into_chunks text chunk_size = Raise ValueError.
Proof.
  intros H. unfold Dense._split_into_chunks.
  rewrite (Z.div_small chunk_size 10) by lia. reflexivity.
Qed.

Lemma split_into_chunks_negative (text : string) (chunk_size : Z) :
  (chunk_size < 0)%Z -> Dense._split_into_chunks text chunk_size = Ok [].
Proof.
  intros H. unfold Dense._split_into_chunks.
  assert (Hw : (chunk_size / 10 < 0)%Z) by (apply Z.div_lt_upper_bound; lia).
  destruct (chunk_size / 10 =? 0)%Z eqn:E0; [apply Z.eqb_eq in E0; lia|].
  destruct (chunk_size / 10 <? 0)%Z eqn:E1; [reflexivity|].
  apply Z.ltb_ge in E1. lia.
Qed.

Lemma read_documents_small (ws : Workspace) (chunk_size : Z) (file_paths : list string)
                           (acc : Dict.t string * list string) :
  (0 <= chunk_size < 10)%Z ->
  (forall k, In k (Dict.keys (fst acc)) ->
     exists text, read_nonempty ws k = Some text
                  /\ (Z.of_nat (PyStr.len text) <= chunk_size)%Z) ->
  (exists file_path text,
     In file_path file_paths /\ read_nonempty ws file_path = Some text
     /\ (chunk_size < Z.of_nat (PyStr.len text))%Z) ->
  foldM (Dense.read_document ws chunk_size) file_paths acc = Raise ValueError.
Proof.
  intros Hsize. revert acc. induction file_paths as [|f file_paths IH];
    intros [docs vocab] Hkeys (file_path & text & Hin & Hread & Hlong);
    [destruct Hin|].
  cbn [foldM fst] in *. unfold Dense.read_document.
  destruct (Dict.mem docs f) eqn:Em.
  - cbn [bind]. apply IH; [exact Hkeys|].
    exists file_path, text. split; [|split; assumption].
    destruct Hin as [-> | Hin]; [|exact Hin]. exfalso.
    unfold Dict.mem in Em. destruct (Dict.get docs file_path) as [v|] eqn:Eg;
      [|discriminate].
    destruct (Hkeys file_path (get_Some_key _ _ _ Eg)) as (text' & Hr & Hshort).
    rewrite Hread in Hr. injection Hr as <-. lia.
  - destruct (read_nonempty ws f) as [content|] eqn:Er.
    + destruct (chunk_size <? Z.of_nat (PyStr.len content))%Z eqn:El.
      * rewrite split_into_chunks_small by exact Hsize. reflexivity.
      * cbn [bind]. apply Z.ltb_ge in El. apply IH.
        -- cbn [fst]. intros k Hk. rewrite keys_set in Hk. apply set_add_In in Hk.
           destruct Hk as [Hk | ->]; [exact (Hkeys k Hk)|].
           exists content. split; assumption.
        -- exists file_path, text. split; [|split; assumption].
           destruct Hin as [-> | Hin]; [|exact Hin]. exfalso.
           rewrite Hread in Er. injection Er as <-. lia.
    + cbn [bind]. apply IH; [exact Hkeys|].
      exists file_path, text. split; [|split; assumption].
      destruct Hin as [-> | Hin]; [|exact Hin]. rewrite Hread in Er. discriminate.
Qed.

Lemma read_documents_negative (ws : Workspace) (chunk_size : Z)
                              (file_paths : list string) :
  (chunk_size < 0)%Z ->
  foldM (Dense.read_document ws chunk_size) file_paths ([], []) = Ok ([], []).
Proof.
  intros Hsize. induction file_paths as [|f file_paths IH]; [reflexivity|].
  cbn [foldM]. unfold Dense.read_document at 1. cbn [Dict.mem Dict.get].
  destruct (read_nonempty ws f) as [text|]; [|cbn [bind]; exact IH].
  destruct (chunk_size <? Z.of_nat (PyStr.len text))%Z eqn:El;
    [|apply Z.ltb_ge in El; lia].
  rewrite split_into_chunks_negative by exact Hsize. cbn [bind]. exact IH.
Qed.

(** X10. [_split_into_chunks] raises [ValueError] for a chunk size from 0 to
    9, whatever the text, and returns no chunk for a negative one; from 10
    on, the words are cut into [ceil (n / (chunk_size // 10))] chunks. So
    without a cache file [index_documents] raises [ValueError] as soon as a
    listed file is longer than a chunk size from 0 to 9, and with a negative
    chunk size it stores nothing at all. *)
Theorem X10_chunk_size_edges (ws : Workspace) (file_paths : list string)
                             (chunk_size : Z) (text : string) :
  ((0 <= chunk_size < 10)%Z ->
     Dense._split_into_chunks text chunk_size = Raise ValueError
     /\ ((exists file_path content,
            In file_path file_paths /\ read_nonempty ws file_path = Some content
            /\ (chunk_size < Z.of_nat (PyStr.len content))%Z) ->
         Dense.index_documents (Dense.init ws) None file_paths chunk_size
         = Raise ValueError))
  /\ ((chunk_size < 0)%Z ->
        Dense._split_into_chunks text chunk_size = Ok []
        /\ Dense.index_documents (Dense.init ws) None file_paths chunk_size
           = Ok (Dense.init ws))
  /\ ((10 <= chunk_size)%Z ->
        exists chunks,
          Dense._split_into_chunks text chunk_size = Ok chunks
          /\ Z.of_nat (List.length chunks)
             = ((Z.of_nat (List.length (PyStr.split text)) + chunk_size / 10 - 1)
                / (chunk_size / 10))%Z).
Proof.
  split; [|split].
  - intros Hsize. split; [exact (split_into_chunks_small text chunk_size Hsize)|].
    intros Hlong. unfold Dense.index_documents. cbn [Dense.load_cache Dense.init].
    cbn zeta. cbn [Dense.workspace Dense.documents Dense.vocabulary].
    rewrite read_documents_small; [reflexivity | exact Hsize | | exact Hlong].
    intros k [].
  - intros Hsize. split; [exact (split_into_chunks_negative text chunk_size Hsize)|].
    unfold Dense.index_documents. cbn [Dense.load_cache Dense.init].
    cbn zeta. cbn [Dense.workspace Dense.documents Dense.vocabulary].
    rewrite read_documents_negative by exact Hsize. reflexivity.
  - intros Hsize.
    assert (Hw : (1 <= chunk_size / 10)%Z) by (apply Z.div_le_lower_bound; lia).
    unfold Dense._split_into_chunks.
    destruct (chunk_size / 10 =? 0)%Z eqn:E0; [apply Z.eqb_eq in E0; lia|].
    destruct (chunk_size / 10 <? 0)%Z eqn:E1; [apply Z.ltb_lt in E1; lia|].
    eexists. split; [reflexivity|].
    unfold Dense.chunk_slices, Dense.range_step. rewrite !length_map, length_seq.
    set (w := (chunk_size / 10)%Z) in *. set (n := List.length (PyStr.split text)).
    rewrite Nat2Z.inj_div, Nat2Z.inj_sub, Nat2Z.inj_add by lia.
    rewrite Z2Nat.id by lia. reflexivity.
Qed.

(** ** Invariants of a run *)

Section Stream.

Variable env : Env.

(** What holds before each node holds after it, all along the events. *)
Lemma stream_events_invariant (P Q : NodeName -> ResearchState -> Prop) :
  (forall node w state,
     P node state ->
     Q node (snd (run_node env node w state))
     /\ forall node', next_node node (snd (run_node env node w state)) = Some node' ->
                      P node' (snd (run_node env node w state))) ->
  forall budget node w state,
    P node state ->
    Forall (fun e => Q (fst e) (snd e)) (stream_events env budget node w state).
Proof.
  intros Hstep. induction budget as [|budget IH]; intros node w state HP; [constructor|].
  rewrite stream_events_step. destruct (Hstep node w state HP) as [HQ Hnext].
  constructor; [exact HQ|].
  destruct (next_node node _) as [node'|]; [|constructor].
  apply IH, Hnext. reflexivity.
Qed.

(** A transitive relation that each node keeps links every event to the
    later ones. *)
Lemma stream_events_chain (P : NodeName -> ResearchState -> Prop)
                          (R : ResearchState -> ResearchState -> Prop) :
  (forall s1 s2 s3, R s1 s2 -> R s2 s3 -> R s1 s3) ->
  (forall node w state,
     P node state ->
     R state (snd (run_node env node w state))
     /\ forall node', next_node node (snd (run_node env node w state)) = Some node' ->
                      P node' (snd (run_node env node w state))) ->
  forall budget node w state,
    P node state ->
    Forall (fun e => R state (snd e)) (stream_events env budget node w state)
    /\ StronglySorted (fun e1 e2 => R (snd e1) (snd e2))
                      (stream_events env budget node w state).
Proof.
  intros Htrans Hstep. induction budget as [|budget IH]; intros node w state HP;
    [split; constructor|].
  rewrite stream_events_step. destruct (Hstep node w state HP) as [HR Hnext].
  destruct (next_node node _) as [node'|].
  - destruct (IH node' (fst (run_node env node w state)) _ (Hnext node' eq_refl))
      as [Hall Hsorted].
    split.
    + constructor; [exact HR|]. rewrite Forall_forall in *. intros e He.
      exact (Htrans _ _ _ HR (Hall e He)).
    + constructor; [exact Hsorted | exact Hall].
  - split; constructor; [exact HR | constructor | constructor | constructor].
Qed.

End Stream.

Lemma StronglySorted_precedes {A : Type} (R : A -> A -> Prop) (l : list A) (x y : A) :
  StronglySorted R l -> precedes x y l -> R x y.
Proof.
  intros Hs (l1 & l2 & l3 & ->).
  assert (Hs' : StronglySorted R (x :: l2 ++ y :: l3)).
  { clear - Hs. induction l1 as [|a l1 IH]; [exact Hs|].
    cbn in Hs. apply StronglySorted_inv in Hs. exact (IH (proj1 Hs)). }
  apply StronglySorted_inv in Hs'. destruct Hs' as [_ Hall].
  rewrite Forall_forall in Hall. apply Hall. apply in_or_app. right. left. reflexivity.
Qed.

Lemma continues_refl (s : ResearchState) : continues s s.
Proof.
  repeat split; try lia; exists []; symmetry; apply app_nil_r.
Qed.

Lemma continues_trans (s1 s2 s3 : ResearchState) :
  continues s1 s2 -> continues s2 s3 -> continues s1 s3.
Proof.
  intros (Hq & Hg & Hm & Ht & Hw & Hc & [r Hr] & [i Hi] & [k Hk])
         (Hq' & Hg' & Hm' & Ht' & Hw' & Hc' & [r' Hr'] & [i' Hi'] & [k' Hk']).
  repeat split; try congruence; try lia.
  - exists (r ++ r'). rewrite Hr', Hr, app_assoc. reflexivity.
  - exists (i ++ i'). rewrite Hi', Hi, app_assoc. reflexivity.
  - exists (k ++ k'). rewrite Hk', Hk, app_assoc. reflexivity.
Qed.

Ltac grows :=
  repeat split; try reflexivity; try lia;
  first [ exists []; rewrite ?app_nil_r; reflexivity | eexists; reflexivity ].

Lemma run_node_continues (env : Env) (node : NodeName) (w : World)
                         (state : ResearchState) :
  (node = planning -> state.(current_iteration) = 0%Z) ->
  continues state (snd (run_node env node w state)).
Proof.
  intros Hplan. unfold continues. destruct node; cbn [run_node snd].
  - specialize (Hplan eq_refl). cbn. rewrite Hplan. grows.
  - unfold SearchNode. destruct state.(pending_searches) as [|strategy rest];
      [cbn; grows|].
    cbn -[run_strategy]. destruct rest; cbn -[run_strategy]; grows.
  - unfold AnalysisNode. destruct state.(all_results) eqn:E; [cbn; rewrite ?E; grows|].
    destruct (_ && _ && _)%bool; cbn; rewrite ?E; grows.
  - unfold IterationNode. destruct (rev state.(iterations)); [cbn; grows|].
    destruct (follow_up_questions _); cbn; grows.
  - cbn. grows.
  - cbn. grows.
Qed.

Lemma next_node_not_planning (node node' : NodeName) (state : ResearchState) :
  next_node node state = Some node' -> node' <> planning.
Proof.
  destruct node; cbn;
    [|destruct (_search_condition _)|destruct (_analysis_condition _)| | |];
    intros H; inversion H; discriminate.
Qed.

Lemma run_node_planned (env : Env) (node : NodeName) (w : World)
                       (state : ResearchState) :
  (node <> planning -> planned env state) ->
  planned env (snd (run_node env node w state)).
Proof.
  intros Hp. destruct node; cbn [run_node snd].
  - split; reflexivity.
  - specialize (Hp ltac:(discriminate)). unfold SearchNode.
    destruct state.(pending_searches) as [|strategy rest]; [exact Hp|].
    cbn -[run_strategy]. destruct rest; exact Hp.
  - specialize (Hp ltac:(discriminate)). unfold AnalysisNode.
    destruct state.(all_results); [exact Hp|]. destruct (_ && _ && _)%bool; exact Hp.
  - specialize (Hp ltac:(discriminate)). unfold IterationNode.
    destruct (rev state.(iterations)); [exact Hp|].
    destruct (follow_up_questions _); exact Hp.
  - exact (Hp ltac:(discriminate)).
  - exact (Hp ltac:(discriminate)).
Qed.

(** X11. Along a run nothing gathered is lost and nothing asked is changed:
    every state read by the loop of [run_research] has the question, the
    limits and the workspace of the call, the files and the strategies that
    planning chose, and the results, the recorded iterations and the
    insights of every earlier state, in front of what came since; the
    iteration counter never decreases. *)
Theorem X11_run_accumulates (env : Env) (w : World) (ws : string) (max_it : Z)
                            (thr : R) (q : string) (goal : option string) :
  let events := run_events env w ws max_it thr q goal in
  (forall node s,
     In (node, s) events ->
     s.(original_query) = q
     /\ s.(max_iterations) = max_it
     /\ s.(similarity_threshold) = thr
     /\ s.(workspace_path) = ws
     /\ s.(discovered_files) = firstn 100 env.(list_code_files)
     /\ s.(search_strategies) = plan_strategies q
     /\ (0 <= s.(current_iteration))%Z)
  /\ (forall e1 e2, precedes e1 e2 events -> continues (snd e1) (snd e2)).
Proof.
  intros events. unfold events, run_events.
  set (s0 := create_initial_state ws max_it thr q goal).
  destruct (stream_events_chain env
              (fun node s => node = planning -> s.(current_iteration) = 0%Z)
              continues continues_trans) with (budget := S STEP_CEILING)
              (node := planning) (w := w) (state := s0) as [Hall Hsorted].
  - intros node w' state HP. split; [apply run_node_continues, HP|].
    intros node' Hn Hp. subst node'. destruct (next_node_not_planning _ _ _ Hn eq_refl).
  - reflexivity.
  - split.
    + intros node s Hin.
      pose proof (stream_events_invariant env
                    (fun node s => node <> planning -> planned env s)
                    (fun _ s => planned env s)) as Hinv.
      specialize (Hinv ltac:(intros node' w' state HP; split;
                             [apply run_node_planned, HP
                             |intros ? _ _; apply run_node_planned, HP])
                       (S STEP_CEILING) planning w s0 ltac:(intros H; destruct (H eq_refl))).
      rewrite Forall_forall in Hinv, Hall.
      specialize (Hinv _ Hin). specialize (Hall _ Hin). cbn [fst snd] in Hinv, Hall.
      destruct Hall as (Hq & _ & Hm & Ht & Hw & Hc & _).
      destruct Hinv as [Hd Hs]. rewrite Hq in Hs.
      repeat split; assumption.
    + intros e1 e2 Hprec.
      exact (StronglySorted_precedes _ _ _ _ Hsorted Hprec).
Qed.

(** ** The iterations that a run records *)

Lemma snoc_split {A : Type} (l pre post : list A) (x it : A) :
  l ++ [x] = pre ++ it :: post ->
  (post = [] /\ it = x /\ pre = l)
  \/ exists post', post = post' ++ [x] /\ l = pre ++ it :: post'.
Proof.
  intros H. destruct (exists_last (l := it :: post) ltac:(discriminate)) as (m & y & Hm).
  destruct post as [|p post].
  - left. change (pre ++ [it]) with (pre ++ [it]) in H.
    apply app_inj_tail in H. destruct H as [-> ->]. repeat split.
  - right. destruct (exists_last (l := p :: post) ltac:(discriminate)) as (post' & z & Hp).
    rewrite Hp in H. change (pre ++ it :: post' ++ [z]) with (pre ++ (it :: post') ++ [z]) in H.
    rewrite app_assoc in H. apply app_inj_tail in H. destruct H as [-> ->].
    exists post'. split; [exact Hp | reflexivity].
Qed.

Lemma chained_snoc (q : string) (its : list ResearchIteration) (it : ResearchIteration) :
  chained q its ->
  (forall last_iteration earlier,
     rev its = last_iteration :: earlier -> last_iteration.(follow_up_questions) <> []) ->
  it.(iteration_number) = Z.of_nat (List.length its) ->
  it.(query) = asked q its ->
  it.(results) <> [] ->
  it.(iteration_status) = ANALYZING ->
  chained q (its ++ [it]).
Proof.
  intros Hch Hlast Hn Hq Hr Hs pre it' post Heq.
  destruct (snoc_split _ _ _ _ _ Heq) as [(-> & -> & ->) | (post' & -> & Hits)].
  - repeat split; try assumption. intros H. destruct (H eq_refl).
  - destruct (Hch pre it' post' Hits) as (H1 & H2 & H3 & H4 & H5).
    repeat split; try assumption. intros _.
    destruct post' as [|p post']; [|apply H5; discriminate].
    apply (Hlast it' (rev pre)). rewrite Hits, rev_app_distr. reflexivity.
Qed.

Ltac conjs := repeat match goal with |- _ /\ _ => split end.

Lemma recorded_step (env : Env) (q : string) (max_it : Z) (node : NodeName)
                    (w : World) (state : ResearchState) :
  recorded q max_it node state ->
  (fun _ s => s.(original_query) = q
              /\ chained q s.(iterations)
              /\ (s.(current_iteration) <= Z.of_nat (List.length s.(iterations))
                  <= s.(current_iteration) + 1)%Z
              /\ (0 <= s.(current_iteration) <= Z.max 0 max_it)%Z)
    node (snd (run_node env node w state))
  /\ forall node', next_node node (snd (run_node env node w state)) = Some node' ->
                   recorded q max_it node' (snd (run_node env node w state)).
Proof.
  intros (Hq & Hm & Hch & Hcur & Hnode). cbn beta.
  destruct node; cbn [run_node snd next_node].
  - destruct Hnode as [Hits Hcq]. rewrite Hits in Hch. cbn. rewrite Hits. cbn.
    split; [conjs; try assumption; try lia|].
    intros node' H. injection H as <-. unfold recorded. cbn. rewrite Hits. cbn.
    conjs; try assumption; try lia.
    + unfold effective_query. cbn. rewrite Hcq, Hq.
      match goal with |- context [if ?c then _ else _] => destruct c end; reflexivity.
    + intros ? ? H. discriminate.
  - destruct Hnode as (Hn & Heff & Hlast).
    assert (Hkeep : forall s',
              s'.(original_query) = state.(original_query) ->
              s'.(max_iterations) = state.(max_iterations) ->
              s'.(iterations) = state.(iterations) ->
              s'.(current_iteration) = state.(current_iteration) ->
              s'.(current_query) = state.(current_query) ->
              (s'.(original_query) = q
               /\ chained q s'.(iterations)
               /\ (s'.(current_iteration) <= Z.of_nat (List.length s'.(iterations))
                   <= s'.(current_iteration) + 1)%Z
               /\ (0 <= s'.(current_iteration) <= Z.max 0 max_it)%Z)
              /\ forall node',
                   (if _search_condition s' then Some search else Some analysis)
                   = Some node' ->
                   recorded q max_it node' s').
    { intros s' H1 H2 H3 H4 H5.
      split; [rewrite H1, H3, H4; conjs; try assumption; lia|].
      intros node' H.
      assert (Hr : recorded q max_it search s').
      { unfold recorded, effective_query. rewrite H1, H2, H3, H4, H5.
        conjs; try assumption; lia. }
      destruct (_search_condition s'); injection H as <-; exact Hr. }
    unfold SearchNode. destruct state.(pending_searches) as [|strategy rest];
      [apply Hkeep; reflexivity|].
    cbn -[run_strategy]. destruct rest; apply Hkeep; reflexivity.
  - destruct Hnode as (Hn & Heff & Hlast).
    destruct state.(all_results) as [|r0 rs] eqn:E.
    + unfold AnalysisNode. rewrite E. cbn.
      split; [conjs; try assumption; lia|].
      intros node' H. injection H as <-. unfold recorded. cbn.
      conjs; try assumption; lia.
    + assert (Hne : state.(all_results) <> []) by (rewrite E; discriminate).
      destruct (AnalysisNode_nonempty env state Hne)
        as (Hs & _ & Hc & Hmax & _ & _ & Hi).
      pose proof (AnalysisNode_iterating env state) as Hiter.
      assert (Ho : (AnalysisNode env state).(original_query) = state.(original_query)).
      { unfold AnalysisNode. rewrite E. destruct (_ && _ && _)%bool; reflexivity. }
      assert (Hch' : chained q (AnalysisNode env state).(iterations)).
      { rewrite Hi.
        apply chained_snoc; cbn [query iteration_number results iteration_status];
          first [ assumption | reflexivity | symmetry; exact Hn
                | apply relevant_results_nonempty, Hne ]. }
      assert (Hlen : Z.of_nat (List.length (AnalysisNode env state).(iterations))
                     = ((AnalysisNode env state).(current_iteration) + 1)%Z).
      { rewrite Hi, Hc, length_app. cbn [List.length]. lia. }
      split; [rewrite Ho, Hc in *; conjs; try assumption; lia|].
      intros node' H. unfold recorded. rewrite Ho, Hmax, Hc. rewrite Hc in Hlen.
      destruct (_analysis_condition _); injection H as <-.
      * conjs; try assumption; try lia. exact (Hiter eq_refl).
      * conjs; try assumption; lia.
  - destruct Hnode as (Hn & Hcan).
    pose proof Hcan as (Hlt & last_iteration & earlier & Hrev & Hfu).
    unfold IterationNode. rewrite Hrev.
    destruct last_iteration.(follow_up_questions) as [|next_query rest] eqn:Ef;
      [congruence|].
    cbn. split; [conjs; try assumption; lia|].
    intros node' H. injection H as <-. unfold recorded, effective_query. cbn.
    conjs; try assumption; try lia.
    + unfold asked. rewrite Hrev, Ef, Hq. reflexivity.
    + intros l e Hl. rewrite Hrev in Hl. injection Hl as <- <-. rewrite Ef. exact Hfu.
  - cbn. split; [conjs; try assumption; lia|].
    intros node' H. injection H as <-. unfold recorded. cbn.
    conjs; try assumption; lia.
  - cbn. split; [conjs; try assumption; lia|]. intros node' H. discriminate.
Qed.

Lemma initial_state_recorded (ws : string) (max_it : Z) (thr : R) (q : string)
                              (goal : option string) :
  recorded q max_it planning (create_initial_state ws max_it thr q goal).
Proof.
  unfold recorded. cbn. conjs; try reflexivity; try lia.
  intros [|? ?] ? ? H; discriminate.
Qed.

(** X12. In every state read by the loop of [run_research] the recorded
    iterations are numbered 0, 1, 2, ...; the first ran on the question of
    the run and each later one on the first follow-up question of the
    iteration before it (on the question of the run when that follow-up is
    the empty string); each holds at least one result. Their number is
    [current_iteration] or one more, and never above
    [max (0, max_iterations) + 1]. *)
Theorem X12_recorded_iterations (env : Env) (w : World) (ws : string) (max_it : Z)
                                (thr : R) (q : string) (goal : option string) :
  Forall (fun e =>
            let s := snd e in
            chained q s.(iterations)
            /\ (s.(current_iteration) <= Z.of_nat (List.length s.(iterations))
                <= s.(current_iteration) + 1)%Z
            /\ (Z.of_nat (List.length s.(iterations)) <= Z.max 0 max_it + 1)%Z)
         (run_events env w ws max_it thr q goal).
Proof.
  pose proof (stream_events_invariant env (recorded q max_it) _
                (recorded_step env q max_it) (S STEP_CEILING) planning w
                (create_initial_state ws max_it thr q goal)
                (initial_state_recorded ws max_it thr q goal)) as Hinv.
  unfold run_events. rewrite Forall_forall in *. intros e He.
  destruct (Hinv e He) as (_ & Hch & Hlen & Hcur).
  cbn zeta. conjs; try assumption; lia.
Qed.

(** ** The strategies of a round *)

Lemma scheduled_step (env : Env) (q : string) (node : NodeName) (w : World)
                     (state : ResearchState) :
  scheduled q node state ->
  (fun node s =>
     s.(completed_searches) ++ s.(pending_searches)
     = round_strategies q s.(current_iteration)
     /\ match node with
        | planning | search | iteration => True
        | _ => s.(pending_searches) = []
        end)
    node (snd (run_node env node w state))
  /\ forall node', next_node node (snd (run_node env node w state)) = Some node' ->
                   scheduled q node' (snd (run_node env node w state)).
Proof.
  intros (Hq & Hcur & Hnode). cbn beta.
  destruct node; cbn [run_node snd next_node].
  - cbn. rewrite Hnode, Hq. cbn. split; [split; [reflexivity | exact I]|].
    intros node' H. injection H as <-. unfold scheduled. cbn. rewrite Hnode, Hq.
    conjs; try reflexivity; lia.
  - assert (Hkeep : forall s',
              s'.(original_query) = state.(original_query) ->
              s'.(current_iteration) = state.(current_iteration) ->
              s'.(completed_searches) ++ s'.(pending_searches)
              = state.(completed_searches) ++ state.(pending_searches) ->
              (s'.(completed_searches) ++ s'.(pending_searches)
               = round_strategies q s'.(current_iteration) /\ True)
              /\ forall node',
                   (if _search_condition s' then Some search else Some analysis)
                   = Some node' ->
                   scheduled q node' s').
    { intros s' H1 H2 H3. rewrite H3, H2. split; [split; [exact Hnode | exact I]|].
      intros node' H. unfold scheduled. rewrite H1, H2.
      unfold _search_condition in H.
      destruct s'.(pending_searches) as [|p ps] eqn:Ep; injection H as <-.
      - rewrite app_nil_r in H3. rewrite H3. conjs; try assumption; reflexivity.
      - rewrite H3. conjs; assumption. }
    unfold SearchNode. destruct state.(pending_searches) as [|strategy rest] eqn:E;
      [apply Hkeep; cbn; rewrite ?E; reflexivity|].
    cbn -[run_strategy].
    destruct rest; apply Hkeep; cbn; rewrite <- ?app_assoc; reflexivity.
  - destruct Hnode as [Hp Hc].
    assert (Hkeep : forall s',
              s'.(original_query) = state.(original_query) ->
              s'.(current_iteration) = state.(current_iteration) ->
              s'.(completed_searches) = state.(completed_searches) ->
              s'.(pending_searches) = state.(pending_searches) ->
              (s'.(completed_searches) ++ s'.(pending_searches)
               = round_strategies q s'.(current_iteration)
               /\ s'.(pending_searches) = [])
              /\ forall node',
                   (if _analysis_condition s' then Some iteration else Some synthesis)
                   = Some node' ->
                   scheduled q node' s').
    { intros s' H1 H2 H3 H4. rewrite H4, H3, H2, Hp, app_nil_r.
      split; [split; [exact Hc | reflexivity]|].
      intros node' H. unfold scheduled. rewrite H1, H2, H3, H4.
      destruct (_analysis_condition s'); injection H as <-; conjs; assumption. }
    unfold AnalysisNode. destruct state.(all_results); [apply Hkeep; reflexivity|].
    destruct (_ && _ && _)%bool; apply Hkeep; reflexivity.
  - destruct Hnode as [Hp Hc].
    assert (Hsame : forall s',
              s'.(original_query) = state.(original_query) ->
              s'.(current_iteration) = state.(current_iteration) ->
              s'.(completed_searches) = state.(completed_searches) ->
              s'.(pending_searches) = state.(pending_searches) ->
              (s'.(completed_searches) ++ s'.(pending_searches)
               = round_strategies q s'.(current_iteration)
               /\ True)
              /\ forall node', Some search = Some node' -> scheduled q node' s').
    { intros s' H1 H2 H3 H4. rewrite H4, H3, H2, Hp, app_nil_r.
      split; [split; [exact Hc | exact I]|].
      intros node' H. injection H as <-. unfold scheduled.
      rewrite H1, H2, H3, H4, Hp, app_nil_r. conjs; assumption. }
    unfold IterationNode. destruct (rev state.(iterations)); [apply Hsame; reflexivity|].
    destruct (follow_up_questions _); [apply Hsame; reflexivity|].
    cbn [set_status set_completed_searches set_pending_searches set_current_iteration
         set_current_query completed_searches pending_searches current_iteration
         original_query].
    assert (Hround : round_strategies q (state.(current_iteration) + 1)
                     = if (1 <? state.(current_iteration) + 1)%Z
                       then ["grep_search"; "fuzzy_search"] ++
                            ["dense_retrieval"; "bm25_retrieval"]
                       else ["grep_search"; "fuzzy_search"]).
    { unfold round_strategies.
      destruct (state.(current_iteration) + 1 =? 0)%Z eqn:E0;
        [apply Z.eqb_eq in E0; lia | reflexivity]. }
    cbn [app]. rewrite Hround.
    split; [split; [reflexivity | exact I]|].
    intros node' H. injection H as <-. unfold scheduled.
    cbn [set_status set_completed_searches set_pending_searches set_current_iteration
         set_current_query completed_searches pending_searches current_iteration
         original_query app].
    rewrite Hround. conjs; try assumption; try reflexivity; lia.
  - destruct Hnode as [Hp Hc]. cbn. rewrite Hp, app_nil_r.
    split; [split; [exact Hc | reflexivity]|].
    intros node' H. injection H as <-. unfold scheduled. cbn.
    conjs; assumption.
  - destruct Hnode as [Hp Hc]. cbn. rewrite Hp, app_nil_r.
    split; [split; [exact Hc | reflexivity]|]. intros node' H. discriminate.
Qed.

Lemma strategies_checked (l : list string) :
  forallb (fun strategy => existsb (String.eqb strategy) known_strategies) l = true ->
  nodup string_dec l = l ->
  Forall (fun strategy => In strategy known_strategies) l /\ NoDup l.
Proof.
  intros Hk Hd. split.
  - apply Forall_forall. intros strategy Hs.
    rewrite forallb_forall in Hk. specialize (Hk strategy Hs).
    apply existsb_exists in Hk. destruct Hk as (name & Hname & E).
    apply String.eqb_eq in E. subst name. exact Hname.
  - rewrite <- Hd. apply NoDup_nodup.
Qed.

Lemma plan_strategies_known (original : string) :
  Forall (fun strategy => In strategy known_strategies) (plan_strategies original)
  /\ NoDup (plan_strategies original).
Proof.
  unfold plan_strategies. cbn zeta.
  destruct (mentions_any ["function"; "method"; "class"; "api"] _),
           (mentions_any ["config"; "setting"; "parameter"] _),
           (mentions_any ["data"; "process"; "transform"] _),
           (3 <? _)%nat;
    apply strategies_checked; vm_compute; reflexivity.
Qed.

Lemma unknown_strategy (env : Env) (w : World) (strategy q : string)
                       (files : list string) :
  ~ In strategy known_strategies -> run_strategy env w strategy q files = (w, []).
Proof.
  intros Hnot. unfold run_strategy.
  assert (Hne : forall name, In name known_strategies -> (strategy =? name) = false).
  { intros name Hname. apply String.eqb_neq. intros ->. exact (Hnot Hname). }
  rewrite !Hne by (cbn; auto 10). reflexivity.
Qed.

(** X13. In every state read by the loop of [run_research] the completed
    strategies followed by the pending ones are the strategies of the
    current round: those of the plan while [current_iteration] is 0, then
    grep and fuzzy search, with dense and BM25 retrieval from the second
    follow-up round on. Analysis, synthesis and the report leave no strategy
    pending, so a finished run reports the strategies of its last round
    only. The
    strategies of a round are distinct names of the [elif] chain of the
    search node, which finds nothing under any other name. *)
Theorem X13_round_strategies (env : Env) (w : World) (ws : string) (max_it : Z)
                             (thr : R) (q : string) (goal : option string) :
  Forall (fun e =>
            let s := snd e in
            s.(completed_searches) ++ s.(pending_searches)
            = round_strategies q s.(current_iteration)
            /\ match fst e with
               | planning | search | iteration => True
               | _ => s.(pending_searches) = []
               end)
         (run_events env w ws max_it thr q goal)
  /\ (forall round,
        Forall (fun strategy => In strategy known_strategies) (round_strategies q round)
        /\ NoDup (round_strategies q round))
  /\ (forall strategy current_query files,
        ~ In strategy known_strategies ->
        run_strategy env w strategy current_query files = (w, [])).
Proof.
  split; [|split].
  - apply (stream_events_invariant env (scheduled q) _ (scheduled_step env q)).
    unfold scheduled. cbn. conjs; try reflexivity; lia.
  - intros round. unfold round_strategies.
    destruct (round =? 0)%Z; [apply plan_strategies_known|].
    destruct (1 <? round)%Z; apply strategies_checked; vm_compute; reflexivity.
  - intros strategy current_query files. apply unknown_strategy.
Qed.

(** ** The retrieval tools of the search node *)

Lemma dense_strategy_run (env : Env) (w : World) (q : string) (files : list string) :
  run_strategy env w "dense_retrieval" q files
  = or_nothing (_dense_retrieval_search env w q files).
Proof. reflexivity. Qed.

Lemma bm25_strategy_run (env : Env) (w : World) (q : string) (files : list string) :
  run_strategy env w "bm25_retrieval" q files
  = or_nothing (_bm25_retrieval_search env w q files).
Proof. reflexivity. Qed.

Lemma hybrid_strategy_run (env : Env) (w : World) (q : string) (files : list string) :
  run_strategy env w "hybrid_retrieval" q files
  = or_nothing (_hybrid_retrieval_search env w q files).
Proof. reflexivity. Qed.

Lemma tools_kept_refl (w : World) : tools_kept w w.
Proof. repeat split; auto. Qed.

Lemma run_strategy_keeps (env : Env) (w : World) (strategy q : string)
                         (files : list string) :
  tools_kept w (fst (run_strategy env w strategy q files)).
Proof.
  unfold run_strategy.
  repeat match goal with
         | |- context [if ?c then _ else _] =>
             destruct c; [first [ apply tools_kept_refl | idtac ]|]
         end; try apply tools_kept_refl.
  - unfold or_nothing, _dense_retrieval_search. cbn [fst].
    destruct w.(dense_tool) as [[tool|e]|] eqn:E; cbn [fst]; try apply tools_kept_refl.
    repeat split; cbn; auto. intros built H. rewrite E in H. discriminate.
  - unfold or_nothing, _bm25_retrieval_search. cbn [fst].
    destruct w.(bm25_tool) as [tool|] eqn:E; cbn [fst]; try apply tools_kept_refl.
    repeat split; cbn; auto. intros built H. rewrite E in H. discriminate.
  - unfold or_nothing, _hybrid_retrieval_search. cbn [fst].
    destruct w.(hybrid_tool) as [[tool|e]|] eqn:E; cbn [fst]; try apply tools_kept_refl.
    repeat split; cbn; auto. intros built H. rewrite E in H. discriminate.
Qed.

(** X14. The search node builds each retrieval tool at most once. No
    strategy replaces a tool that the workflow holds. After a retrieval
    strategy has run, its tool is in place, built from the first 50 files
    of that call if it was not there before, and every later run of the
    strategy leaves the workflow as it is and returns the same results
    whatever files it is given. *)
Theorem X14_retrieval_tools_built_once (env : Env) (w : World) (strategy q : string)
                                       (files : list string) :
  let w1 := fst (run_strategy env w strategy q files) in
  tools_kept w w1
  /\ (strategy = "dense_retrieval" ->
      w1.(dense_tool) <> None
      /\ (w.(dense_tool) = None ->
          w1.(dense_tool)
          = Some (Dense.index_documents (Dense.init env.(workspace_files)) w.(cache_file)
                    (firstn 50 files) Dense.default_chunk_size)))
  /\ (strategy = "bm25_retrieval" ->
      w1.(bm25_tool) <> None
      /\ (w.(bm25_tool) = None ->
          w1.(bm25_tool)
          = Some (BM25.index_documents
                    (BM25.init env.(workspace_files) BM25.default_k1 BM25.default_b)
                    (firstn 50 files))))
  /\ (strategy = "hybrid_retrieval" ->
      w1.(hybrid_tool) <> None
      /\ (w.(hybrid_tool) = None ->
          w1.(hybrid_tool)
          = Some (Hybrid.index_documents
                    (Hybrid.init env.(workspace_files) Hybrid.default_dense_weight
                                 Hybrid.default_sparse_weight)
                    w.(cache_file) (firstn 50 files))))
  /\ (In strategy retrieval_strategies ->
      forall q2 files2 files3,
        fst (run_strategy env w1 strategy q2 files2) = w1
        /\ run_strategy env w1 strategy q2 files2 = run_strategy env w1 strategy q2 files3).
Proof.
  intros w1. split; [apply run_strategy_keeps|].
  assert (Hd : strategy = "dense_retrieval" ->
               w1.(dense_tool) <> None
               /\ (w.(dense_tool) = None ->
                   w1.(dense_tool)
                   = Some (Dense.index_documents (Dense.init env.(workspace_files))
                             w.(cache_file) (firstn 50 files) Dense.default_chunk_size))).
  { intros ->. unfold w1. rewrite dense_strategy_run.
    unfold or_nothing, _dense_retrieval_search. cbn [fst].
    destruct w.(dense_tool) as [[tool|e]|] eqn:E; cbn [fst dense_tool]; rewrite ?E;
      split; try discriminate; reflexivity. }
  assert (Hb : strategy = "bm25_retrieval" ->
               w1.(bm25_tool) <> None
               /\ (w.(bm25_tool) = None ->
                   w1.(bm25_tool)
                   = Some (BM25.index_documents
                             (BM25.init env.(workspace_files) BM25.default_k1
                                        BM25.default_b)
                             (firstn 50 files)))).
  { intros ->. unfold w1. rewrite bm25_strategy_run.
    unfold or_nothing, _bm25_retrieval_search. cbn [fst].
    destruct w.(bm25_tool) as [tool|] eqn:E; cbn [fst bm25_tool]; rewrite ?E;
      split; try discriminate; reflexivity. }
  assert (Hh : strategy = "hybrid_retrieval" ->
               w1.(hybrid_tool) <> None
               /\ (w.(hybrid_tool) = None ->
                   w1.(hybrid_tool)
                   = Some (Hybrid.index_documents
                             (Hybrid.init env.(workspace_files)
                                Hybrid.default_dense_weight Hybrid.default_sparse_weight)
                             w.(cache_file) (firstn 50 files)))).
  { intros ->. unfold w1. rewrite hybrid_strategy_run.
    unfold or_nothing, _hybrid_retrieval_search. cbn [fst].
    destruct w.(hybrid_tool) as [[tool|e]|] eqn:E; cbn [fst hybrid_tool]; rewrite ?E;
      split; try discriminate; reflexivity. }
  split; [exact Hd|]. split; [exact Hb|]. split; [exact Hh|].
  intros [<- | [<- | [<- | []]]] q2 files2 files3.
  - destruct (Hd eq_refl) as [Hsome _]. rewrite !dense_strategy_run.
    unfold or_nothing, _dense_retrieval_search.
    destruct w1.(dense_tool) as [[tool|e]|]; [| |destruct (Hsome eq_refl)];
      split; reflexivity.
  - destruct (Hb eq_refl) as [Hsome _]. rewrite !bm25_strategy_run.
    unfold or_nothing, _bm25_retrieval_search.
    destruct w1.(bm25_tool) as [tool|]; [|destruct (Hsome eq_refl)];
      split; reflexivity.
  - destruct (Hh eq_refl) as [Hsome _]. rewrite !hybrid_strategy_run.
    unfold or_nothing, _hybrid_retrieval_search.
    destruct w1.(hybrid_tool) as [[tool|e]|]; [| |destruct (Hsome eq_refl)];
      split; reflexivity.
Qed.

(** ** The formatted results *)

Lemma take_length (n : nat) (s : string) :
  PyStr.len (PyStr.take n s) = Nat.min n (PyStr.len s).
Proof.
  unfold PyStr.len, PyStr.take. revert n. induction s as [|c s IH]; intros [|n]; cbn;
    try reflexivity.
  rewrite IH. reflexivity.
Qed.

Lemma take_prefix (n : nat) (s : string) :
  exists rest, s = (PyStr.take n s ++ rest)%string.
Proof.
  unfold PyStr.take. revert n. induction s as [|c s IH]; intros [|n]; cbn.
  - exists "". reflexivity.
  - exists "". reflexivity.
  - exists (String c s). reflexivity.
  - destruct (IH n) as [rest Hr]. exists rest. rewrite <- Hr. reflexivity.
Qed.

Lemma count_distinct_le (l : list string) :
  (PyList.count_distinct l <= List.length l)%nat.
Proof.
  unfold PyList.count_distinct. induction l as [|x l IH]; [reflexivity|].
  cbn [nodup]. destruct (in_dec string_dec x l); cbn [List.length]; lia.
Qed.

(** X15. [_format_results] reports the number of accumulated results and
    shows the ten best of them (all when there are fewer): the accumulated
    results in descending order of relevance score, results of equal score
    in the order in which they were gathered, cut after the tenth, so that
    no result left out scores more than one shown. A content of up to 200
    characters is shown whole, a longer one as its first 200 characters
    followed by three dots. The number of files analysed is the number of
    distinct sources: at most the number of results, and at least one when
    there is a result. *)
Theorem X15_format_results (final_state : ResearchState) :
  let out := _format_results final_state in
  let all := final_state.(all_results) in
  out.(Output.total_results) = List.length all
  /\ List.length out.(Output.top_results) = Nat.min 10 (List.length all)
  /\ (exists ranked,
        Permutation ranked all
        /\ StronglySorted (desc relevance_score) ranked
        /\ (forall score, filter (has_key relevance_score score) ranked
                          = filter (has_key relevance_score score) all)
        /\ out.(Output.top_results) = map top_result (firstn 10 ranked)
        /\ forall shown left_out,
             In shown (firstn 10 ranked) -> In left_out (skipn 10 ranked) ->
             left_out.(relevance_score) <= shown.(relevance_score))
  /\ (forall text,
        ((PyStr.len text <= 200)%nat -> preview text = text)
        /\ ((200 < PyStr.len text)%nat ->
            PyStr.len (preview text) = 203%nat
            /\ exists rest, text = (PyStr.take 200 text ++ rest)%string
                            /\ preview text = (PyStr.take 200 text ++ "...")%string))
  /\ out.(Output.files_analyzed) = PyList.count_distinct (map source all)
  /\ (out.(Output.files_analyzed) <= out.(Output.total_results))%nat
  /\ (all <> [] -> (1 <= out.(Output.files_analyzed))%nat).
Proof.
  intros out all. unfold out, _format_results. fold all.
  cbn [Output.total_results Output.top_results Output.files_analyzed].
  split; [reflexivity|].
  assert (Htop : match all with
                 | [] => []
                 | _ :: _ => map top_result (firstn 10 (PyList.sorted_desc relevance_score all))
                 end
                 = map top_result (firstn 10 (PyList.sorted_desc relevance_score all))).
  { destruct all; reflexivity. }
  assert (Hfiles : match all with
                   | [] => 0%nat
                   | _ :: _ => PyList.count_distinct (map source all)
                   end
                   = PyList.count_distinct (map source all)).
  { destruct all; reflexivity. }
  rewrite Htop, Hfiles. clear Htop Hfiles.
  split; [rewrite length_map, length_firstn, sorted_desc_length; reflexivity|].
  split.
  { exists (PyList.sorted_desc relevance_score all).
    split; [apply sorted_desc_perm|]. split; [apply sorted_desc_sorted|].
    split; [intros score; apply sorted_desc_stable|]. split; [reflexivity|].
    intros shown left_out Hs Hl.
    pose proof (sorted_desc_sorted relevance_score all) as Hsorted.
    rewrite <- (firstn_skipn 10 (PyList.sorted_desc relevance_score all)) in Hsorted.
    exact (StronglySorted_app_order _ _ _ Hsorted shown left_out Hs Hl). }
  split.
  { intros text. unfold preview. split.
    - intros Hle. destruct (200 <? PyStr.len text)%nat eqn:E; [|reflexivity].
      apply Nat.ltb_lt in E. lia.
    - intros Hlt. apply Nat.ltb_lt in Hlt. rewrite Hlt. split.
      + rewrite len_app, take_length. apply Nat.ltb_lt in Hlt.
        rewrite Nat.min_l by lia. reflexivity.
      + destruct (take_prefix 200 text) as [rest Hrest]. exists rest.
        split; [exact Hrest | reflexivity]. }
  split; [reflexivity|].
  split.
  - pose proof (count_distinct_le (map source all)) as H. rewrite length_map in H. exact H.
  - intros Hne. apply count_distinct_pos. destruct all; [congruence | discriminate].
Qed.

(** ** The fuzzy search over the lines of the files *)

Lemma count_matches_le (query_words : list string) (line_lower : string) :
  (FileSearchTool.count_matches query_words line_lower <= List.length query_words)%nat.
Proof. apply filter_length_le. Qed.

Lemma fuzzy_lines_empty_query (query : string) (threshold : R) (file_path : string)
                              (lines : list (nat * string)) :
  FileSearchTool.fuzzy_lines query [] threshold file_path lines = [].
Proof.
  destruct lines as [|[line_num line] rest]; [reflexivity|].
  cbn [FileSearchTool.fuzzy_lines List.length]. unfold py_div.
  destruct (Req_dec_T (INR 0) 0) as [_|H]; [reflexivity|].
  exfalso. apply H. reflexivity.
Qed.

Lemma fuzzy_lines_In (query : string) (query_words : list string) (threshold : R)
                     (file_path : string) (lines : list (nat * string))
                     (r : SearchResult) :
  query_words <> [] ->
  In r (FileSearchTool.fuzzy_lines query query_words threshold file_path lines)
  <-> exists line_num line,
        In (line_num, line) lines
        /\ threshold <= INR (FileSearchTool.count_matches query_words (PyStr.lower line))
                        / INR (List.length query_words)
        /\ r = FileSearchTool.fuzzy_result query file_path line_num line
                 (FileSearchTool.count_matches query_words (PyStr.lower line))
                 (List.length query_words)
                 (INR (FileSearchTool.count_matches query_words (PyStr.lower line))
                  / INR (List.length query_words)).
Proof.
  intros Hne.
  assert (Hpos : INR (List.length query_words) <> 0).
  { apply not_0_INR. destruct query_words; [congruence | discriminate]. }
  induction lines as [|[k l] rest IH].
  - cbn. split; [intros [] | intros (? & ? & [] & _)].
  - cbn [FileSearchTool.fuzzy_lines]. cbn zeta. rewrite py_div_Ok by exact Hpos.
    rewrite in_app_iff, IH. split.
    + intros [Hin | (line_num & line & Hin & Hthr & Hr)].
      * destruct (Rgeb _ threshold) eqn:E; [|destruct Hin].
        destruct Hin as [<- | []]. apply Rgeb_true in E.
        exists k, l. split; [left; reflexivity|]. split; [exact E | reflexivity].
      * exists line_num, line. split; [right; exact Hin|]. split; assumption.
    + intros (line_num & line & [Heq | Hin] & Hthr & Hr).
      * injection Heq as -> ->. left. apply Rgeb_true in Hthr. rewrite Hthr.
        left. symmetry. exact Hr.
      * right. exists line_num, line. repeat split; assumption.
Qed.

Lemma enumerate1_In {A : Type} (l : list A) (k : nat) (x : A) :
  In (k, x) (PyText.enumerate1 l) <-> exists i, k = S i /\ nth_error l i = Some x.
Proof.
  unfold PyText.enumerate1.
  enough (H : forall start, In (k, x) (combine (seq start (List.length l)) l)
                            <-> exists i, k = (start + i)%nat /\ nth_error l i = Some x).
  { rewrite H. split; intros (i & Hk & Hn); exists i; (split; [|exact Hn]); lia. }
  induction l as [|y l IH]; intros start.
  - cbn. split; [intros [] | intros ([|i] & _ & H); discriminate].
  - cbn [List.length seq combine In]. rewrite IH. split.
    + intros [Heq | (i & Hk & Hn)].
      * injection Heq as <- <-. exists 0%nat. split; [lia | reflexivity].
      * exists (S i). split; [lia | exact Hn].
    + intros ([|i] & Hk & Hn).
      * left. cbn in Hn. injection Hn as ->. f_equal. lia.
      * right. exists i. split; [lia | exact Hn].
Qed.

Lemma match_ratio_range (query_words : list string) (line_lower : string) :
  query_words <> [] ->
  0 <= INR (FileSearchTool.count_matches query_words line_lower)
       / INR (List.length query_words) <= 1.
Proof.
  intros Hne.
  assert (Hpos : 0 < INR (List.length query_words)).
  { apply lt_0_INR. destruct query_words; [congruence | cbn; lia]. }
  pose proof (count_matches_le query_words line_lower) as Hle. apply le_INR in Hle.
  pose proof (pos_INR (FileSearchTool.count_matches query_words line_lower)) as H0.
  split.
  - apply Rmult_le_pos; [exact H0 | left; apply Rinv_0_lt_compat, Hpos].
  - apply (Rmult_le_reg_r (INR (List.length query_words))); [exact Hpos|].
    unfold Rdiv. rewrite Rmult_assoc, Rinv_l by lra. lra.
Qed.

(** X16. [FileSearchTool.fuzzy_search] returns, in descending order of
    relevance, one result for each line of a listed readable file in which
    the share of the query words that occur (case ignored) reaches the
    threshold, and nothing else: the result names the file and the number of
    the line, holds the stripped line and, as relevance, that share, a
    number between 0 and 1. A query without a word finds nothing: the
    division by zero is caught file by file. [SearchNode._fuzzy_search] is
    this search with threshold 0.4. *)
Theorem X16_fuzzy_search (ws : Workspace) (query : string) (file_paths : list string)
                         (threshold : R) :
  let rs := FileSearchTool.fuzzy_search ws query file_paths threshold in
  StronglySorted (desc relevance_score) rs
  /\ (PyStr.split (PyStr.lower query) = [] -> rs = [])
  /\ (forall r, In r rs ->
        exists text i line,
          In r.(source) file_paths
          /\ ws r.(source) = Some text
          /\ nth_error (PyText.readlines text) i = Some line
          /\ In ("line_number", MInt (Z.of_nat (S i))) r.(metadata)
          /\ r.(content) = PyText.strip line
          /\ r.(relevance_score) = match_ratio query line
          /\ threshold <= r.(relevance_score)
          /\ 0 <= r.(relevance_score) <= 1
          /\ r.(search_query) = query
          /\ r.(tool_used) = "fuzzy_search")
  /\ (forall file_path text i line,
        PyStr.split (PyStr.lower query) <> [] ->
        In file_path file_paths ->
        ws file_path = Some text ->
        nth_error (PyText.readlines text) i = Some line ->
        threshold <= match_ratio query line ->
        exists r, In r rs
                  /\ r.(source) = file_path
                  /\ In ("line_number", MInt (Z.of_nat (S i))) r.(metadata)
                  /\ r.(relevance_score) = match_ratio query line)
  /\ _fuzzy_search ws query file_paths
     = FileSearchTool.fuzzy_search ws query file_paths 0.4.
Proof.
  intros rs. unfold rs, FileSearchTool.fuzzy_search. cbn zeta.
  set (query_words := PyStr.split (PyStr.lower query)).
  set (found := flat_map _ file_paths).
  assert (Hfound : forall r, query_words <> [] ->
            (In r found <->
             exists file_path text i line,
               In file_path file_paths /\ ws file_path = Some text
               /\ nth_error (PyText.readlines text) i = Some line
               /\ threshold <= match_ratio query line
               /\ r = FileSearchTool.fuzzy_result query file_path (S i) line
                        (FileSearchTool.count_matches query_words (PyStr.lower line))
                        (List.length query_words) (match_ratio query line))).
  { intros r Hne. unfold found. rewrite in_flat_map. split.
    - intros (file_path & Hf & Hin). destruct (ws file_path) as [text|] eqn:Ews;
        [|destruct Hin].
      apply (fuzzy_lines_In _ _ _ _ _ _ Hne) in Hin.
      destruct Hin as (line_num & line & Hl & Hthr & Hr).
      apply enumerate1_In in Hl. destruct Hl as (i & -> & Hn).
      exists file_path, text, i, line. repeat split; assumption.
    - intros (file_path & text & i & line & Hf & Hws & Hn & Hthr & Hr).
      exists file_path. split; [exact Hf|]. rewrite Hws.
      apply (fuzzy_lines_In _ _ _ _ _ _ Hne). exists (S i), line.
      split; [apply enumerate1_In; exists i; split; [reflexivity | exact Hn]|].
      split; assumption. }
  split; [apply sorted_desc_sorted|].
  split.
  { intros Hnil.
    assert (Hnone : found = []).
    { unfold found. clear Hfound. induction file_paths as [|f fs IH]; [reflexivity|].
      cbn [flat_map]. rewrite IH, app_nil_r. destruct (ws f); [|reflexivity].
      fold query_words. rewrite Hnil. apply fuzzy_lines_empty_query. }
    rewrite Hnone. reflexivity. }
  split.
  { intros r Hr. apply (Permutation_in _ (sorted_desc_perm relevance_score found)) in Hr.
    destruct query_words as [|w0 ws0] eqn:Ew.
    - exfalso. revert Hr. unfold found. clear.
      induction file_paths as [|f fs IH]; [intros []|].
      cbn [flat_map]. rewrite in_app_iff. intros [H | H]; [|exact (IH H)].
      destruct (ws f); [|destruct H]. rewrite fuzzy_lines_empty_query in H. destruct H.
    - rewrite <- Ew in *.
      assert (Hne : query_words <> []) by (rewrite Ew; discriminate).
      apply (Hfound r Hne) in Hr.
      destruct Hr as (file_path & text & i & line & Hf & Hws & Hn & Hthr & ->).
      exists text, i, line. cbn.
      repeat split; try assumption; try (left; reflexivity);
        apply match_ratio_range; exact Hne. }
  split; [|reflexivity].
  intros file_path text i line Hne Hf Hws Hn Hthr.
  eexists. split.
  - apply (Permutation_in _ (Permutation_sym (sorted_desc_perm relevance_score found))).
    apply (Hfound _ Hne). exists file_path, text, i, line.
    repeat split; assumption.
  - cbn. repeat split. left. reflexivity.
Qed.

(** ** The lines of grep *)

Lemma split_sep_from_length (sep : ascii) (maxsplit : nat) (cur s : string) :
  List.length (PyText.split_sep_from sep maxsplit cur s)
  = S (Nat.min maxsplit (PyText.count_char sep s)).
Proof.
  revert maxsplit cur. induction s as [|c s IH]; intros maxsplit cur.
  - cbn. rewrite Nat.min_0_r. reflexivity.
  - cbn [PyText.split_sep_from PyText.count_char]. destruct maxsplit as [|fewer];
      [reflexivity|].
    destruct (Ascii.eqb c sep).
    + cbn [List.length]. rewrite IH. cbn. reflexivity.
    + rewrite IH. reflexivity.
Qed.

Lemma split_sep_from_part (sep : ascii) (fewer : nat) (cur part rest : string) :
  PyText.count_char sep part = 0%nat ->
  PyText.split_sep_from sep (S fewer) cur (part ++ String sep rest)
  = (cur ++ part)%string :: PyText.split_sep_from sep fewer EmptyString rest.
Proof.
  revert cur. induction part as [|c part IH]; intros cur Hc.
  - cbn. rewrite Ascii.eqb_refl, append_nil_r. reflexivity.
  - cbn [PyText.count_char] in Hc. cbn [append PyText.split_sep_from].
    destruct (Ascii.eqb c sep); [discriminate|].
    rewrite IH by exact Hc. rewrite append_assoc. reflexivity.
Qed.

Lemma split_sep_from_last (sep : ascii) (cur s : string) :
  PyText.split_sep_from sep 0 cur s = [(cur ++ s)%string].
Proof. destruct s; cbn; [rewrite append_nil_r|]; reflexivity. Qed.

Lemma digits_printed (d : Decimal.uint) :
  all_chars PyStr.is_digit (NilEmpty.string_of_uint d) = true
  /\ forall acc, PyText.int_from acc (NilEmpty.string_of_uint d) = Nat.of_uint_acc d acc.
Proof.
  induction d as [|d [IH1 IH2]|d [IH1 IH2]|d [IH1 IH2]|d [IH1 IH2]|d [IH1 IH2]
                  |d [IH1 IH2]|d [IH1 IH2]|d [IH1 IH2]|d [IH1 IH2]|d [IH1 IH2]];
    (split; [try reflexivity; cbn [NilEmpty.string_of_uint all_chars]; rewrite IH1;
             reflexivity
            |intros acc; try reflexivity;
             cbn [NilEmpty.string_of_uint PyText.int_from Nat.of_uint_acc];
             rewrite IH2, Nat.tail_mul_spec; f_equal; cbn; lia]).
Qed.

Lemma str_of_nat_digits (n : nat) :
  PyText.isdigit (str_of_nat n) = true
  /\ PyText.int (str_of_nat n) = Z.of_nat n
  /\ PyText.count_char ":"%char (str_of_nat n) = 0%nat.
Proof.
  assert (Hcolon : forall s, all_chars PyStr.is_digit s = true ->
                             PyText.count_char ":"%char s = 0%nat).
  { induction s as [|c s IH]; [reflexivity|]. cbn [all_chars PyText.count_char].
    intros H. apply andb_true_iff in H. destruct H as [Hc Hs]. rewrite (IH Hs).
    destruct (Ascii.eqb c ":"%char) eqn:E; [|reflexivity].
    apply Ascii.eqb_eq in E. subst c. discriminate. }
  pose proof (DecimalNat.Unsigned.of_to n) as Hn. unfold Nat.of_uint in Hn.
  unfold str_of_nat, NilZero.string_of_uint, PyText.isdigit, PyText.int.
  destruct (digits_printed (Nat.to_uint n)) as [Hd Hi].
  destruct (Nat.to_uint n) eqn:E;
    try (split; [|split; [rewrite Hi, Hn; reflexivity | apply Hcolon, Hd]];
         rewrite Hd; reflexivity).
  cbn in Hn. subst n. repeat split.
Qed.

Lemma parse_grep_line_cases (line pattern : string) :
  ((2 <= PyText.count_char ":"%char line)%nat /\
   exists file_path line_number content rest,
     PyText.split_sep ":"%char 2 line = file_path :: line_number :: content :: rest
     /\ FileSearchTool._parse_grep_line line pattern
        = mkSearchResult file_path (PyText.strip content) 0.9
            [("line_number", MInt (if PyText.isdigit line_number
                                   then PyText.int line_number else 0%Z));
             ("grep_pattern", MStr pattern)]
            pattern "grep_search")
  \/ ((PyText.count_char ":"%char line < 2)%nat /\
      FileSearchTool._parse_grep_line line pattern
      = mkSearchResult "unknown" line 0.5 [] pattern "grep_search").
Proof.
  pose proof (split_sep_from_length ":"%char 2 EmptyString line) as Hlen.
  unfold FileSearchTool._parse_grep_line, PyText.split_sep in *.
  destruct (PyText.split_sep_from ":"%char 2 EmptyString line)
    as [|p1 [|p2 [|p3 rest]]]; cbn [List.length] in Hlen.
  - discriminate.
  - right. split; [lia | reflexivity].
  - right. split; [lia | reflexivity].
  - left. split; [lia|]. exists p1, p2, p3, rest. split; reflexivity.
Qed.

(** X17. [_parse_grep_line] reads a line [file:number:text] of grep, for a
    file name without a colon, as a result for this file with the stripped
    text, the line number and relevance 0.9; a line with fewer than two
    colons (a context line, a group separator) becomes a result with source
    "unknown", the whole line and relevance 0.5. So every result of
    [grep_search] and of [SearchNode._grep_search] scores 0.9 or 0.5 and
    carries the searched term as its query; a grep that fails or raises
    gives no result, and [_grep_search] searches for the first three words
    of more than two characters only: none, no result. *)
Theorem X17_grep_results (run : FileSearchTool.Process) (workspace_path : string) :
  (forall file_path n text pattern,
     PyText.count_char ":"%char file_path = 0%nat ->
     FileSearchTool._parse_grep_line
       (file_path ++ ":" ++ str_of_nat n ++ ":" ++ text) pattern
     = mkSearchResult file_path (PyText.strip text) 0.9
         [("line_number", MInt (Z.of_nat n)); ("grep_pattern", MStr pattern)]
         pattern "grep_search")
  /\ (forall line pattern,
        (PyText.count_char ":"%char line < 2)%nat ->
        FileSearchTool._parse_grep_line line pattern
        = mkSearchResult "unknown" line 0.5 [] pattern "grep_search")
  /\ (forall query files r,
        In r (_grep_search run workspace_path query files) ->
        (r.(relevance_score) = 0.9 \/ r.(relevance_score) = 0.5)
        /\ r.(tool_used) = "grep_search"
        /\ In r.(search_query) (grep_terms query)
        /\ (List.length (grep_terms query) <= 3)%nat
        /\ In r.(search_query) (PyStr.split query)
        /\ (3 <= PyStr.len r.(search_query))%nat)
  /\ (forall query files,
        (forall word, In word (PyStr.split query) -> (PyStr.len word <= 2)%nat) ->
        _grep_search run workspace_path query files = [])
  /\ (forall pattern file_types case_sensitive whole_word context_lines,
        (forall stdout,
           run (FileSearchTool.grep_command workspace_path pattern file_types
                  case_sensitive whole_word context_lines) <> Some (0%Z, stdout)) ->
        FileSearchTool.grep_search run workspace_path pattern file_types
          case_sensitive whole_word context_lines = []).
Proof.
  split; [|split; [|split; [|split]]].
  - intros file_path n text pattern Hfile.
    destruct (str_of_nat_digits n) as (Hd & Hi & Hc).
    unfold FileSearchTool._parse_grep_line, PyText.split_sep.
    change (file_path ++ ":" ++ str_of_nat n ++ ":" ++ text)%string
      with (file_path ++ String ":"%char (str_of_nat n ++ String ":"%char text))%string.
    rewrite split_sep_from_part by exact Hfile.
    rewrite split_sep_from_part by exact Hc.
    rewrite split_sep_from_last. cbn [append]. rewrite Hd, Hi. reflexivity.
  - intros line pattern Hlt.
    destruct (parse_grep_line_cases line pattern) as [[Hge _] | [_ H]]; [lia | exact H].
  - intros query files r Hr. unfold _grep_search in Hr. apply in_flat_map in Hr.
    destruct Hr as (term & Hterm & Hr). unfold FileSearchTool.grep_search in Hr.
    destruct (run _) as [[returncode stdout]|]; [|destruct Hr].
    destruct (returncode =? 0)%Z; [|destruct Hr].
    apply in_map_iff in Hr. destruct Hr as (line & <- & _).
    assert (Hq : (FileSearchTool._parse_grep_line line term).(search_query) = term
                 /\ ((FileSearchTool._parse_grep_line line term).(relevance_score) = 0.9
                     \/ (FileSearchTool._parse_grep_line line term).(relevance_score) = 0.5)
                 /\ (FileSearchTool._parse_grep_line line term).(tool_used) = "grep_search").
    { destruct (parse_grep_line_cases line term)
        as [(_ & ? & ? & ? & ? & _ & ->) | [_ ->]]; cbn; auto. }
    destruct Hq as (-> & Hscore & Htool).
    pose proof Hterm as Hlong. unfold grep_terms in Hlong. apply In_firstn in Hlong.
    apply filter_In in Hlong. destruct Hlong as [Hword Hlen]. apply Nat.ltb_lt in Hlen.
    repeat split; try assumption; try lia.
    unfold grep_terms. rewrite length_firstn. lia.
  - intros query files Hshort. unfold _grep_search, grep_terms.
    replace (filter _ (PyStr.split query)) with (@nil string); [reflexivity|].
    symmetry. induction (PyStr.split query) as [|word words IH]; [reflexivity|].
    cbn [filter]. specialize (Hshort word (or_introl eq_refl)) as Hw.
    destruct (2 <? PyStr.len word)%nat eqn:E; [apply Nat.ltb_lt in E; lia|].
    apply IH. intros word' Hw'. apply Hshort. right. exact Hw'.
  - intros pattern file_types case_sensitive whole_word context_lines Hfail.
    unfold FileSearchTool.grep_search.
    destruct (run _) as [[returncode stdout]|] eqn:E; [|reflexivity].
    destruct (returncode =? 0)%Z eqn:E0; [|reflexivity].
    apply Z.eqb_eq in E0. subst returncode. destruct (Hfail stdout eq_refl).
Qed.

(** ** Reading lines of a file *)

Lemma readlines_from_concat (cur s : string) :
  String.concat "" (PyText.readlines_from cur s) = (cur ++ s)%string.
Proof.
  revert cur. induction s as [|c s IH]; intros cur.
  - cbn. rewrite append_nil_r. destruct (PyStr.len cur =? 0)%nat eqn:E; [|reflexivity].
    apply Nat.eqb_eq in E. destruct cur; [reflexivity | discriminate].
  - cbn [PyText.readlines_from]. destruct (Ascii.eqb c PyText.newline).
    + specialize (IH EmptyString). cbn [append] in IH.
      destruct (PyText.readlines_from EmptyString s) as [|l ls].
      * cbn [String.concat] in IH |- *. rewrite <- IH. reflexivity.
      * change (String.concat "" ((cur ++ String c "")%string :: l :: ls))
          with ((cur ++ String c "") ++ String.concat "" (l :: ls))%string.
        rewrite IH, append_assoc. reflexivity.
    + rewrite IH, append_assoc. reflexivity.
Qed.

Lemma slice_whole {A : Type} (l : list A) :
  PyText.slice l 0 (Z.of_nat (List.length l)) = l.
Proof.
  unfold PyText.slice, PyText.slice_index. cbn zeta.
  destruct (Z.of_nat (List.length l) <? 0)%Z eqn:E; [apply Z.ltb_lt in E; lia|].
  cbn. rewrite Nat2Z.id, Nat.min_id, Nat.min_0_r, Nat.sub_0_r. apply firstn_all.
Qed.

Lemma slice_part {A : Type} (l : list A) (start stop : Z) :
  exists before after,
    l = before ++ PyText.slice l start stop ++ after
    /\ List.length before = PyText.slice_index (List.length l) start.
Proof.
  unfold PyText.slice. cbn zeta.
  set (first := PyText.slice_index (List.length l) start).
  set (last := PyText.slice_index (List.length l) stop).
  assert (Hfirst : (first <= List.length l)%nat).
  { unfold first, PyText.slice_index.
    destruct (start <? 0)%Z eqn:E; [apply Z.ltb_lt in E|]; lia. }
  exists (firstn first l), (skipn (last - first) (skipn first l)).
  rewrite firstn_skipn, firstn_skipn. split; [reflexivity|].
  rewrite length_firstn. lia.
Qed.

(** X18. [FileReadTool.read_file] returns [None] for a file that cannot be
    read, whatever the range; without a range, and from line 1 on, it returns
    the text: the lines of [readlines] joined give the file back. For a line
    number of at least 1 and a context of at least 0, [read_around_line]
    returns a run of at most [2 * context + 1] consecutive lines of the file
    that holds the line of this number when the file has one. When
    [line_number + context] is 0, for a context of at least 0, it returns
    the whole file. *)
Theorem X18_read_lines (ws : Workspace) (file_path : string) :
  (ws file_path = None ->
     forall start_line end_line,
       FileReadTool.read_file ws file_path start_line end_line = None)
  /\ (forall text,
        ws file_path = Some text ->
        String.concat "" (PyText.readlines text) = text
        /\ FileReadTool.read_file ws file_path None None = Some text
        /\ FileReadTool.read_file ws file_path (Some 1%Z) None = Some text
        /\ (forall line_number context,
              (1 <= line_number)%Z -> (0 <= context)%Z ->
              exists before window after,
                FileReadTool.read_around_line ws file_path line_number context
                = Some (String.concat "" window)
                /\ PyText.readlines text = before ++ window ++ after
                /\ (Z.of_nat (List.length window) <= 2 * context + 1)%Z
                /\ forall line,
                     nth_error (PyText.readlines text) (Z.to_nat (line_number - 1))
                     = Some line ->
                     nth_error window (Z.to_nat (line_number - 1) - List.length before)
                     = Some line)
        /\ (forall line_number context,
              (0 <= context)%Z -> (line_number + context = 0)%Z ->
              FileReadTool.read_around_line ws file_path line_number context
              = Some text)).
Proof.
  split.
  - intros Hws start_line end_line. unfold FileReadTool.read_file. rewrite Hws.
    reflexivity.
  - intros text Hws.
    assert (Hconcat : String.concat "" (PyText.readlines text) = text).
    { unfold PyText.readlines. rewrite readlines_from_concat. reflexivity. }
    split; [exact Hconcat|].
    split; [unfold FileReadTool.read_file; rewrite Hws; reflexivity|].
    split.
    { unfold FileReadTool.read_file. rewrite Hws. cbn [Z.eqb Z.sub Z.add Z.opp Z.pos_sub].
      rewrite slice_whole, Hconcat. reflexivity. }
    split.
    + intros line_number context Hn Hc.
      unfold FileReadTool.read_around_line, FileReadTool.read_file. rewrite Hws.
      cbn zeta.
      destruct (Z.max 1 (line_number - context) =? 0)%Z eqn:E1;
        [apply Z.eqb_eq in E1; lia|].
      destruct (line_number + context =? 0)%Z eqn:E2; [apply Z.eqb_eq in E2; lia|].
      set (lines := PyText.readlines text).
      set (start_idx := (Z.max 1 (line_number - context) - 1)%Z).
      destruct (slice_part lines start_idx (line_number + context))
        as (before & after & Hpart & Hbefore).
      exists before, (PyText.slice lines start_idx (line_number + context)), after.
      split; [reflexivity|]. split; [exact Hpart|].
      assert (Hfirst : PyText.slice_index (List.length lines) start_idx
                       = Nat.min (List.length lines) (Z.to_nat start_idx)).
      { unfold PyText.slice_index.
        destruct (start_idx <? 0)%Z eqn:E; [apply Z.ltb_lt in E; lia | reflexivity]. }
      assert (Hlast : PyText.slice_index (List.length lines) (line_number + context)
                      = Nat.min (List.length lines) (Z.to_nat (line_number + context))).
      { unfold PyText.slice_index.
        destruct (line_number + context <? 0)%Z eqn:E;
          [apply Z.ltb_lt in E; lia | reflexivity]. }
      split.
      * unfold PyText.slice. cbn zeta. rewrite length_firstn, length_skipn, Hfirst, Hlast.
        lia.
      * intros line Hline.
        assert (Hlt : (Z.to_nat (line_number - 1) < List.length lines)%nat).
        { apply nth_error_Some. rewrite Hline. discriminate. }
        rewrite Hbefore, Hfirst. unfold PyText.slice. cbn zeta. rewrite Hfirst, Hlast.
        rewrite nth_error_firstn.
        match goal with
        | |- (if ?c then _ else _) = _ => destruct c eqn:Eb
        end; [|apply Nat.ltb_ge in Eb; lia].
        rewrite nth_error_skipn. rewrite <- Hline. f_equal. lia.
    + intros line_number context Hc Hzero.
      unfold FileReadTool.read_around_line, FileReadTool.read_file. rewrite Hws.
      cbn zeta. rewrite Hzero. cbn [Z.eqb].
      replace (Z.max 1 (line_number - context)) with 1%Z by lia.
      cbn [Z.eqb Z.sub Z.add Z.opp Z.pos_sub].
      rewrite slice_whole, Hconcat. reflexivity.
Qed.

(** ** The insights of the content analyser *)

Lemma increment_get (counts : Dict.t nat) (key t : string) :
  match Dict.get (ContentAnalyzer.increment counts key) t with
  | Some n => n | None => 0%nat end
  = (match Dict.get counts t with Some n => n | None => 0%nat end
     + if (t =? key)%string then 1 else 0)%nat.
Proof.
  unfold ContentAnalyzer.increment. rewrite get_set.
  destruct (t =? key) eqn:E; [|lia]. apply String.eqb_eq in E. subst. lia.
Qed.

Lemma theme_step_get (content_lower : string) (themes : list (string * list string))
                     (counts : Dict.t nat) (theme : string) (keywords : list string) :
  NoDup (map fst themes) ->
  In (theme, keywords) themes ->
  match Dict.get
          (fold_left (fun counts theme =>
                        if (2 <=? ContentAnalyzer.keyword_matches (snd theme)
                                    content_lower)%nat
                        then ContentAnalyzer.increment counts (fst theme) else counts)
                     themes counts) theme with
  | Some n => n | None => 0%nat end
  = (match Dict.get counts theme with Some n => n | None => 0%nat end
     + if (2 <=? ContentAnalyzer.keyword_matches keywords content_lower)%nat
       then 1 else 0)%nat.
Proof.
  intros Hnd Hin.
  assert (Hother : forall (rest : list (string * list string)) (c : Dict.t nat),
            ~ In theme (map fst rest) ->
            Dict.get (fold_left (fun counts theme =>
                        if (2 <=? ContentAnalyzer.keyword_matches (snd theme)
                                    content_lower)%nat
                        then ContentAnalyzer.increment counts (fst theme) else counts)
                     rest c) theme
            = Dict.get c theme).
  { induction rest as [|[t ks] rest IH]; intros c Hnot; [reflexivity|].
    cbn [fold_left fst snd]. rewrite IH by (intros H; apply Hnot; right; exact H).
    destruct (2 <=? _)%nat; [|reflexivity].
    unfold ContentAnalyzer.increment. rewrite get_set.
    destruct (theme =? t) eqn:E; [|reflexivity].
    apply String.eqb_eq in E. subst t. exfalso. apply Hnot. left. reflexivity. }
  revert counts. induction themes as [|[t ks] themes IH]; intros counts; [destruct Hin|].
  cbn [map fst] in Hnd. apply NoDup_cons_iff in Hnd. destruct Hnd as [Hnot Hnd].
  cbn [fold_left fst snd]. destruct Hin as [Heq | Hin].
  - injection Heq as -> ->. rewrite Hother by exact Hnot.
    destruct (2 <=? _)%nat; [|lia]. rewrite increment_get, String.eqb_refl. reflexivity.
  - rewrite (IH Hnd Hin).
    assert (Hne : (theme =? t) = false).
    { apply String.eqb_neq. intros ->. apply Hnot.
      apply (in_map fst) in Hin. exact Hin. }
    destruct (2 <=? ContentAnalyzer.keyword_matches ks content_lower)%nat;
      [|reflexivity].
    rewrite increment_get, Hne. lia.
Qed.

Lemma theme_names_NoDup : NoDup (map fst ContentAnalyzer.theme_keywords).
Proof.
  assert (H : nodup string_dec (map fst ContentAnalyzer.theme_keywords)
              = map fst ContentAnalyzer.theme_keywords) by (vm_compute; reflexivity).
  rewrite <- H. apply NoDup_nodup.
Qed.

Lemma identify_themes_from (results : list SearchResult) (counts : Dict.t nat)
                           (theme : string) (keywords : list string) :
  In (theme, keywords) ContentAnalyzer.theme_keywords ->
  match Dict.get (fold_left ContentAnalyzer.count_themes results counts) theme with
  | Some n => n | None => 0%nat end
  = (match Dict.get counts theme with Some n => n | None => 0%nat end
     + List.length (on_theme keywords results))%nat.
Proof.
  intros Hin. revert counts. induction results as [|r results IH]; intros counts.
  - cbn. lia.
  - cbn [fold_left]. rewrite IH. unfold ContentAnalyzer.count_themes at 1.
    cbn zeta. rewrite (theme_step_get _ _ _ theme keywords theme_names_NoDup Hin).
    unfold on_theme. cbn [filter].
    destruct (2 <=? _)%nat; cbn [List.length]; lia.
Qed.

Lemma identify_themes_kept (results : list SearchResult) :
  NoDup (Dict.keys (ContentAnalyzer._identify_themes results))
  /\ forall theme count,
       Dict.get (ContentAnalyzer._identify_themes results) theme = Some count ->
       (1 <= count)%nat /\ In theme (map fst ContentAnalyzer.theme_keywords).
Proof.
  unfold ContentAnalyzer._identify_themes.
  apply (fold_left_invariant
           (fun counts : Dict.t nat =>
              NoDup (Dict.keys counts)
              /\ forall theme count,
                   Dict.get counts theme = Some count ->
                   (1 <= count)%nat /\ In theme (map fst ContentAnalyzer.theme_keywords))).
  - split; [constructor | intros ? ? H; discriminate].
  - intros counts r _ Hinv. unfold ContentAnalyzer.count_themes. cbn zeta.
    apply (fold_left_invariant
             (fun counts : Dict.t nat =>
                NoDup (Dict.keys counts)
                /\ forall theme count,
                     Dict.get counts theme = Some count ->
                     (1 <= count)%nat
                     /\ In theme (map fst ContentAnalyzer.theme_keywords)));
      [exact Hinv|].
    intros c [t ks] Ht [Hnd Hc]. cbn [fst snd].
    destruct (2 <=? _)%nat; [|split; assumption].
    unfold ContentAnalyzer.increment. split; [apply keys_set_NoDup, Hnd|].
    intros theme count. rewrite get_set. destruct (theme =? t) eqn:E; [|apply Hc].
    apply String.eqb_eq in E. subst t. intros H. injection H as <-.
    split; [lia | apply (in_map fst) in Ht; exact Ht].
Qed.

Lemma identify_themes_entry (results : list SearchResult) (theme : string) (count : nat) :
  In (theme, count) (ContentAnalyzer._identify_themes results)
  <-> exists keywords,
        In (theme, keywords) ContentAnalyzer.theme_keywords
        /\ count = List.length (on_theme keywords results)
        /\ (1 <= count)%nat.
Proof.
  destruct (identify_themes_kept results) as [Hnd Hkept]. split.
  - intros Hin. apply (In_get _ _ _ Hnd) in Hin.
    destruct (Hkept theme count Hin) as [Hpos Hname].
    apply in_map_iff in Hname. destruct Hname as ([t keywords] & Ht & Hk).
    cbn [fst] in Ht. subst t. exists keywords. split; [exact Hk|].
    split; [|exact Hpos].
    pose proof (identify_themes_from results [] theme keywords Hk) as Hget.
    fold (ContentAnalyzer._identify_themes results) in Hget. rewrite Hin in Hget.
    cbn in Hget. exact Hget.
  - intros (keywords & Hk & Hcount & Hpos).
    pose proof (identify_themes_from results [] theme keywords Hk) as Hget.
    fold (ContentAnalyzer._identify_themes results) in Hget. cbn in Hget.
    apply get_In.
    destruct (Dict.get (ContentAnalyzer._identify_themes results) theme) as [n|];
      [f_equal; lia | lia].
Qed.

Lemma Counter_entry (words : list string) (w : string) (n : nat) :
  In (w, n) (Counter words)
  <-> n = count_occ string_dec words w /\ (1 <= n)%nat.
Proof.
  split.
  - intros Hin. apply (In_get _ _ _ (Counter_NoDup words)) in Hin.
    rewrite Counter_get in Hin. unfold occurrences in Hin.
    destruct (count_occ string_dec words w); [discriminate|].
    injection Hin as <-. split; [reflexivity | lia].
  - intros [-> Hpos]. apply get_In. rewrite Counter_get. unfold occurrences.
    destruct (count_occ string_dec words w); [lia | reflexivity].
Qed.

Lemma Counter_length (words : list string) :
  List.length (Counter words) = PyList.count_distinct words.
Proof.
  unfold PyList.count_distinct.
  rewrite <- (length_map fst (Counter words)).
  apply Permutation_length. apply NoDup_Permutation.
  - apply Counter_NoDup.
  - apply NoDup_nodup.
  - intros w. rewrite nodup_In. split.
    + intros Hin. apply in_map_iff in Hin. destruct Hin as ([k n] & <- & Hin).
      apply (In_get _ _ _ (Counter_NoDup words)) in Hin.
      exact (Counter_keys _ _ _ Hin).
    + intros Hin. apply (in_map fst (Counter words) (w, count_occ string_dec words w)).
      apply Counter_entry. split; [reflexivity|].
      apply (count_occ_In string_dec) in Hin. lia.
Qed.

(** X19. [extract_key_insights] never returns the empty list: without a
    result of relevance at least [min_relevance] it returns the single
    sentence "No high-relevance results found"; otherwise it returns one
    sentence for each theme of which at least three of these results hold
    two keywords, with this number of results; one for each of the three
    sources that most of these results come from (for all sources when
    there are fewer), with the number of results of the source; and one for
    each tool that found one of these results, with the number of results
    of the tool: two sentences at least. *)
Theorem X19_key_insights (results : list SearchResult) (min_relevance : R) :
  let high := filter (fun r => Rgeb r.(relevance_score) min_relevance) results in
  let insights := ContentAnalyzer.extract_key_insights results min_relevance in
  (high = [] -> insights = ["No high-relevance results found"])
  /\ (high <> [] ->
      exists themes files tools,
        insights = map ContentAnalyzer.theme_insight themes
                   ++ map ContentAnalyzer.file_insight files
                   ++ map ContentAnalyzer.tool_insight tools
        /\ (forall theme count,
              In (theme, count) themes
              <-> exists keywords,
                    In (theme, keywords) ContentAnalyzer.theme_keywords
                    /\ count = List.length (on_theme keywords high)
                    /\ (3 <= count)%nat)
        /\ List.length files = Nat.min 3 (PyList.count_distinct (map source high))
        /\ (forall file count,
              In (file, count) files ->
              count = count_occ string_dec (map source high) file /\ (1 <= count)%nat)
        /\ (forall file count other,
              In (file, count) files -> ~ In other (map fst files) ->
              (count_occ string_dec (map source high) other <= count)%nat)
        /\ List.length tools = PyList.count_distinct (map tool_used high)
        /\ (forall tool count,
              In (tool, count) tools
              <-> count = count_occ string_dec (map tool_used high) tool
                  /\ (1 <= count)%nat)
        /\ (2 <= List.length insights)%nat)
  /\ insights <> [].
Proof.
  intros high insights.
  assert (Hnil : high = [] -> insights = ["No high-relevance results found"]).
  { intros H. unfold insights, ContentAnalyzer.extract_key_insights. fold high.
    rewrite H. reflexivity. }
  assert (Hsome : high <> [] ->
            insights
            = map ContentAnalyzer.theme_insight
                  (filter (fun item => (3 <=? snd item)%nat)
                          (ContentAnalyzer._identify_themes high))
              ++ map ContentAnalyzer.file_insight
                     (ContentAnalyzer.most_common 3 (Counter (map source high)))
              ++ map ContentAnalyzer.tool_insight (Counter (map tool_used high))).
  { intros H. unfold insights, ContentAnalyzer.extract_key_insights. fold high.
    destruct high; [congruence | reflexivity]. }
  assert (Hfiles : List.length (ContentAnalyzer.most_common 3 (Counter (map source high)))
                   = Nat.min 3 (PyList.count_distinct (map source high))).
  { unfold ContentAnalyzer.most_common.
    rewrite length_firstn, sorted_desc_length, Counter_length. reflexivity. }
  assert (Hlen : high <> [] -> (2 <= List.length insights)%nat).
  { intros H. rewrite (Hsome H), !length_app, !length_map, Hfiles, Counter_length.
    pose proof (count_distinct_pos (map source high)) as H1.
    pose proof (count_distinct_pos (map tool_used high)) as H2.
    assert (Hm : forall (f : SearchResult -> string), map f high <> []).
    { intros f. destruct high; [congruence | discriminate]. }
    specialize (H1 (Hm _)). specialize (H2 (Hm _)). lia. }
  split; [exact Hnil|]. split.
  - intros Hne.
    exists (filter (fun item => (3 <=? snd item)%nat) (ContentAnalyzer._identify_themes high)),
           (ContentAnalyzer.most_common 3 (Counter (map source high))),
           (Counter (map tool_used high)).
    split; [exact (Hsome Hne)|]. split.
    { intros theme count. rewrite filter_In, identify_themes_entry. cbn [snd].
      rewrite Nat.leb_le. split.
      - intros [(keywords & Hk & Hc & _) H3]. exists keywords. repeat split; assumption.
      - intros (keywords & Hk & Hc & H3). split; [|exact H3].
        exists keywords. repeat split; try assumption. lia. }
    split; [exact Hfiles|]. split.
    { intros file count Hin. unfold ContentAnalyzer.most_common in Hin.
      apply In_firstn in Hin.
      apply (Permutation_in _ (sorted_desc_perm _ _)) in Hin.
      apply Counter_entry. exact Hin. }
    split.
    { intros file count other Hin Hnot.
      destruct (count_occ string_dec (map source high) other) as [|n] eqn:Eo; [lia|].
      assert (Hentry : In (other, S n) (Counter (map source high))).
      { apply Counter_entry. split; [symmetry; exact Eo | lia]. }
      apply (Permutation_in _ (Permutation_sym
               (sorted_desc_perm (fun item : string * nat => INR (snd item)) _)))
        in Hentry.
      rewrite <- (firstn_skipn 3 (PyList.sorted_desc _ _)) in Hentry.
      apply in_app_or in Hentry. destruct Hentry as [Hf | Hs].
      - exfalso. apply Hnot. apply (in_map fst) in Hf. exact Hf.
      - pose proof (sorted_desc_sorted (fun item : string * nat => INR (snd item))
                      (Counter (map source high))) as Hsorted.
        rewrite <- (firstn_skipn 3 (PyList.sorted_desc _ _)) in Hsorted.
        pose proof (StronglySorted_app_order _ _ _ Hsorted (file, count) (other, S n)
                      Hin Hs) as Hle.
        unfold desc in Hle. cbn [snd] in Hle. apply INR_le in Hle. exact Hle. }
    split; [apply Counter_length|].
    split; [intros tool count; apply Counter_entry | exact (Hlen Hne)].
  - destruct high as [|r0 rs] eqn:E.
    + rewrite (Hnil eq_refl). discriminate.
    + intros H. assert (Hne : r0 :: rs <> []) by discriminate.
      specialize (Hlen Hne). rewrite H in Hlen. cbn in Hlen. lia.
Qed.

(** ** The follow-up questions of the content analyser *)

Lemma grep_terms_concepts (rest : string) :
  grep_terms ("Explore related concepts: " ++ rest) = ["Explore"; "related"; "concepts:"].
Proof. vm_compute. reflexivity. Qed.

Lemma grep_terms_deep_dive (rest : string) :
  grep_terms ("Deep dive into specific files: " ++ rest) = ["Deep"; "dive"; "into"].
Proof. vm_compute. reflexivity. Qed.

Lemma top_files_spec (results : list SearchResult) :
  let top_files := map fst (ContentAnalyzer.most_common 3 (Counter (map source results))) in
  List.length top_files = Nat.min 3 (PyList.count_distinct (map source results))
  /\ (forall file_path, In file_path top_files -> In file_path (map source results))
  /\ (results <> [] -> top_files <> []).
Proof.
  cbn zeta. unfold ContentAnalyzer.most_common.
  assert (Hlen : List.length (map fst (firstn 3 (PyList.sorted_desc
                    (fun item : string * nat => INR (snd item))
                    (Counter (map source results)))))
                 = Nat.min 3 (PyList.count_distinct (map source results))).
  { rewrite length_map, length_firstn, sorted_desc_length, Counter_length. reflexivity. }
  split; [exact Hlen|]. split.
  - intros file_path Hin. apply in_map_iff in Hin. destruct Hin as ([f n] & <- & Hin).
    apply In_firstn in Hin. apply (Permutation_in _ (sorted_desc_perm _ _)) in Hin.
    apply (In_get _ _ _ (Counter_NoDup _)) in Hin. exact (Counter_keys _ _ _ Hin).
  - intros Hne Hnil. rewrite Hnil in Hlen. cbn [List.length] in Hlen.
    assert (Hm : map source results <> []) by (destruct results; [congruence | discriminate]).
    pose proof (count_distinct_pos _ Hm). lia.
Qed.

(** X20. [suggest_follow_up_queries] returns at most four questions, so
    that its cut to five never drops one. Given any result, it always
    proposes to "Deep dive into specific files:", naming the three sources
    that most results come from (all sources when there are fewer), after
    the proposal to explore related concepts if there is one: so an analysis
    that has results always has a follow-up question, and iterates exactly
    when [current_iteration < max_iterations] and fewer than 20 results
    are relevant. The first question, which the next round searches for,
    gives grep the same three words whatever the results are. *)
Theorem X20_follow_up_queries (found : ContentAnalyzer.Extracted)
                              (results : list SearchResult) (original : string) :
  let suggestions := ContentAnalyzer.suggest found results original in
  let top_files := map fst (ContentAnalyzer.most_common 3 (Counter (map source results))) in
  (List.length suggestions <= 4)%nat
  /\ (results <> [] ->
      suggestions <> []
      /\ In ("Deep dive into specific files: " ++ PyStr.join ", " top_files)%string
            suggestions
      /\ List.length top_files = Nat.min 3 (PyList.count_distinct (map source results))
      /\ (forall file_path, In file_path top_files -> In file_path (map source results))
      /\ forall first others,
           suggestions = first :: others ->
           grep_terms first = ["Explore"; "related"; "concepts:"]
           \/ grep_terms first = ["Deep"; "dive"; "into"])
  /\ (results = [] ->
      forall question, In question suggestions ->
        (exists terms, question = ("Explore related concepts: " ++ terms)%string)
        \/ question = "Analyze function implementations and relationships"
        \/ question = "Explore class hierarchies and inheritance patterns")
  /\ (forall (env : Env) (extract : list SearchResult -> ContentAnalyzer.Extracted)
             (state : ResearchState),
        env.(suggest_follow_up_queries)
        = ContentAnalyzer.suggest_follow_up_queries extract ->
        state.(all_results) <> [] ->
        ((AnalysisNode env state).(status) = ITERATING
         <-> (state.(current_iteration) < state.(max_iterations))%Z
             /\ (List.length (relevant_results state) < 20)%nat)
        /\ ((AnalysisNode env state).(status) = ITERATING
            \/ (AnalysisNode env state).(status) = SYNTHESIZING)).
Proof.
  intros suggestions top_files. subst suggestions top_files.
  destruct (top_files_spec results) as (Hlen & Hsrc & Hne).
  unfold ContentAnalyzer.suggest. cbn zeta.
  set (top_files := map fst (ContentAnalyzer.most_common 3 (Counter (map source results))))
    in *.
  set (new_terms := map fst (filter _ (ContentAnalyzer.common_terms found))).
  assert (Hempty : results = [] -> top_files = []).
  { intros ->. reflexivity. }
  clearbody top_files new_terms.
  split; [|split; [|split]].
  - destruct new_terms, top_files, (ContentAnalyzer.functions found),
             (ContentAnalyzer.classes found); cbn; lia.
  - intros Hres. specialize (Hne Hres).
    destruct top_files as [|f fs]; [congruence|].
    split; [|split; [|split; [exact Hlen | split; [exact Hsrc|]]]].
    + destruct new_terms, (ContentAnalyzer.functions found),
               (ContentAnalyzer.classes found); cbn; discriminate.
    + destruct new_terms, (ContentAnalyzer.functions found),
               (ContentAnalyzer.classes found); cbn; auto.
    + intros first others Hs.
      destruct new_terms as [|t ts].
      * right.
        assert (Hfirst : first = ("Deep dive into specific files: "
                                  ++ PyStr.join ", " (f :: fs))%string).
        { destruct (ContentAnalyzer.functions found), (ContentAnalyzer.classes found);
            cbn [app firstn] in Hs; injection Hs as <- _; reflexivity. }
        rewrite Hfirst. apply grep_terms_deep_dive.
      * left.
        assert (Hfirst : first = ("Explore related concepts: "
                                  ++ PyStr.join ", " (firstn 5 (t :: ts)))%string).
        { destruct (ContentAnalyzer.functions found), (ContentAnalyzer.classes found);
            cbn [app firstn] in Hs; injection Hs as <- _; reflexivity. }
        rewrite Hfirst. apply grep_terms_concepts.
  - intros Hres question Hq. rewrite (Hempty Hres) in Hq.
    destruct new_terms, (ContentAnalyzer.functions found),
             (ContentAnalyzer.classes found); cbn [app firstn In] in Hq;
      repeat match goal with
             | H : _ \/ _ |- _ => destruct H as [<- | H]
             | H : False |- _ => destruct H
             end; eauto.
  - intros env extract state Henv Hall.
    destruct (AnalysisNode_nonempty env state Hall) as (Hs & _).
    assert (Hfu : env.(suggest_follow_up_queries) (relevant_results state)
                    state.(original_query) <> []).
    { rewrite Henv. unfold ContentAnalyzer.suggest_follow_up_queries.
      pose proof (relevant_results_nonempty state Hall) as Hrel.
      destruct (top_files_spec (relevant_results state)) as (_ & _ & Htop).
      specialize (Htop Hrel). unfold ContentAnalyzer.suggest. cbn zeta.
      destruct (map fst (ContentAnalyzer.most_common 3 _)) as [|f fs]; [congruence|].
      destruct (map fst (filter _ _)), (ContentAnalyzer.functions _),
               (ContentAnalyzer.classes _); cbn; discriminate. }
    rewrite Hs.
    destruct (state.(current_iteration) <? state.(max_iterations))%Z eqn:E1;
      [apply Z.ltb_lt in E1 | apply Z.ltb_ge in E1];
      (destruct (List.length (env.(suggest_follow_up_queries) (relevant_results state)
                                state.(original_query)) =? 0)%nat eqn:E2;
       [apply Nat.eqb_eq in E2;
        destruct (env.(suggest_follow_up_queries) (relevant_results state)
                    state.(original_query)); [congruence | discriminate]|]);
      (destruct (List.length (relevant_results state) <? 20)%nat eqn:E3;
       [apply Nat.ltb_lt in E3 | apply Nat.ltb_ge in E3]);
      cbn [andb negb]; (split; [split; [intros H; try discriminate; split; assumption
                                       |intros [? ?]; try reflexivity; lia]
                               |auto]).
Qed.

(** ** The results of the hybrid search *)

Lemma first_from_app (key : string) (l1 l2 : list SearchResult) :
  first_from key (l1 ++ l2)
  = match first_from key l1 with
    | Some r => Some r
    | None => first_from key l2
    end.
Proof.
  unfold first_from. induction l1 as [|r l1 IH]; [reflexivity|].
  cbn [app find]. destruct (r.(source) =? key); [reflexivity | exact IH].
Qed.

Lemma add_result_first (combined : Dict.t Hybrid.scores) (seen : list SearchResult)
                       (r : SearchResult) (dense sparse : Hybrid.scores -> R) :
  (forall key, option_map Hybrid.result (Dict.get combined key) = first_from key seen) ->
  forall key,
    option_map Hybrid.result
      (Dict.get (Dict.set combined r.(source)
                   (Hybrid.mkScores (Hybrid.entry_for combined r).(Hybrid.result)
                      (dense (Hybrid.entry_for combined r))
                      (sparse (Hybrid.entry_for combined r))))
                key)
    = first_from key (seen ++ [r]).
Proof.
  intros Hinv key. rewrite get_set, first_from_app, <- Hinv.
  unfold first_from. cbn [find]. rewrite (String.eqb_sym r.(source) key).
  destruct (key =? r.(source)) eqn:E.
  - apply String.eqb_eq in E. subst key. unfold Hybrid.entry_for.
    destruct (Dict.get combined r.(source)); reflexivity.
  - destruct (Dict.get combined key); reflexivity.
Qed.

Lemma combine_scores_first (ds ss : list SearchResult) (key : string) :
  option_map Hybrid.result (Dict.get (Hybrid.combine_scores ds ss) key)
  = first_from key (ds ++ ss).
Proof.
  unfold Hybrid.combine_scores. revert key.
  assert (Hdense : forall key,
            option_map Hybrid.result (Dict.get (fold_left Hybrid.add_dense ds []) key)
            = first_from key ds).
  { apply (fold_left_split_invariant
             (fun (seen : list SearchResult) (combined : Dict.t Hybrid.scores) =>
                forall key, option_map Hybrid.result (Dict.get combined key)
                            = first_from key seen)).
    - intros key. reflexivity.
    - intros pre r post combined _ Hinv. unfold Hybrid.add_dense. cbn zeta.
      exact (add_result_first combined pre r (fun _ => r.(relevance_score))
               Hybrid.sparse_score Hinv). }
  enough (H : forall seen,
            (fun (seen : list SearchResult) (combined : Dict.t Hybrid.scores) =>
               forall key, option_map Hybrid.result (Dict.get combined key)
                           = first_from key (ds ++ seen))
              seen (fold_left Hybrid.add_sparse seen (fold_left Hybrid.add_dense ds []))).
  { exact (H ss). }
  intros seen.
  apply (fold_left_split_invariant
           (fun (seen : list SearchResult) (combined : Dict.t Hybrid.scores) =>
              forall key, option_map Hybrid.result (Dict.get combined key)
                          = first_from key (ds ++ seen))).
  - intros key. rewrite app_nil_r. apply Hdense.
  - intros pre r post combined _ Hinv. unfold Hybrid.add_sparse. cbn zeta.
    intros key. rewrite app_assoc.
    exact (add_result_first combined (ds ++ pre) r Hybrid.dense_score
             (fun _ => r.(relevance_score)) Hinv key).
Qed.

(** X21. The hybrid search returns one result for each source of the dense
    or the sparse results, [top_k] at most. Each is tagged
    "hybrid_retrieval" and carries in its metadata its fused score and the
    dense and the sparse score that were fused (for each list the score of
    the last of its results with this source, 0 when it has none); its
    content and its query are those of the first result of the source, the
    dense results coming first: a source found by both searches shows the
    chunk that the dense search found first. *)
Theorem X21_hybrid_results (t : Hybrid.tool) (ds ss : list SearchResult) (top_k : nat) :
  let rs := Hybrid.rerank t ds ss top_k in
  List.length rs = Nat.min top_k (PyList.count_distinct (map source (ds ++ ss)))
  /\ forall r, In r rs ->
       r.(tool_used) = "hybrid_retrieval"
       /\ Dict.get r.(metadata) "hybrid_score" = Some (MFloat r.(relevance_score))
       /\ Dict.get r.(metadata) "dense_score" = Some (MFloat (score_in ds r.(source)))
       /\ Dict.get r.(metadata) "sparse_score" = Some (MFloat (score_in ss r.(source)))
       /\ exists first,
            first_from r.(source) (ds ++ ss) = Some first
            /\ r.(content) = first.(content)
            /\ r.(search_query) = first.(search_query)
            /\ (In r.(source) (map source ds) -> In first ds).
Proof.
  intros rs. unfold rs, Hybrid.rerank. cbn zeta.
  destruct (combine_scores_combines ds ss) as (Hnd & Hkeys & Hget).
  split.
  - rewrite length_firstn, sorted_desc_length, length_map. f_equal.
    unfold PyList.count_distinct.
    rewrite <- (length_map fst (Hybrid.combine_scores ds ss)).
    apply Permutation_length. apply NoDup_Permutation;
      [exact Hnd | apply NoDup_nodup|].
    intros key. rewrite nodup_In, map_app, in_app_iff. apply Hkeys.
  - intros r Hr. apply In_firstn in Hr.
    apply (Permutation_in _ (sorted_desc_perm _ _)) in Hr.
    apply in_map_iff in Hr. destruct Hr as ([key data] & <- & Hin).
    apply (In_get _ _ _ Hnd) in Hin.
    destruct (Hget key data Hin) as (Hsrc & Hd & Hs).
    pose proof (combine_scores_first ds ss key) as Hfirst. rewrite Hin in Hfirst.
    cbn [option_map] in Hfirst.
    unfold Hybrid.fuse. cbn [snd source tool_used metadata relevance_score content
                               search_query].
    rewrite Hsrc, <- Hd, <- Hs.
    split; [reflexivity|].
    split; [rewrite !get_set; reflexivity|].
    split; [rewrite !get_set; reflexivity|].
    split; [rewrite !get_set; reflexivity|].
    exists data.(Hybrid.result). split; [symmetry; exact Hfirst|].
    split; [reflexivity|]. split; [reflexivity|].
    intros Hdense. rewrite first_from_app in Hfirst.
    destruct (first_from key ds) as [d|] eqn:Ed.
    + injection Hfirst as ->. unfold first_from in Ed. apply find_some in Ed.
      exact (proj1 Ed).
    + exfalso. apply in_map_iff in Hdense. destruct Hdense as (d & Hk & Hd').
      unfold first_from in Ed. apply (find_none _ _ Ed) in Hd'.
      rewrite Hk, String.eqb_refl in Hd'. discriminate.
Qed.
